(** * niv_tools: a shallow embedding of the assistant tools

    The repository is a set of plugin tools for a host framework (Frappe).
    Every tool builds a Python dictionary out of a handful of calls into the
    host's document ORM.  This development embeds the tools as Rocq functions
    over an explicit model of the host and proves the properties stated in
    the specification.

    Layout: Python data and string helpers, the host model and the
    state-and-exception monad the tools run in, then one module per source
    file, and finally the theorems. *)

From Stdlib Require Import ZArith List String Ascii Bool Lia QArith DecimalString.
Import ListNotations.

Open Scope string_scope.
Open Scope list_scope.
Open Scope Z_scope.

Set Implicit Arguments.
Set Warnings "-register-all".

(* ================================================================== *)
(** ** Python strings *)
(* ================================================================== *)

(** Python [str] is modelled as [string]; the helpers below are the
    [str] methods the tools call. *)

Module PyStr.

(** [str.isspace] on the ASCII range: TAB, LF, VT, FF, CR, FS, GS, RS, US
    and SPACE. *)
Definition is_space (c : ascii) : bool :=
  let n := nat_of_ascii c in
  ((9 <=? n) && (n <=? 13) || (28 <=? n) && (n <=? 32))%nat.

Fixpoint lstrip (s : string) : string :=
  match s with
  | EmptyString => EmptyString
  | String c r => if is_space c then lstrip r else s
  end.

(** [rstrip] keeps a character when something non-blank follows it. *)
Fixpoint rstrip (s : string) : string :=
  match s with
  | EmptyString => EmptyString
  | String c r =>
      match rstrip r with
      | EmptyString => if is_space c then EmptyString else String c EmptyString
      | r' => String c r'
      end
  end.

(** [s.strip()] *)
Definition strip (s : string) : string := rstrip (lstrip s).

(** [s.startswith(p)] *)
Definition startswith (s p : string) : bool := String.prefix p s.

(** [needle in hay] *)
Fixpoint contains (needle hay : string) : bool :=
  String.prefix needle hay ||
  match hay with
  | EmptyString => false
  | String _ r => contains needle r
  end.

(** [s.lower()] on the ASCII letters. *)
Definition lower_ascii (c : ascii) : ascii :=
  let n := nat_of_ascii c in
  if ((65 <=? n) && (n <=? 90))%nat then ascii_of_nat (n + 32) else c.

Fixpoint lower (s : string) : string :=
  match s with
  | EmptyString => EmptyString
  | String c r => String (lower_ascii c) (lower r)
  end.

Definition newline : ascii := "010"%char.

(** ["\n"] *)
Definition nl : string := String newline EmptyString.

(** [s.split("\n")]: always at least one piece. *)
Fixpoint split_lines (s : string) : list string :=
  match s with
  | EmptyString => [EmptyString]
  | String c r =>
      if Ascii.eqb c newline then EmptyString :: split_lines r
      else match split_lines r with
           | [] => [String c EmptyString]
           | p :: ps => String c p :: ps
           end
  end.

(** [s[:n]] for a non-negative [n]. *)
Fixpoint take (n : nat) (s : string) : string :=
  match n, s with
  | O, _ => EmptyString
  | _, EmptyString => EmptyString
  | S n', String c r => String c (take n' r)
  end.

(** [s.split(c, 1)] for a one-character [c] that occurs in [s]: what
    stands before its first occurrence and what stands after. *)
Fixpoint split_once (c : ascii) (s : string) : string * string :=
  match s with
  | EmptyString => (EmptyString, EmptyString)
  | String x r =>
      if Ascii.eqb x c then (EmptyString, r)
      else let '(a, b) := split_once c r in (String x a, b)
  end.

(** [s.count(c)] for a one-character [c]. *)
Fixpoint count_char (c : ascii) (s : string) : Z :=
  match s with
  | EmptyString => 0
  | String x r => (if Ascii.eqb x c then 1 else 0) + count_char c r
  end.

(** The characters [str.splitlines] breaks a line at (ASCII range). *)
Definition is_linebreak (c : ascii) : bool :=
  let n := nat_of_ascii c in
  ((10 <=? n) && (n <=? 13) || (28 <=? n) && (n <=? 30))%nat.

(** [len(s.splitlines())]: [pending] tells whether the line being read has
    any character yet, [after_cr] whether the last character was a carriage
    return, which a line feed then only completes. *)
Fixpoint line_count_from (pending after_cr : bool) (s : string) : Z :=
  match s with
  | EmptyString => if pending then 1 else 0
  | String c r =>
      if after_cr && Ascii.eqb c newline then line_count_from false false r
      else if is_linebreak c
           then 1 + line_count_from false (Ascii.eqb c "013"%char) r
           else line_count_from true false r
  end.

Definition line_count (s : string) : Z := line_count_from false false s.

(** [s.replace(old, new)] for a non-empty [old]: occurrences are replaced
    from the left, without overlap; [skip] counts the characters of a
    replaced occurrence still to be passed over. *)
Fixpoint replace_from (old new : string) (skip : nat) (s : string) : string :=
  match s with
  | EmptyString => EmptyString
  | String c r =>
      match skip with
      | S k => replace_from old new k r
      | O =>
          if String.prefix old s
          then new ++ replace_from old new (String.length old - 1) r
          else String c (replace_from old new 0 r)
      end
  end.

Definition replace (old new s : string) : string := replace_from old new 0 s.

(** [s[-n:]] for a positive [n]. *)
Definition take_last (n : nat) (s : string) : string :=
  String.substring (String.length s - n) n s.

(** [sep.join(l)] *)
Definition join (sep : string) (l : list string) : string := String.concat sep l.

(** [str(n)] for an integer. *)
Definition of_Z (z : Z) : string := NilZero.string_of_int (Z.to_int z).

(** Truthiness of a string: [bool(s)]. *)
Definition nonempty (s : string) : bool :=
  match s with EmptyString => false | _ => true end.

(** [a or b] on strings. *)
Definition or_else (a b : string) : string := if nonempty a then a else b.

End PyStr.

(* ================================================================== *)
(** ** Python values and dictionaries *)
(* ================================================================== *)

(** The JSON-like values the tools receive and return.  A [dict] keeps
    insertion order, so it is an association list with unique keys, updated
    in place by [dict_set]. *)
Inductive value : Type :=
| VNone
| VBool (b : bool)
| VInt (z : Z)
| VFloat (q : Q)
| VStr (s : string)
| VList (l : list value)
| VDict (d : list (string * value)).

Definition dict := list (string * value).

Fixpoint dict_get (k : string) (d : dict) : option value :=
  match d with
  | [] => None
  | (k', v) :: r => if String.eqb k k' then Some v else dict_get k r
  end.

(** [d[k] = v] *)
Fixpoint dict_set (k : string) (v : value) (d : dict) : dict :=
  match d with
  | [] => [(k, v)]
  | (k', v') :: r =>
      if String.eqb k k' then (k, v) :: r else (k', v') :: dict_set k v r
  end.

(** [k in d] *)
Definition dict_has (k : string) (d : dict) : bool :=
  match dict_get k d with Some _ => true | None => false end.

(** [d.get(k, default)] *)
Definition dict_get_or (k : string) (default : value) (d : dict) : value :=
  match dict_get k d with Some v => v | None => default end.

(** [{**a, **b}]: the keys of [b] set over [a]. *)
Definition dict_merge (a b : dict) : dict :=
  fold_left (fun d kv => dict_set (fst kv) (snd kv) d) b a.

(** [bool(v)] *)
Definition truthy (v : value) : bool :=
  match v with
  | VNone => false
  | VBool b => b
  | VInt z => negb (z =? 0)
  | VFloat q => negb (Qeq_bool q 0)
  | VStr s => PyStr.nonempty s
  | VList l => match l with [] => false | _ => true end
  | VDict d => match d with [] => false | _ => true end
  end.

(** [str(v)] for the scalars that the tools format into messages: a
    float with an integral value prints as [n.0]; other floats and
    containers are never formatted by the modelled code. *)
Definition py_str (v : value) : string :=
  match v with
  | VNone => "None"
  | VBool true => "True"
  | VBool false => "False"
  | VInt z => PyStr.of_Z z
  | VStr s => s
  | VFloat q =>
      if Pos.eqb (Qden q) 1 then (PyStr.of_Z (Qnum q) ++ ".0")%string else "<float>"
  | VList _ => "<list>"
  | VDict _ => "<dict>"
  end.

(** A list or a dictionary cannot go into a set. *)
Definition hashable (v : value) : bool :=
  match v with
  | VList _ | VDict _ => false
  | _ => true
  end.

(** [v == 0] *)
Definition eq_zero (v : value) : bool :=
  match v with
  | VInt z => z =? 0
  | VBool b => negb b
  | VFloat q => Qeq_bool q 0
  | _ => false
  end.


(** [v == 1]: Python compares numbers by value, and [True == 1]. *)
Definition eq_one (v : value) : bool :=
  match v with
  | VInt z => z =? 1
  | VBool b => b
  | VFloat q => Qeq_bool q 1
  | _ => false
  end.

(** [a == b] on values of the same kind. *)
Fixpoint value_eqb (a b : value) : bool :=
  match a, b with
  | VNone, VNone => true
  | VBool x, VBool y => Bool.eqb x y
  | VInt x, VInt y => x =? y
  | VFloat x, VFloat y => Qeq_bool x y
  | VStr x, VStr y => String.eqb x y
  | VList l1, VList l2 =>
      (fix go (l1 l2 : list value) : bool :=
         match l1, l2 with
         | [], [] => true
         | x :: r1, y :: r2 => value_eqb x y && go r1 r2
         | _, _ => false
         end) l1 l2
  | VDict d1, VDict d2 =>
      (fix go (d1 d2 : list (string * value)) : bool :=
         match d1, d2 with
         | [], [] => true
         | (k1, x) :: r1, (k2, y) :: r2 =>
             String.eqb k1 k2 && value_eqb x y && go r1 r2
         | _, _ => false
         end) d1 d2
  | _, _ => false
  end.

(** [bool(n)] for an integer flag of the host (0 / 1 columns). *)
Definition flag (z : Z) : bool := negb (z =? 0).

(** [l[:n]] for a non-negative literal [n]. *)
Definition take {A} (n : nat) (l : list A) : list A := firstn n l.

(** Python's [l[:n]] for any integer [n]: a negative [n] counts from the
    end. *)
Definition slice_to {A} (n : Z) (l : list A) : list A :=
  if 0 <=? n then firstn (Z.to_nat n) l
  else firstn (List.length l - Z.to_nat (- n)) l.

(** A list of dictionaries as a value. *)
Definition dicts (l : list dict) : value := VList (map VDict l).

(** [s in l] for a list, tuple or set of strings. *)
Definition mem (s : string) (l : list string) : bool :=
  existsb (String.eqb s) l.

(** [not l] for a list. *)
Definition is_empty {A} (l : list A) : bool :=
  match l with [] => true | _ => false end.

(** [len(l)] *)
Definition len {A} (l : list A) : Z := Z.of_nat (List.length l).

(* ================================================================== *)
(** ** The host and the monad of tool code *)
(* ================================================================== *)

(** A Python exception, reduced to what the tools observe of it: [str(e)]. *)
Inductive exn : Type := Exn (msg : string).

Definition str_exn (e : exn) : string := let 'Exn m := e in m.

(** What [compile(source, filename, "exec")] comes to. *)
Inductive Compiled : Type :=
| CompiledOk
| SyntaxError (lineno : Z) (msg : string)
| CompileFailure (e : exn).

Inductive res (A : Type) : Type :=
| Ok (a : A)
| Raise (e : exn).
Arguments Ok {A} a.
Arguments Raise {A} e.

(** A document as the ORM hands it out: its DocType, its name and its
    attributes ([getattr] / [setattr] / [hasattr]). *)
Record Doc : Type := mkDoc {
  doc_doctype : string;
  doc_name : string;
  doc_attrs : dict
}.

(** Calls that change the site.  The world of a run is the list of the
    writes made so far, oldest first; what the host answers to a query may
    depend on it. *)
Inductive Event : Type :=
| EInsert (d : Doc)
| ESave (d : Doc)
| EDeleteDoc (doctype name : string)
| ECommit
| ERollback
| EClearCache (doctype : string).

Definition World := list Event.

(** Tool code: reads and extends the world, returns or raises. *)
Definition M (A : Type) : Type := World -> res A * World.

Definition ret {A} (a : A) : M A := fun w => (Ok a, w).

Definition raise {A} (e : exn) : M A := fun w => (Raise e, w).

Definition bind {A B} (m : M A) (k : A -> M B) : M B :=
  fun w => match m w with
           | (Ok a, w') => k a w'
           | (Raise e, w') => (Raise e, w')
           end.

(** [try: body except Exception as e: handler(e)] *)
Definition try_except {A} (body : M A) (handler : exn -> M A) : M A :=
  fun w => match body w with
           | (Ok a, w') => (Ok a, w')
           | (Raise e, w') => handler e w'
           end.

(** A query: answered from the current world, which it leaves alone. *)
Definition ask {A} (f : World -> res A) : M A := fun w => (f w, w).

Declare Scope py_scope.
Delimit Scope py_scope with py.
Notation "x <- m ;; k" := (bind m (fun x => k))
  (at level 61, m at next level, right associativity) : py_scope.
Notation "m ;;; k" := (bind m (fun _ => k))
  (at level 61, right associativity) : py_scope.
Notation "' pat <- m ;; k" := (bind m (fun x => match x with pat => k end))
  (at level 61, pat pattern, m at next level, right associativity) : py_scope.
Open Scope py_scope.

(** [for x in l: acc = step(acc, x)] with effects. *)
Fixpoint for_each {A S} (l : list A) (step : S -> A -> M S) (acc : S) : M S :=
  match l with
  | [] => ret acc
  | x :: r => acc' <- step acc x ;; for_each r step acc'
  end.

(** A computation that leaves the world as it found it. *)
Definition read_only_run {A} (m : M A) : Prop := forall w, snd (m w) = w.

(** A computation that always returns, whatever the world. *)
Definition returns {A} (m : M A) : Prop := forall w, exists a, fst (m w) = Ok a.

(** A computation whose every result satisfies [P]. *)
Definition always {A} (P : A -> Prop) (m : M A) : Prop :=
  forall w a, fst (m w) = Ok a -> P a.

(* ================================================================== *)
(** ** The host framework *)
(* ================================================================== *)

(** The part of [frappe] the tools call.  Nothing of it lives in this
    repository, so it is a record of answers: every function takes the
    current world and returns a value or raises. *)
Module Frappe.

(** A [DocField] of a [Meta].  The host stores missing text attributes as
    [None]; the tools only test them for truthiness or read them behind an
    [or], so [None] and the empty string are both the empty string here.
    Integer flags are the 0 / 1 columns of the host. *)
Record DocField : Type := mkDocField {
  fieldname : string;
  fieldtype : string;
  label : string;
  options : string;
  reqd : Z;
  fetch_from : string;
  read_only : Z;
  hidden : Z;
  fetch_if_empty : Z;
  description : string;
  unique : Z;
  default : value;
  in_list_view : Z;
  depends_on : string;
  mandatory_depends_on : string
}.

(** [frappe.get_meta(doctype)] *)
Record Meta : Type := mkMeta {
  module : string;
  is_submittable : Z;
  istable : Z;
  issingle : Z;
  is_tree : Z;
  autoname : string;
  naming_rule : string;
  allow_auto_repeat : Z;
  title_field : string;
  fields : list DocField;
  custom : Z;
  permissions : list dict;
  workflow : string
}.

(** [meta.get_field(fieldname)] *)
Definition get_field (meta : Meta) (name : string) : option DocField :=
  find (fun f => String.eqb (fieldname f) name) (fields meta).

(** One condition of a [filters] or [or_filters] argument:
    field, operator, operand. *)
Definition Filter : Type := string * string * value.

(** The keyword arguments of [frappe.get_all]. *)
Record Query : Type := mkGroupedQuery {
  q_filters : list Filter;
  q_or_filters : list Filter;
  q_fields : list string;
  q_order_by : string;
  q_limit : option Z;
  q_pluck : string;
  q_group_by : string
}.

(** A query without [group_by]. *)
Abbreviation mkQuery f o fl ob l p := (mkGroupedQuery f o fl ob l p "").

Record Host : Type := mkHost {
  (** [frappe.db.exists(doctype, name)], as a truth value *)
  db_exists : World -> string -> string -> res bool;
  (** [frappe.db.sql(query, params, as_dict=True)] *)
  db_sql : World -> string -> list string -> res (list dict);
  (** [frappe.db.get_value(doctype, filters, fields, as_dict=True)] *)
  db_get_value : World -> string -> list Filter -> list string -> res (option dict);
  (** [frappe.db.count(doctype)] *)
  db_count : World -> string -> res Z;
  (** [frappe.get_meta(doctype)] *)
  get_meta : World -> string -> res Meta;
  (** [frappe.get_all(doctype, ...)]; [frappe.db.get_all] is the same call *)
  get_all : World -> string -> Query -> res (list dict);
  (** [frappe.has_permission(doctype, ptype, throw=...)] *)
  has_permission : World -> string -> string -> bool -> res bool;
  (** [frappe.get_doc(doctype, name)] *)
  get_doc : World -> string -> string -> res Doc;
  (** [frappe.get_doc({...})]: a new, unsaved document *)
  new_doc : World -> dict -> res Doc;
  (** [doc.insert()]: the outcome, and the name the host gave the document *)
  insert : World -> Doc -> res string;
  (** [doc.save()] *)
  save : World -> Doc -> res unit;
  (** [frappe.delete_doc(doctype, name)] *)
  delete_doc : World -> string -> string -> res unit;
  (** [frappe.db.commit()], [frappe.db.rollback()] *)
  db_commit : World -> res unit;
  db_rollback : World -> res unit;
  (** [frappe.clear_cache(doctype=...)] *)
  clear_cache : World -> string -> res unit;
  (** [frappe.utils.now_datetime()] and [add_to_date(d, minutes=m)];
      a datetime is carried as its [str()] *)
  now_datetime : World -> res string;
  add_to_date : World -> string -> Z -> res string;
  (** [frappe.get_installed_apps()], [frappe.get_attr(path)] and
      [frappe.__version__] *)
  get_installed_apps : World -> res (list string);
  get_attr : World -> string -> res value;
  version : string
}.

(** The host answers every query the read-only tools put to it. *)
Definition reads_answer (h : Host) : Prop :=
  (forall w d n, exists b, db_exists h w d n = Ok b) /\
  (forall w q p, exists l, db_sql h w q p = Ok l) /\
  (forall w d, exists m, get_meta h w d = Ok m) /\
  (forall w d q, exists l, get_all h w d q = Ok l) /\
  (forall w d p t, exists b, has_permission h w d p t = Ok b).

(** Attribute access on a row ([frappe._dict]): a missing key reads as
    [None]. *)
Definition attr (row : dict) (k : string) : value := dict_get_or k VNone row.

(** A value used as a string ([v.strip()], [v.startswith(...)], ...): any
    other value has no such method and the call raises. *)
Definition as_str (v : value) : M string :=
  match v with
  | VStr s => ret s
  | _ => raise (Exn "AttributeError: object has no such attribute")
  end.

(** [a or b] on values. *)
Definition or_value (a b : value) : value := if truthy a then a else b.

(** [getattr(doc, key, default)] and [hasattr(doc, key)] *)
Definition getattr (doc : Doc) (key : string) (default : value) : value :=
  dict_get_or key default (doc_attrs doc).

Definition hasattr (doc : Doc) (key : string) : bool := dict_has key (doc_attrs doc).

(** [doc.key = v] *)
Definition setattr (doc : Doc) (key : string) (v : value) : Doc :=
  mkDoc (doc_doctype doc) (doc_name doc) (dict_set key v (doc_attrs doc)).

(** [d[k]]: a key that is absent raises [KeyError]. *)
Definition index (d : dict) (k : string) : M value :=
  match dict_get k d with
  | Some v => ret v
  | None => raise (Exn ("KeyError: '" ++ k ++ "'"))
  end.

(** The rows of a child table of a document ([for row in doc.states]):
    anything but a list of rows cannot be iterated as such. *)
Definition rows_of (v : value) : M (list dict) :=
  match v with
  | VList l =>
      for_each l
        (fun rows x =>
           match x with
           | VDict d => ret (rows ++ [d])
           | _ => raise (Exn "AttributeError: row has no such attribute")
           end) []
  | _ => raise (Exn "TypeError: object is not iterable")
  end.

(** [len(v)] *)
Definition len_value (v : value) : M Z :=
  match v with
  | VList l => ret (len l)
  | VDict d => ret (len d)
  | VStr s => ret (Z.of_nat (String.length s))
  | _ => raise (Exn "TypeError: object has no len()")
  end.

(** A write is logged in the world before its outcome is known. *)
Definition do_write {A} (ev : Event) (f : World -> res A) : M A :=
  fun w => (f w, w ++ [ev]).

End Frappe.
Import Frappe.

(* ================================================================== *)
(** ** hooks.py, install.py and the tool classes *)
(* ================================================================== *)

Module Hooks.

(** [hooks.py]: the registration list the host discovers tools from. *)
Definition assistant_tools : list string := [
  "niv_tools.tools.universal_search.UniversalSearch";
  "niv_tools.tools.field_explorer.FieldExplorer";
  "niv_tools.tools.test_created_item.TestCreatedItem";
  "niv_tools.tools.monitor_errors.MonitorErrors";
  "niv_tools.tools.rollback_changes.RollbackChanges";
  "niv_tools.tools.introspect_system.IntrospectSystem";
  "niv_tools.tools.map_relationships.MapRelationships"
].

End Hooks.

Module Install.

(** [install.py]: the classes [after_install] tries to import. *)
Definition TOOL_PATHS : list string := [
  "niv_tools.tools.universal_search.UniversalSearch";
  "niv_tools.tools.field_explorer.FieldExplorer";
  "niv_tools.tools.test_created_item.TestCreatedItem";
  "niv_tools.tools.monitor_errors.MonitorErrors";
  "niv_tools.tools.rollback_changes.RollbackChanges";
  "niv_tools.tools.introspect_system.IntrospectSystem";
  "niv_tools.tools.map_relationships.MapRelationships";
  "niv_tools.tools.build_blueprint.BuildBlueprint";
  "niv_tools.tools.verify_build.VerifyBuild"
].

End Install.

(** The [BaseTool] subclasses under [niv_tools/tools/], one per source
    file, by dotted path. *)
Definition tool_classes : list string := [
  "niv_tools.tools.monitor_errors.MonitorErrors";
  "niv_tools.tools.field_explorer.FieldExplorer";
  "niv_tools.tools.universal_search.UniversalSearch";
  "niv_tools.tools.build_blueprint.BuildBlueprint";
  "niv_tools.tools.rollback_changes.RollbackChanges";
  "niv_tools.tools.map_relationships.MapRelationships";
  "niv_tools.tools.introspect_system.IntrospectSystem";
  "niv_tools.tools.test_created_item.TestCreatedItem";
  "niv_tools.tools.verify_build.VerifyBuild"
].

(* ================================================================== *)
(** ** tools/test_created_item.py *)
(* ================================================================== *)

Module TestCreatedItem.

Record Arguments : Type := mkArguments {
  arg_doctype : option string;
  arg_name : option string;
  arg_test_type : option string
}.

Definition failure (msg : string) : dict :=
  [("success", VBool false); ("error", VStr msg)].

Definition scripts : list string := ["Client Script"; "Server Script"].

Section WithHost.
Variable h : Host.

(** [options = [o.strip() for o in (field.options or "").split("\n") if o.strip()]] *)
Definition select_options (field : DocField) : list string :=
  filter PyStr.nonempty (map PyStr.strip (PyStr.split_lines (options field))).

(** The [Link] branch: the name of the first record of the linked DocType,
    every failure swallowed. *)
Definition first_linked_record (field : DocField) : M value :=
  try_except
    (let linked := options field in
     if PyStr.nonempty linked then
       ex <- ask (fun w => db_exists h w "DocType" linked) ;;
       if (ex : bool) then
         first <- ask (fun w => get_all h w linked
                     (mkQuery [] [] [] "" (Some 1) "name")) ;;
         match first with
         | row :: _ => ret (attr row "name")
         | [] => ret VNone
         end
       else ret VNone
     else ret VNone)
    (fun _ => ret VNone).

(** [_get_dummy_value(self, field)] *)
Definition _get_dummy_value (field : DocField) : M value :=
  let ft := fieldtype field in
  if mem ft ["Data"; "Small Text"; "Text"; "Long Text"; "Text Editor"] then
    ret (VStr "__test__")
  else if String.eqb ft "Int" then ret (VInt 1)
  else if mem ft ["Float"; "Currency"; "Percent"] then ret (VFloat 1)
  else if String.eqb ft "Check" then ret (VInt 0)
  else if String.eqb ft "Date" then ret (VStr "2025-01-01")
  else if String.eqb ft "Datetime" then ret (VStr "2025-01-01 00:00:00")
  else if String.eqb ft "Time" then ret (VStr "00:00:00")
  else if String.eqb ft "Select" then
    match select_options field with
    | o :: _ => ret (VStr o)
    | [] => ret (VStr "")
    end
  else if String.eqb ft "Link" then first_linked_record field
  else ret VNone.

(** What [compile(script, filename, "exec")] comes to. *)
Variable compile : string -> Compiled.

(** [_test_exists(self, doctype, name)] *)
Definition _test_exists (doctype name : string) : M dict :=
  try_except
    (ex <- ask (fun w => db_exists h w doctype name) ;;
     if negb ex then ret (failure (doctype ++ " '" ++ name ++ "' does not exist"))
     else
       doc <- ask (fun w => get_doc h w doctype name) ;;
       let info :=
         [("name", VStr (doc_name doc));
          ("doctype", VStr (doc_doctype doc));
          ("modified", VStr (py_str (getattr doc "modified" VNone)));
          ("owner", getattr doc "owner" VNone)] in
       info <-
         (if String.eqb doctype "DocType" then
            fields_count <- (if hasattr doc "fields"
                             then len_value (getattr doc "fields" VNone) else ret 0) ;;
            ret (dict_set "module" (getattr doc "module" (VStr ""))
                   (dict_set "is_custom" (getattr doc "custom" (VInt 0))
                      (dict_set "fields_count" (VInt fields_count) info)))
          else if String.eqb doctype "Custom Field" then
            ret (dict_set "fieldname" (getattr doc "fieldname" (VStr ""))
                   (dict_set "dt" (getattr doc "dt" (VStr ""))
                      (dict_set "fieldtype" (getattr doc "fieldtype" (VStr "")) info)))
          else if mem doctype scripts then
            ret (dict_set "script_type" (getattr doc "script_type" (VStr ""))
                   (dict_set "enabled"
                      (or_value (getattr doc "enabled" (VInt 0))
                         (VBool (eq_zero (getattr doc "disabled" (VInt 0)))))
                      info))
          else ret info) ;;
       ret [("success", VBool true); ("exists", VBool true); ("info", VDict info)])
    (fun e => ret (failure (str_exn e))).

(** One round of the loop that fills the required fields. *)
Definition fill_step (st : Doc * list dict) (field : DocField) : M (Doc * list dict) :=
  let '(test_doc, filled_fields) := st in
  if negb (flag (reqd field)) then ret st
  else
    val <- _get_dummy_value field ;;
    if negb (value_eqb val VNone) then
      ret (setattr test_doc (fieldname field) val,
           filled_fields ++ [[("fieldname", VStr (fieldname field));
                              ("fieldtype", VStr (fieldtype field));
                              ("value", VStr (py_str val))]])
    else ret st.

(** [_test_validate(self, doctype, name)] *)
Definition _test_validate (doctype name : string) : M dict :=
  try_except
    (let target_doctype := if String.eqb doctype "DocType" then name else doctype in
     ex <- ask (fun w => db_exists h w "DocType" target_doctype) ;;
     if negb ex then ret (failure ("DocType '" ++ target_doctype ++ "' does not exist"))
     else
       permitted <- try_except
                      (ask (fun w => has_permission h w target_doctype "create" true) ;;;
                       ret true)
                      (fun _ => ret false) ;;
       if negb permitted then ret (failure ("No create permission for " ++ target_doctype))
       else
         meta <- ask (fun w => get_meta h w target_doctype) ;;
         test_doc <- ask (fun w => new_doc h w [("doctype", VStr target_doctype)]) ;;
         '(test_doc, filled_fields) <- for_each (fields meta) fill_step (test_doc, []) ;;
         try_except
           (let test_doc := setattr test_doc "flags.ignore_permissions" (VBool false) in
            let test_doc := setattr test_doc "flags.ignore_links" (VBool true) in
            let test_doc := setattr test_doc "flags.ignore_validate" (VBool false) in
            test_name <- do_write (EInsert test_doc) (fun w => insert h w test_doc) ;;
            do_write (EDeleteDoc target_doctype test_name)
              (fun w => delete_doc h w target_doctype test_name) ;;;
            do_write ECommit (fun w => db_commit h w) ;;;
            ret [("success", VBool true);
                 ("message", VStr "Test record created and deleted successfully");
                 ("filled_fields", dicts filled_fields)])
           (fun e =>
              do_write ERollback (fun w => db_rollback h w) ;;;
              ret [("success", VBool false);
                   ("error", VStr ("Validation failed: " ++ str_exn e));
                   ("filled_fields", dicts filled_fields)]))
    (fun e => ret (failure (str_exn e))).

(** The checks of [_test_render] on a client script. *)
Definition client_script_issues (script : string) : list dict :=
  let open_braces := PyStr.count_char "{" script - PyStr.count_char "}" script in
  let open_parens := PyStr.count_char "(" script - PyStr.count_char ")" script in
  (if negb (open_braces =? 0)
   then [[("type", VStr "BraceMismatch");
          ("message", VStr ("Unbalanced braces (diff: " ++ PyStr.of_Z open_braces ++ ")"))]]
   else []) ++
  (if negb (open_parens =? 0)
   then [[("type", VStr "ParenMismatch");
          ("message", VStr ("Unbalanced parentheses (diff: " ++ PyStr.of_Z open_parens ++ ")"))]]
   else []) ++
  (if PyStr.contains "frappe.call" script && negb (PyStr.contains "callback" script) &&
      negb (PyStr.contains ".then" script)
   then [[("type", VStr "Warning");
          ("message", VStr "frappe.call without callback or .then()")]]
   else []).

(** [_test_render(self, doctype, name)] *)
Definition _test_render (doctype name : string) : M dict :=
  try_except
    (if negb (mem doctype scripts) then
       ret (failure "render test only applies to Client Script or Server Script")
     else
       ex <- ask (fun w => db_exists h w doctype name) ;;
       if negb ex then ret (failure (doctype ++ " '" ++ name ++ "' does not exist"))
       else
         doc <- ask (fun w => get_doc h w doctype name) ;;
         script <- as_str (or_value (getattr doc "script" (VStr "")) (VStr "")) ;;
         if negb (PyStr.nonempty (PyStr.strip script)) then ret (failure "Script is empty")
         else
           issues <-
             (if String.eqb doctype "Server Script" then
                match compile script with
                | CompiledOk => ret []
                | SyntaxError lineno msg =>
                    ret [[("type", VStr "SyntaxError"); ("line", VInt lineno);
                          ("message", VStr msg)]]
                | CompileFailure e => raise e
                end
              else if String.eqb doctype "Client Script" then ret (client_script_issues script)
              else ret []) ;;
           if truthy (dicts issues) then
             ret [("success", VBool false); ("issues", dicts issues);
                  ("lines", VInt (PyStr.line_count script))]
           else
             ret [("success", VBool true); ("message", VStr "Syntax check passed");
                  ("lines", VInt (PyStr.line_count script))])
    (fun e => ret (failure (str_exn e))).

(** The warnings of [_test_execute]. *)
Definition script_warnings (script : string) : list string :=
  (if PyStr.contains "frappe.db.sql" script && PyStr.contains "drop " (PyStr.lower script)
   then ["Script contains potential DROP statement"] else []) ++
  (if PyStr.contains "os.system" script || PyStr.contains "subprocess" script
   then ["Script uses system commands"] else []) ++
  (if PyStr.contains "frappe.delete_doc" script
   then ["Script deletes documents"] else []).

(** [_test_execute(self, doctype, name)] *)
Definition _test_execute (doctype name : string) : M dict :=
  try_except
    (if negb (String.eqb doctype "Server Script") then
       ret (failure "execute test only applies to Server Script")
     else
       ex <- ask (fun w => db_exists h w "Server Script" name) ;;
       if negb ex then ret (failure ("Server Script '" ++ name ++ "' does not exist"))
       else
         doc <- ask (fun w => get_doc h w "Server Script" name) ;;
         script <- as_str (or_value (getattr doc "script" (VStr "")) (VStr "")) ;;
         if negb (PyStr.nonempty (PyStr.strip script)) then ret (failure "Script is empty")
         else
           match compile script with
           | SyntaxError lineno msg =>
               ret (failure ("SyntaxError at line " ++ PyStr.of_Z lineno ++ ": " ++ msg))
           | CompileFailure e => raise e
           | CompiledOk =>
               ret [("success", VBool true);
                    ("message", VStr "Dry run passed (syntax OK, no execution performed)");
                    ("script_type", getattr doc "script_type" (VStr ""));
                    ("reference_doctype", getattr doc "reference_doctype" (VStr ""));
                    ("enabled", VBool (eq_zero (getattr doc "disabled" (VInt 0))));
                    ("warnings", VList (map VStr (script_warnings script)))]
           end)
    (fun e => ret (failure (str_exn e))).

(** What stands inside the outer [try] of [execute]. *)
Definition execute_body (arguments : Arguments) : M dict :=
  let doctype := match arg_doctype arguments with Some s => s | None => "" end in
  let name := match arg_name arguments with Some s => s | None => "" end in
  let test_type := match arg_test_type arguments with Some s => s | None => "exists" end in
  if negb (PyStr.nonempty doctype) || negb (PyStr.nonempty name) then
    ret (failure "doctype and name are required")
  else
    permitted <- try_except
                   (ask (fun w => has_permission h w doctype "read" true) ;;; ret true)
                   (fun _ => ret false) ;;
    if negb permitted then ret (failure ("No read permission for " ++ doctype))
    else if String.eqb test_type "exists" then _test_exists doctype name
    else if String.eqb test_type "validate" then _test_validate doctype name
    else if String.eqb test_type "render" then _test_render doctype name
    else if String.eqb test_type "execute" then _test_execute doctype name
    else ret (failure ("Unknown test_type: " ++ test_type)).

(** [execute(self, arguments)] *)
Definition execute (arguments : Arguments) : M dict :=
  try_except (execute_body arguments) (fun e => ret (failure (str_exn e))).

End WithHost.

(** The dummy values as the specification words them: a static table
    keyed on the field-type string, [None] for a type it does not list. *)
Definition dummy_table : list (string * value) := [
  ("Data", VStr "__test__");
  ("Small Text", VStr "__test__");
  ("Text", VStr "__test__");
  ("Long Text", VStr "__test__");
  ("Text Editor", VStr "__test__");
  ("Int", VInt 1);
  ("Float", VFloat 1);
  ("Currency", VFloat 1);
  ("Percent", VFloat 1);
  ("Check", VInt 0);
  ("Date", VStr "2025-01-01");
  ("Datetime", VStr "2025-01-01 00:00:00");
  ("Time", VStr "00:00:00")
].

Definition dummy_lookup (ft : string) : value := dict_get_or ft VNone dummy_table.

End TestCreatedItem.

(* ================================================================== *)
(** ** tools/monitor_errors.py *)
(* ================================================================== *)

Module MonitorErrors.

(** [_suggest_fix(self, error_line)] *)
Definition _suggest_fix (error_line : string) : string :=
  let line_lower := PyStr.lower error_line in
  let has k := PyStr.contains k line_lower in
  if has "does not exist" then
    "A referenced document or DocType doesn't exist. Check if it was deleted or renamed."
  else if has "permission" || has "not permitted" then
    "Permission issue. Check Role Permissions for the relevant DocType."
  else if has "mandatory" || has "required" then
    "A required field is missing. Check the form or script that creates this document."
  else if has "duplicate" || has "unique" then
    "Duplicate entry. A record with this value already exists. Check naming series or unique fields."
  else if has "syntaxerror" then
    "Syntax error in a script. Check Client Scripts or Server Scripts for typos."
  else if has "importerror" || has "modulenotfounderror" then
    "Missing module/import. A required Python package may not be installed."
  else if has "typeerror" then
    "Type mismatch. A function received wrong argument types. Check API calls and field types."
  else if has "attributeerror" then
    "Accessing a non-existent attribute. Check if the field/method exists on the DocType."
  else if has "timeout" || has "timed out" then
    "Operation timed out. Could be a slow query, external API, or heavy computation."
  else if has "linkvalidation" then
    "Link validation failed. The linked document doesn't exist or is not permitted."
  else if has "valueerror" then
    "Invalid value. Check data formats (dates, numbers) and select field options."
  else
    "Review the full traceback in Error Log for details.".

(** The suggestions as the specification words them: a static table, each
    row the keywords that select it, read top to bottom. *)
Definition suggestion_table : list (list string * string) := [
  (["does not exist"],
   "A referenced document or DocType doesn't exist. Check if it was deleted or renamed.");
  (["permission"; "not permitted"],
   "Permission issue. Check Role Permissions for the relevant DocType.");
  (["mandatory"; "required"],
   "A required field is missing. Check the form or script that creates this document.");
  (["duplicate"; "unique"],
   "Duplicate entry. A record with this value already exists. Check naming series or unique fields.");
  (["syntaxerror"],
   "Syntax error in a script. Check Client Scripts or Server Scripts for typos.");
  (["importerror"; "modulenotfounderror"],
   "Missing module/import. A required Python package may not be installed.");
  (["typeerror"],
   "Type mismatch. A function received wrong argument types. Check API calls and field types.");
  (["attributeerror"],
   "Accessing a non-existent attribute. Check if the field/method exists on the DocType.");
  (["timeout"; "timed out"],
   "Operation timed out. Could be a slow query, external API, or heavy computation.");
  (["linkvalidation"],
   "Link validation failed. The linked document doesn't exist or is not permitted.");
  (["valueerror"],
   "Invalid value. Check data formats (dates, numbers) and select field options.")
].

Definition default_suggestion : string :=
  "Review the full traceback in Error Log for details.".

(** First row one of whose keywords occurs in the line. *)
Fixpoint table_lookup (t : list (list string * string)) (line : string) : string :=
  match t with
  | [] => default_suggestion
  | (keys, s) :: r =>
      if existsb (fun k => PyStr.contains k line) keys then s
      else table_lookup r line
  end.

Record Arguments : Type := mkArguments {
  arg_minutes : option Z;
  arg_doctype_filter : option string;
  arg_limit : option Z
}.

(** One entry of [groups]; [methods] is a set, kept in insertion order. *)
Record Group : Type := mkGroup {
  g_count : Z;
  g_methods : list value;
  g_first_seen : string;
  g_last_seen : string
}.

(** [groups[k]] updated by [f], inserted as [fresh] first when [k] is new. *)
Fixpoint group_update (k : string) (fresh : Group) (f : Group -> Group)
    (groups : list (string * Group)) : list (string * Group) :=
  match groups with
  | [] => [(k, f fresh)]
  | (k', g) :: r =>
      if String.eqb k k' then (k', f g) :: r
      else (k', g) :: group_update k fresh f r
  end.

(** [s.add(v)] *)
Definition set_add (v : value) (s : list value) : list value :=
  if existsb (value_eqb v) s then s else s ++ [v].

(** The last element of a list that is not empty. *)
Definition last_line (l : list string) : string := List.last l "".

(** One round of the loop over the errors. *)
Definition group_step (st : list (string * Group) * list dict) (err : dict)
  : M (list (string * Group) * list dict) :=
  let '(groups, error_summaries) := st in
  let error_text := or_value (dict_get_or "error" (VStr "") err) (VStr "") in
  stripped <- as_str error_text ;;
  let stripped := PyStr.strip stripped in
  let first_line :=
    if PyStr.nonempty stripped then last_line (PyStr.split_lines stripped) else "Unknown" in
  let first_line := PyStr.take 200 first_line in
  let creation := py_str (dict_get_or "creation" (VStr "") err) in
  let method := or_value (dict_get_or "method" (VStr "") err) (VStr "") in
  if truthy method && negb (hashable method) then
    raise (Exn "TypeError: unhashable type")
  else
    let groups :=
      group_update first_line (mkGroup 0 [] creation creation)
        (fun g =>
           mkGroup (g_count g + 1)
             (if truthy method then set_add method (g_methods g) else g_methods g)
             (g_first_seen g) (g_last_seen g))
        groups in
    ret (groups,
         error_summaries ++
         [[("name", dict_get_or "name" (VStr "") err);
           ("method", dict_get_or "method" (VStr "") err);
           ("error_line", VStr first_line);
           ("creation", VStr creation)]]).

(** An entry of [patterns], with the count it is sorted by. *)
Definition pattern_of (kg : string * Group) : Z * dict :=
  let '(error_line, info) := kg in
  let pattern :=
    [("error", VStr error_line);
     ("count", VInt (g_count info));
     ("methods", VList (take 5 (g_methods info)));
     ("suggestion", VStr (_suggest_fix error_line))] in
  (g_count info,
   if g_count info >=? 3 then
     dict_set "note"
       (VStr ("Repeating error (" ++ PyStr.of_Z (g_count info) ++
              " times) - likely a systematic issue"))
       (dict_set "severity" (VStr "high") pattern)
   else dict_set "severity" (VStr "low") pattern).

(** [patterns.sort(key=count, reverse=True)]: stable, largest first. *)
Fixpoint insert_sorted (p : Z * dict) (l : list (Z * dict)) : list (Z * dict) :=
  match l with
  | [] => [p]
  | q :: r => if fst q <=? fst p then p :: l else q :: insert_sorted p r
  end.

Definition sort_patterns (l : list (Z * dict)) : list (Z * dict) :=
  fold_right insert_sorted [] l.

Definition failure (msg : string) : dict :=
  [("success", VBool false); ("error", VStr msg)].

Section WithHost.
Variable h : Host.

(** What stands inside the outer [try] of [execute]. *)
Definition execute_body (arguments : Arguments) : M dict :=
  let minutes := match arg_minutes arguments with Some m => m | None => 30 end in
  let doctype_filter :=
    match arg_doctype_filter arguments with Some s => s | None => "" end in
  let limit := match arg_limit arguments with Some n => n | None => 20 end in
  permitted <- try_except
                 (ask (fun w => has_permission h w "Error Log" "read" true) ;;; ret true)
                 (fun _ => ret false) ;;
  if negb permitted then ret (failure "No read permission for Error Log")
  else
    now <- ask (fun w => now_datetime h w) ;;
    cutoff <- ask (fun w => add_to_date h w now (- minutes)) ;;
    let filters :=
      [("creation", ">=", VStr cutoff)] ++
      (if PyStr.nonempty doctype_filter
       then [("method", "like", VStr ("%" ++ doctype_filter ++ "%"))] else []) in
    errors <- ask (fun w => get_all h w "Error Log"
                (mkQuery filters [] ["name"; "method"; "error"; "creation"]
                   "creation desc" (Some limit) "")) ;;
    if is_empty errors then
      ret [("success", VBool true);
           ("message",
            VStr ("No errors found in the last " ++ PyStr.of_Z minutes ++ " minutes"));
           ("total", VInt 0);
           ("errors", VList []);
           ("patterns", VList [])]
    else
      '(groups, error_summaries) <- for_each errors group_step ([], []) ;;
      let patterns := map snd (sort_patterns (map pattern_of groups)) in
      ret [("success", VBool true);
           ("total", VInt (len errors));
           ("time_range_minutes", VInt minutes);
           ("errors", dicts (take 10 error_summaries));
           ("patterns", dicts (take 10 patterns))].

(** [execute(self, arguments)] *)
Definition execute (arguments : Arguments) : M dict :=
  try_except (execute_body arguments) (fun e => ret (failure (str_exn e))).

End WithHost.

End MonitorErrors.

(* ================================================================== *)
(** ** tools/map_relationships.py *)
(* ================================================================== *)

Module MapRelationships.

(** The [arguments] object; a key that is absent is [None]. *)
Record Arguments : Type := mkArguments {
  arg_doctype : option string;
  arg_depth : option Z;
  arg_include_standard : option bool
}.

(** What [_map_doctype] returns: the result dictionary, with the value of
    its key [linked_doctypes_detail] (itself a dictionary from DocType name
    to nested result) kept apart; the key is absent when that dictionary is
    empty. *)
Inductive MapResult : Type :=
| Node (result : dict) (linked_doctypes_detail : list (string * MapResult)).

Definition result_of (r : MapResult) : dict := let 'Node d _ := r in d.
Definition detail_of (r : MapResult) : list (string * MapResult) :=
  let 'Node _ l := r in l.

(** [deeper[target] = r] *)
Fixpoint detail_set (k : string) (r : MapResult) (d : list (string * MapResult))
  : list (string * MapResult) :=
  match d with
  | [] => [(k, r)]
  | (k', r') :: t =>
      if String.eqb k k' then (k, r) :: t else (k', r') :: detail_set k r t
  end.

(** The [visited] set.  It is one object shared by every call of the
    recursion, so each call takes it and hands it back; it is kept as the
    list of its elements in the order they were added. *)
Definition Visited := list string.

Definition standard_link_fields : list string :=
  ["owner"; "modified_by"; "company"; "amended_from"; "parent"; "parenttype"; "parentfield"].

Definition SQL_LINK_FIELDS : string :=
  "SELECT parent, fieldname, label, reqd FROM tabDocField WHERE fieldtype = 'Link' AND options = %s AND parent != %s ORDER BY parent LIMIT 50".

Definition SQL_CUSTOM_LINKS : string :=
  "SELECT dt as parent, fieldname, label, reqd FROM `tabCustom Field` WHERE fieldtype = 'Link' AND options = %s ORDER BY dt LIMIT 20".

Definition SQL_DOCTYPE_LIKE : string :=
  "SELECT name FROM tabDocType WHERE name LIKE %s LIMIT 5".

Definition circular_note (doctype : string) : MapResult :=
  Node [("doctype", VStr doctype);
        ("note", VStr "already mapped (circular reference)")] [].

(** [if c: d[k] = v] *)
Definition set_if (c : bool) (k : string) (v : value) (d : dict) : dict :=
  if c then dict_set k v d else d.

(** *** 1. Links to other DocTypes *)

(** What one field appends to [links_to]. *)
Definition link_entries (include_standard : bool) (f : DocField) : list dict :=
  if String.eqb (fieldtype f) "Link" && PyStr.nonempty (options f) then
    if negb include_standard && mem (fieldname f) standard_link_fields then []
    else
      [set_if (PyStr.nonempty (fetch_from f)) "fetch_from" (VStr (fetch_from f))
         [("fieldname", VStr (fieldname f));
          ("label", VStr (PyStr.or_else (label f) (fieldname f)));
          ("links_to", VStr (options f));
          ("mandatory", VBool (flag (reqd f)))]]
  else if String.eqb (fieldtype f) "Dynamic Link" && PyStr.nonempty (options f) then
    [[("fieldname", VStr (fieldname f));
      ("label", VStr (PyStr.or_else (label f) (fieldname f)));
      ("links_to", VStr ("DYNAMIC (via " ++ options f ++ ")"));
      ("mandatory", VBool (flag (reqd f)))]]
  else [].

Definition links_to_of (include_standard : bool) (meta : Meta) : list dict :=
  flat_map (link_entries include_standard) (fields meta).

(** [link.get("links_to", "")] *)
Definition target_of (link : dict) : string :=
  match dict_get "links_to" link with
  | Some (VStr s) => s
  | _ => ""
  end.

(** *** 5. Fetch-from fields and 6. document flow *)

Definition fetch_fields_of (meta : Meta) : list dict :=
  flat_map (fun f =>
    if PyStr.nonempty (fetch_from f) then
      [[("fieldname", VStr (fieldname f));
        ("fetch_from", VStr (fetch_from f));
        ("read_only", VBool (flag (read_only f)))]]
    else []) (fields meta).

Definition submittable_flow_of (meta : Meta) : value :=
  VDict [("can_amend",
          VBool (flag (allow_auto_repeat meta) ||
                 existsb (fun f => String.eqb (fieldname f) "amended_from") (fields meta)));
         ("statuses", VList [VStr "Draft"; VStr "Submitted"; VStr "Cancelled"])].

Definition is_break (ft : string) : bool :=
  mem ft ["Section Break"; "Column Break"; "Tab Break"].

Section WithHost.
Variable h : Host.

(** *** 2. Child tables: the child's meta is read outside any [try] *)

Definition child_table_step (child_tables : list dict) (f : DocField) : M (list dict) :=
  if String.eqb (fieldtype f) "Table" && PyStr.nonempty (options f) then
    child_meta <- ask (fun w => get_meta h w (options f)) ;;
    let child_links :=
      flat_map (fun cf =>
        if String.eqb (fieldtype cf) "Link" && PyStr.nonempty (options cf) then
          [VDict [("fieldname", VStr (fieldname cf)); ("links_to", VStr (options cf))]]
        else []) (fields child_meta) in
    let child_info :=
      [("fieldname", VStr (fieldname f));
       ("child_doctype", VStr (options f));
       ("field_count",
        VInt (len (filter (fun x => negb (is_break (fieldtype x))) (fields child_meta))))] in
    ret (child_tables ++
         [set_if (truthy (VList child_links)) "child_links" (VList child_links) child_info])
  else ret child_tables.

Definition child_tables_of (meta : Meta) : M (list dict) :=
  for_each (fields meta) child_table_step [].

(** *** 3. Links from other DocTypes *)

Definition link_from_entry (lf : dict) : dict :=
  [("from_doctype", attr lf "parent");
   ("fieldname", attr lf "fieldname");
   ("label", or_value (attr lf "label") (attr lf "fieldname"));
   ("mandatory", VBool (truthy (attr lf "reqd")))].

Definition custom_link_entry (cl : dict) : dict :=
  link_from_entry cl ++ [("custom", VBool true)].

(** The first loop of the section.  [lf.parent.startswith] raises on a row
    whose parent is not a string; the flag tells whether the loop ran to
    its end. *)
Fixpoint scan_link_fields (link_fields : list dict) (links_from : list dict)
  : list dict * bool :=
  match link_fields with
  | [] => (links_from, true)
  | lf :: rest =>
      match attr lf "parent" with
      | VStr parent =>
          if PyStr.startswith parent "__" then scan_link_fields rest links_from
          else scan_link_fields rest (links_from ++ [link_from_entry lf])
      | _ => (links_from, false)
      end
  end.

(** The whole [try] block: [links_from] keeps what was appended before an
    exception ended the block. *)
Definition links_from_of (doctype : string) : M (list dict) :=
  fun w =>
    match db_sql h w SQL_LINK_FIELDS [doctype; doctype] with
    | Raise _ => (Ok [], w)
    | Ok link_fields =>
        match scan_link_fields link_fields [] with
        | (links_from, false) => (Ok links_from, w)
        | (links_from, true) =>
            match db_sql h w SQL_CUSTOM_LINKS [doctype] with
            | Raise _ => (Ok links_from, w)
            | Ok custom_links =>
                (Ok (links_from ++ map custom_link_entry custom_links), w)
            end
        end
    end.

(** *** 4. Workflow *)

Definition transition_line (t : dict) : value :=
  VStr (py_str (attr t "state") ++ " --[" ++ py_str (attr t "action") ++ "]--> " ++
        py_str (attr t "next_state") ++ " (by " ++ py_str (attr t "allowed") ++ ")").

Definition workflow_of (doctype : string) : M (option value) :=
  try_except
    (workflow <- ask (fun w => db_get_value h w "Workflow"
                   [("document_type", "=", VStr doctype); ("is_active", "=", VInt 1)]
                   ["name"; "workflow_state_field"]) ;;
     match workflow with
     | Some wf =>
         if truthy (VDict wf) then
           states <- ask (fun w => get_all h w "Workflow Document State"
                       (mkQuery [("parent", "=", attr wf "name")] []
                          ["state"; "doc_status"; "allow_edit"] "idx" None "")) ;;
           transitions <- ask (fun w => get_all h w "Workflow Transition"
                            (mkQuery [("parent", "=", attr wf "name")] []
                               ["state"; "action"; "next_state"; "allowed"] "idx" None "")) ;;
           ret (Some (VDict
                  [("name", attr wf "name");
                   ("state_field", attr wf "workflow_state_field");
                   ("states", VList (map (fun s => attr s "state") states));
                   ("transitions", VList (map transition_line transitions))]))
         else ret None
     | None => ret None
     end)
    (fun _ => ret None).

(** *** 7. - 9. Notifications, server scripts, print formats *)

Definition notifications_query (doctype : string) : Query :=
  mkQuery [("document_type", "=", VStr doctype); ("enabled", "=", VInt 1)] []
    ["name"; "event"; "channel"] "" (Some 5) "".

Definition server_scripts_query (doctype : string) : Query :=
  mkQuery [("reference_doctype", "=", VStr doctype); ("disabled", "=", VInt 0)] []
    ["name"; "event_frequency"] "" (Some 10) "".

Definition print_formats_query (doctype : string) : Query :=
  mkQuery [("doc_type", "=", VStr doctype); ("disabled", "=", VInt 0)] []
    ["name"; "standard"] "" (Some 5) "".

(** [try: rows = frappe.get_all(...) ... except Exception: pass]: an
    exception leaves nothing to record, like an empty answer. *)
Definition rows_or_nothing (dt : string) (q : Query) : M (list dict) :=
  try_except (ask (fun w => get_all h w dt q)) (fun _ => ret []).

(** *** 10. Record count *)

Definition record_count_of (doctype : string) (meta : Meta) : M (option Z) :=
  try_except
    (if negb (flag (issingle meta)) && negb (flag (istable meta)) then
       count <- ask (fun w => db_count h w doctype) ;;
       ret (Some count)
     else ret None)
    (fun _ => ret None).

End WithHost.

(** What the host lookups of one DocType brought back. *)
Record Lookups : Type := mkLookups {
  l_child_tables : list dict;
  l_links_from : list dict;
  l_workflow : option value;
  l_notifications : list dict;
  l_server_scripts : list dict;
  l_print_formats : list dict;
  l_record_count : option Z
}.

(** The result dictionary as it stands when the deeper mapping starts, its
    keys in the order the code sets them. *)
Definition result_before_deeper (doctype : string) (include_standard : bool)
    (meta : Meta) (l : Lookups) : dict :=
  let links_to := links_to_of include_standard meta in
  let result :=
    [("doctype", VStr doctype);
     ("module", VStr (module meta));
     ("is_submittable", VBool (flag (is_submittable meta)));
     ("is_child", VBool (flag (istable meta)));
     ("is_single", VBool (flag (issingle meta)));
     ("is_tree", VBool (flag (is_tree meta)))] in
  let result := set_if (PyStr.nonempty (autoname meta)) "naming" (VStr (autoname meta)) result in
  let result := set_if (PyStr.nonempty (naming_rule meta)) "naming_rule" (VStr (naming_rule meta)) result in
  let result := set_if (truthy (dicts links_to)) "links_to" (dicts links_to) result in
  let result := set_if (truthy (dicts (l_child_tables l))) "child_tables" (dicts (l_child_tables l)) result in
  let result := set_if (truthy (dicts (l_links_from l))) "links_from" (dicts (l_links_from l)) result in
  let result := set_if (truthy (dicts (l_links_from l))) "links_from_count" (VInt (len (l_links_from l))) result in
  let result :=
    match l_workflow l with
    | Some wf => dict_set "workflow" wf result
    | None => result
    end in
  let result := set_if (truthy (dicts (fetch_fields_of meta))) "auto_fetch_fields" (dicts (fetch_fields_of meta)) result in
  let result := set_if (flag (is_submittable meta)) "submittable_flow" (submittable_flow_of meta) result in
  let result := set_if (truthy (dicts (l_notifications l))) "notifications" (dicts (l_notifications l)) result in
  let result := set_if (truthy (dicts (l_server_scripts l))) "server_scripts" (dicts (l_server_scripts l)) result in
  let result := set_if (truthy (dicts (l_print_formats l))) "print_formats" (dicts (l_print_formats l)) result in
  match l_record_count l with
  | Some count => dict_set "record_count" (VInt count) result
  | None => result
  end.

(** The [summary] string. *)
Definition summary_of (doctype : string) (links_to : list dict) (l : Lookups)
    (result : dict) : string :=
  let summary_parts :=
    (if truthy (dicts links_to)
     then [("links to " ++ PyStr.of_Z (len links_to) ++ " DocTypes")%string] else []) ++
    (if truthy (dicts (l_links_from l))
     then [(PyStr.of_Z (len (l_links_from l)) ++ " DocTypes link to it")%string] else []) ++
    (if truthy (dicts (l_child_tables l))
     then [(PyStr.of_Z (len (l_child_tables l)) ++ " child tables")%string] else []) ++
    (if truthy (dict_get_or "workflow" VNone result)
     then ["has active workflow"] else []) in
  (doctype ++ ": " ++
   (if truthy (VList (map VStr summary_parts)) then PyStr.join ", " summary_parts
    else "standalone DocType"))%string.

Section WithHost.
Variable h : Host.

(** The lookups of sections 2, 3, 4 and 7 to 10, in source order. *)
Definition lookups_of (doctype : string) (meta : Meta) : M Lookups :=
  child_tables <- child_tables_of h meta ;;
  links_from <- links_from_of h doctype ;;
  workflow <- workflow_of h doctype ;;
  notifs <- rows_or_nothing h "Notification" (notifications_query doctype) ;;
  scripts <- rows_or_nothing h "Server Script" (server_scripts_query doctype) ;;
  print_formats <- rows_or_nothing h "Print Format" (print_formats_query doctype) ;;
  count <- record_count_of h doctype meta ;;
  ret (mkLookups child_tables links_from workflow notifs scripts print_formats count).

(** One round of [for link in links_to[:5]]; [rec] is [self._map_doctype]. *)
Definition deeper_step
    (rec : string -> Z -> bool -> Visited -> M (MapResult * Visited))
    (depth : Z) (include_standard : bool)
    (st : list (string * MapResult) * Visited) (link : dict)
  : M (list (string * MapResult) * Visited) :=
  let '(deeper, visited) := st in
  let target := target_of link in
  if PyStr.nonempty target && negb (PyStr.startswith target "DYNAMIC") &&
     negb (mem target visited) then
    '(r, visited') <- rec target (depth - 1) include_standard visited ;;
    ret (detail_set target r deeper, visited')
  else ret (deeper, visited).

(** The body of [_map_doctype], the recursive call a parameter. *)
Definition map_body
    (rec : string -> Z -> bool -> Visited -> M (MapResult * Visited))
    (doctype : string) (depth : Z) (include_standard : bool) (visited : Visited)
  : M (MapResult * Visited) :=
  if mem doctype visited then ret (circular_note doctype, visited)
  else
    let visited := visited ++ [doctype] in
    meta <- ask (fun w => get_meta h w doctype) ;;
    l <- lookups_of doctype meta ;;
    let links_to := links_to_of include_standard meta in
    let result := result_before_deeper doctype include_standard meta l in
    '(deeper, visited) <-
       (if (depth >? 1) && truthy (dicts links_to) then
          for_each (take 5 links_to) (deeper_step rec depth include_standard) ([], visited)
        else ret ([], visited)) ;;
    let summary := summary_of doctype links_to l result in
    ret (Node (dict_set "summary" (VStr summary) result) deeper, visited).

(** [_map_doctype]: every recursive call is made with [depth - 1] and only
    when [depth > 1], so [depth - 1] rounds of unfolding are enough; the
    innermost stub is never called (see [map_doctype_unfold]). *)
Fixpoint map_rounds (n : nat)
  : string -> Z -> bool -> Visited -> M (MapResult * Visited) :=
  map_body
    match n with
    | O => fun _ _ _ _ => raise (Exn "RecursionError")
    | S n' => map_rounds n'
    end.

Definition _map_doctype (doctype : string) (depth : Z) (include_standard : bool)
    (visited : Visited) : M (MapResult * Visited) :=
  map_rounds (Z.to_nat (depth - 1)) doctype depth include_standard visited.

Definition error_result (msg : string) : MapResult := Node [("error", VStr msg)] [].

(** [execute(self, arguments)] *)
Definition execute (arguments : Arguments) : M MapResult :=
  let doctype := PyStr.strip (match arg_doctype arguments with Some s => s | None => "" end) in
  let depth := Z.min (match arg_depth arguments with Some d => d | None => 1 end) 3 in
  let include_standard :=
    match arg_include_standard arguments with Some b => b | None => false end in
  if negb (PyStr.nonempty doctype) then ret (error_result "doctype is required")
  else
    ex <- ask (fun w => db_exists h w "DocType" doctype) ;;
    if negb ex then
      found <- ask (fun w => db_sql h w SQL_DOCTYPE_LIKE [("%" ++ doctype ++ "%")%string]) ;;
      if truthy (dicts found) then
        let suggestions := map (fun r => py_str (dict_get_or "name" VNone r)) found in
        ret (error_result ("DocType '" ++ doctype ++ "' not found. Did you mean: " ++
                           PyStr.join ", " suggestions))
      else ret (error_result ("DocType '" ++ doctype ++ "' not found"))
    else
      '(result, _) <- _map_doctype doctype depth include_standard [] ;;
      ret result.

End WithHost.

(** *** Reading a result *)

(** The DocType a node stands for in the order of expansion: a node that
    only carries the circular-reference note, or no [doctype] at all, stands
    for none. *)
Definition node_label (d : dict) : list string :=
  if dict_has "note" d then []
  else match dict_get "doctype" d with
       | Some v => [py_str v]
       | None => []
       end.

(** The fully mapped DocTypes of a result in pre-order: a node, then the
    entries of its [linked_doctypes_detail] one after the other, each with
    everything nested in it. *)
Fixpoint expanded (r : MapResult) : list string :=
  match r with
  | Node d detail => node_label d ++ flat_map (fun kr => expanded (snd kr)) detail
  end.

(** The same list, every DocType with its nesting depth, the outermost
    node at depth [k]. *)
Fixpoint levels (k : nat) (r : MapResult) : list (nat * string) :=
  match r with
  | Node d detail =>
      map (pair k) (node_label d) ++ flat_map (fun kr => levels (S k) (snd kr)) detail
  end.

(** Number of nesting levels, the outermost node counted. *)
Fixpoint height (r : MapResult) : nat :=
  match r with
  | Node _ detail => S (list_max (map (fun kr => height (snd kr)) detail))
  end.

(** A test that holds at every node. *)
Fixpoint all_nodes (p : dict -> list (string * MapResult) -> bool) (r : MapResult) : bool :=
  match r with
  | Node d detail => p d detail && forallb (fun kr => all_nodes p (snd kr)) detail
  end.

(** The type of [self._map_doctype] as [map_body] takes it. *)
Definition Rec : Type := string -> Z -> bool -> Visited -> M (MapResult * Visited).

Definition at_most_five (_ : dict) (detail : list (string * MapResult)) : bool :=
  (List.length detail <=? 5)%nat.

Definition without_note (d : dict) (_ : list (string * MapResult)) : bool :=
  negb (dict_has "note" d).

(** What a finished call [_map_doctype(doctype, depth, _, visited)] that
    returned [r] and left the set as [visited'] is expected to satisfy. *)
Record call_ok (doctype : string) (depth : Z) (visited : Visited)
    (r : MapResult) (visited' : Visited) : Prop := mk_call_ok {
  ok_note : mem doctype visited = true -> r = circular_note doctype /\ visited' = visited;
  ok_visited : mem doctype visited = false -> visited' = visited ++ expanded r;
  ok_first : mem doctype visited = false ->
             exists rest, expanded r = doctype :: rest;
  ok_label : mem doctype visited = false -> node_label (result_of r) = [doctype];
  ok_height : Z.of_nat (height r) <= Z.max 1 depth;
  ok_fanout : all_nodes at_most_five r = true;
  ok_nodup : NoDup visited -> NoDup visited';
  ok_full : mem doctype visited = false -> all_nodes without_note r = true
}.

(** What holds between two rounds of the loop over [links_to[:5]]:
    [visited0] is the set as the loop found it. *)
Definition loop_inv (depth : Z) (visited0 : Visited)
    (deeper : list (string * MapResult)) (visited : Visited) : Prop :=
  visited = visited0 ++ flat_map (fun kr => expanded (snd kr)) deeper /\
  (forall k, In k (map fst deeper) -> In k visited) /\
  (NoDup visited0 -> NoDup visited) /\
  Forall (fun kr =>
            Z.of_nat (height (snd kr)) <= Z.max 1 (depth - 1) /\
            all_nodes at_most_five (snd kr) = true /\
            all_nodes without_note (snd kr) = true) deeper.

Definition rec_ok (rec : Rec) (depth : Z) (include_standard : bool) : Prop :=
  forall t v w r v' w',
    rec t depth include_standard v w = (Ok (r, v'), w') -> call_ok t depth v r v'.

Definition rec_read_only (rec : Rec) (depth : Z) (include_standard : bool) : Prop :=
  forall t v, read_only_run (rec t depth include_standard v).

(** [arguments.get("depth", 1)] *)
Definition depth_argument (arguments : Arguments) : Z :=
  match arg_depth arguments with Some d => d | None => 1 end.

(** The host answers every [get_meta]. *)
Definition meta_readable (h : Host) : Prop :=
  forall w doctype, exists meta, get_meta h w doctype = Ok meta.

(** *** The auxiliary lookups *)

(** The sections of [_map_doctype] that sit in a [try] of their own. *)
Inductive Lookup : Type :=
| ReverseLinks
| Workflow
| Notifications
| ServerScripts
| PrintFormats
| RecordCount.

(** The keys a section writes into the result. *)
Definition lookup_keys (k : Lookup) : list string :=
  match k with
  | ReverseLinks => ["links_from"; "links_from_count"]
  | Workflow => ["workflow"]
  | Notifications => ["notifications"]
  | ServerScripts => ["server_scripts"]
  | PrintFormats => ["print_formats"]
  | RecordCount => ["record_count"]
  end.

(** A query put to the host, by function and arguments. *)
Inductive Call : Type :=
| CallSql (query : string) (params : list string)
| CallGetValue (doctype : string) (filters : list Filter) (fieldnames : list string)
| CallGetAll (doctype : string) (q : Query)
| CallCount (doctype : string).

(** The host call a section opens with. *)
Definition first_call (k : Lookup) (doctype : string) : Call :=
  match k with
  | ReverseLinks => CallSql SQL_LINK_FIELDS [doctype; doctype]
  | Workflow =>
      CallGetValue "Workflow"
        [("document_type", "=", VStr doctype); ("is_active", "=", VInt 1)]
        ["name"; "workflow_state_field"]
  | Notifications => CallGetAll "Notification" (notifications_query doctype)
  | ServerScripts => CallGetAll "Server Script" (server_scripts_query doctype)
  | PrintFormats => CallGetAll "Print Format" (print_formats_query doctype)
  | RecordCount => CallCount doctype
  end.

(** [h'] raises on the call [c]. *)
Definition raises_on (c : Call) (h' : Host) : Prop :=
  forall w,
    match c with
    | CallSql q p => exists e, db_sql h' w q p = Raise e
    | CallGetValue d f fs => exists e, db_get_value h' w d f fs = Raise e
    | CallGetAll d q => exists e, get_all h' w d q = Raise e
    | CallCount d => exists e, db_count h' w d = Raise e
    end.

(** [h'] answers every query the walker can put as [h] does, the call [c]
    left aside. *)
Definition same_but (c : Call) (h h' : Host) : Prop :=
  (forall w q p, CallSql q p <> c -> db_sql h' w q p = db_sql h w q p) /\
  (forall w d f fs, CallGetValue d f fs <> c ->
                    db_get_value h' w d f fs = db_get_value h w d f fs) /\
  (forall w d q, CallGetAll d q <> c -> get_all h' w d q = get_all h w d q) /\
  (forall w d, CallCount d <> c -> db_count h' w d = db_count h w d) /\
  (forall w d, get_meta h' w d = get_meta h w d).

(** The lookups as they are when section [k] found nothing. *)
Definition cleared (k : Lookup) (l : Lookups) : Lookups :=
  match k with
  | ReverseLinks =>
      mkLookups (l_child_tables l) [] (l_workflow l) (l_notifications l)
        (l_server_scripts l) (l_print_formats l) (l_record_count l)
  | Workflow =>
      mkLookups (l_child_tables l) (l_links_from l) None (l_notifications l)
        (l_server_scripts l) (l_print_formats l) (l_record_count l)
  | Notifications =>
      mkLookups (l_child_tables l) (l_links_from l) (l_workflow l) []
        (l_server_scripts l) (l_print_formats l) (l_record_count l)
  | ServerScripts =>
      mkLookups (l_child_tables l) (l_links_from l) (l_workflow l) (l_notifications l)
        [] (l_print_formats l) (l_record_count l)
  | PrintFormats =>
      mkLookups (l_child_tables l) (l_links_from l) (l_workflow l) (l_notifications l)
        (l_server_scripts l) [] (l_record_count l)
  | RecordCount =>
      mkLookups (l_child_tables l) (l_links_from l) (l_workflow l) (l_notifications l)
        (l_server_scripts l) (l_print_formats l) None
  end.

(** The result of a full mapping, put together from its parts. *)
Definition assemble (doctype : string) (include_standard : bool) (meta : Meta)
    (l : Lookups) (deeper : list (string * MapResult)) : MapResult :=
  let links_to := links_to_of include_standard meta in
  let result := result_before_deeper doctype include_standard meta l in
  Node (dict_set "summary" (VStr (summary_of doctype links_to l result)) result) deeper.

(** *** Breadth-first order, as the specification words it *)

(** The links the walker can follow out of a DocType: the targets of the
    first five entries of its [links_to], dynamic links left out. *)
Definition link_targets (h : Host) (w : World) (include_standard : bool)
    (doctype : string) : list string :=
  match get_meta h w doctype with
  | Ok meta =>
      filter (fun t => PyStr.nonempty t && negb (PyStr.startswith t "DYNAMIC"))
        (map target_of (take 5 (links_to_of include_standard meta)))
  | Raise _ => []
  end.

(** Keep the first occurrence of every element that is not in [seen]. *)
Fixpoint fresh_of (l seen : list string) : list string :=
  match l with
  | [] => []
  | x :: r => if mem x seen then fresh_of r seen else x :: fresh_of r (seen ++ [x])
  end.

(** The DocTypes at distance 0, 1, ..., [n - 1] from the frontier. *)
Fixpoint reach (targets : string -> list string) (n : nat)
    (frontier seen : list string) : list (list string) :=
  match n with
  | O => []
  | S n' =>
      let next := fresh_of (flat_map targets frontier) seen in
      frontier :: reach targets n' next (seen ++ next)
  end.

Fixpoint index_of (x : string) (ls : list (list string)) : option nat :=
  match ls with
  | [] => None
  | l :: r => if mem x l then Some O else option_map S (index_of x r)
  end.

(** Distance of [x] from [root] in the link graph, over at most [n] levels. *)
Definition distance (h : Host) (w : World) (include_standard : bool)
    (root : string) (n : nat) (x : string) : option nat :=
  index_of x (reach (link_targets h w include_standard) n [root] [root]).

(** Breadth-first: whatever is nearer to the root comes earlier in the
    order. *)
Definition breadth_first (dist : string -> option nat) (order : list string) : Prop :=
  forall i j x y dx dy,
    nth_error order i = Some x -> nth_error order j = Some y ->
    dist x = Some dx -> dist y = Some dy ->
    (dx < dy)%nat -> (i < j)%nat.

End MapRelationships.

(* ================================================================== *)
(** ** tools/universal_search.py *)
(* ================================================================== *)

Module UniversalSearch.

Definition PRIORITY_DOCTYPES : list string := [
  "Sales Order"; "Sales Invoice"; "Purchase Order"; "Purchase Invoice";
  "Quotation"; "Customer"; "Supplier"; "Item"; "Employee"; "Lead";
  "Opportunity"; "Delivery Note"; "Purchase Receipt"; "Journal Entry";
  "Payment Entry"; "Stock Entry"; "Material Request"; "Project"; "Task";
  "Contact"; "Address"; "User"; "Company"
].

Record Arguments : Type := mkArguments {
  arg_query : option string;
  arg_doctype : option string;
  arg_limit : option Z
}.

(** [s.replace(c, "")] for a one-character [c]. *)
Fixpoint remove_char (c : ascii) (s : string) : string :=
  match s with
  | EmptyString => EmptyString
  | String x r => if Ascii.eqb x c then remove_char c r else String x (remove_char c r)
  end.

(** [l.insert(i, x)] *)
Fixpoint insert_at {A} (i : nat) (x : A) (l : list A) : list A :=
  match i, l with
  | O, _ => x :: l
  | S i', [] => [x]
  | S i', y :: r => y :: insert_at i' x r
  end.

(** [_get_searchable_fields(meta, include_numeric)] *)
Definition _get_searchable_fields (meta : Meta) (include_numeric : bool)
  : list string * list string :=
  let text_types := ["Data"; "Text"; "Small Text"; "Text Editor"; "Long Text"; "Select"; "Link"] in
  let numeric_types := ["Currency"; "Float"; "Int"; "Percent"] in
  let visible := filter (fun f => negb (flag (hidden f))) (fields meta) in
  let text_fields :=
    map fieldname (filter (fun f => mem (fieldtype f) text_types) visible) in
  let numeric_fields :=
    map fieldname
      (filter (fun f => include_numeric && mem (fieldtype f) numeric_types) visible) in
  let text_fields :=
    if negb (mem "name" text_fields) then insert_at 0 "name" text_fields else text_fields in
  let text_fields :=
    if PyStr.nonempty (title_field meta) && negb (mem (title_field meta) text_fields)
    then insert_at 1 (title_field meta) text_fields else text_fields in
  (take 8 text_fields, take 5 numeric_fields).

Definition shown_fieldnames : list string :=
  ["status"; "docstatus"; "grand_total"; "total"; "net_total"; "customer_name";
   "supplier_name"; "item_name"; "employee_name"; "posting_date";
   "transaction_date"; "company"].

(** [_get_display_fields(meta)] *)
Definition _get_display_fields (meta : Meta) : list string :=
  let display := ["name"] in
  let display :=
    if PyStr.nonempty (title_field meta) && negb (String.eqb (title_field meta) "name")
    then display ++ [title_field meta] else display in
  let display :=
    fold_left
      (fun display f =>
         if flag (hidden f) || MapRelationships.is_break (fieldtype f) then display
         else if mem (fieldname f) shown_fieldnames && negb (mem (fieldname f) display)
              then display ++ [fieldname f]
              else display)
      (fields meta) display in
  let display := if negb (mem "modified" display) then display ++ ["modified"] else display in
  take 8 display.

(** The key two results are told apart by:
    ["%s:%s" % (r.get("doctype"), r.get("name"))]. *)
Definition key_of (r : dict) : string :=
  py_str (dict_get_or "doctype" VNone r) ++ ":" ++ py_str (dict_get_or "name" VNone r).

(** The (doctype, name) pair of a result. *)
Definition pair_of (r : dict) : value * value :=
  (dict_get_or "doctype" VNone r, dict_get_or "name" VNone r).

(** One round of the loop that fills [seen] and [unique]. *)
Definition unique_step (st : list string * list dict) (r : dict)
  : list string * list dict :=
  let '(seen, unique) := st in
  let key := key_of r in
  if negb (mem key seen) then (seen ++ [key], unique ++ [r]) else (seen, unique).

(** The list [unique] after the loop. *)
Definition unique_of (results : list dict) : list dict :=
  snd (fold_left unique_step results ([], [])).

Definition doctype_list_query : Query :=
  mkQuery [("istable", "=", VInt 0); ("issingle", "=", VInt 0)] [] ["name"] "" (Some 200) "".

Section WithHost.
Variable h : Host.

(** Python's [float(s)]: the number read, [None] where it raises
    [ValueError]. *)
Variable float : string -> option Q.

(** [_is_numeric(query)] *)
Definition _is_numeric (query : string) : bool * value :=
  let cleaned := remove_char " " (remove_char "," query) in
  match float cleaned with
  | Some x => (true, VFloat x)
  | None => (false, VNone)
  end.

(** The [or_filters] both searches build. *)
Definition or_filters_of (query : string) (is_numeric : bool) (numeric_val : value)
    (text_fields numeric_fields : list string) : list Filter :=
  map (fun f => (f, "like", VStr ("%" ++ query ++ "%"))) text_fields ++
  (if is_numeric && negb (value_eqb numeric_val VNone)
   then map (fun f => (f, "=", numeric_val)) numeric_fields else []).

(** [_search_dt(self, doctype, query, is_numeric, numeric_val, limit)] *)
Definition _search_dt (doctype query : string) (is_numeric : bool)
    (numeric_val : value) (limit : Z) : M (list dict) :=
  try_except
    (ex <- ask (fun w => db_exists h w "DocType" doctype) ;;
     if negb ex then ret []
     else
       allowed <- ask (fun w => has_permission h w doctype "read" false) ;;
       if negb allowed then ret []
       else
         meta <- ask (fun w => get_meta h w doctype) ;;
         let '(text_fields, numeric_fields) := _get_searchable_fields meta is_numeric in
         let display_fields := _get_display_fields meta in
         let or_filters :=
           or_filters_of query is_numeric numeric_val text_fields numeric_fields in
         if is_empty or_filters then ret []
         else
           results <- ask (fun w => get_all h w doctype
                        (mkQuery [] or_filters display_fields "modified desc" (Some limit) "")) ;;
           ret (map (dict_set "doctype" (VStr doctype)) results))
    (fun _ => ret []).

(** One round of the loop over the priority DocTypes. *)
Definition search_step (query : string) (is_numeric : bool) (numeric_val : value)
    (limit : Z) (st : list dict * list string) (dt : string)
  : M (list dict * list string) :=
  let '(results, searched) := st in
  dt_results <- _search_dt dt query is_numeric numeric_val limit ;;
  if truthy (dicts dt_results) then ret (results ++ dt_results, searched ++ [dt])
  else ret (results, searched).

(** The loop over the remaining DocTypes, left by [break] once [limit]
    results are in. *)
Fixpoint search_remaining (query : string) (is_numeric : bool) (numeric_val : value)
    (limit : Z) (remaining : list string) (st : list dict * list string)
  : M (list dict * list string) :=
  match remaining with
  | [] => ret st
  | dt :: rest =>
      if len (fst st) >=? limit then ret st
      else
        st' <- search_step query is_numeric numeric_val 3 st dt ;;
        search_remaining query is_numeric numeric_val limit rest st'
  end.

(** The first part of [_global_search]: the results as collected, before
    duplicates are dropped, and the DocTypes that contributed. *)
Definition collect (query : string) (limit : Z) : M (list dict * list string) :=
  let '(is_numeric, numeric_val) := _is_numeric query in
  let per_dt_limit := Z.max 3 (limit / 6) in
  st <- for_each PRIORITY_DOCTYPES
          (search_step query is_numeric numeric_val per_dt_limit) ([], []) ;;
  if len (fst st) <? limit then
    all_dts <- ask (fun w => get_all h w "DocType" doctype_list_query) ;;
    let remaining :=
      filter (fun name => negb (mem name PRIORITY_DOCTYPES))
        (map (fun d => py_str (attr d "name")) all_dts) in
    search_remaining query is_numeric numeric_val limit (take 30 remaining) st
  else ret st.

(** [_global_search(self, query, limit)] *)
Definition _global_search (query : string) (limit : Z) : M dict :=
  '(results, searched) <- collect query limit ;;
  let unique := unique_of results in
  ret [("success", VBool true);
       ("query", VStr query);
       ("is_numeric_search", VBool (fst (_is_numeric query)));
       ("results", dicts (slice_to limit unique));
       ("count", VInt (Z.min (len unique) limit));
       ("total_found", VInt (len unique));
       ("searched_doctypes", VList (map VStr searched))].

(** [_search_single_doctype_full(self, doctype, query, limit)]: no [try]
    around the host calls. *)
Definition _search_single_doctype_full (doctype query : string) (limit : Z) : M dict :=
  ex <- ask (fun w => db_exists h w "DocType" doctype) ;;
  if negb ex then
    ret [("success", VBool false);
         ("error", VStr ("DocType '" ++ doctype ++ "' not found"))]
  else
    allowed <- ask (fun w => has_permission h w doctype "read" false) ;;
    if negb allowed then
      ret [("success", VBool false);
           ("error", VStr ("No read permission for '" ++ doctype ++ "'"))]
    else
      let '(is_numeric, numeric_val) := _is_numeric query in
      meta <- ask (fun w => get_meta h w doctype) ;;
      let '(text_fields, numeric_fields) := _get_searchable_fields meta is_numeric in
      let display_fields := _get_display_fields meta in
      let or_filters :=
        or_filters_of query is_numeric numeric_val text_fields numeric_fields in
      results <- ask (fun w => get_all h w doctype
                   (mkQuery [] or_filters display_fields "modified desc" (Some limit) "")) ;;
      ret [("success", VBool true);
           ("doctype", VStr doctype);
           ("query", VStr query);
           ("is_numeric_search", VBool is_numeric);
           ("results", dicts results);
           ("count", VInt (len results));
           ("search_fields", VList (map VStr (text_fields ++ numeric_fields)))].

(** [execute(self, arguments)] *)
Definition execute (arguments : Arguments) : M dict :=
  let query := PyStr.strip (match arg_query arguments with Some s => s | None => "" end) in
  if negb (PyStr.nonempty query) then
    ret [("success", VBool false); ("error", VStr "Empty search query")]
  else
    let limit := match arg_limit arguments with Some n => n | None => 20 end in
    match arg_doctype arguments with
    | Some doctype =>
        if PyStr.nonempty doctype then _search_single_doctype_full doctype query limit
        else _global_search query limit
    | None => _global_search query limit
    end.

End WithHost.

(** No [":"] in a name. *)
Definition colon_free (s : string) : bool := negb (PyStr.contains ":" s).

(** A result whose DocType is a colon-free string and whose name is a
    string, as the host hands them out. *)
Definition well_named (r : dict) : Prop :=
  exists d n, dict_get_or "doctype" VNone r = VStr d /\
              dict_get_or "name" VNone r = VStr n /\ colon_free d = true.

End UniversalSearch.

(* ================================================================== *)
(** ** tools/build_blueprint.py *)
(* ================================================================== *)

Module BuildBlueprint.

(** One element of [steps]; a key that is absent reads as its default
    ([""], [{}]), the description as [None]. *)
Record Step : Type := mkStep {
  step_doctype : string;
  step_data : dict;
  step_description : option string
}.

Record Arguments : Type := mkArguments {
  arg_steps : list Step;
  arg_module_name : option string;
  arg_dry_run : option bool
}.

(** The three lists the loop of [execute] fills. *)
Record Progress : Type := mkProgress {
  build_log : list dict;
  created : list dict;
  failed : list dict
}.

Definition double_quote : string := String "034" EmptyString.

(** ["{}-{}".format(dt, fn)] *)
Definition dash (dt fn : value) : string := py_str dt ++ "-" ++ py_str fn.

Definition optional_flags : list string :=
  ["is_tree"; "nsm_parent_field"; "title_field"; "image_field";
   "sort_field"; "sort_order"; "description"; "documentation"].

Definition icon_of (status : string) : string :=
  if String.eqb status "SUCCESS" then "✅"
  else if String.eqb status "FAILED" then "❌"
  else if String.eqb status "SKIPPED" then "⏭️"
  else if String.eqb status "VALID" then "✓"
  else if String.eqb status "INVALID" then "✗"
  else "⚙️".

(** One line of the progress display. *)
Definition progress_line (log : dict) : string :=
  let status := py_str (dict_get_or "status" VNone log) in
  let line :=
    (icon_of status ++ " [" ++ py_str (dict_get_or "step" VNone log) ++ "/" ++
     py_str (dict_get_or "total" VNone log) ++ "] " ++
     py_str (dict_get_or "description" VNone log) ++ " — " ++
     py_str (dict_get_or "message" (dict_get_or "error" (VStr "") log) log))%string in
  if truthy (dict_get_or "name" VNone log)
  then (line ++ " (name: " ++ py_str (dict_get_or "name" VNone log) ++ ")")%string
  else line.

(** The dictionary [execute] returns after the loop. *)
Definition summary_of (module_name : string) (dry_run : bool) (total : Z)
    (p : Progress) : dict :=
  let success_count := len (created p) in
  let fail_count := len (failed p) in
  let skip_count := total - success_count - fail_count in
  let summary :=
    [("module_name", VStr module_name);
     ("dry_run", VBool dry_run);
     ("total_steps", VInt total);
     ("success", VInt success_count);
     ("failed", VInt fail_count);
     ("skipped", VInt skip_count);
     ("status",
      VStr (if fail_count =? 0 then "COMPLETE"
            else if success_count >? 0 then "PARTIAL" else "FAILED"))] in
  let summary :=
    if truthy (dicts (created p)) then dict_set "created_items" (dicts (created p)) summary
    else summary in
  let summary :=
    if truthy (dicts (failed p)) then dict_set "failed_items" (dicts (failed p)) summary
    else summary in
  let summary :=
    dict_set "build_log" (VStr (PyStr.join PyStr.nl (map progress_line (build_log p)))) summary in
  let needs_migrate :=
    existsb (fun log =>
               value_eqb (dict_get_or "doctype" VNone log) (VStr "DocType") &&
               value_eqb (dict_get_or "status" VNone log) (VStr "SUCCESS"))
      (build_log p) in
  if needs_migrate then
    dict_set "action_required"
      (VStr "New DocType(s) created — run 'bench migrate' to create database tables")
      summary
  else summary.

Section WithHost.
Variable h : Host.

(** [traceback.format_exc()] in the handler of an exception. *)
Variable format_exc : exn -> string.

(** [_validate_step(self, doctype, data)]: queries only, none of them
    guarded. *)
Definition _validate_step (doctype : string) (data : dict) : M (bool * string) :=
  ex <- ask (fun w => db_exists h w "DocType" doctype) ;;
  if negb ex then ret (false, ("DocType '" ++ doctype ++ "' does not exist")%string)
  else
    dup <- (if String.eqb doctype "DocType" && truthy (dict_get_or "name" VNone data)
            then ask (fun w => db_exists h w "DocType" (py_str (dict_get_or "name" VNone data)))
            else ret false) ;;
    if (dup : bool) then
      ret (false, ("DocType '" ++ py_str (dict_get_or "name" VNone data) ++ "' already exists")%string)
    else
      let dt := dict_get_or "dt" (VStr "") data in
      let fn := dict_get_or "fieldname" (VStr "") data in
      existing <- (if String.eqb doctype "Custom Field" && truthy dt && truthy fn
                   then ask (fun w => db_exists h w "Custom Field" (dash dt fn))
                   else ret false) ;;
      if (existing : bool) then
        ret (false, ("Custom Field '" ++ dash dt fn ++ "' already exists")%string)
      else
        let wf_name := dict_get_or "workflow_name" (VStr "") data in
        wf <- (if String.eqb doctype "Workflow" && truthy wf_name
               then ask (fun w => db_exists h w "Workflow" (py_str wf_name))
               else ret false) ;;
        if (wf : bool) then
          ret (false, ("Workflow '" ++ py_str wf_name ++ "' already exists")%string)
        else ret (true, "Validation passed").

(** [_create_doctype(self, data)] *)
Definition _create_doctype (data : dict) : M dict :=
  let name := dict_get_or "name" (VStr "") data in
  if negb (truthy name) then ret [("error", VStr "DocType name is required")]
  else
    ex <- ask (fun w => db_exists h w "DocType" (py_str name)) ;;
    if (ex : bool) then
      ret [("name", name); ("message", VStr "DocType already exists — skipped")]
    else
      doc <- ask (fun w => new_doc h w
                [("doctype", VStr "DocType");
                 ("module", dict_get_or "module" (VStr "Custom") data);
                 ("custom", dict_get_or "custom" (VInt 1) data);
                 ("name", name);
                 ("naming_rule",
                  dict_get_or "naming_rule"
                    (VStr ("By " ++ double_quote ++ "Naming Series" ++ double_quote ++ " field"))
                    data);
                 ("autoname", dict_get_or "autoname" (VStr "hash") data);
                 ("is_submittable", dict_get_or "is_submittable" (VInt 0) data);
                 ("istable", dict_get_or "istable" (VInt 0) data);
                 ("fields", dict_get_or "fields" (VList []) data);
                 ("permissions",
                  dict_get_or "permissions"
                    (VList [VDict [("role", VStr "System Manager"); ("read", VInt 1);
                                   ("write", VInt 1); ("create", VInt 1); ("delete", VInt 1)]])
                    data)]) ;;
      let doc :=
        fold_left
          (fun doc key =>
             match dict_get key data with
             | Some v => setattr doc key v
             | None => doc
             end)
          optional_flags doc in
      let doc := setattr doc "flags.ignore_permissions" (VBool true) in
      _ <- do_write (EInsert doc) (fun w => insert h w doc) ;;
      do_write ECommit (fun w => db_commit h w) ;;;
      do_write (EClearCache (py_str name)) (fun w => clear_cache h w (py_str name)) ;;;
      field_count <- len_value (dict_get_or "fields" (VList []) data) ;;
      ret [("name", name);
           ("message",
            VStr ("Created DocType with " ++ PyStr.of_Z field_count ++
                  " fields. Run 'bench migrate' to create table."))].

(** [_execute_step(self, doctype, data)] *)
Definition _execute_step (doctype : string) (data : dict) : M dict :=
  if String.eqb doctype "DocType" then _create_doctype data
  else
    doc <- ask (fun w => new_doc h w (dict_merge [("doctype", VStr doctype)] data)) ;;
    let doc := setattr doc "flags.ignore_permissions" (VBool true) in
    let doc := setattr doc "flags.ignore_mandatory" (VBool false) in
    let dt := dict_get_or "dt" (VStr "") data in
    let fn := dict_get_or "fieldname" (VStr "") data in
    let doc :=
      if String.eqb doctype "Custom Field" && negb (truthy (dict_get_or "name" VNone data)) &&
         truthy dt && truthy fn
      then mkDoc (doc_doctype doc) (dash dt fn) (doc_attrs doc)
      else doc in
    name <- do_write (EInsert doc) (fun w => insert h w doc) ;;
    do_write ECommit (fun w => db_commit h w) ;;;
    ret [("name", VStr name);
         ("message", VStr ("Created " ++ doctype ++ " successfully"))].

(** One round of [for i, step in enumerate(steps)]. *)
Definition run_step (dry_run : bool) (total : Z) (p : Progress) (numbered : Z * Step)
  : M Progress :=
  let '(i, step) := numbered in
  let step_num := i + 1 in
  let doctype := step_doctype step in
  let data := step_data step in
  let desc :=
    match step_description step with
    | Some d => d
    | None => ("Step " ++ PyStr.of_Z step_num)%string
    end in
  let log_entry :=
    [("step", VInt step_num); ("total", VInt total);
     ("description", VStr desc); ("doctype", VStr doctype)] in
  if negb (PyStr.nonempty doctype) || negb (truthy (VDict data)) then
    let log_entry := dict_set "status" (VStr "SKIPPED") log_entry in
    let log_entry := dict_set "message" (VStr "Missing doctype or data") log_entry in
    ret (mkProgress (build_log p ++ [log_entry]) (created p) (failed p))
  else if dry_run then
    '(valid, msg) <- _validate_step doctype data ;;
    let log_entry :=
      dict_set "status" (VStr (if (valid : bool) then "VALID" else "INVALID")) log_entry in
    let log_entry := dict_set "message" (VStr msg) log_entry in
    ret (mkProgress (build_log p ++ [log_entry]) (created p) (failed p))
  else
    try_except
      (result <- _execute_step doctype data ;;
       let log_entry := dict_set "status" (VStr "SUCCESS") log_entry in
       let log_entry := dict_set "name" (dict_get_or "name" (VStr "") result) log_entry in
       let log_entry :=
         dict_set "message" (dict_get_or "message" (VStr "Created successfully") result)
           log_entry in
       ret (mkProgress (build_log p ++ [log_entry])
              (created p ++ [[("doctype", VStr doctype);
                              ("name", dict_get_or "name" (VStr "") result);
                              ("description", VStr desc)]])
              (failed p)))
      (fun e =>
         let log_entry := dict_set "status" (VStr "FAILED") log_entry in
         let log_entry := dict_set "error" (VStr (str_exn e)) log_entry in
         let log_entry :=
           dict_set "traceback" (VStr (PyStr.take_last 500 (format_exc e))) log_entry in
         ret (mkProgress (build_log p ++ [log_entry]) (created p)
                (failed p ++ [[("step", VInt step_num); ("description", VStr desc);
                               ("error", VStr (str_exn e))]]))).

(** [enumerate(steps)] *)
Definition enumerate {A} (l : list A) : list (Z * A) :=
  combine (map Z.of_nat (seq 0 (List.length l))) l.

(** The loop of [execute]. *)
Definition run_steps (dry_run : bool) (steps : list Step) : M Progress :=
  for_each (enumerate steps) (run_step dry_run (len steps)) (mkProgress [] [] []).

(** [execute(self, arguments)] *)
Definition execute (arguments : Arguments) : M dict :=
  let steps := arg_steps arguments in
  let module_name :=
    match arg_module_name arguments with Some m => m | None => "Unknown Module" end in
  let dry_run := match arg_dry_run arguments with Some b => b | None => false end in
  if is_empty steps then ret [("error", VStr "No build steps provided")]
  else if len steps >? 50 then
    ret [("error", VStr "Too many steps (max 50). Break into smaller modules.")]
  else
    p <- run_steps dry_run steps ;;
    ret (summary_of module_name dry_run (len steps) p).

End WithHost.

(** The status a log entry carries. *)
Definition status_of (log : dict) : value := dict_get_or "status" VNone log.

Definition dry_status (log : dict) : Prop :=
  status_of log = VStr "VALID" \/ status_of log = VStr "INVALID" \/
  status_of log = VStr "SKIPPED".

End BuildBlueprint.

(* ================================================================== *)
(** ** tools/rollback_changes.py *)
(* ================================================================== *)

Module RollbackChanges.

Record Arguments : Type := mkArguments {
  arg_doctype : option string;
  arg_name : option string;
  arg_action : option string
}.

Definition failure (msg : string) : dict :=
  [("success", VBool false); ("error", VStr msg)].

Definition scripts : list string := ["Client Script"; "Server Script"].

Definition allowed : list string :=
  ["Custom Field"; "Property Setter"; "Client Script"; "Server Script"].

Section WithHost.
Variable h : Host.

(** [doc.save(ignore_permissions=False)] followed by [frappe.db.commit()] *)
Definition save_and_commit (doc : Doc) : M unit :=
  do_write (ESave doc) (fun w => save h w doc) ;;;
  do_write ECommit (fun w => db_commit h w).

(** [_disable(self, doc)] *)
Definition _disable (doc : Doc) : M dict :=
  try_except
    (let dt := doc_doctype doc in
     if mem dt scripts then
       if hasattr doc "disabled" then
         save_and_commit (setattr doc "disabled" (VInt 1)) ;;;
         ret [("success", VBool true);
              ("message", VStr (dt ++ " '" ++ doc_name doc ++ "' has been disabled"))]
       else if hasattr doc "enabled" then
         save_and_commit (setattr doc "enabled" (VInt 0)) ;;;
         ret [("success", VBool true);
              ("message", VStr (dt ++ " '" ++ doc_name doc ++ "' has been disabled"))]
       else ret (failure (dt ++ " does not support disable"))
     else if String.eqb dt "Custom Field" then
       try_except
         (save_and_commit (setattr doc "hidden" (VInt 1)) ;;;
          ret [("success", VBool true);
               ("message",
                VStr ("Custom Field '" ++ doc_name doc ++
                      "' has been hidden (set hidden=1). To fully remove, use action=delete."))])
         (fun e => ret (failure ("Failed to hide field: " ++ str_exn e)))
     else if String.eqb dt "Property Setter" then
       ret (failure "Property Setters cannot be disabled, only deleted. Use action=delete.")
     else ret (failure ("Disable not supported for " ++ dt)))
    (fun e => ret (failure (str_exn e))).

(** A guarded [frappe.get_all] of [_check_dependencies]: the lines it
    adds to [details], none when it raises. *)
Definition guarded_refs (dt : string) (q : Query) (line : dict -> string) : M (list string) :=
  try_except
    (rows <- ask (fun w => get_all h w dt q) ;; ret (map line rows))
    (fun _ => ret []).

(** [_check_dependencies(self, doc)]: [has_dependencies] and [details]. *)
Definition _check_dependencies (doc : Doc) : M (bool * list string) :=
  try_except
    (let dt := doc_doctype doc in
     details <-
       (if String.eqb dt "Custom Field" then
          let fieldname := getattr doc "fieldname" (VStr "") in
          let target_dt := getattr doc "dt" (VStr "") in
          if truthy fieldname && truthy target_dt then
            refs <- guarded_refs "Custom Field"
                      (mkQuery [("fetch_from", "like",
                                 VStr ("%" ++ py_str target_dt ++ "." ++ py_str fieldname ++ "%"))]
                         [] ["name"; "dt"; "fieldname"] "" (Some 5) "")
                      (fun ref =>
                         ("Custom Field '" ++ py_str (dict_get_or "dt" (VStr "") ref) ++ "." ++
                          py_str (dict_get_or "fieldname" (VStr "") ref) ++
                          "' has fetch_from referencing this field")%string) ;;
            found <- guarded_refs "Server Script"
                         (mkQuery [("script", "like", VStr ("%" ++ py_str fieldname ++ "%"));
                                   ("disabled", "=", VInt 0)]
                            [] ["name"] "" (Some 5) "")
                         (fun s =>
                            ("Server Script '" ++ py_str (dict_get_or "name" (VStr "") s) ++
                             "' references this field")%string) ;;
            ret (refs ++ found)
          else ret []
        else ret []) ;;
     ret (negb (is_empty details), details))
    (fun _ => ret (false, [])).

(** [_delete(self, doc)] *)
Definition _delete (doc : Doc) : M dict :=
  try_except
    (let dt := doc_doctype doc in
     '(has_dependencies, details) <- _check_dependencies doc ;;
     if (has_dependencies : bool) then
       ret [("success", VBool false);
            ("error", VStr "Cannot delete - has dependencies");
            ("dependencies", VList (map VStr details));
            ("suggestion", VStr "Use action=disable instead, or remove dependencies first.")]
     else if mem dt scripts && negb (eq_one (getattr doc "disabled" (VInt 0))) then
       ret [("success", VBool false);
            ("error", VStr "Script is still enabled. Disable it first before deleting.");
            ("suggestion", VStr "Use action=disable first, verify nothing breaks, then delete.")]
     else
       let info := [("doctype", VStr dt); ("name", VStr (doc_name doc))] in
       let info :=
         if String.eqb dt "Custom Field" then
           dict_set "fieldname" (getattr doc "fieldname" (VStr ""))
             (dict_set "dt" (getattr doc "dt" (VStr "")) info)
         else if String.eqb dt "Property Setter" then
           dict_set "property" (getattr doc "property" (VStr ""))
             (dict_set "doc_type" (getattr doc "doc_type" (VStr "")) info)
         else info in
       do_write (EDeleteDoc dt (doc_name doc)) (fun w => delete_doc h w dt (doc_name doc)) ;;;
       do_write ECommit (fun w => db_commit h w) ;;;
       ret [("success", VBool true);
            ("message", VStr (dt ++ " '" ++ doc_name doc ++ "' has been deleted"));
            ("deleted", VDict info)])
    (fun e =>
       do_write ERollback (fun w => db_rollback h w) ;;;
       ret (failure (str_exn e))).

(** What stands inside the outer [try] of [execute]. *)
Definition execute_body (arguments : Arguments) : M dict :=
  let doctype := match arg_doctype arguments with Some s => s | None => "" end in
  let name := match arg_name arguments with Some s => s | None => "" end in
  let action := match arg_action arguments with Some s => s | None => "disable" end in
  if negb (PyStr.nonempty doctype) || negb (PyStr.nonempty name) then
    ret (failure "doctype and name are required")
  else if negb (mem doctype allowed) then
    ret (failure ("doctype must be one of: " ++ PyStr.join ", " allowed))
  else
    permitted <- try_except
                   (ask (fun w => has_permission h w doctype "write" true) ;;; ret true)
                   (fun _ => ret false) ;;
    if negb permitted then ret (failure ("No write permission for " ++ doctype))
    else
      ex <- ask (fun w => db_exists h w doctype name) ;;
      if negb ex then ret (failure (doctype ++ " '" ++ name ++ "' does not exist"))
      else
        doc <- ask (fun w => get_doc h w doctype name) ;;
        if String.eqb action "disable" then _disable doc
        else if String.eqb action "delete" then _delete doc
        else ret (failure "action must be 'delete' or 'disable'").

(** [execute(self, arguments)] *)
Definition execute (arguments : Arguments) : M dict :=
  try_except (execute_body arguments) (fun e => ret (failure (str_exn e))).

End WithHost.

(** The two refusals. *)
Definition property_setter_refusal : dict :=
  failure "Property Setters cannot be disabled, only deleted. Use action=delete.".

Definition enabled_script_refusal : dict :=
  [("success", VBool false);
   ("error", VStr "Script is still enabled. Disable it first before deleting.");
   ("suggestion", VStr "Use action=disable first, verify nothing breaks, then delete.")].

End RollbackChanges.

(* ================================================================== *)
(** ** tools/introspect_system.py *)
(* ================================================================== *)

Module IntrospectSystem.

Record Arguments : Type := mkArguments {
  arg_scope : option string;
  arg_doctype : option string;
  arg_module : option string
}.

Definition failure (msg : string) : dict :=
  [("success", VBool false); ("error", VStr msg)].

(** [{k: v}] when [v] is not empty, [{}] otherwise. *)
Definition filter_if (k : string) (v : string) : list Filter :=
  if PyStr.nonempty v then [(k, "=", VStr v)] else [].

Section WithHost.
Variable h : Host.

(** [_get_apps(self)] *)
Definition _get_apps : M value :=
  try_except
    (apps <- ask (fun w => get_installed_apps h w) ;;
     app_info <-
       for_each apps
         (fun app_info app =>
            version <- try_except
                         (if negb (String.eqb app "frappe")
                          then ask (fun w => get_attr h w (app ++ ".__version__"))
                          else ret (VStr (version h)))
                         (fun _ => ret (VStr "unknown")) ;;
            ret (app_info ++ [[("app", VStr app); ("version", VStr (py_str version))]]))
         [] ;;
     ret (dicts app_info))
    (fun e => ret (VDict [("error", VStr (str_exn e))])).

(** [_get_modules(self, module_filter)] *)
Definition _get_modules (module_filter : string) : M value :=
  try_except
    (modules <- ask (fun w => get_all h w "DocType"
                  (mkGroupedQuery (filter_if "module" module_filter) []
                     ["module"; "count(name) as doctype_count"]
                     "doctype_count desc" None "" "module")) ;;
     ret (dicts (map (fun m =>
                        [("module", dict_get_or "module" (VStr "") m);
                         ("doctype_count", dict_get_or "doctype_count" (VInt 0) m)])
                   modules)))
    (fun e => ret (VDict [("error", VStr (str_exn e))])).

(** [_get_doctypes(self, doctype_filter, module_filter)] *)
Definition _get_doctypes (doctype_filter module_filter : string) : M value :=
  try_except
    (doctypes <- ask (fun w => get_all h w "DocType"
                   (mkQuery (filter_if "name" doctype_filter ++ filter_if "module" module_filter)
                      [] ["name"; "module"; "custom"; "issingle"; "istable"]
                      "name" (Some 100) "")) ;;
     results <-
       for_each doctypes
         (fun results dt =>
            let info :=
              [("name", dict_get_or "name" (VStr "") dt);
               ("module", dict_get_or "module" (VStr "") dt);
               ("custom", dict_get_or "custom" (VInt 0) dt);
               ("is_single", dict_get_or "issingle" (VInt 0) dt);
               ("is_child", dict_get_or "istable" (VInt 0) dt)] in
            info <-
              (if PyStr.nonempty doctype_filter then
                 try_except
                   (meta <- ask (fun w => get_meta h w
                               (py_str (dict_get_or "name" (VStr "") dt))) ;;
                    ret (dict_set "autoname" (VStr (autoname meta))
                           (dict_set "has_workflow" (VBool (PyStr.nonempty (workflow meta)))
                              (dict_set "fields_count" (VInt (len (fields meta))) info))))
                   (fun _ => ret info)
               else ret info) ;;
            ret (results ++ [info]))
         [] ;;
     ret (dicts results))
    (fun e => ret (VDict [("error", VStr (str_exn e))])).

(** One guarded block of [_get_customizations]. *)
Definition customization (dt filter_key doctype_filter : string)
    (fieldnames : list string) : M value :=
  try_except
    (rows <- ask (fun w => get_all h w dt
               (mkQuery (filter_if filter_key doctype_filter) [] fieldnames "" (Some 50) "")) ;;
     ret (VDict [("count", VInt (len rows)); ("items", dicts rows)]))
    (fun e => ret (VDict [("error", VStr (str_exn e))])).

(** [_get_customizations(self, doctype_filter)] *)
Definition _get_customizations (doctype_filter : string) : M value :=
  try_except
    (custom_fields <- customization "Custom Field" "dt" doctype_filter
                        ["name"; "dt"; "fieldname"; "fieldtype"; "label"] ;;
     client_scripts <- customization "Client Script" "dt" doctype_filter
                         ["name"; "dt"; "enabled"; "script_type"] ;;
     server_scripts <- customization "Server Script" "reference_doctype" doctype_filter
                         ["name"; "reference_doctype"; "script_type"; "disabled"] ;;
     property_setters <- customization "Property Setter" "doc_type" doctype_filter
                           ["name"; "doc_type"; "field_name"; "property"; "value"] ;;
     ret (VDict [("custom_fields", custom_fields);
                 ("client_scripts", client_scripts);
                 ("server_scripts", server_scripts);
                 ("property_setters", property_setters)]))
    (fun e => ret (VDict [("error", VStr (str_exn e))])).

(** The outgoing links of [_get_links]. *)
Definition outgoing (meta : Meta) : list dict :=
  flat_map (fun field =>
    if String.eqb (fieldtype field) "Link" && PyStr.nonempty (options field) then
      [[("fieldname", VStr (fieldname field));
        ("linked_doctype", VStr (options field));
        ("reqd", VInt (reqd field))]]
    else if String.eqb (fieldtype field) "Table" && PyStr.nonempty (options field) then
      [[("fieldname", VStr (fieldname field));
        ("linked_doctype", VStr (options field));
        ("type", VStr "child_table")]]
    else []) (fields meta).

(** The loop over the incoming standard links, with its [seen] set.
    A parent that cannot be put into the set ends the loop with an
    exception; the flag tells whether the loop ran to its end. *)
Fixpoint incoming_links (doctype : string) (incoming : list dict)
    (seen : list value) (linked_from : list dict) : list dict * bool :=
  match incoming with
  | [] => (linked_from, true)
  | link :: rest =>
      let parent := dict_get_or "parent" (VStr "") link in
      if truthy parent && negb (value_eqb parent (VStr doctype)) then
        if negb (hashable parent) then (linked_from, false)
        else if existsb (value_eqb parent) seen then
          incoming_links doctype rest seen linked_from
        else
          incoming_links doctype rest (seen ++ [parent])
            (linked_from ++ [[("doctype", parent);
                              ("fieldname", dict_get_or "fieldname" (VStr "") link)]])
      else incoming_links doctype rest seen linked_from
  end.

Definition link_filters (doctype : string) : list Filter :=
  [("fieldtype", "=", VStr "Link"); ("options", "=", VStr doctype)].

(** [_get_links(self, doctype)] *)
Definition _get_links (doctype : string) : M value :=
  try_except
    (ex <- ask (fun w => db_exists h w "DocType" doctype) ;;
     if negb ex then
       ret (VDict [("error", VStr ("DocType '" ++ doctype ++ "' does not exist"))])
     else
       meta <- ask (fun w => get_meta h w doctype) ;;
       let links_to := outgoing meta in
       linked_from <-
         (fun w =>
            match get_all h w "DocField"
                    (mkQuery (link_filters doctype) [] ["parent"; "fieldname"] "" (Some 50) "")
            with
            | Ok incoming => (Ok (fst (incoming_links doctype incoming [] [])), w)
            | Raise _ => (Ok [], w)
            end) ;;
       custom <-
         try_except
           (custom_incoming <- ask (fun w => get_all h w "Custom Field"
                                 (mkQuery (link_filters doctype) [] ["dt"; "fieldname"] ""
                                    (Some 50) "")) ;;
            ret (flat_map (fun link =>
                   let dt_name := dict_get_or "dt" (VStr "") link in
                   if truthy dt_name && negb (value_eqb dt_name (VStr doctype)) then
                     [[("doctype", dt_name);
                       ("fieldname", dict_get_or "fieldname" (VStr "") link);
                       ("custom", VBool true)]]
                   else []) custom_incoming))
           (fun _ => ret []) ;;
       let linked_from := linked_from ++ custom in
       ret (VDict [("doctype", VStr doctype);
                   ("links_to", dicts links_to);
                   ("linked_from", dicts linked_from);
                   ("outgoing_count", VInt (len links_to));
                   ("incoming_count", VInt (len linked_from))]))
    (fun e => ret (VDict [("error", VStr (str_exn e))])).

(** What stands inside the outer [try] of [execute]. *)
Definition execute_body (arguments : Arguments) : M dict :=
  let scope := match arg_scope arguments with Some s => s | None => "all" end in
  let doctype := match arg_doctype arguments with Some s => s | None => "" end in
  let module := match arg_module arguments with Some s => s | None => "" end in
  let wanted k := String.eqb scope k || String.eqb scope "all" in
  let result := [("success", VBool true)] in
  result <- (if wanted "apps"
             then apps <- _get_apps ;; ret (dict_set "apps" apps result)
             else ret result) ;;
  result <- (if wanted "modules"
             then modules <- _get_modules module ;; ret (dict_set "modules" modules result)
             else ret result) ;;
  result <- (if wanted "doctypes"
             then doctypes <- _get_doctypes doctype module ;;
                  ret (dict_set "doctypes" doctypes result)
             else ret result) ;;
  result <- (if wanted "customizations"
             then customizations <- _get_customizations doctype ;;
                  ret (dict_set "customizations" customizations result)
             else ret result) ;;
  if wanted "links" then
    if PyStr.nonempty doctype then
      links <- _get_links doctype ;; ret (dict_set "links" links result)
    else if String.eqb scope "links" then
      ret (failure "doctype is required for links scope")
    else ret result
  else ret result.

(** [execute(self, arguments)] *)
Definition execute (arguments : Arguments) : M dict :=
  try_except (execute_body arguments) (fun e => ret (failure (str_exn e))).

End WithHost.

End IntrospectSystem.

(* ================================================================== *)
(** ** tools/field_explorer.py *)
(* ================================================================== *)

Module FieldExplorer.

(** [doctype] is required by the schema; [field] and [section] may be
    absent. *)
Record Arguments : Type := mkArguments {
  arg_doctype : string;
  arg_field : option string;
  arg_section : option string
}.

(** A text attribute put into a result as it is: [None] when empty. *)
Definition raw (s : string) : value := if PyStr.nonempty s then VStr s else VNone.

(** [_get_field_source(self, field)] *)
Definition _get_field_source (field : DocField) : dict :=
  if PyStr.nonempty (fetch_from field) then
    [("type", VStr "fetch_from");
     ("fetch_from", VStr (fetch_from field));
     ("description", VStr ("Auto-fetched from linked document: " ++ fetch_from field));
     ("editable", VBool (negb (flag (fetch_if_empty field))))]
  else if String.eqb (fieldtype field) "Link" then
    [("type", VStr "link");
     ("links_to", raw (options field));
     ("description",
      VStr ("Links to " ++ py_str (raw (options field)) ++
            " DocType. Select from existing records."))]
  else if flag (read_only field) &&
          mem (fieldtype field) ["Currency"; "Float"; "Int"; "Percent"] then
    [("type", VStr "computed");
     ("description",
      VStr "Calculated automatically (read-only). Likely aggregated from child table or server logic.")]
  else if String.eqb (fieldtype field) "Select" then
    let options :=
      filter PyStr.nonempty (map PyStr.strip (PyStr.split_lines (options field))) in
    [("type", VStr "select");
     ("options", VList (map VStr options));
     ("description", VStr ("Dropdown with " ++ PyStr.of_Z (len options) ++ " options"))]
  else if String.eqb (fieldtype field) "Table" then
    [("type", VStr "child_table");
     ("child_doctype", raw (options field));
     ("description",
      VStr ("Contains rows of " ++ py_str (raw (options field)) ++ " (child table)"))]
  else if String.eqb (fieldtype field) "Dynamic Link" then
    [("type", VStr "dynamic_link");
     ("depends_on", raw (options field));
     ("description",
      VStr ("Dynamic link - DocType determined by '" ++ py_str (raw (options field)) ++
            "' field"))]
  else
    [("type", VStr "user_input"); ("description", VStr "Manually entered by user")].

(** [_get_dependents(self, meta, field_name)] *)
Definition _get_dependents (meta : Meta) (field_name : string) : list dict :=
  flat_map (fun f =>
    let mention (expr relation : string) : list dict :=
      if PyStr.nonempty expr && PyStr.contains field_name expr
      then [[("field", VStr (fieldname f)); ("relation", VStr relation);
             ("detail", VStr expr)]]
      else [] in
    mention (fetch_from f) "fetch_from" ++
    mention (depends_on f) "visibility_depends_on" ++
    mention (mandatory_depends_on f) "mandatory_depends_on") (fields meta).

Definition is_break (ft : string) : bool :=
  mem ft ["Section Break"; "Column Break"; "Tab Break"].

(** One entry of a section of [_explore_all_fields]. *)
Definition field_entry (field : DocField) : dict :=
  let source := _get_field_source field in
  [("fieldname", VStr (fieldname field));
   ("label", raw (label field));
   ("fieldtype", VStr (fieldtype field));
   ("required", VBool (flag (reqd field)));
   ("source_type", dict_get_or "type" VNone source);
   ("source_detail",
    or_value (dict_get_or "fetch_from" VNone source)
      (or_value (dict_get_or "links_to" VNone source)
         (or_value (dict_get_or "child_doctype" VNone source) (VStr ""))))].

(** A section: its label and its fields. *)
Definition Section_ : Type := string * list dict.

(** One round of the loop over the fields: the finished sections and the
    one being filled. *)
Definition section_step (st : list Section_ * Section_) (field : DocField)
  : list Section_ * Section_ :=
  let '(sections, current_section) := st in
  if mem (fieldtype field) ["Tab Break"; "Section Break"] then
    (if is_empty (snd current_section) then sections else sections ++ [current_section],
     (PyStr.or_else (label field) (PyStr.replace " Break" "" (fieldtype field)), []))
  else if String.eqb (fieldtype field) "Column Break" || flag (hidden field) then st
  else (sections, (fst current_section, snd current_section ++ [field_entry field])).

(** [sum(1 for s in sections for f in s["fields"] if test(f))] *)
Definition count_fields (test : dict -> bool) (sections : list Section_) : Z :=
  len (filter test (flat_map snd sections)).

Definition source_is (kind : string) (f : dict) : bool :=
  value_eqb (dict_get_or "source_type" VNone f) (VStr kind).

(** [_explore_all_fields(self, meta, doctype, section_filter)] *)
Definition _explore_all_fields (meta : Meta) (doctype : string)
    (section_filter : option string) : dict :=
  let '(sections, current_section) :=
    fold_left section_step (fields meta) ([], ("Default", [])) in
  let sections :=
    if is_empty (snd current_section) then sections else sections ++ [current_section] in
  let sections :=
    match section_filter with
    | Some wanted =>
        if PyStr.nonempty wanted then
          filter (fun s => PyStr.contains (PyStr.lower wanted) (PyStr.lower (fst s))) sections
        else sections
    | None => sections
    end in
  [("success", VBool true);
   ("doctype", VStr doctype);
   ("title_field", raw (title_field meta));
   ("is_submittable", VBool (flag (is_submittable meta)));
   ("summary",
    VDict [("total_fields", VInt (len (flat_map snd sections)));
           ("required_fields",
            VInt (count_fields (fun f => truthy (dict_get_or "required" VNone f)) sections));
           ("auto_fetched_fields", VInt (count_fields (source_is "fetch_from") sections));
           ("link_fields", VInt (count_fields (source_is "link") sections));
           ("child_tables", VInt (count_fields (source_is "child_table") sections));
           ("computed_fields", VInt (count_fields (source_is "computed") sections));
           ("sections", VInt (len sections))]);
   ("sections",
    dicts (map (fun s => [("label", VStr (fst s)); ("fields", dicts (snd s))]) sections))].

Section WithHost.
Variable h : Host.

(** [_explore_single_field(self, meta, doctype, field_name)] *)
Definition _explore_single_field (meta : Meta) (doctype field_name : string) : M dict :=
  match get_field meta field_name with
  | None =>
      if String.eqb field_name "name" then
        ret [("success", VBool true);
             ("doctype", VStr doctype);
             ("field",
              VDict [("fieldname", VStr "name");
                     ("label", VStr "ID / Name");
                     ("fieldtype", VStr "Data");
                     ("description",
                      VStr "Unique identifier. Auto-generated by naming series.");
                     ("source",
                      VDict [("type", VStr "auto_generated");
                             ("description", VStr "Auto-generated by naming series")]);
                     ("dependents", dicts (_get_dependents meta "name"))])]
      else
        ret [("success", VBool false);
             ("error", VStr ("Field '" ++ field_name ++ "' not found in " ++ doctype))]
  | Some field =>
      let field_info :=
        [("fieldname", VStr (fieldname field));
         ("label", raw (label field));
         ("fieldtype", VStr (fieldtype field));
         ("description", VStr (description field));
         ("required", VBool (flag (reqd field)));
         ("read_only", VBool (flag (read_only field)));
         ("unique", VBool (flag (unique field)));
         ("default", default field);
         ("source", VDict (_get_field_source field));
         ("dependents", dicts (_get_dependents meta field_name));
         ("in_list_view", VBool (flag (in_list_view field)));
         ("hidden", VBool (flag (hidden field)))] in
      field_info <-
        (if String.eqb (fieldtype field) "Table" && PyStr.nonempty (options field) then
           try_except
             (child_meta <- ask (fun w => get_meta h w (options field)) ;;
              ret (dict_set "child_table_fields"
                     (dicts (map (fun cf =>
                                    [("fieldname", VStr (fieldname cf));
                                     ("label", raw (label cf));
                                     ("fieldtype", VStr (fieldtype cf));
                                     ("required", VBool (flag (reqd cf)))])
                               (filter (fun cf => negb (is_break (fieldtype cf)))
                                  (fields child_meta))))
                     field_info))
             (fun _ => ret field_info)
         else ret field_info) ;;
      ret [("success", VBool true); ("doctype", VStr doctype); ("field", VDict field_info)]
  end.

(** [execute(self, arguments)]: no [try] around the host calls. *)
Definition execute (arguments : Arguments) : M dict :=
  let doctype := arg_doctype arguments in
  ex <- ask (fun w => db_exists h w "DocType" doctype) ;;
  if negb ex then
    ret [("success", VBool false);
         ("error", VStr ("DocType '" ++ doctype ++ "' not found"))]
  else
    allowed <- ask (fun w => has_permission h w doctype "read" false) ;;
    if negb allowed then
      ret [("success", VBool false);
           ("error", VStr ("No read permission for '" ++ doctype ++ "'"))]
    else
      meta <- ask (fun w => get_meta h w doctype) ;;
      match arg_field arguments with
      | Some field_name =>
          if PyStr.nonempty field_name then _explore_single_field meta doctype field_name
          else ret (_explore_all_fields meta doctype (arg_section arguments))
      | None => ret (_explore_all_fields meta doctype (arg_section arguments))
      end.

End WithHost.

End FieldExplorer.

(* ================================================================== *)
(** ** tools/verify_build.py *)
(* ================================================================== *)

Module VerifyBuild.

(** One element of [components]; a key that is absent reads as [""]. *)
Record Component : Type := mkComponent {
  comp_type : string;
  comp_name : string
}.

Record Arguments : Type := mkArguments {
  arg_components : list Component;
  arg_auto_fix : option bool
}.

(** The result of a component test: [type] and [name] first, then [status]
    and [message], then what else the test adds, in this order. *)
Definition verdict (type name status message : string) (more : dict) : dict :=
  [("type", VStr type); ("name", VStr name);
   ("status", VStr status); ("message", VStr message)] ++ more.

Definition is_break (ft : string) : bool :=
  mem ft ["Section Break"; "Column Break"; "Tab Break"].

(** The fix suggested for a failed CRUD test, from the error text. *)
Definition crud_suggestion (error_str : string) : string :=
  let low := PyStr.lower error_str in
  if PyStr.contains "does not exist" low && PyStr.contains "table" low then
    "Database table not created. Run: bench --site <site> migrate"
  else if PyStr.contains "mandatory" low then
    "Mandatory field missing in test. Check required fields have sensible defaults."
  else if PyStr.contains "duplicate" low then
    "Naming conflict. Check autoname/naming_rule configuration."
  else "Check error details and fix the DocType definition".

(** [doc.append(key, row)] *)
Definition append_row (doc : Doc) (key : string) (row : dict) : Doc :=
  setattr doc key
    (match getattr doc key (VList []) with
     | VList l => VList (l ++ [VDict row])
     | _ => VList [VDict row]
     end).

Definition system_manager : dict :=
  [("role", VStr "System Manager"); ("read", VInt 1); ("write", VInt 1);
   ("create", VInt 1); ("delete", VInt 1)].

(** The issues [_test_client_script] finds in a script. *)
Definition js_issues (script : string) (script_type : value) : list string :=
  (if negb (PyStr.contains "frappe.ui.form.on" script) &&
      value_eqb script_type (VStr "Form")
   then ["Missing frappe.ui.form.on() — required for Form scripts"] else []) ++
  (if negb (PyStr.count_char "{" script =? PyStr.count_char "}" script)
   then [("Unbalanced curly braces: " ++ PyStr.of_Z (PyStr.count_char "{" script) ++
          " open, " ++ PyStr.of_Z (PyStr.count_char "}" script) ++ " close")%string]
   else []) ++
  (if negb (PyStr.count_char "(" script =? PyStr.count_char ")" script)
   then [("Unbalanced parentheses: " ++ PyStr.of_Z (PyStr.count_char "(" script) ++
          " open, " ++ PyStr.of_Z (PyStr.count_char ")" script) ++ " close")%string]
   else []).

(** The transitions of a workflow that name a state it does not have. *)
Definition invalid_transitions (states : list value) (transitions : list dict) : list string :=
  flat_map (fun t =>
    (if negb (existsb (value_eqb (attr t "state")) states)
     then [("Transition from '" ++ py_str (attr t "state") ++ "' — state not found")%string]
     else []) ++
    (if negb (existsb (value_eqb (attr t "next_state")) states)
     then [("Transition to '" ++ py_str (attr t "next_state") ++ "' — state not found")%string]
     else [])) transitions.

Section WithHost.
Variable h : Host.

(** What [compile(script, filename, "exec")] comes to. *)
Variable compile : string -> Compiled.

(** [doc.flags.ignore_permissions = True; doc.save(); frappe.db.commit()] *)
Definition save_and_commit (doc : Doc) : M unit :=
  let doc := setattr doc "flags.ignore_permissions" (VBool true) in
  do_write (ESave doc) (fun w => save h w doc) ;;;
  do_write ECommit (fun w => db_commit h w).

(** One round of the loop that fills [test_data]. *)
Definition test_data_step (test_data : dict) (f : DocField) : M dict :=
  if flag (reqd f) && String.eqb (fieldtype f) "Data" then
    ret (dict_set (fieldname f) (VStr "VERIFY_BUILD_TEST") test_data)
  else if flag (reqd f) && String.eqb (fieldtype f) "Link" then
    existing <- ask (fun w => get_all h w (options f) (mkQuery [] [] [] "" (Some 1) "")) ;;
    match existing with
    | row :: _ => ret (dict_set (fieldname f) (attr row "name") test_data)
    | [] => ret test_data
    end
  else if flag (reqd f) && String.eqb (fieldtype f) "Select" && PyStr.nonempty (options f) then
    ret (dict_set (fieldname f) (VStr (hd "" (PyStr.split_lines (options f)))) test_data)
  else if flag (reqd f) && mem (fieldtype f) ["Int"; "Float"; "Currency"] then
    ret (dict_set (fieldname f) (VInt 1) test_data)
  else ret test_data.

(** [_test_doctype(self, name, auto_fix)] *)
Definition _test_doctype (name : string) (auto_fix : bool) : M dict :=
  ex <- ask (fun w => db_exists h w "DocType" name) ;;
  if negb ex then
    ret (verdict "DocType" name "FAIL" "DocType does not exist"
           [("fix_suggestion", VStr "Create the DocType first, then run 'bench migrate'")])
  else
    meta <- ask (fun w => get_meta h w name) ;;
    let real_fields := filter (fun f => negb (is_break (fieldtype f))) (fields meta) in
    if is_empty real_fields then
      ret (verdict "DocType" name "FAIL"
             "DocType has no data fields (only section/column breaks)"
             [("fix_suggestion", VStr "Add at least one data field to the DocType")])
    else if is_empty (permissions meta) then
      let message := "DocType has no permissions — nobody can access it" in
      let suggestion := [("fix_suggestion", VStr "Add permission for System Manager role")] in
      if auto_fix then
        try_except
          (doc <- ask (fun w => get_doc h w "DocType" name) ;;
           save_and_commit (append_row doc "permissions" system_manager) ;;;
           ret (verdict "DocType" name "FIXED"
                  ("DocType exists with " ++ PyStr.of_Z (len real_fields) ++
                   " fields. Permissions were missing — auto-added.")
                  (suggestion ++ [("fix_applied", VStr "Added System Manager permission")])))
          (fun e =>
             ret (verdict "DocType" name "FAIL"
                    (message ++ ". Auto-fix failed: " ++ str_exn e) suggestion))
      else ret (verdict "DocType" name "FAIL" message suggestion)
    else if flag (custom meta) && negb (flag (istable meta)) && negb (flag (issingle meta)) then
      try_except
        (test_data <- for_each (fields meta) test_data_step [("doctype", VStr name)] ;;
         test_doc <- ask (fun w => new_doc h w test_data) ;;
         let test_doc := setattr test_doc "flags.ignore_permissions" (VBool true) in
         let test_doc := setattr test_doc "flags.ignore_mandatory" (VBool false) in
         doc_name <- do_write (EInsert test_doc) (fun w => insert h w test_doc) ;;
         ask (fun w => get_doc h w name doc_name) ;;;
         do_write (EDeleteDoc name doc_name) (fun w => delete_doc h w name doc_name) ;;;
         do_write ECommit (fun w => db_commit h w) ;;;
         ret (verdict "DocType" name "PASS"
                ("DocType OK — " ++ PyStr.of_Z (len real_fields) ++
                 " fields, CRUD test passed") []))
        (fun e =>
           let error_str := str_exn e in
           ret (verdict "DocType" name "FAIL"
                  ("DocType exists but CRUD failed: " ++ PyStr.take 200 error_str)
                  [("fix_suggestion", VStr (crud_suggestion error_str))]))
    else
      ret (verdict "DocType" name "PASS"
             ("DocType exists with " ++ PyStr.of_Z (len real_fields) ++ " fields, " ++
              PyStr.of_Z (len (permissions meta)) ++ " permissions" ++
              (if flag (istable meta) then " (child table)" else "") ++
              (if flag (issingle meta) then " (single)" else "")) []).

(** [_test_custom_field(self, name, auto_fix)] *)
Definition _test_custom_field (name : string) (auto_fix : bool) : M dict :=
  ex <- ask (fun w => db_exists h w "Custom Field" name) ;;
  if negb ex then
    ret (verdict "Custom Field" name "FAIL" "Custom Field does not exist"
           (if PyStr.contains "-" name then
              let '(dt, fn) := PyStr.split_once "-" name in
              [("fix_suggestion",
                VStr ("Check: DocType='" ++ dt ++ "', fieldname='" ++ fn ++ "'"))]
            else []))
  else
    cf <- ask (fun w => get_doc h w "Custom Field" name) ;;
    let dt := py_str (getattr cf "dt" VNone) in
    let fname := py_str (getattr cf "fieldname" VNone) in
    target <- ask (fun w => db_exists h w "DocType" dt) ;;
    if negb target then
      ret (verdict "Custom Field" name "FAIL"
             ("Target DocType '" ++ dt ++ "' does not exist") [])
    else
      meta <- ask (fun w => get_meta h w dt) ;;
      match get_field meta fname with
      | None =>
          ret (verdict "Custom Field" name "FAIL"
                 ("Field '" ++ fname ++ "' not found in " ++ dt ++ " meta (cache issue?)")
                 [("fix_suggestion", VStr "Try: bench clear-cache")])
      | Some _ =>
          ret (verdict "Custom Field" name "PASS"
                 ("Custom Field OK — '" ++ fname ++ "' (" ++
                  py_str (getattr cf "fieldtype" VNone) ++ ") on " ++ dt ++
                  (if truthy (getattr cf "hidden" VNone) then " [hidden]" else "")) [])
      end.

(** [_test_server_script(self, name, auto_fix)] *)
Definition _test_server_script (name : string) (auto_fix : bool) : M dict :=
  ex <- ask (fun w => db_exists h w "Server Script" name) ;;
  if negb ex then ret (verdict "Server Script" name "FAIL" "Server Script does not exist" [])
  else
    ss <- ask (fun w => get_doc h w "Server Script" name) ;;
    if truthy (getattr ss "disabled" VNone) then
      let suggestion := [("fix_suggestion", VStr "Enable it in Server Script settings")] in
      if auto_fix then
        save_and_commit (setattr ss "disabled" (VInt 0)) ;;;
        ret (verdict "Server Script" name "FIXED" "Server Script exists but is DISABLED"
               (suggestion ++ [("fix_applied", VStr "Enabled the script")]))
      else
        ret (verdict "Server Script" name "FAIL" "Server Script exists but is DISABLED"
               suggestion)
    else
      script <- as_str (or_value (getattr ss "script" VNone) (VStr "")) ;;
      if negb (PyStr.nonempty (PyStr.strip script)) then
        ret (verdict "Server Script" name "FAIL" "Server Script is empty" [])
      else
        match compile script with
        | CompiledOk =>
            let reference := getattr ss "reference_doctype" VNone in
            ret (verdict "Server Script" name "PASS"
                   ("Server Script OK — compiles clean, " ++
                    PyStr.of_Z (len (PyStr.split_lines script)) ++ " lines" ++
                    (if truthy reference then
                       ", triggers on " ++ py_str reference ++ " (" ++
                       py_str (or_value (getattr ss "doctype_event" VNone)
                                 (getattr ss "event_frequency" VNone)) ++ ")"
                     else "")) [])
        | SyntaxError lineno msg =>
            ret (verdict "Server Script" name "FAIL"
                   ("Syntax error at line " ++ PyStr.of_Z lineno ++ ": " ++ msg)
                   [("fix_suggestion",
                     VStr ("Fix syntax error at line " ++ PyStr.of_Z lineno ++
                           " in the script"))])
        | CompileFailure e => raise e
        end.

(** [_test_client_script(self, name, auto_fix)] *)
Definition _test_client_script (name : string) (auto_fix : bool) : M dict :=
  ex <- ask (fun w => db_exists h w "Client Script" name) ;;
  if negb ex then ret (verdict "Client Script" name "FAIL" "Client Script does not exist" [])
  else
    cs <- ask (fun w => get_doc h w "Client Script" name) ;;
    if negb (truthy (getattr cs "enabled" VNone)) then
      if auto_fix then
        save_and_commit (setattr cs "enabled" (VInt 1)) ;;;
        ret (verdict "Client Script" name "FIXED" "Client Script exists but is DISABLED"
               [("fix_applied", VStr "Enabled the script")])
      else ret (verdict "Client Script" name "FAIL" "Client Script exists but is DISABLED" [])
    else
      script <- as_str (or_value (getattr cs "script" VNone) (VStr "")) ;;
      if negb (PyStr.nonempty (PyStr.strip script)) then
        ret (verdict "Client Script" name "FAIL" "Client Script is empty" [])
      else
        let issues := js_issues script (getattr cs "script_type" VNone) in
        if negb (is_empty issues) then
          ret (verdict "Client Script" name "FAIL" ("JS issues: " ++ PyStr.join "; " issues)
                 [("fix_suggestion", VStr "Fix the JavaScript syntax issues")])
        else
          ret (verdict "Client Script" name "PASS"
                 ("Client Script OK — " ++ py_str (getattr cs "script_type" VNone) ++
                  " type, " ++ PyStr.of_Z (len (PyStr.split_lines script)) ++
                  " lines, for " ++ py_str (getattr cs "dt" VNone)) []).

(** [_test_workflow(self, name, auto_fix)] *)
Definition _test_workflow (name : string) (auto_fix : bool) : M dict :=
  ex <- ask (fun w => db_exists h w "Workflow" name) ;;
  if negb ex then ret (verdict "Workflow" name "FAIL" "Workflow does not exist" [])
  else
    wf <- ask (fun w => get_doc h w "Workflow" name) ;;
    if negb (truthy (getattr wf "is_active" VNone)) then
      if auto_fix then
        save_and_commit (setattr wf "is_active" (VInt 1)) ;;;
        ret (verdict "Workflow" name "FIXED" "Workflow exists but is INACTIVE"
               [("fix_applied", VStr "Activated the workflow")])
      else ret (verdict "Workflow" name "FAIL" "Workflow exists but is INACTIVE" [])
    else
      state_rows <- rows_of (getattr wf "states" VNone) ;;
      let states := map (fun s => attr s "state") state_rows in
      if is_empty states then
        ret (verdict "Workflow" name "FAIL" "Workflow has no states defined" [])
      else
        transitions <- rows_of (getattr wf "transitions" VNone) ;;
        let invalid := invalid_transitions states transitions in
        if negb (is_empty invalid) then
          ret (verdict "Workflow" name "FAIL"
                 ("Invalid transitions: " ++ PyStr.join "; " (take 3 invalid))
                 [("fix_suggestion",
                   VStr "Ensure all transition states exist in the states list")])
        else
          let document_type := py_str (getattr wf "document_type" VNone) in
          target <- ask (fun w => db_exists h w "DocType" document_type) ;;
          if negb target then
            ret (verdict "Workflow" name "FAIL"
                   ("Target DocType '" ++ document_type ++ "' does not exist") [])
          else
            ret (verdict "Workflow" name "PASS"
                   ("Workflow OK — " ++ PyStr.of_Z (len states) ++ " states, " ++
                    PyStr.of_Z (len transitions) ++ " transitions, for " ++
                    document_type) []).

(** [_test_report(self, name, auto_fix)] *)
Definition _test_report (name : string) (auto_fix : bool) : M dict :=
  ex <- ask (fun w => db_exists h w "Report" name) ;;
  if negb ex then ret (verdict "Report" name "FAIL" "Report does not exist" [])
  else
    report <- ask (fun w => get_doc h w "Report" name) ;;
    ret (verdict "Report" name "PASS"
           ("Report OK — type: " ++ py_str (getattr report "report_type" VNone) ++
            ", for " ++ py_str (getattr report "ref_doctype" VNone)) []).

(** [_test_notification(self, name, auto_fix)] *)
Definition _test_notification (name : string) (auto_fix : bool) : M dict :=
  ex <- ask (fun w => db_exists h w "Notification" name) ;;
  if negb ex then ret (verdict "Notification" name "FAIL" "Notification does not exist" [])
  else
    notif <- ask (fun w => get_doc h w "Notification" name) ;;
    if negb (truthy (getattr notif "enabled" VNone)) then
      if auto_fix then
        save_and_commit (setattr notif "enabled" (VInt 1)) ;;;
        ret (verdict "Notification" name "FIXED" "Notification exists but is DISABLED"
               [("fix_applied", VStr "Enabled the notification")])
      else ret (verdict "Notification" name "FAIL" "Notification exists but is DISABLED" [])
    else
      ret (verdict "Notification" name "PASS"
             ("Notification OK — event: " ++ py_str (getattr notif "event" VNone) ++
              ", channel: " ++ py_str (getattr notif "channel" VNone) ++
              ", for " ++ py_str (getattr notif "document_type" VNone)) []).

(** [_test_print_format(self, name, auto_fix)] *)
Definition _test_print_format (name : string) (auto_fix : bool) : M dict :=
  ex <- ask (fun w => db_exists h w "Print Format" name) ;;
  if negb ex then ret (verdict "Print Format" name "FAIL" "Print Format does not exist" [])
  else
    pf <- ask (fun w => get_doc h w "Print Format" name) ;;
    if truthy (getattr pf "disabled" VNone) then
      ret (verdict "Print Format" name "FAIL" "Print Format exists but is DISABLED" [])
    else
      ret (verdict "Print Format" name "PASS"
             ("Print Format OK — type: " ++
              py_str (or_value (getattr pf "print_format_type" VNone) (VStr "Standard")) ++
              ", for " ++ py_str (getattr pf "doc_type" VNone)) []).

(** [_test_property_setter(self, name, auto_fix)] *)
Definition _test_property_setter (name : string) (auto_fix : bool) : M dict :=
  ex <- ask (fun w => db_exists h w "Property Setter" name) ;;
  if negb ex then
    ret (verdict "Property Setter" name "FAIL" "Property Setter does not exist" [])
  else
    ps <- ask (fun w => get_doc h w "Property Setter" name) ;;
    shown <- (if truthy (getattr ps "value" VNone)
              then v <- as_str (getattr ps "value" VNone) ;; ret (PyStr.take 50 v)
              else ret "") ;;
    ret (verdict "Property Setter" name "PASS"
           ("Property Setter OK — " ++ py_str (getattr ps "doc_type" VNone) ++ "." ++
            py_str (getattr ps "field_name" VNone) ++ " → " ++
            py_str (getattr ps "property" VNone) ++ " = " ++ shown) []).

(** [testers.get(comp_type)] *)
Definition tester_of (comp_type : string) : option (string -> bool -> M dict) :=
  if String.eqb comp_type "DocType" then Some _test_doctype
  else if String.eqb comp_type "Custom Field" then Some _test_custom_field
  else if String.eqb comp_type "Server Script" then Some _test_server_script
  else if String.eqb comp_type "Client Script" then Some _test_client_script
  else if String.eqb comp_type "Workflow" then Some _test_workflow
  else if String.eqb comp_type "Report" then Some _test_report
  else if String.eqb comp_type "Notification" then Some _test_notification
  else if String.eqb comp_type "Print Format" then Some _test_print_format
  else if String.eqb comp_type "Property Setter" then Some _test_property_setter
  else None.

(** [_test_component(self, comp_type, comp_name, auto_fix)] *)
Definition _test_component (comp_type comp_name : string) (auto_fix : bool) : M dict :=
  match tester_of comp_type with
  | None =>
      ret (verdict comp_type comp_name "SKIP" ("Unknown component type: " ++ comp_type) [])
  | Some tester =>
      try_except (tester comp_name auto_fix)
        (fun e =>
           ret (verdict comp_type comp_name "FAIL" ("Test error: " ++ str_exn e)
                  [("fix_suggestion", VStr "Check if component exists and is accessible")]))
  end.

(** What the loop of [execute] keeps: the results and the three counters. *)
Record Tally : Type := mkTally {
  results : list dict;
  passed : Z;
  failed : Z;
  fixed : Z
}.

(** One round of [for comp in components]. *)
Definition tally_step (auto_fix : bool) (t : Tally) (comp : Component) : M Tally :=
  let comp_type := comp_type comp in
  let comp_name := comp_name comp in
  if negb (PyStr.nonempty comp_type) || negb (PyStr.nonempty comp_name) then
    ret (mkTally (results t ++ [verdict comp_type comp_name "SKIP" "Missing type or name" []])
           (passed t) (failed t) (fixed t))
  else
    test_result <- _test_component comp_type comp_name auto_fix ;;
    status <- index test_result "status" ;;
    let results := results t ++ [test_result] in
    if value_eqb status (VStr "PASS") then
      ret (mkTally results (passed t + 1) (failed t) (fixed t))
    else if value_eqb status (VStr "FIXED") then
      ret (mkTally results (passed t + 1) (failed t) (fixed t + 1))
    else ret (mkTally results (passed t) (failed t + 1) (fixed t)).

Definition icon_of (status : value) : string :=
  if value_eqb status (VStr "PASS") then "✅"
  else if value_eqb status (VStr "FAIL") then "❌"
  else if value_eqb status (VStr "FIXED") then "🔧"
  else if value_eqb status (VStr "SKIP") then "⏭️"
  else "❓".

(** One line of the verification log. *)
Definition log_line (r : dict) : M string :=
  status <- index r "status" ;;
  type <- index r "type" ;;
  name <- index r "name" ;;
  message <- index r "message" ;;
  let line :=
    (icon_of status ++ " " ++ py_str type ++ " [" ++ py_str name ++ "] — " ++
     py_str message)%string in
  let line :=
    if truthy (dict_get_or "fix_suggestion" VNone r)
    then (line ++ PyStr.nl ++ "   💡 Fix: " ++ py_str (dict_get_or "fix_suggestion" VNone r))%string
    else line in
  let line :=
    if truthy (dict_get_or "fix_applied" VNone r)
    then (line ++ PyStr.nl ++ "   🔧 Auto-fixed: " ++
          py_str (dict_get_or "fix_applied" VNone r))%string
    else line in
  ret line.

(** [execute(self, arguments)] *)
Definition execute (arguments : Arguments) : M dict :=
  let components := arg_components arguments in
  let auto_fix := match arg_auto_fix arguments with Some b => b | None => false end in
  if is_empty components then ret [("error", VStr "No components to verify")]
  else
    t <- for_each components (tally_step auto_fix) (mkTally [] 0 0 0) ;;
    let total := passed t + failed t in
    let summary :=
      [("total", VInt total);
       ("passed", VInt (passed t));
       ("failed", VInt (failed t));
       ("fixed", VInt (fixed t));
       ("status", VStr (if failed t =? 0 then "ALL PASS" else "SOME FAILED"));
       ("results", dicts (results t))] in
    lines <- for_each (results t)
               (fun lines r => line <- log_line r ;; ret (lines ++ [line])) [] ;;
    ret (dict_set "verification_log" (VStr (PyStr.join PyStr.nl lines)) summary).

End WithHost.

(** A result that carries the four keys every test sets. *)
Definition complete (r : dict) : Prop :=
  exists type name status message more, r = verdict type name status message more.

End VerifyBuild.

(* ================================================================== *)
(** ** Example sites *)
(* ================================================================== *)

(** Concrete hosts on which the tools are run in the examples below. *)
Module Sites.

Definition meta_with (fs : list DocField) : Meta := {|
  module := "Selling"; is_submittable := 0; istable := 0; issingle := 0;
  is_tree := 0; autoname := ""; naming_rule := ""; allow_auto_repeat := 0;
  title_field := ""; fields := fs; custom := 0; permissions := []; workflow := ""
|}.

Definition empty_meta : Meta := meta_with [].

(** An empty site: no DocType exists, every query comes back empty, every
    permission is granted and every write succeeds. *)
Definition empty_site : Host := {|
  db_exists := fun _ _ _ => Ok false;
  db_sql := fun _ _ _ => Ok [];
  db_get_value := fun _ _ _ _ => Ok None;
  db_count := fun _ _ => Ok 0;
  get_meta := fun _ _ => Ok empty_meta;
  get_all := fun _ _ _ => Ok [];
  has_permission := fun _ _ _ _ => Ok true;
  get_doc := fun _ dt n => Ok (mkDoc dt n []);
  new_doc := fun _ d =>
    Ok (mkDoc (py_str (dict_get_or "doctype" (VStr "") d))
              (py_str (dict_get_or "name" (VStr "") d)) d);
  insert := fun _ d => Ok (doc_name d);
  save := fun _ _ => Ok tt;
  delete_doc := fun _ _ _ => Ok tt;
  db_commit := fun _ => Ok tt;
  db_rollback := fun _ => Ok tt;
  clear_cache := fun _ _ => Ok tt;
  now_datetime := fun _ => Ok "2025-01-01 00:00:00";
  add_to_date := fun _ d _ => Ok d;
  get_installed_apps := fun _ => Ok ["frappe"];
  get_attr := fun _ _ => Ok (VStr "0.1.0");
  version := "15.0.0"
|}.

Definition with_db_exists (f : World -> string -> string -> res bool) (h : Host) : Host :=
  mkHost f (db_sql h) (db_get_value h) (db_count h) (get_meta h) (get_all h)
    (has_permission h) (get_doc h) (new_doc h) (insert h) (save h)
    (delete_doc h) (db_commit h) (db_rollback h) (clear_cache h)
    (now_datetime h) (add_to_date h) (get_installed_apps h) (get_attr h) (version h).

Definition with_get_meta (f : World -> string -> res Meta) (h : Host) : Host :=
  mkHost (db_exists h) (db_sql h) (db_get_value h) (db_count h) f (get_all h)
    (has_permission h) (get_doc h) (new_doc h) (insert h) (save h)
    (delete_doc h) (db_commit h) (db_rollback h) (clear_cache h)
    (now_datetime h) (add_to_date h) (get_installed_apps h) (get_attr h) (version h).

Definition with_get_all (f : World -> string -> Query -> res (list dict)) (h : Host) : Host :=
  mkHost (db_exists h) (db_sql h) (db_get_value h) (db_count h) (get_meta h) f
    (has_permission h) (get_doc h) (new_doc h) (insert h) (save h)
    (delete_doc h) (db_commit h) (db_rollback h) (clear_cache h)
    (now_datetime h) (add_to_date h) (get_installed_apps h) (get_attr h) (version h).

Definition with_db_sql (f : World -> string -> list string -> res (list dict)) (h : Host) : Host :=
  mkHost (db_exists h) f (db_get_value h) (db_count h) (get_meta h) (get_all h)
    (has_permission h) (get_doc h) (new_doc h) (insert h) (save h)
    (delete_doc h) (db_commit h) (db_rollback h) (clear_cache h)
    (now_datetime h) (add_to_date h) (get_installed_apps h) (get_attr h) (version h).

Definition with_get_doc (f : World -> string -> string -> res Doc) (h : Host) : Host :=
  mkHost (db_exists h) (db_sql h) (db_get_value h) (db_count h) (get_meta h) (get_all h)
    (has_permission h) f (new_doc h) (insert h) (save h)
    (delete_doc h) (db_commit h) (db_rollback h) (clear_cache h)
    (now_datetime h) (add_to_date h) (get_installed_apps h) (get_attr h) (version h).

Fixpoint strings_eqb (a b : list string) : bool :=
  match a, b with
  | [], [] => true
  | x :: r, y :: t => String.eqb x y && strings_eqb r t
  | _, _ => false
  end.

(** A field of the given type with the given options, everything else
    empty. *)
Definition field_of (name ft opts : string) : DocField :=
  {| fieldname := name; fieldtype := ft; label := ""; options := opts; reqd := 0;
     fetch_from := ""; read_only := 0; hidden := 0; fetch_if_empty := 0;
     description := ""; unique := 0; default := VNone; in_list_view := 0;
     depends_on := ""; mandatory_depends_on := "" |}.

(** A [Link] field named after its target. *)
Definition link_to (target : string) : DocField :=
  field_of (PyStr.lower target) "Link" target.

(** Four DocTypes: [A] links to [B] and to [C], [B] links to [D]. *)
Definition diamond_meta (doctype : string) : Meta :=
  if String.eqb doctype "A" then meta_with [link_to "B"; link_to "C"]
  else if String.eqb doctype "B" then meta_with [link_to "D"]
  else meta_with [].

Definition diamond_site : Host :=
  with_db_exists (fun _ dt n => Ok (String.eqb dt "DocType" && mem n ["A"; "B"; "C"; "D"]))
    (with_get_meta (fun _ dt => Ok (diamond_meta dt)) empty_site).

Definition diamond_arguments : MapRelationships.Arguments :=
  MapRelationships.mkArguments (Some "A") (Some 3) None.

(** What [map_relationships] returns for [A] at depth 3. *)
Definition diamond_result : MapRelationships.MapResult :=
  Eval vm_compute in
    match MapRelationships.execute diamond_site diamond_arguments [] with
    | (Ok r, _) => r
    | (Raise _, _) => MapRelationships.error_result ""
    end.

(** Two DocTypes that link to each other. *)
Definition cycle_meta (doctype : string) : Meta :=
  if String.eqb doctype "A" then meta_with [link_to "B"]
  else if String.eqb doctype "B" then meta_with [link_to "A"]
  else meta_with [].

Definition cycle_site : Host :=
  with_db_exists (fun _ dt n => Ok (String.eqb dt "DocType" && mem n ["A"; "B"]))
    (with_get_meta (fun _ dt => Ok (cycle_meta dt)) empty_site).

Definition cycle_arguments : MapRelationships.Arguments :=
  MapRelationships.mkArguments (Some "A") (Some 3) None.

Definition cycle_result : MapRelationships.MapResult :=
  Eval vm_compute in
    match MapRelationships.execute cycle_site cycle_arguments [] with
    | (Ok r, _) => r
    | (Raise _, _) => MapRelationships.error_result ""
    end.

(** [A] is linked to from [B]: the reverse-link query for [A] finds one
    row. *)
Definition reverse_site : Host :=
  with_db_sql
    (fun _ q p =>
       if String.eqb q MapRelationships.SQL_LINK_FIELDS && strings_eqb p ["A"; "A"] then
         Ok [[("parent", VStr "B"); ("fieldname", VStr "a");
              ("label", VNone); ("reqd", VInt 0)]]
       else Ok [])
    diamond_site.

(** The same host with one SQL query raising. *)
Definition failing_sql (q : string) (p : list string) (e : exn) (h : Host) : Host :=
  with_db_sql
    (fun w q' p' =>
       if String.eqb q' q && strings_eqb p' p then Raise e else db_sql h w q' p')
    h.

Definition reverse_site_failing : Host :=
  failing_sql MapRelationships.SQL_LINK_FIELDS ["A"; "A"]
    (Exn "OperationalError: server has gone away") reverse_site.

(** A site with one searchable DocType, [Customer], holding two records
    that every search finds. *)
Definition customer_site : Host :=
  with_db_exists (fun _ dt n => Ok (String.eqb dt "DocType" && String.eqb n "Customer"))
    (with_get_all
       (fun _ dt _ =>
          if String.eqb dt "Customer"
          then Ok [[("name", VStr "CUST-1")]; [("name", VStr "CUST-2")]]
          else Ok [])
       empty_site).

(** A site whose DocType list holds the names [A:B] and [A]: the record
    [C] of the first and the record [B:C] of the second get the same key. *)
Definition colon_site : Host :=
  with_db_exists (fun _ dt n => Ok (String.eqb dt "DocType" && mem n ["A:B"; "A"]))
    (with_get_all
       (fun _ dt _ =>
          if String.eqb dt "DocType" then Ok [[("name", VStr "A:B")]; [("name", VStr "A")]]
          else if String.eqb dt "A:B" then Ok [[("name", VStr "C")]]
          else if String.eqb dt "A" then Ok [[("name", VStr "B:C")]]
          else Ok [])
       empty_site).

(** A [float] that reads nothing as a number. *)
Definition no_float : string -> option Q := fun _ => None.

(** A site on which every document asked for exists, a script being
    enabled ([disabled = 0]). *)
Definition script_site : Host :=
  with_db_exists (fun _ _ _ => Ok true)
    (with_get_doc
       (fun _ dt n =>
          Ok (mkDoc dt n
                (if mem dt ["Client Script"; "Server Script"]
                 then [("disabled", VInt 0)] else [])))
       empty_site).

(** A site whose database is down: every existence check raises. *)
Definition down_site : Host :=
  with_db_exists (fun _ _ _ => Raise (Exn "OperationalError: connection lost")) empty_site.

(** A site whose [get_all] raises. *)
Definition broken_site : Host :=
  with_get_all (fun _ _ _ => Raise (Exn "OperationalError: connection lost")) empty_site.

(** A [traceback.format_exc] that prints the message only. *)
Definition no_traceback : exn -> string := str_exn.

(** A [compile] that accepts every script. *)
Definition no_compile : string -> Compiled := fun _ => CompiledOk.

(** A dry run of two steps: a note to create, and a step without data. *)
Definition dry_arguments : BuildBlueprint.Arguments :=
  BuildBlueprint.mkArguments
    [BuildBlueprint.mkStep "Note" [("title", VStr "Hello")] (Some "Create a note");
     BuildBlueprint.mkStep "Note" [] None]
    (Some "Notes") (Some true).

End Sites.

(* ================================================================== *)
(** ** What a run adds to the world *)
(* ================================================================== *)

(** A computation all of whose writes satisfy [P]: whatever the world
    and the outcome, the world afterwards is the one before, followed by
    events that satisfy [P]. *)
Definition writes_only {A} (P : Event -> Prop) (m : M A) : Prop :=
  forall w, exists added, snd (m w) = w ++ added /\ Forall P added.

Definition is_insert (ev : Event) : Prop :=
  match ev with EInsert _ => True | _ => False end.

Definition is_save (ev : Event) : Prop :=
  match ev with ESave _ => True | _ => False end.

Definition is_delete (ev : Event) : Prop :=
  match ev with EDeleteDoc _ _ => True | _ => False end.

Definition is_commit (ev : Event) : Prop :=
  match ev with ECommit => True | _ => False end.

Definition is_rollback (ev : Event) : Prop :=
  match ev with ERollback => True | _ => False end.

Definition is_clear_cache (ev : Event) : Prop :=
  match ev with EClearCache _ => True | _ => False end.

(** A computation whose outcome and final world are related to the world
    it starts in by [Q]. *)
Definition post {A} (Q : World -> res A -> World -> Prop) (m : M A) : Prop :=
  forall w, Q w (fst (m w)) (snd (m w)).

(** [success] in a result dictionary. *)
Definition success_is (b : bool) (out : dict) : Prop :=
  dict_get "success" out = Some (VBool b).

(** How a run of the validate test of [test_created_item] can end: nothing
    written; the test record inserted, deleted and committed, with success
    reported; or a rollback as the last write, with failure reported. *)
Definition validate_outcome (h : Host) (w : World) (r : res dict) (w' : World) : Prop :=
  w' = w \/
  (exists d n t,
      w' = w ++ [EInsert d; EDeleteDoc t n; ECommit] /\ insert h w d = Ok n /\
      exists out, r = Ok out /\ success_is true out) \/
  (exists added,
      w' = w ++ added ++ [ERollback] /\ forall out, r = Ok out -> success_is false out).

(* ================================================================== *)
(** ** More example sites *)
(* ================================================================== *)

(** A site on which another Custom Field fetches from the field asked
    about: the query of Custom Fields by [fetch_from] finds it, every other
    query comes back empty. *)
Definition fetching_site : Host :=
  Sites.with_get_all
    (fun _ dt q =>
       match q_filters q with
       | (key, _, _) :: _ =>
           if String.eqb dt "Custom Field" && String.eqb key "fetch_from"
           then Ok [[("dt", VStr "Sales Order"); ("fieldname", VStr "tier_copy")]]
           else Ok []
       | [] => Ok []
       end)
    Sites.empty_site.

(** A site on which every permission check fails with a database
    error. *)
Definition unpermitted_site : Host :=
  mkHost (db_exists Sites.empty_site) (db_sql Sites.empty_site)
    (db_get_value Sites.empty_site) (db_count Sites.empty_site)
    (get_meta Sites.empty_site) (get_all Sites.empty_site)
    (fun _ _ _ _ => Raise (Exn "OperationalError: connection lost"))
    (get_doc Sites.empty_site) (new_doc Sites.empty_site) (insert Sites.empty_site)
    (save Sites.empty_site) (delete_doc Sites.empty_site) (db_commit Sites.empty_site)
    (db_rollback Sites.empty_site) (clear_cache Sites.empty_site)
    (now_datetime Sites.empty_site) (add_to_date Sites.empty_site)
    (get_installed_apps Sites.empty_site) (get_attr Sites.empty_site)
    (version Sites.empty_site).

(** A DocType with a visible text field, a hidden one and a visible amount. *)
Definition customer_meta : Meta :=
  Sites.meta_with
    [Sites.field_of "customer_name" "Data" "";
     {| fieldname := "tax_id"; fieldtype := "Data"; label := ""; options := ""; reqd := 0;
        fetch_from := ""; read_only := 0; hidden := 1; fetch_if_empty := 0;
        description := ""; unique := 0; default := VNone; in_list_view := 0;
        depends_on := ""; mandatory_depends_on := "" |};
     Sites.field_of "credit_limit" "Currency" ""].

(** A DocType with a link to its customer and the standard [owner]
    link. *)
Definition order_meta : Meta :=
  Sites.meta_with [Sites.field_of "customer" "Link" "Customer";
                   Sites.field_of "owner" "Link" "User"].

(* ================================================================== *)
(** ** Measures on the data of [monitor_errors] *)
(* ================================================================== *)

(** The sum of the counts of the groups. *)
Definition total_count (groups : list (string * MonitorErrors.Group)) : Z :=
  fold_right (fun kg acc => MonitorErrors.g_count (snd kg) + acc) 0 groups.

(** The [count] a pattern carries. *)
Definition pattern_count (pattern : dict) : Z :=
  match dict_get "count" pattern with Some (VInt z) => z | _ => 0 end.

(** The state of the loop over the errors after [seen] rounds. *)
Definition grouped (seen : Z) (st : list (string * MonitorErrors.Group) * list dict) : Prop :=
  total_count (fst st) = seen /\
  len (snd st) = seen /\
  NoDup (map fst (fst st)) /\
  Forall (fun kg => 1 <= MonitorErrors.g_count (snd kg) /\ (String.length (fst kg) <= 200)%nat) (fst st).

(** Three errors, two of them with the same last line. *)
Definition three_errors : list dict :=
  [[("name", VStr "E1"); ("method", VStr "submit");
    ("error", VStr "Traceback
ValueError: bad date"); ("creation", VStr "2025-01-01 10:00:00")];
   [("name", VStr "E2"); ("method", VStr "save");
    ("error", VStr "PermissionError: not permitted"); ("creation", VStr "2025-01-01 09:00:00")];
   [("name", VStr "E3"); ("method", VStr "submit");
    ("error", VStr "ValueError: bad date"); ("creation", VStr "2025-01-01 08:00:00")]].

(** Two groups, the second the more frequent. *)
Definition two_groups : list (string * MonitorErrors.Group) :=
  [("PermissionError: not permitted",
    MonitorErrors.mkGroup 1 [VStr "save"] "2025-01-01 09:00:00" "2025-01-01 09:00:00");
   ("ValueError: bad date",
    MonitorErrors.mkGroup 4 [VStr "submit"] "2025-01-01 10:00:00" "2025-01-01 10:00:00")].

(* ================================================================== *)
(** ** Measures on the results of [universal_search] *)
(* ================================================================== *)

(** A list of results every one of which carries the DocType it was
    found in, that DocType being one of [searched]. *)
Definition tagged (results : list dict) (searched : list string) : Prop :=
  forall r, In r results ->
    exists dt, In dt searched /\ dict_get "doctype" r = Some (VStr dt).

(* ================================================================== *)
(** ** Measures on the fields of [field_explorer] *)
(* ================================================================== *)

(** A field [_explore_all_fields] lists: not a break and not hidden. *)
Definition listed (f : DocField) : bool :=
  negb (FieldExplorer.is_break (fieldtype f)) && negb (flag (hidden f)).

(* ================================================================== *)
(** ** Measures on the links of [introspect_system] *)
(* ================================================================== *)

(** The DocType an entry of [linked_from] names. *)
Definition linking_doctype (r : dict) : value := dict_get_or "doctype" VNone r.

(** The parent of a row of the incoming-links query. *)
Definition parent_of (link : dict) : value := dict_get_or "parent" (VStr "") link.

(** Three rows: two fields of [Sales Order] and one of [Customer]
    itself. *)
Definition customer_links : list dict :=
  [[("parent", VStr "Sales Order"); ("fieldname", VStr "customer")];
   [("parent", VStr "Customer"); ("fieldname", VStr "parent_customer")];
   [("parent", VStr "Sales Order"); ("fieldname", VStr "billing_customer")]].

(* ================================================================== *)
(** ** Measures on the log of [build_blueprint] *)
(* ================================================================== *)

(** The number of log entries with the given status. *)
Definition count_status (status : string) (log : list dict) : nat :=
  List.length (filter (fun e => value_eqb (BuildBlueprint.status_of e) (VStr status)) log).

Definition run_status (e : dict) : Prop :=
  BuildBlueprint.status_of e = VStr "SUCCESS" \/
  BuildBlueprint.status_of e = VStr "FAILED" \/
  BuildBlueprint.status_of e = VStr "SKIPPED".

(** The state of the loop of a real run after [n] steps. *)
Definition built (n : nat) (p : BuildBlueprint.Progress) : Prop :=
  List.length (BuildBlueprint.build_log p) = n /\
  Forall run_status (BuildBlueprint.build_log p) /\
  List.length (BuildBlueprint.created p) = count_status "SUCCESS" (BuildBlueprint.build_log p) /\
  List.length (BuildBlueprint.failed p) = count_status "FAILED" (BuildBlueprint.build_log p).

Definition build_event (ev : Event) : Prop :=
  is_insert ev \/ is_commit ev \/ is_clear_cache ev.

(** Three steps: a note that the host accepts, a step without data, and
    a DocType the host refuses to insert. *)
Definition three_steps : BuildBlueprint.Arguments :=
  BuildBlueprint.mkArguments
    [BuildBlueprint.mkStep "Note" [("title", VStr "Hello")] (Some "Create a note");
     BuildBlueprint.mkStep "Note" [] None;
     BuildBlueprint.mkStep "DocType" [("name", VStr "Ticket")] (Some "Create Ticket")]
    (Some "Helpdesk") None.

(** A site that refuses to insert a DocType. *)
Definition picky_site : Host :=
  mkHost (db_exists Sites.empty_site) (db_sql Sites.empty_site)
    (db_get_value Sites.empty_site) (db_count Sites.empty_site)
    (get_meta Sites.empty_site) (get_all Sites.empty_site)
    (has_permission Sites.empty_site)
    (get_doc Sites.empty_site) (new_doc Sites.empty_site)
    (fun _ d => if String.eqb (doc_doctype d) "DocType"
                then Raise (Exn "ValidationError: no fields")
                else Ok (doc_name d))
    (save Sites.empty_site) (delete_doc Sites.empty_site) (db_commit Sites.empty_site)
    (db_rollback Sites.empty_site) (clear_cache Sites.empty_site)
    (now_datetime Sites.empty_site) (add_to_date Sites.empty_site)
    (get_installed_apps Sites.empty_site) (get_attr Sites.empty_site)
    (version Sites.empty_site).

(* ================================================================== *)
(** ** Measures on the tally of [verify_build] *)
(* ================================================================== *)

(** A component [execute] hands to a test: it has a type and a name. *)
Definition testable (c : VerifyBuild.Component) : bool :=
  PyStr.nonempty (VerifyBuild.comp_type c) && PyStr.nonempty (VerifyBuild.comp_name c).

(** The state of the loop of [execute] after the components [seen]. *)
Definition tallied (seen : list VerifyBuild.Component) (t : VerifyBuild.Tally) : Prop :=
  List.length (VerifyBuild.results t) = List.length seen /\
  Forall VerifyBuild.complete (VerifyBuild.results t) /\
  VerifyBuild.passed t + VerifyBuild.failed t = len (filter testable seen) /\
  0 <= VerifyBuild.fixed t <= VerifyBuild.passed t /\
  0 <= VerifyBuild.failed t.

(** A report, a component without a name and a component of the unknown
    type [Dashboard]. *)
Definition mixed_components : VerifyBuild.Arguments :=
  VerifyBuild.mkArguments
    [VerifyBuild.mkComponent "Report" "Sales";
     VerifyBuild.mkComponent "Report" "";
     VerifyBuild.mkComponent "Dashboard" "Main"] None.

(** What a test of [verify_build] may write: a save and its commit when
    [auto_fix] is on; the insert, delete and commit of the CRUD test when the
    component is a DocType. *)
Definition verify_event (auto_fix doctype_test : bool) (ev : Event) : Prop :=
  (auto_fix = true /\ (is_save ev \/ is_commit ev)) \/
  (doctype_test = true /\ (is_insert ev \/ is_delete ev \/ is_commit ev)).

(** Two script components. *)
Definition script_components : VerifyBuild.Arguments :=
  VerifyBuild.mkArguments
    [VerifyBuild.mkComponent "Server Script" "Notify";
     VerifyBuild.mkComponent "Report" "Sales"] None.

(** A test that returns a result of status FAIL. *)
Definition fails (r : res dict) : Prop :=
  exists out, r = Ok out /\ dict_get "status" out = Some (VStr "FAIL").

(** How the test of a DocType without [auto_fix] can end: nothing
    written; the test record inserted (or its insert attempted) and nothing
    more, with FAIL; the record inserted and its deletion attempted, with
    FAIL; or the record inserted, deleted and the commit attempted. *)
Definition crud_outcome (h : Host) (name : string) (w : World) (r : res dict)
    (w' : World) : Prop :=
  w' = w \/
  (exists d, w' = w ++ [EInsert d] /\ fails r) \/
  (exists d n, insert h w d = Ok n /\ w' = w ++ [EInsert d; EDeleteDoc name n] /\ fails r) \/
  (exists d n, insert h w d = Ok n /\
               w' = w ++ [EInsert d; EDeleteDoc name n; ECommit] /\
               exists out, r = Ok out /\
                 (dict_get "status" out = Some (VStr "FAIL") \/
                  (dict_get "status" out = Some (VStr "PASS") /\
                   delete_doc h (w ++ [EInsert d]) name n = Ok tt /\
                   db_commit h (w ++ [EInsert d; EDeleteDoc name n]) = Ok tt))).

(** How a test of [verify_build] that reports FIXED has run: [auto_fix]
    is on, and the run wrote one save and one commit, both answered. *)
Definition fix_outcome (h : Host) (auto_fix : bool) (w : World) (r : res dict)
    (w' : World) : Prop :=
  forall out, r = Ok out -> dict_get "status" out = Some (VStr "FIXED") ->
    auto_fix = true /\
    exists doc, w' = w ++ [ESave doc; ECommit] /\
                save h w doc = Ok tt /\ db_commit h (w ++ [ESave doc]) = Ok tt.

(** A computation none of whose results has the status FIXED. *)
Definition never_fixed {A} (status : A -> option value) (m : M A) : Prop :=
  forall w a, fst (m w) = Ok a -> status a <> Some (VStr "FIXED").

(* ================================================================== *)
(** ** compat.py *)
(* ================================================================== *)

Module Compat.

(** [s.split(c)] for a one-character [c]: always at least one piece. *)
Fixpoint split_char (c : ascii) (s : string) : list string :=
  match s with
  | EmptyString => [EmptyString]
  | String x r =>
      if Ascii.eqb x c then EmptyString :: split_char c r
      else match split_char c r with
           | [] => [String x EmptyString]
           | p :: ps => String x p :: ps
           end
  end.

Section WithHost.
Variable h : Host.

(** Python's [int(s)]: the number read, [None] where it raises
    [ValueError]. *)
Variable int : string -> option Z.

(** [get_frappe_major()] *)
Definition get_frappe_major : Z :=
  match int (hd "" (split_char "." (version h))) with
  | Some major => major
  | None => 14
  end.

(** [is_v14()] *)
Definition is_v14 : bool := get_frappe_major =? 14.

(** [is_v15_plus()] *)
Definition is_v15_plus : bool := get_frappe_major >=? 15.

(** [has_doctype(doctype)] *)
Definition has_doctype (doctype : string) : M bool :=
  try_except
    (ex <- ask (fun w => db_exists h w "DocType" doctype) ;; ret ex)
    (fun _ => ret false).

End WithHost.

End Compat.

(* ================================================================== *)
(** ** install.py: [after_install] *)
(* ================================================================== *)

Module AfterInstall.

(** [s.rsplit(c, 1)] for a one-character [c]: what stands before the last
    occurrence of [c] and what stands after it, [None] when [c] does not
    occur (the list then has one element only). *)
Fixpoint rsplit_once (c : ascii) (s : string) : option (string * string) :=
  match s with
  | EmptyString => None
  | String x r =>
      match rsplit_once c r with
      | Some (a, b) => Some (String x a, b)
      | None => if Ascii.eqb x c then Some (EmptyString, r) else None
      end
  end.

(** The calls [after_install] makes to the log: [frappe.log_error(message,
    title)] and [frappe.logger().info(message)]. *)
Inductive Logged : Type :=
| LogError (message title : string)
| LoggerInfo (message : string).

Definition TITLE : string := "niv_tools install validation".

Definition COMPLETE : string := "niv_tools after_install validation complete".

Section WithHost.
Variable h : Host.

(** [importlib.import_module(module_path)]: the attributes of the module,
    or the exception of the import. *)
Variable import_module : string -> res (string -> option value).

(** [frappe.log_error] and [frappe.logger().info] *)
Variable log_error : string -> string -> res unit.
Variable logger_info : string -> res unit.

(** [_import_string(path)] *)
Definition _import_string (path : string) : res value :=
  match rsplit_once "." path with
  | None => Raise (Exn "not enough values to unpack (expected 2, got 1)")
  | Some (module_path, class_name) =>
      match import_module module_path with
      | Raise e => Raise e
      | Ok module =>
          match module class_name with
          | Some cls => Ok cls
          | None =>
              Raise (Exn ("module '" ++ module_path ++ "' has no attribute '" ++
                          class_name ++ "'"))
          end
      end
  end.

(** The entries of [bad_tools]. *)
Definition bad_tools_of (paths : list string) : list string :=
  flat_map (fun path =>
              match _import_string path with
              | Ok _ => []
              | Raise e => [(path ++ " -> " ++ str_exn e)%string]
              end) paths.

(** The message [after_install] logs. *)
Definition message_of (missing bad_tools : list string) : string :=
  PyStr.join (PyStr.nl ++ PyStr.nl)
    ((if negb (is_empty missing)
      then [("Missing apps: " ++ PyStr.join ", " missing)%string] else []) ++
     (if negb (is_empty bad_tools)
      then [("Tool import errors:" ++ PyStr.nl ++ "- " ++
             PyStr.join (PyStr.nl ++ "- ") bad_tools)%string]
      else [])).

(** [after_install()]: its outcome and the calls it made to the log, in
    order. *)
Definition after_install (w : World) : res unit * list Logged :=
  match db_exists h w "Installed Application" "frappe_assistant_core" with
  | Raise e => (Raise e, [])
  | Ok ex =>
      let missing := if negb ex then ["frappe_assistant_core"] else [] in
      let bad_tools := bad_tools_of Install.TOOL_PATHS in
      let '(logged_error, calls) :=
        if negb (is_empty missing) || negb (is_empty bad_tools) then
          (log_error (message_of missing bad_tools) TITLE,
           [LogError (message_of missing bad_tools) TITLE])
        else (Ok tt, []) in
      match logged_error with
      | Raise e => (Raise e, calls)
      | Ok _ => (logger_info COMPLETE, calls ++ [LoggerInfo COMPLETE])
      end
  end.

End WithHost.

End AfterInstall.

(* ================================================================== *)
(** ** More example data *)
(* ================================================================== *)

(** An [int] that reads no string as a number. *)
Definition no_int : string -> option Z := fun _ => None.

(** An importer that knows one module with one class. *)
Definition one_module : string -> res (string -> option value) :=
  fun module_path =>
    if String.eqb module_path "niv_tools.tools.verify_build"
    then Ok (fun name => if String.eqb name "VerifyBuild" then Some (VStr "class") else None)
    else Raise (Exn ("No module named '" ++ module_path ++ "'")).

(** An importer that knows no module, and a log that always answers. *)
Definition no_module : string -> res (string -> option value) :=
  fun module_path => Raise (Exn ("No module named '" ++ module_path ++ "'")).

Definition quiet_log_error : string -> string -> res unit := fun _ _ => Ok tt.

Definition quiet_logger_info : string -> res unit := fun _ => Ok tt.

(* ================================================================== *)
(** * Theorems *)
(* ================================================================== *)

Unset Implicit Arguments.

(** ** The monad *)

Lemma bind_inv {A B} (m : M A) (k : A -> M B) (w w' : World) (b : B) :
  bind m k w = (Ok b, w') ->
  exists a w1, m w = (Ok a, w1) /\ k a w1 = (Ok b, w').
Proof.
  unfold bind. destruct (m w) as [[a | e] w1]; intros H.
  - now exists a, w1.
  - discriminate.
Qed.

Lemma bind_ext {A B} (m : M A) (k1 k2 : A -> M B) (w : World) :
  (forall a w1, k1 a w1 = k2 a w1) -> bind m k1 w = bind m k2 w.
Proof.
  intros H. unfold bind. destruct (m w) as [[a | e] w1]; [apply H | reflexivity].
Qed.

Lemma bind_cong {A B} (m1 m2 : M A) (k1 k2 : A -> M B) (w : World) :
  m1 w = m2 w -> (forall a w1, k1 a w1 = k2 a w1) -> bind m1 k1 w = bind m2 k2 w.
Proof.
  intros Hm H. unfold bind. rewrite Hm.
  destruct (m2 w) as [[a | e] w1]; [apply H | reflexivity].
Qed.

Lemma for_each_ext {A S} (l : list A) (f g : S -> A -> M S) :
  (forall s a w, In a l -> f s a w = g s a w) ->
  forall s w, for_each l f s w = for_each l g s w.
Proof.
  induction l as [| x r IH]; intros H s w; simpl; [reflexivity |].
  unfold bind. rewrite (H s x w) by now left.
  destruct (g s x w) as [[s' | e] w1]; [| reflexivity].
  apply IH. intros. apply H. now right.
Qed.

Lemma read_only_ret {A} (a : A) : read_only_run (ret a).
Proof. intros w. reflexivity. Qed.

Lemma read_only_raise {A} (e : exn) : read_only_run (@raise A e).
Proof. intros w. reflexivity. Qed.

Lemma read_only_query {A} (f : World -> res A) : read_only_run (ask f).
Proof. intros w. reflexivity. Qed.

Lemma read_only_bind {A B} (m : M A) (k : A -> M B) :
  read_only_run m -> (forall a, read_only_run (k a)) -> read_only_run (bind m k).
Proof.
  intros Hm Hk w. unfold bind. specialize (Hm w).
  destruct (m w) as [[a | e] w1]; simpl in Hm; subst w1; [apply Hk | reflexivity].
Qed.

Lemma read_only_try {A} (body : M A) (handler : exn -> M A) :
  read_only_run body -> (forall e, read_only_run (handler e)) ->
  read_only_run (try_except body handler).
Proof.
  intros Hb Hh w. unfold try_except. specialize (Hb w).
  destruct (body w) as [[a | e] w1]; simpl in Hb; subst w1; [reflexivity | apply Hh].
Qed.

Lemma read_only_for_each {A S} (l : list A) (step : S -> A -> M S) :
  (forall s a, read_only_run (step s a)) ->
  forall s, read_only_run (for_each l step s).
Proof.
  intros H. induction l as [| x r IH]; intros s; simpl.
  - apply read_only_ret.
  - apply read_only_bind; [apply H | apply IH].
Qed.

Create HintDb ro.
#[local] Hint Resolve read_only_ret read_only_raise read_only_query : ro.

Lemma returns_ret {A} (a : A) : returns (ret a).
Proof. intros w. now exists a. Qed.

Lemma returns_bind {A B} (m : M A) (k : A -> M B) :
  returns m -> (forall a, returns (k a)) -> returns (bind m k).
Proof.
  intros Hm Hk w. unfold bind. destruct (Hm w) as [a Ha].
  destruct (m w) as [[a' | e] w1]; simpl in Ha; [| discriminate].
  apply Hk.
Qed.

Lemma returns_try {A} (body : M A) (handler : exn -> M A) :
  (forall e, returns (handler e)) -> returns (try_except body handler).
Proof.
  intros Hh w. unfold try_except.
  destruct (body w) as [[a | e] w1]; [now exists a | apply Hh].
Qed.

Lemma returns_for_each {A S} (l : list A) (step : S -> A -> M S) :
  (forall s a, In a l -> returns (step s a)) ->
  forall s, returns (for_each l step s).
Proof.
  induction l as [| x r IH]; intros H s; simpl.
  - apply returns_ret.
  - apply returns_bind; [apply H; now left |].
    intros s'. apply IH. intros. apply H. now right.
Qed.

(** ** Dictionaries *)

Lemma dict_get_set (k k' : string) (v : value) (d : dict) :
  dict_get k (dict_set k' v d) = if String.eqb k k' then Some v else dict_get k d.
Proof.
  induction d as [| [k0 v0] r IH]; simpl.
  - reflexivity.
  - destruct (String.eqb k' k0) eqn:E0; simpl.
    + apply String.eqb_eq in E0. subst k0.
      destruct (String.eqb k k'); reflexivity.
    + rewrite IH. destruct (String.eqb k k0) eqn:E1; [| reflexivity].
      apply String.eqb_eq in E1. subst k0.
      rewrite String.eqb_sym, E0. reflexivity.
Qed.

(** ** Membership *)

Lemma mem_In (s : string) (l : list string) : mem s l = true <-> In s l.
Proof.
  unfold mem. rewrite existsb_exists. split.
  - intros [x [Hin Heq]]. apply String.eqb_eq in Heq. now subst.
  - intros Hin. exists s. split; [assumption | apply String.eqb_refl].
Qed.

Lemma mem_false_In (s : string) (l : list string) : mem s l = false <-> ~ In s l.
Proof.
  rewrite <- mem_In. destruct (mem s l); split; intros H; congruence.
Qed.

Lemma dict_get_set_if (k k' : string) (c : bool) (v : value) (d : dict) :
  dict_get k (MapRelationships.set_if c k' v d) =
  if c && String.eqb k k' then Some v else dict_get k d.
Proof.
  unfold MapRelationships.set_if. destruct c; [apply dict_get_set | reflexivity].
Qed.

Lemma bind_step {A B} (m : M A) (k : A -> M B) (w w1 : World) (a : A) :
  m w = (Ok a, w1) -> bind m k w = k a w1.
Proof. intros H. unfold bind. rewrite H. reflexivity. Qed.

Lemma read_only_result {A} (m : M A) (w w' : World) (x : res A) :
  read_only_run m -> m w = (x, w') -> w' = w.
Proof. intros H E. specialize (H w). rewrite E in H. exact H. Qed.

(** ** Registration of the tools *)

(** C5 (as the code has it): the repository defines nine tool classes and
    [install.py] lists all nine, but the hooks list registers only seven of
    them: [BuildBlueprint] and [VerifyBuild] are tool classes that the hooks
    list lacks, so the host never discovers them. *)
Theorem C5_hooks_miss_two_tools :
  List.length tool_classes = 9%nat /\
  NoDup tool_classes /\
  (forall p, In p tool_classes <-> In p Install.TOOL_PATHS) /\
  List.length Hooks.assistant_tools = 7%nat /\
  (forall p, In p Hooks.assistant_tools -> In p tool_classes) /\
  filter (fun p => negb (mem p Hooks.assistant_tools)) tool_classes =
    ["niv_tools.tools.build_blueprint.BuildBlueprint";
     "niv_tools.tools.verify_build.VerifyBuild"].
Proof.
  assert (Hdec : forall l1 l2 : list string,
            forallb (fun p => mem p l2) l1 = true ->
            forall p, In p l1 -> In p l2).
  { intros l1 l2 H p Hp. rewrite forallb_forall in H.
    apply mem_In. now apply H. }
  repeat split.
  - repeat constructor; simpl; intuition discriminate.
  - now apply Hdec.
  - now apply Hdec.
  - now apply Hdec.
Qed.

(** ** Static tables: dummy values and suggestions *)

Import TestCreatedItem MonitorErrors.

Lemma try_except_total {A} (body : M A) (handler : exn -> M A) (w : World) :
  (forall e w', exists a w'', handler e w' = (Ok a, w'')) ->
  exists a w', try_except body handler w = (Ok a, w').
Proof.
  intros Hh. unfold try_except.
  destruct (body w) as [[a | e] w'].
  - now exists a, w'.
  - apply Hh.
Qed.

Lemma suggest_fix_is_table_lookup (line : string) :
  _suggest_fix line = table_lookup suggestion_table (PyStr.lower line).
Proof.
  unfold _suggest_fix, suggestion_table, table_lookup, default_suggestion, existsb.
  rewrite !orb_false_r. reflexivity.
Qed.

Lemma select_dummy_value (h : Host) (field : DocField) (w : World) :
  fieldtype field = "Select" ->
  _get_dummy_value h field w = (Ok (VStr (hd "" (select_options field))), w).
Proof.
  intros E. unfold _get_dummy_value. rewrite E. simpl.
  destruct (select_options field); reflexivity.
Qed.

Lemma link_dummy_value (h : Host) (field : DocField) (w : World) :
  fieldtype field = "Link" ->
  _get_dummy_value h field w = first_linked_record h field w.
Proof.
  intros E. unfold _get_dummy_value. rewrite E. reflexivity.
Qed.

Lemma first_linked_record_total (h : Host) (field : DocField) (w : World) :
  exists v, first_linked_record h field w = (Ok v, w).
Proof.
  unfold first_linked_record, try_except, bind, ask, ret.
  destruct (PyStr.nonempty (options field)); [| now eexists].
  destruct (db_exists h w "DocType" (options field)) as [[|] | e]; try now eexists.
  destruct (get_all h w (options field) _) as [[| row rows] | e]; now eexists.
Qed.

Ltac split_eqb ft :=
  repeat match goal with
  | |- context [String.eqb ft ?k] =>
      let E := fresh "E" in
      destruct (String.eqb ft k) eqn:E;
      [apply String.eqb_eq in E; subst ft; try reflexivity; try discriminate |]
  end.

Lemma other_dummy_value (h : Host) (field : DocField) (w : World) :
  fieldtype field <> "Select" -> fieldtype field <> "Link" ->
  _get_dummy_value h field w = (Ok (dummy_lookup (fieldtype field)), w).
Proof.
  intros Hs Hl. unfold _get_dummy_value, dummy_lookup, dict_get_or, dummy_table, dict_get, mem, existsb.
  generalize dependent (fieldtype field). intros ft Hs Hl.
  split_eqb ft; try contradiction.
  reflexivity.
Qed.

(** C6 (counterexample): two fields of the same field type, [Select], get
    different dummy values, so the result is not determined by the field
    type alone. *)
Lemma C6_select_depends_on_options :
  fieldtype (Sites.field_of "status" "Select" "Open") =
  fieldtype (Sites.field_of "state" "Select" "Closed") /\
  _get_dummy_value Sites.empty_site (Sites.field_of "status" "Select" "Open") [] =
    (Ok (VStr "Open"), []) /\
  _get_dummy_value Sites.empty_site (Sites.field_of "state" "Select" "Closed") [] =
    (Ok (VStr "Closed"), []) /\
  ~ (forall (h : Host) (w : World) (f1 f2 : DocField),
       fieldtype f1 = fieldtype f2 ->
       fst (_get_dummy_value h f1 w) = fst (_get_dummy_value h f2 w)).
Proof.
  repeat split; try reflexivity.
  intros H.
  specialize (H Sites.empty_site [] (Sites.field_of "status" "Select" "Open")
                (Sites.field_of "state" "Select" "Closed") eq_refl).
  discriminate H.
Qed.

Lemma first_linked_record_value (h : Host) (field : DocField) (w : World) :
  first_linked_record h field w =
    (Ok (if PyStr.nonempty (options field) then
           match db_exists h w "DocType" (options field) with
           | Ok true =>
               match get_all h w (options field)
                       (mkQuery [] [] [] "" (Some 1) "name") with
               | Ok (row :: _) => attr row "name"
               | _ => VNone
               end
           | _ => VNone
           end
         else VNone), w).
Proof.
  unfold first_linked_record, try_except, bind, ask, ret.
  destruct (PyStr.nonempty (options field)); [| reflexivity].
  destruct (db_exists h w "DocType" (options field)) as [[|] | e]; try reflexivity.
  destruct (get_all h w (options field) _) as [[| row rows] | e]; reflexivity.
Qed.

(** C6 (amended): for every field whose type is neither [Select] nor
    [Link], [_get_dummy_value] is the static table looked up at the field
    type, the host not consulted; for [Select] it is the first non-blank
    option of the field, stripped, or the empty string; for [Link] it is the
    name of the first record the host lists for the linked DocType, when the
    field names one and that DocType exists, and [None] in every other case
    (no linked DocType, the DocType missing, no record, or a lookup that
    raises), never an exception, the world left as it was.  For every
    error line [_suggest_fix] is the static keyword table looked up, top to
    bottom, at the lower-cased line. *)
Theorem C6_static_tables (h : Host) (field : DocField) (w : World) (line : string) :
  (if String.eqb (fieldtype field) "Select" then
     _get_dummy_value h field w = (Ok (VStr (hd "" (select_options field))), w)
   else if String.eqb (fieldtype field) "Link" then
     _get_dummy_value h field w =
       (Ok (if PyStr.nonempty (options field) then
              match db_exists h w "DocType" (options field) with
              | Ok true =>
                  match get_all h w (options field)
                          (mkQuery [] [] [] "" (Some 1) "name") with
                  | Ok (row :: _) => attr row "name"
                  | _ => VNone
                  end
              | _ => VNone
              end
            else VNone), w)
   else
     _get_dummy_value h field w = (Ok (dummy_lookup (fieldtype field)), w)) /\
  _suggest_fix line = table_lookup suggestion_table (PyStr.lower line).
Proof.
  split; [| apply suggest_fix_is_table_lookup].
  destruct (String.eqb (fieldtype field) "Select") eqn:Es.
  - apply String.eqb_eq in Es. now apply select_dummy_value.
  - destruct (String.eqb (fieldtype field) "Link") eqn:El.
    + apply String.eqb_eq in El. rewrite link_dummy_value by assumption.
      apply first_linked_record_value.
    + apply String.eqb_neq in Es, El. now apply other_dummy_value.
Qed.

(** ** The relationship walker *)

Import MapRelationships.

(** *** The lookups only read *)

Lemma child_tables_read_only (h : Host) (meta : Meta) :
  read_only_run (child_tables_of h meta).
Proof.
  apply read_only_for_each. intros s f. unfold child_table_step.
  destruct (_ && _); [| apply read_only_ret].
  apply read_only_bind; [apply read_only_query | intros; apply read_only_ret].
Qed.

Lemma links_from_read_only (h : Host) (doctype : string) :
  read_only_run (links_from_of h doctype).
Proof.
  intros w. unfold links_from_of.
  destruct (db_sql h w SQL_LINK_FIELDS _) as [rows | e]; [| reflexivity].
  destruct (scan_link_fields rows []) as [acc [|]]; [| reflexivity].
  destruct (db_sql h w SQL_CUSTOM_LINKS _); reflexivity.
Qed.

Lemma workflow_read_only (h : Host) (doctype : string) :
  read_only_run (workflow_of h doctype).
Proof.
  apply read_only_try; [| intros; apply read_only_ret].
  apply read_only_bind; [apply read_only_query |].
  intros [wf |]; [| apply read_only_ret].
  destruct (truthy (VDict wf)); [| apply read_only_ret].
  apply read_only_bind; [apply read_only_query | intros states].
  apply read_only_bind; [apply read_only_query | intros; apply read_only_ret].
Qed.

Lemma rows_or_nothing_read_only (h : Host) (dt : string) (q : Query) :
  read_only_run (rows_or_nothing h dt q).
Proof.
  apply read_only_try; [apply read_only_query | intros; apply read_only_ret].
Qed.

Lemma record_count_read_only (h : Host) (doctype : string) (meta : Meta) :
  read_only_run (record_count_of h doctype meta).
Proof.
  apply read_only_try; [| intros; apply read_only_ret].
  destruct (_ && _); [| apply read_only_ret].
  apply read_only_bind; [apply read_only_query | intros; apply read_only_ret].
Qed.

Lemma lookups_read_only (h : Host) (doctype : string) (meta : Meta) :
  read_only_run (lookups_of h doctype meta).
Proof.
  unfold lookups_of.
  apply read_only_bind; [apply child_tables_read_only | intros ?].
  apply read_only_bind; [apply links_from_read_only | intros ?].
  apply read_only_bind; [apply workflow_read_only | intros ?].
  apply read_only_bind; [apply rows_or_nothing_read_only | intros ?].
  apply read_only_bind; [apply rows_or_nothing_read_only | intros ?].
  apply read_only_bind; [apply rows_or_nothing_read_only | intros ?].
  apply read_only_bind; [apply record_count_read_only | intros ?].
  apply read_only_ret.
Qed.

Lemma deeper_step_read_only (h : Host) (rec : Rec) (depth : Z) (incl : bool) :
  rec_read_only rec (depth - 1) incl ->
  forall st link, read_only_run (deeper_step rec depth incl st link).
Proof.
  intros Hrec [deeper v] link. unfold deeper_step.
  destruct (_ && _); [| apply read_only_ret].
  apply read_only_bind; [apply Hrec |].
  intros [r v']. apply read_only_ret.
Qed.

Lemma map_body_read_only (h : Host) (rec : Rec) (depth : Z) (incl : bool) :
  (1 < depth -> rec_read_only rec (depth - 1) incl) ->
  rec_read_only (map_body h rec) depth incl.
Proof.
  intros Hrec t v. unfold map_body.
  destruct (mem t v); [apply read_only_ret |].
  apply read_only_bind; [apply read_only_query | intros meta].
  apply read_only_bind; [apply lookups_read_only | intros l].
  apply read_only_bind.
  - destruct (depth >? 1) eqn:Hd; cbn [andb]; [| apply read_only_ret].
    destruct (truthy (dicts (links_to_of incl meta))); [| apply read_only_ret].
    apply read_only_for_each. apply (deeper_step_read_only h). apply Hrec. lia.
  - intros [deeper v']. apply read_only_ret.
Qed.

Lemma map_rounds_read_only (h : Host) (n : nat) :
  forall depth incl, depth - 1 <= Z.of_nat n -> rec_read_only (map_rounds h n) depth incl.
Proof.
  induction n as [| n IH]; intros depth incl Hn; simpl;
    apply map_body_read_only; intros Hd.
  - lia.
  - apply IH. lia.
Qed.

Lemma map_doctype_read_only (h : Host) (doctype : string) (depth : Z)
    (incl : bool) (v : Visited) :
  read_only_run (_map_doctype h doctype depth incl v).
Proof.
  unfold _map_doctype. apply map_rounds_read_only. lia.
Qed.

(** *** The recursion equation *)

Lemma map_body_ext (h : Host) (rec1 rec2 : Rec) (doctype : string) (depth : Z)
    (incl : bool) (v : Visited) (w : World) :
  (1 < depth -> forall t v' w', rec1 t (depth - 1) incl v' w' = rec2 t (depth - 1) incl v' w') ->
  map_body h rec1 doctype depth incl v w = map_body h rec2 doctype depth incl v w.
Proof.
  intros H. unfold map_body.
  destruct (mem doctype v); [reflexivity |].
  apply bind_ext. intros meta w1.
  apply bind_ext. intros l w2.
  destruct (depth >? 1) eqn:Hd; cbn [andb]; [| reflexivity].
  destruct (truthy (dicts (links_to_of incl meta))); [| reflexivity].
  apply bind_cong; [| reflexivity].
  apply for_each_ext.
  intros [deeper v'] link w' _. unfold deeper_step.
  destruct (_ && _); [| reflexivity].
  unfold bind. rewrite H by lia. reflexivity.
Qed.

Lemma map_rounds_enough (h : Host) (n : nat) :
  forall m doctype depth incl v w,
    depth - 1 <= Z.of_nat n -> depth - 1 <= Z.of_nat m ->
    map_rounds h n doctype depth incl v w = map_rounds h m doctype depth incl v w.
Proof.
  induction n as [| n IH]; intros [| m] doctype depth incl v w Hn Hm; simpl;
    apply map_body_ext; intros Hd; try lia.
  intros t v' w'. apply IH; lia.
Qed.

(** [_map_doctype] satisfies the equation the source defines it by. *)
Lemma map_doctype_unfold (h : Host) (doctype : string) (depth : Z) (incl : bool)
    (v : Visited) (w : World) :
  _map_doctype h doctype depth incl v w =
  map_body h (_map_doctype h) doctype depth incl v w.
Proof.
  unfold _map_doctype at 1.
  destruct (Z.to_nat (depth - 1)) as [| n] eqn:En; simpl;
    apply map_body_ext; intros Hd; try lia.
  intros t v' w'. unfold _map_doctype. apply map_rounds_enough; lia.
Qed.

(** *** What a call leaves behind *)

Ltac get_result_key :=
  unfold result_before_deeper;
  repeat match goal with
  | |- context [match ?x with Some _ => _ | None => _ end] => destruct x
  end;
  repeat (rewrite dict_get_set || rewrite dict_get_set_if);
  cbn [String.eqb Ascii.eqb Bool.eqb andb];
  rewrite ?andb_false_r; reflexivity.

Lemma result_has_no_note (doctype s : string) (incl : bool) (meta : Meta) (l : Lookups) :
  dict_has "note"
    (dict_set "summary" (VStr s) (result_before_deeper doctype incl meta l)) = false.
Proof.
  unfold dict_has. rewrite dict_get_set. cbn [String.eqb Ascii.eqb Bool.eqb].
  replace (dict_get "note" (result_before_deeper doctype incl meta l)) with (@None value);
    [reflexivity |].
  symmetry. get_result_key.
Qed.

Lemma result_doctype (doctype s : string) (incl : bool) (meta : Meta) (l : Lookups) :
  dict_get "doctype"
    (dict_set "summary" (VStr s) (result_before_deeper doctype incl meta l)) =
  Some (VStr doctype).
Proof.
  rewrite dict_get_set. cbn [String.eqb Ascii.eqb Bool.eqb].
  replace (dict_get "doctype" (result_before_deeper doctype incl meta l))
    with (Some (VStr doctype)); [reflexivity |].
  symmetry. get_result_key.
Qed.

Lemma result_label (doctype s : string) (incl : bool) (meta : Meta) (l : Lookups) :
  node_label (dict_set "summary" (VStr s) (result_before_deeper doctype incl meta l)) =
  [doctype].
Proof.
  unfold node_label. rewrite result_has_no_note, result_doctype. reflexivity.
Qed.

Lemma expanded_result (doctype s : string) (incl : bool) (meta : Meta) (l : Lookups)
    (deeper : list (string * MapResult)) :
  expanded (Node (dict_set "summary" (VStr s) (result_before_deeper doctype incl meta l)) deeper) =
  doctype :: flat_map (fun kr => expanded (snd kr)) deeper.
Proof.
  cbn [expanded]. rewrite result_label. reflexivity.
Qed.

Lemma detail_set_fresh (k : string) (r : MapResult) (d : list (string * MapResult)) :
  ~ In k (map fst d) -> detail_set k r d = d ++ [(k, r)].
Proof.
  induction d as [| [k' r'] t IH]; simpl; intros H; [reflexivity |].
  destruct (String.eqb k k') eqn:E.
  - apply String.eqb_eq in E. subst. exfalso. apply H. now left.
  - rewrite IH; [reflexivity |]. intros Hin. apply H. now right.
Qed.

Lemma loop_inv_start (depth : Z) (v0 : Visited) : loop_inv depth v0 [] v0.
Proof.
  unfold loop_inv. simpl. rewrite app_nil_r. repeat split; auto.
  intros k [].
Qed.

Lemma deeper_step_ok (rec : Rec) (depth : Z) (incl : bool) (v0 : Visited)
    (deeper : list (string * MapResult)) (v : Visited) (link : dict) (w : World)
    (deeper' : list (string * MapResult)) (v' : Visited) (w' : World) :
  rec_ok rec (depth - 1) incl ->
  deeper_step rec depth incl (deeper, v) link w = (Ok (deeper', v'), w') ->
  loop_inv depth v0 deeper v ->
  loop_inv depth v0 deeper' v' /\ (List.length deeper' <= S (List.length deeper))%nat.
Proof.
  intros Hrec Hstep (Hv & Hkeys & Hnd & Hall). unfold deeper_step in Hstep.
  destruct (PyStr.nonempty (target_of link) &&
            negb (PyStr.startswith (target_of link) "DYNAMIC") &&
            negb (mem (target_of link) v)) eqn:Hc.
  - apply andb_prop in Hc. destruct Hc as [_ Hm].
    apply negb_true_iff in Hm.
    apply bind_inv in Hstep. destruct Hstep as ([r v1] & w1 & Hcall & Hret).
    unfold ret in Hret. injection Hret as <- <- <-.
    apply Hrec in Hcall. destruct Hcall as [_ Hvis Hfirst _ Hh Hf Hn Hfull].
    specialize (Hvis Hm). specialize (Hfirst Hm). specialize (Hfull Hm).
    destruct Hfirst as [rest Hrest].
    assert (Hfresh : ~ In (target_of link) (map fst deeper)).
    { intros Hin. apply Hkeys in Hin. apply mem_false_In in Hm. contradiction. }
    rewrite detail_set_fresh by assumption.
    split.
    + unfold loop_inv. repeat split.
      * rewrite flat_map_app. simpl. rewrite app_nil_r, app_assoc, <- Hv. exact Hvis.
      * intros k Hk. rewrite map_app in Hk. apply in_app_or in Hk.
        rewrite Hvis. apply in_or_app. destruct Hk as [Hk | Hk].
        -- left. now apply Hkeys.
        -- right. simpl in Hk. destruct Hk as [<- | []]. rewrite Hrest. now left.
      * intros H0. apply Hn. now apply Hnd.
      * apply Forall_app. split; [assumption |].
        constructor; [| constructor]. simpl. repeat split; assumption.
    + rewrite length_app. simpl. lia.
  - unfold ret in Hstep. injection Hstep as <- <- <-.
    split; [repeat split; assumption | lia].
Qed.

Lemma deeper_loop_ok (rec : Rec) (depth : Z) (incl : bool) (v0 : Visited) :
  rec_ok rec (depth - 1) incl ->
  forall links deeper v w deeper' v' w',
    for_each links (deeper_step rec depth incl) (deeper, v) w = (Ok (deeper', v'), w') ->
    loop_inv depth v0 deeper v ->
    loop_inv depth v0 deeper' v' /\
    (List.length deeper' <= List.length deeper + List.length links)%nat.
Proof.
  intros Hrec. induction links as [| link rest IH];
    intros deeper v w deeper' v' w' Hrun Hinv; simpl in Hrun.
  - unfold ret in Hrun. injection Hrun as <- <- <-. split; [assumption | lia].
  - apply bind_inv in Hrun. destruct Hrun as ([deeper1 v1] & w1 & Hstep & Hrest).
    destruct (deeper_step_ok _ _ _ _ _ _ _ _ _ _ _ Hrec Hstep Hinv) as [Hinv1 Hlen1].
    destruct (IH _ _ _ _ _ _ Hrest Hinv1) as [Hinv2 Hlen2].
    split; [assumption | simpl; lia].
Qed.

Lemma circular_note_ok (doctype : string) (depth : Z) (v : Visited) :
  mem doctype v = true -> call_ok doctype depth v (circular_note doctype) v.
Proof.
  intros Hm. constructor; try (intros; congruence); auto.
  simpl. lia.
Qed.

Lemma height_node (d : dict) (detail : list (string * MapResult)) (n : nat) :
  Forall (fun kr => (height (snd kr) <= n)%nat) detail ->
  (height (Node d detail) <= S n)%nat.
Proof.
  intros H. cbn [height]. apply le_n_S. apply list_max_le.
  apply Forall_map. exact H.
Qed.

Lemma map_body_ok (h : Host) (rec : Rec) (depth : Z) (incl : bool) :
  (1 < depth -> rec_ok rec (depth - 1) incl) ->
  rec_ok (map_body h rec) depth incl.
Proof.
  intros Hrec t v w r v' w' Hrun. unfold map_body in Hrun.
  destruct (mem t v) eqn:Hm.
  { unfold ret in Hrun. injection Hrun as <- <- <-. now apply circular_note_ok. }
  apply bind_inv in Hrun. destruct Hrun as (meta & w1 & _ & Hrun).
  apply bind_inv in Hrun. destruct Hrun as (l & w2 & _ & Hrun).
  apply bind_inv in Hrun. destruct Hrun as ([deeper v1] & w3 & Hloop & Hret).
  unfold ret in Hret. injection Hret as <- <- <-.
  assert (Hinv : loop_inv depth (v ++ [t]) deeper v1 /\
                 (List.length deeper <= 5)%nat /\
                 (deeper = [] \/ 1 < depth)).
  { destruct (depth >? 1) eqn:Hd; cbn [andb] in Hloop.
    - destruct (truthy (dicts (links_to_of incl meta))).
      + destruct (deeper_loop_ok rec depth incl (v ++ [t]) (Hrec ltac:(lia))
                    _ _ _ _ _ _ _ Hloop (loop_inv_start depth (v ++ [t])))
          as [Hinv Hlen].
        split; [assumption |]. split; [| right; lia].
        unfold take in Hlen. rewrite length_firstn in Hlen. cbn [List.length Nat.add] in Hlen. lia.
      + unfold ret in Hloop. injection Hloop as <- <- <-.
        split; [apply loop_inv_start |]. split; [simpl; lia | now left].
    - unfold ret in Hloop. injection Hloop as <- <- <-.
      split; [apply loop_inv_start |]. split; [simpl; lia | now left]. }
  destruct Hinv as ((Hv & Hkeys & Hnd & Hall) & Hlen & Hdepth).
  constructor.
  - congruence.
  - intros _. rewrite expanded_result, Hv, <- app_assoc. reflexivity.
  - intros _. rewrite expanded_result. eexists. reflexivity.
  - intros _. apply result_label.
  - destruct Hdepth as [-> | Hd]; [simpl; lia |].
    assert (Hh : (height (Node (dict_set "summary"
                    (VStr (summary_of t (links_to_of incl meta) l
                             (result_before_deeper t incl meta l)))
                    (result_before_deeper t incl meta l)) deeper)
                  <= S (Z.to_nat (depth - 1)))%nat).
    { apply height_node. eapply Forall_impl; [| exact Hall].
      intros kr (Hh & _). simpl in Hh. lia. }
    lia.
  - cbn [all_nodes]. apply andb_true_intro. split.
    + unfold at_most_five. now apply Nat.leb_le.
    + apply forallb_forall. intros kr Hin.
      rewrite Forall_forall in Hall. now apply Hall.
  - intros Hn. apply Hnd. apply NoDup_app; [assumption | repeat constructor; auto |].
    intros a Ha [<- | []]. apply mem_false_In in Hm. contradiction.
  - intros _. cbn [all_nodes]. apply andb_true_intro. split.
    + unfold without_note. rewrite result_has_no_note. reflexivity.
    + apply forallb_forall. intros kr Hin.
      rewrite Forall_forall in Hall. now apply Hall.
Qed.

Lemma map_rounds_ok (h : Host) (n : nat) :
  forall depth incl, depth - 1 <= Z.of_nat n -> rec_ok (map_rounds h n) depth incl.
Proof.
  induction n as [| n IH]; intros depth incl Hn; simpl;
    apply map_body_ok; intros Hd.
  - lia.
  - apply IH. lia.
Qed.

Lemma map_doctype_ok (h : Host) (doctype : string) (depth : Z) (incl : bool)
    (v : Visited) (w : World) (r : MapResult) (v' : Visited) (w' : World) :
  _map_doctype h doctype depth incl v w = (Ok (r, v'), w') ->
  call_ok doctype depth v r v'.
Proof.
  unfold _map_doctype. apply map_rounds_ok. lia.
Qed.

(** *** Every call returns when the metadata can be read *)

Lemma returns_query {A} (f : World -> res A) :
  (forall w, exists a, f w = Ok a) -> returns (ask f).
Proof.
  intros H w. destruct (H w) as [a Ha]. exists a. unfold ask. simpl. exact Ha.
Qed.

Lemma lookups_return (h : Host) (doctype : string) (meta : Meta) :
  meta_readable h -> returns (lookups_of h doctype meta).
Proof.
  intros Hm. unfold lookups_of.
  apply returns_bind.
  { apply returns_for_each. intros s f _. unfold child_table_step.
    destruct (_ && _); [| apply returns_ret].
    apply returns_bind; [apply returns_query; intros; apply Hm |].
    intros; apply returns_ret. }
  intros ?. apply returns_bind.
  { intros w. unfold links_from_of.
    destruct (db_sql h w SQL_LINK_FIELDS _) as [rows | e]; [| now eexists].
    destruct (scan_link_fields rows []) as [acc [|]]; [| now eexists].
    destruct (db_sql h w SQL_CUSTOM_LINKS _); now eexists. }
  intros ?. apply returns_bind; [apply returns_try; intros; apply returns_ret |].
  intros ?. apply returns_bind; [apply returns_try; intros; apply returns_ret |].
  intros ?. apply returns_bind; [apply returns_try; intros; apply returns_ret |].
  intros ?. apply returns_bind; [apply returns_try; intros; apply returns_ret |].
  intros ?. apply returns_bind; [apply returns_try; intros; apply returns_ret |].
  intros ?. apply returns_ret.
Qed.

Lemma map_body_returns (h : Host) (rec : Rec) (depth : Z) (incl : bool) :
  meta_readable h ->
  (1 < depth -> forall t v, returns (rec t (depth - 1) incl v)) ->
  forall t v, returns (map_body h rec t depth incl v).
Proof.
  intros Hm Hrec t v. unfold map_body.
  destruct (mem t v); [apply returns_ret |].
  apply returns_bind; [apply returns_query; intros; apply Hm | intros meta].
  apply returns_bind; [now apply lookups_return | intros l].
  apply returns_bind.
  - destruct (depth >? 1) eqn:Hd; cbn [andb]; [| apply returns_ret].
    destruct (truthy (dicts (links_to_of incl meta))); [| apply returns_ret].
    apply returns_for_each. intros [deeper v'] link _. unfold deeper_step.
    destruct (_ && _); [| apply returns_ret].
    apply returns_bind; [apply Hrec; lia |].
    intros [r v1]. apply returns_ret.
  - intros [deeper v']. apply returns_ret.
Qed.

Lemma map_rounds_return (h : Host) (n : nat) :
  meta_readable h ->
  forall depth incl t v, depth - 1 <= Z.of_nat n -> returns (map_rounds h n t depth incl v).
Proof.
  intros Hm. induction n as [| n IH]; intros depth incl t v Hn; simpl;
    apply map_body_returns; try assumption; intros Hd.
  - lia.
  - intros t' v'. apply IH. lia.
Qed.

Lemma map_doctype_returns (h : Host) (doctype : string) (depth : Z) (incl : bool)
    (v : Visited) :
  meta_readable h -> returns (_map_doctype h doctype depth incl v).
Proof.
  intros Hm. unfold _map_doctype. apply map_rounds_return; [assumption | lia].
Qed.

(** *** Results as trees *)

Lemma MapResult_tree_ind (P : MapResult -> Prop) :
  (forall d detail, Forall (fun kr => P (snd kr)) detail -> P (Node d detail)) ->
  forall r, P r.
Proof.
  intros H. fix IH 1. intros [d detail]. apply H.
  induction detail as [| kr t IHt]; constructor; [apply IH | exact IHt].
Qed.

Lemma levels_expanded (r : MapResult) : forall k, map snd (levels k r) = expanded r.
Proof.
  induction r as [d detail IH] using MapResult_tree_ind. intros k.
  cbn [levels expanded]. rewrite map_app, map_map. simpl. rewrite map_id.
  f_equal. induction IH as [| kr t Hkr _ IHt]; simpl; [reflexivity |].
  rewrite map_app, Hkr, IHt. reflexivity.
Qed.

Lemma height_child (d : dict) (detail : list (string * MapResult)) (kr : string * MapResult) :
  In kr detail -> (height (snd kr) < height (Node d detail))%nat.
Proof.
  intros Hin. cbn [height].
  assert (H : Forall (fun n => (n <= list_max (map (fun kr => height (snd kr)) detail))%nat)
                (map (fun kr => height (snd kr)) detail))
    by (apply list_max_le; lia).
  rewrite Forall_forall in H.
  specialize (H (height (snd kr)) (in_map _ _ _ Hin)). lia.
Qed.

Lemma levels_range (r : MapResult) :
  forall k j x, In (j, x) (levels k r) -> (k <= j < k + height r)%nat.
Proof.
  induction r as [d detail IH] using MapResult_tree_ind. intros k j x Hin.
  cbn [levels] in Hin. apply in_app_or in Hin. destruct Hin as [Hin | Hin].
  - apply in_map_iff in Hin. destruct Hin as (y & Hy & _). injection Hy as <- _.
    cbn [height]. lia.
  - apply in_flat_map in Hin. destruct Hin as (kr & Hkr & Hin).
    rewrite Forall_forall in IH. apply (IH kr Hkr) in Hin.
    pose proof (height_child d detail kr Hkr). lia.
Qed.

(** *** [execute] *)

Lemma execute_cases (h : Host) (arguments : Arguments) (w : World)
    (r : MapResult) (w' : World) :
  execute h arguments w = (Ok r, w') ->
  (exists msg, r = error_result msg) \/
  (exists doctype incl v',
      _map_doctype h doctype (Z.min (depth_argument arguments) 3) incl [] w =
        (Ok (r, v'), w')).
Proof.
  unfold execute, depth_argument. intros H.
  destruct (negb (PyStr.nonempty _)).
  { unfold ret in H. injection H as <- <-. left. now eexists. }
  apply bind_inv in H. destruct H as (ex & w1 & Hq & H).
  unfold ask in Hq. injection Hq as Hq <-.
  destruct (negb ex).
  - apply bind_inv in H. destruct H as (found & w1 & _ & H).
    destruct (truthy (dicts found)); unfold ret in H; injection H as <- <-;
      left; now eexists.
  - apply bind_inv in H. destruct H as ([r0 v'] & w1 & Hmap & H).
    unfold ret in H. injection H as <- <-. right. eauto.
Qed.

(** C2: [_map_doctype] terminates on every host: it satisfies the
    recursion equation of the source for every DocType, depth and visited
    set, and it returns whenever the host can read the metadata.  In what
    [execute] returns for a depth argument [d], every DocType reached by
    following a link (nesting depth above 1, the root being at 1) sits at a
    nesting depth of at most [min(d, 3)], and no mapped DocType has more
    than five entries under [linked_doctypes_detail]. *)
Theorem C2_depth_bounded (h : Host) (arguments : Arguments) (w : World) :
  (forall doctype depth incl v w0,
      _map_doctype h doctype depth incl v w0 =
      map_body h (_map_doctype h) doctype depth incl v w0) /\
  (meta_readable h ->
   forall doctype depth incl v, returns (_map_doctype h doctype depth incl v)) /\
  (forall r w',
      execute h arguments w = (Ok r, w') ->
      (forall k doctype,
          In (k, doctype) (levels 1 r) -> (1 < k)%nat ->
          Z.of_nat k <= Z.min (depth_argument arguments) 3) /\
      all_nodes at_most_five r = true).
Proof.
  split; [apply map_doctype_unfold |].
  split; [intros Hm doctype depth incl v; now apply map_doctype_returns |].
  intros r w' H. apply execute_cases in H. destruct H as [[msg ->] | (dt & incl & v' & H)].
  - split; [| reflexivity]. intros k doctype Hin Hk.
    apply levels_range in Hin. simpl in Hin. lia.
  - apply map_doctype_ok in H. destruct H as [_ _ _ _ Hh Hf _ _].
    split; [| exact Hf]. intros k doctype Hin Hk.
    apply levels_range in Hin. lia.
Qed.

(** C2 at work: on the four-DocType site, at depth 3, the walk returns,
    reaches nesting depth 3 and no further. *)
Lemma C2_depth_bounded_witness :
  meta_readable Sites.diamond_site /\
  returns (_map_doctype Sites.diamond_site "A" 3 false []) /\
  execute Sites.diamond_site Sites.diamond_arguments [] = (Ok Sites.diamond_result, []) /\
  (forall k doctype,
      In (k, doctype) (levels 1 Sites.diamond_result) -> (1 < k)%nat ->
      Z.of_nat k <= Z.min (depth_argument Sites.diamond_arguments) 3) /\
  all_nodes at_most_five Sites.diamond_result = true.
Proof.
  assert (Hm : meta_readable Sites.diamond_site)
    by (intros w doctype; eexists; reflexivity).
  assert (He : execute Sites.diamond_site Sites.diamond_arguments [] =
               (Ok Sites.diamond_result, [])) by (vm_compute; reflexivity).
  pose proof (C2_depth_bounded Sites.diamond_site Sites.diamond_arguments [])
    as (_ & Hret & Hbound).
  split; [exact Hm |].
  split; [exact (Hret Hm "A" 3 false []) |].
  split; [exact He |].
  exact (Hbound _ _ He).
Defined.

(** C4: the walker is cycle-safe through its visited set.  A call for a
    DocType that is already in the set returns only the circular-reference
    note, queries nothing and leaves the set alone; the loop over the links
    never calls the recursion for a target that is in the set; and the
    DocTypes a call fully maps are new to the set and pairwise distinct, so
    that within one [execute] every DocType is fully mapped at most once and
    no nested result is a mere note. *)
Theorem C4_cycle_safe (h : Host) :
  (forall doctype depth incl v w,
      mem doctype v = true ->
      _map_doctype h doctype depth incl v w =
        (Ok (Node [("doctype", VStr doctype);
                   ("note", VStr "already mapped (circular reference)")] [], v), w)) /\
  (forall rec depth incl deeper v link w,
      mem (target_of link) v = true ->
      deeper_step rec depth incl (deeper, v) link w = (Ok (deeper, v), w)) /\
  (forall doctype depth incl v w r v' w',
      _map_doctype h doctype depth incl v w = (Ok (r, v'), w') ->
      mem doctype v = false -> NoDup v ->
      v' = v ++ expanded r /\ NoDup (v ++ expanded r) /\
      all_nodes without_note r = true) /\
  (forall arguments w r w',
      execute h arguments w = (Ok r, w') ->
      NoDup (expanded r) /\ all_nodes without_note r = true).
Proof.
  repeat split.
  - intros doctype depth incl v w Hm.
    rewrite map_doctype_unfold. unfold map_body. rewrite Hm. reflexivity.
  - intros rec depth incl deeper v link w Hm. unfold deeper_step.
    rewrite Hm, andb_false_r. reflexivity.
  - apply map_doctype_ok in H. destruct H as [_ Hvis _ _ _ _ _ _]. auto.
  - apply map_doctype_ok in H. destruct H as [_ Hvis _ _ _ _ Hn _].
    rewrite <- Hvis by assumption. auto.
  - apply map_doctype_ok in H. destruct H as [_ _ _ _ _ _ _ Hfull]. auto.
  - apply execute_cases in H. destruct H as [[msg ->] | (dt & incl & v' & H)].
    + simpl. constructor.
    + apply map_doctype_ok in H. destruct H as [_ Hvis _ _ _ _ Hn _].
      specialize (Hvis eq_refl). simpl in Hvis. subst v'. apply Hn. constructor.
  - apply execute_cases in H. destruct H as [[msg ->] | (dt & incl & v' & H)].
    + reflexivity.
    + apply map_doctype_ok in H. destruct H as [_ _ _ _ _ _ _ Hfull]. now apply Hfull.
Qed.

(** C4 at work: on a site where [A] and [B] link to each other, [B]'s link
    back to [A] is not followed. *)
Lemma C4_cycle_safe_witness :
  _map_doctype Sites.cycle_site "A" 3 false ["A"] [] =
    (Ok (circular_note "A", ["A"]), []) /\
  deeper_step (_map_doctype Sites.cycle_site) 2 false ([], ["A"; "B"])
    [("links_to", VStr "A")] [] = (Ok ([], ["A"; "B"]), []) /\
  (["A"; "B"] = [] ++ expanded Sites.cycle_result /\
   NoDup ([] ++ expanded Sites.cycle_result) /\
   all_nodes without_note Sites.cycle_result = true) /\
  (NoDup (expanded Sites.cycle_result) /\
   all_nodes without_note Sites.cycle_result = true).
Proof.
  pose proof (C4_cycle_safe Sites.cycle_site) as (Hnote & Hstep & Hmap & Hexec).
  split; [exact (Hnote "A" 3 false ["A"] [] eq_refl) |].
  split; [exact (Hstep _ 2 false [] ["A"; "B"] [("links_to", VStr "A")] [] eq_refl) |].
  split.
  - apply (Hmap "A" 3 false [] [] _ _ []); [vm_compute; reflexivity | reflexivity | constructor].
  - apply (Hexec Sites.cycle_arguments [] _ []). vm_compute. reflexivity.
Defined.

(** C3 (counterexample): on the four-DocType site [A] links to [B] and
    [C], and [B] links to [D].  At depth 3 the walker expands [A], [B], [D],
    [C]: [D], at distance 2 from [A], is expanded before [C], at distance
    1. *)
Lemma C3_not_breadth_first :
  execute Sites.diamond_site Sites.diamond_arguments [] = (Ok Sites.diamond_result, []) /\
  expanded Sites.diamond_result = ["A"; "B"; "D"; "C"] /\
  distance Sites.diamond_site [] false "A" 3 "C" = Some 1%nat /\
  distance Sites.diamond_site [] false "A" 3 "D" = Some 2%nat /\
  ~ breadth_first (distance Sites.diamond_site [] false "A" 3)
      (expanded Sites.diamond_result).
Proof.
  repeat split; try (vm_compute; reflexivity).
  intros H.
  specialize (H 3%nat 2%nat "C" "D" 1%nat 2%nat eq_refl eq_refl eq_refl eq_refl).
  lia.
Qed.

(** C3 (amended): the walker goes depth-first.  The DocTypes a call adds
    to the visited set, in the order it adds them, are the pre-order of the
    result it returns: the DocType itself first, at nesting depth 1, then
    every followed link target with all that is nested in it before the next
    one.  Up to depth 2 nothing is nested deeper than depth 2, so the order
    is then also breadth-first. *)
Theorem C3_depth_first (h : Host) (doctype : string) (depth : Z) (incl : bool)
    (v : Visited) (w : World) (r : MapResult) (v' : Visited) (w' : World) :
  _map_doctype h doctype depth incl v w = (Ok (r, v'), w') ->
  mem doctype v = false ->
  v' = v ++ expanded r /\
  map snd (levels 1 r) = expanded r /\
  exists rest,
    levels 1 r = (1%nat, doctype) :: rest /\
    (depth <= 2 -> Forall (fun p => fst p = 2%nat) rest).
Proof.
  intros H Hm. apply map_doctype_ok in H.
  destruct H as [_ Hvis _ Hlabel Hh _ _ _].
  split; [now apply Hvis |]. split; [apply levels_expanded |].
  specialize (Hlabel Hm). destruct r as [d detail]. simpl in Hlabel.
  exists (flat_map (fun kr => levels 2 (snd kr)) detail).
  split; [cbn [levels]; rewrite Hlabel; reflexivity |].
  intros Hd. apply Forall_forall. intros [j x] Hin. simpl.
  apply in_flat_map in Hin. destruct Hin as (kr & Hkr & Hin).
  apply levels_range in Hin.
  pose proof (height_child d detail kr Hkr). lia.
Qed.

(** C3 (amended) at work: the walk of the four-DocType site. *)
Lemma C3_depth_first_witness :
  ["A"; "B"; "D"; "C"] = [] ++ expanded Sites.diamond_result /\
  map snd (levels 1 Sites.diamond_result) = expanded Sites.diamond_result /\
  exists rest,
    levels 1 Sites.diamond_result = (1%nat, "A") :: rest /\
    (3 <= 2 -> Forall (fun p => fst p = 2%nat) rest).
Proof.
  apply (C3_depth_first Sites.diamond_site "A" 3 false [] [] _ _ []);
    [vm_compute; reflexivity | reflexivity].
Defined.

(** *** One lookup fails: what changes and what does not *)

Ltac differs :=
  let E := fresh "E" in
  intros E;
  repeat match goal with k : Lookup |- _ => destruct k end;
  cbv [first_call notifications_query server_scripts_query print_formats_query] in E;
  congruence.

Section OneLookupFails.
Variables (h h' : Host) (c : Call).
Hypothesis Hsame : same_but c h h'.

Lemma child_tables_same (meta : Meta) (w : World) :
  child_tables_of h' meta w = child_tables_of h meta w.
Proof.
  destruct Hsame as (_ & _ & _ & _ & Hmeta).
  unfold child_tables_of. apply for_each_ext. intros s f w0 _.
  unfold child_table_step. destruct (_ && _); [| reflexivity].
  apply bind_cong; [| reflexivity]. unfold ask. now rewrite Hmeta.
Qed.

Lemma links_from_same (t : string) (w : World) :
  CallSql SQL_LINK_FIELDS [t; t] <> c -> CallSql SQL_CUSTOM_LINKS [t] <> c ->
  links_from_of h' t w = links_from_of h t w.
Proof.
  destruct Hsame as (Hsql & _). intros H1 H2.
  unfold links_from_of. rewrite !Hsql by assumption. reflexivity.
Qed.

Lemma workflow_same (t : string) (w : World) :
  CallGetValue "Workflow"
    [("document_type", "=", VStr t); ("is_active", "=", VInt 1)]
    ["name"; "workflow_state_field"] <> c ->
  (forall q, CallGetAll "Workflow Document State" q <> c) ->
  (forall q, CallGetAll "Workflow Transition" q <> c) ->
  workflow_of h' t w = workflow_of h t w.
Proof.
  destruct Hsame as (_ & Hval & Hall & _). intros H1 H2 H3.
  unfold workflow_of, try_except, bind, ask.
  rewrite Hval by assumption.
  destruct (db_get_value h w _ _ _) as [[wf |] | e]; try reflexivity.
  destruct (truthy (VDict wf)); [| reflexivity].
  rewrite !Hall by auto. reflexivity.
Qed.

Lemma rows_same (d : string) (q : Query) (w : World) :
  CallGetAll d q <> c -> rows_or_nothing h' d q w = rows_or_nothing h d q w.
Proof.
  destruct Hsame as (_ & _ & Hall & _). intros H1.
  unfold rows_or_nothing, try_except, ask. now rewrite Hall.
Qed.

Lemma count_same (t : string) (meta : Meta) (w : World) :
  CallCount t <> c -> record_count_of h' t meta w = record_count_of h t meta w.
Proof.
  destruct Hsame as (_ & _ & _ & Hcount & _). intros H1.
  unfold record_count_of, try_except, bind, ask.
  destruct (_ && _); [| reflexivity]. now rewrite Hcount.
Qed.

End OneLookupFails.

Lemma links_from_raise (h' : Host) (t : string) (w : World) :
  raises_on (CallSql SQL_LINK_FIELDS [t; t]) h' -> links_from_of h' t w = (Ok [], w).
Proof.
  intros H. destruct (H w) as [e He]. unfold links_from_of. now rewrite He.
Qed.

Lemma workflow_raise (h' : Host) (t : string) (w : World) :
  raises_on (first_call Workflow t) h' -> workflow_of h' t w = (Ok None, w).
Proof.
  intros H. destruct (H w) as [e He].
  unfold workflow_of, try_except, bind, ask. now rewrite He.
Qed.

Lemma rows_raise (h' : Host) (d : string) (q : Query) (w : World) :
  raises_on (CallGetAll d q) h' -> rows_or_nothing h' d q w = (Ok [], w).
Proof.
  intros H. destruct (H w) as [e He].
  unfold rows_or_nothing, try_except, ask. now rewrite He.
Qed.

Lemma count_raise (h' : Host) (t : string) (meta : Meta) (w : World) :
  raises_on (CallCount t) h' -> record_count_of h' t meta w = (Ok None, w).
Proof.
  intros H. destruct (H w) as [e He].
  unfold record_count_of, try_except, bind, ask.
  destruct (_ && _); [rewrite He |]; reflexivity.
Qed.

(** The lookups of any other DocType are untouched. *)
Lemma lookups_same_other (h h' : Host) (k : Lookup) (dt t : string)
    (meta : Meta) (w : World) :
  same_but (first_call k dt) h h' -> t <> dt ->
  lookups_of h' t meta w = lookups_of h t meta w.
Proof.
  intros Hsame Hne. unfold lookups_of.
  apply bind_cong; [now apply child_tables_same with (c := first_call k dt) | intros ? ?].
  apply bind_cong;
    [apply links_from_same with (c := first_call k dt); [assumption | differs | differs]
    | intros ? ?].
  apply bind_cong;
    [apply workflow_same with (c := first_call k dt);
       [assumption | differs | intros q; differs | intros q; differs]
    | intros ? ?].
  apply bind_cong;
    [apply rows_same with (c := first_call k dt); [assumption | differs] | intros ? ?].
  apply bind_cong;
    [apply rows_same with (c := first_call k dt); [assumption | differs] | intros ? ?].
  apply bind_cong;
    [apply rows_same with (c := first_call k dt); [assumption | differs] | intros ? ?].
  apply bind_cong;
    [apply count_same with (c := first_call k dt); [assumption | differs] | intros ? ?].
  reflexivity.
Qed.

(** The lookups of the DocType itself: the failing section finds nothing,
    the others find what they found. *)
Lemma lookups_cleared (h h' : Host) (k : Lookup) (dt : string)
    (meta : Meta) (w w1 : World) (l : Lookups) :
  same_but (first_call k dt) h h' -> raises_on (first_call k dt) h' ->
  lookups_of h dt meta w = (Ok l, w1) ->
  lookups_of h' dt meta w = (Ok (cleared k l), w1).
Proof.
  intros Hsame Hraise H. unfold lookups_of in H.
  apply bind_inv in H. destruct H as (ct & wa & Hct & H).
  pose proof (read_only_result _ _ _ _ (child_tables_read_only h meta) Hct). subst wa.
  apply bind_inv in H. destruct H as (lf & wa & Hlf & H).
  pose proof (read_only_result _ _ _ _ (links_from_read_only h dt) Hlf). subst wa.
  apply bind_inv in H. destruct H as (wf & wa & Hwf & H).
  pose proof (read_only_result _ _ _ _ (workflow_read_only h dt) Hwf). subst wa.
  apply bind_inv in H. destruct H as (nt & wa & Hnt & H).
  pose proof (read_only_result _ _ _ _ (rows_or_nothing_read_only h _ _) Hnt). subst wa.
  apply bind_inv in H. destruct H as (ss & wa & Hss & H).
  pose proof (read_only_result _ _ _ _ (rows_or_nothing_read_only h _ _) Hss). subst wa.
  apply bind_inv in H. destruct H as (pf & wa & Hpf & H).
  pose proof (read_only_result _ _ _ _ (rows_or_nothing_read_only h _ _) Hpf). subst wa.
  apply bind_inv in H. destruct H as (rc & wa & Hrc & H).
  pose proof (read_only_result _ _ _ _ (record_count_read_only h dt meta) Hrc). subst wa.
  unfold ret in H. injection H as <- <-.
  unfold lookups_of.
  erewrite bind_step
    by (rewrite child_tables_same with (h := h) (c := first_call k dt) by assumption;
        exact Hct).
  destruct k;
    match type of Hsame with
    | same_but ?cc _ _ =>
        (erewrite bind_step
           by first [ rewrite links_from_same with (h := h) (c := cc)
                        by (assumption || differs); exact Hlf
                    | now apply links_from_raise ]);
        (erewrite bind_step
           by first [ rewrite workflow_same with (h := h) (c := cc)
                        by (assumption || differs || (intros q; differs)); exact Hwf
                    | now apply workflow_raise ]);
        (erewrite bind_step
           by first [ rewrite rows_same with (h := h) (c := cc)
                        by (assumption || differs); exact Hnt
                    | now apply rows_raise ]);
        (erewrite bind_step
           by first [ rewrite rows_same with (h := h) (c := cc)
                        by (assumption || differs); exact Hss
                    | now apply rows_raise ]);
        (erewrite bind_step
           by first [ rewrite rows_same with (h := h) (c := cc)
                        by (assumption || differs); exact Hpf
                    | now apply rows_raise ]);
        (erewrite bind_step
           by first [ rewrite count_same with (h := h) (c := cc)
                        by (assumption || differs); exact Hrc
                    | now apply count_raise ])
    end;
    reflexivity.
Qed.

(** Once the DocType is in the visited set, nothing in the recursion asks
    the host about it again. *)
Lemma deeper_loop_same (rec rec' : Rec) (depth : Z) (incl : bool) (dt : string) :
  (forall t v w, In dt v -> rec' t (depth - 1) incl v w = rec t (depth - 1) incl v w) ->
  rec_ok rec (depth - 1) incl ->
  forall links deeper v w,
    In dt v ->
    for_each links (deeper_step rec' depth incl) (deeper, v) w =
    for_each links (deeper_step rec depth incl) (deeper, v) w.
Proof.
  intros Hagree Hok. induction links as [| link rest IH]; intros deeper v w Hin; cbn [for_each].
  - reflexivity.
  - assert (Hstep : deeper_step rec' depth incl (deeper, v) link w =
                    deeper_step rec depth incl (deeper, v) link w).
    { unfold deeper_step. destruct (_ && _); [| reflexivity].
      apply bind_cong; [now apply Hagree | reflexivity]. }
    unfold bind. rewrite Hstep.
    destruct (deeper_step rec depth incl (deeper, v) link w) as [[[deeper1 v1] | e] w1] eqn:Hrun;
      [| reflexivity].
    apply IH. unfold deeper_step in Hrun.
    destruct (PyStr.nonempty (target_of link) &&
              negb (PyStr.startswith (target_of link) "DYNAMIC") &&
              negb (mem (target_of link) v)) eqn:Hc.
    + apply andb_prop in Hc. destruct Hc as [_ Hm]. apply negb_true_iff in Hm.
      apply bind_inv in Hrun. destruct Hrun as ([r v2] & w2 & Hcall & Hret).
      unfold ret in Hret. injection Hret as <- <- <-.
      apply Hok in Hcall. destruct Hcall as [_ Hvis _ _ _ _ _ _].
      rewrite (Hvis Hm). apply in_or_app. now left.
    + unfold ret in Hrun. injection Hrun as <- <- <-. assumption.
Qed.

Lemma map_body_same (h h' : Host) (rec rec' : Rec) (k : Lookup) (dt : string)
    (depth : Z) (incl : bool) :
  same_but (first_call k dt) h h' ->
  (1 < depth ->
   forall t v w, In dt v -> rec' t (depth - 1) incl v w = rec t (depth - 1) incl v w) ->
  (1 < depth -> rec_ok rec (depth - 1) incl) ->
  forall t v w,
    In dt v ->
    map_body h' rec' t depth incl v w = map_body h rec t depth incl v w.
Proof.
  intros Hsame Hagree Hok t v w Hin. unfold map_body.
  destruct (mem t v) eqn:Hm; [reflexivity |].
  assert (Hne : t <> dt).
  { intros ->. apply mem_false_In in Hm. contradiction. }
  apply bind_cong.
  { unfold ask. destruct Hsame as (_ & _ & _ & _ & Hmeta). now rewrite Hmeta. }
  intros meta w1. apply bind_cong; [now apply lookups_same_other with (k := k) (dt := dt) |].
  intros l w2. apply bind_cong; [| reflexivity].
  destruct (depth >? 1) eqn:Hd; cbn [andb]; [| reflexivity].
  destruct (truthy (dicts (links_to_of incl meta))); [| reflexivity].
  apply deeper_loop_same with (dt := dt).
  - apply Hagree. lia.
  - apply Hok. lia.
  - apply in_or_app. now left.
Qed.

Lemma map_doctype_same (h h' : Host) (k : Lookup) (dt : string) (incl : bool) :
  same_but (first_call k dt) h h' ->
  forall n depth t v w,
    Z.to_nat (depth - 1) = n -> In dt v ->
    _map_doctype h' t depth incl v w = _map_doctype h t depth incl v w.
Proof.
  intros Hsame. induction n as [| n IH]; intros depth t v w Hn Hin;
    rewrite (map_doctype_unfold h'), (map_doctype_unfold h);
    apply map_body_same with (k := k) (dt := dt); try assumption; intros Hd; try lia.
  - intros t' v0 w0 Hin0. apply IH; [lia | assumption].
  - intros t' v0 w0 r v1 w1. apply map_doctype_ok.
Qed.

(** The run on the host where the lookup fails, from the run where it does
    not. *)
Lemma map_doctype_lookup_fails (h h' : Host) (k : Lookup) (dt : string) (depth : Z)
    (incl : bool) (v : Visited) (w : World) (r : MapResult) (v' : Visited) (w' : World) :
  same_but (first_call k dt) h h' -> raises_on (first_call k dt) h' ->
  mem dt v = false ->
  _map_doctype h dt depth incl v w = (Ok (r, v'), w') ->
  exists meta l,
    r = assemble dt incl meta l (detail_of r) /\
    _map_doctype h' dt depth incl v w =
      (Ok (assemble dt incl meta (cleared k l) (detail_of r), v'), w').
Proof.
  intros Hsame Hraise Hm H.
  rewrite map_doctype_unfold in H. rewrite map_doctype_unfold.
  unfold map_body in *. rewrite Hm in *.
  apply bind_inv in H. destruct H as (meta & w1 & Hmeta & H).
  unfold ask in Hmeta. injection Hmeta as Hmeta <-.
  apply bind_inv in H. destruct H as (l & w2 & Hl & H).
  pose proof (read_only_result _ _ _ _ (lookups_read_only h dt meta) Hl). subst w2.
  apply bind_inv in H. destruct H as ([deeper v1] & w3 & Hloop & H).
  unfold ret in H. injection H as <- <- <-.
  exists meta, l. split; [reflexivity |].
  erewrite bind_step.
  2: { unfold ask. destruct Hsame as (_ & _ & _ & _ & Hgm). rewrite Hgm, Hmeta. reflexivity. }
  erewrite bind_step by (apply lookups_cleared with (h := h); eassumption).
  rewrite bind_step with (a := (deeper, v1)) (w1 := w3); [reflexivity |].
  rewrite <- Hloop.
  destruct (depth >? 1) eqn:Hd; cbn [andb]; [| reflexivity].
  destruct (truthy (dicts (links_to_of incl meta))); [| reflexivity].
  apply deeper_loop_same with (dt := dt).
  - intros t v0 w0 Hin. apply map_doctype_same with (k := k) (dt := dt) (n := Z.to_nat (depth - 1 - 1));
      auto.
  - intros t v0 w0 r0 v2 w2. apply map_doctype_ok.
  - apply in_or_app. right. now left.
Qed.

(** *** The result with one section cleared *)

Ltac key_differs key :=
  repeat match goal with
  | H : ~ In key (_ :: _) |- _ =>
      let H1 := fresh "Hk" in let H2 := fresh "Hr" in
      apply not_in_cons in H; destruct H as [H1 H2];
      apply String.eqb_neq in H1
  end.

Lemma cleared_keys_absent (k : Lookup) (doctype : string) (incl : bool)
    (meta : Meta) (l : Lookups) (key : string) :
  In key (lookup_keys k) ->
  dict_get key (result_before_deeper doctype incl meta (cleared k l)) = None.
Proof.
  intros Hin. unfold result_before_deeper.
  destruct k; simpl in Hin; intuition subst; cbn [cleared l_child_tables l_links_from
    l_workflow l_notifications l_server_scripts l_print_formats l_record_count];
    repeat match goal with
    | |- context [match ?x with Some _ => _ | None => _ end] => destruct x
    end;
    repeat (rewrite dict_get_set || rewrite dict_get_set_if);
    cbn [String.eqb Ascii.eqb Bool.eqb andb dicts map truthy];
    rewrite ?andb_false_r; reflexivity.
Qed.

Lemma cleared_other_keys (k : Lookup) (doctype : string) (incl : bool)
    (meta : Meta) (l : Lookups) (key : string) :
  ~ In key (lookup_keys k) ->
  dict_get key (result_before_deeper doctype incl meta (cleared k l)) =
  dict_get key (result_before_deeper doctype incl meta l).
Proof.
  intros Hin. unfold result_before_deeper.
  destruct k; cbn [lookup_keys] in Hin; key_differs key;
    cbn [cleared l_child_tables l_links_from
      l_workflow l_notifications l_server_scripts l_print_formats l_record_count];
    repeat match goal with
    | |- context [match ?x with Some _ => _ | None => _ end] => destruct x
    end;
    repeat (rewrite dict_get_set || rewrite dict_get_set_if);
    repeat match goal with
    | H : String.eqb key _ = false |- _ => rewrite H
    end;
    cbn [dicts map truthy andb];
    rewrite ?andb_false_r; reflexivity.
Qed.

Lemma cleared_summary (k : Lookup) (doctype : string) (incl : bool)
    (meta : Meta) (l : Lookups) :
  k <> ReverseLinks -> k <> Workflow ->
  summary_of doctype (links_to_of incl meta) (cleared k l)
    (result_before_deeper doctype incl meta (cleared k l)) =
  summary_of doctype (links_to_of incl meta) l
    (result_before_deeper doctype incl meta l).
Proof.
  intros H1 H2. unfold summary_of, dict_get_or.
  rewrite (cleared_other_keys k doctype incl meta l "workflow")
    by (destruct k; simpl; intuition congruence).
  destruct k; try contradiction; reflexivity.
Qed.

Lemma strings_eqb_eq (a b : list string) : Sites.strings_eqb a b = true -> a = b.
Proof.
  revert b. induction a as [| x r IH]; intros [| y t] H; try discriminate H.
  - reflexivity.
  - simpl in H. apply andb_prop in H. destruct H as [Hx Hr].
    apply String.eqb_eq in Hx. apply IH in Hr. now subst.
Qed.

Lemma reverse_site_same_but :
  same_but (first_call ReverseLinks "A") Sites.reverse_site Sites.reverse_site_failing.
Proof.
  repeat split; try reflexivity.
  intros w q p Hne. simpl.
  destruct (String.eqb q SQL_LINK_FIELDS && Sites.strings_eqb p ["A"; "A"]) eqn:E;
    [| reflexivity].
  exfalso. apply Hne. apply andb_prop in E. destruct E as [Eq Ep].
  apply String.eqb_eq in Eq. apply strings_eqb_eq in Ep. now subst.
Qed.

Lemma reverse_site_raises :
  raises_on (first_call ReverseLinks "A") Sites.reverse_site_failing.
Proof. intros w. eexists. reflexivity. Qed.

(** C7 (counterexample): [B] links to [A].  When the reverse-link query
    for [A] raises, the key [links_from] goes, and with it the summary
    changes from "A: links to 2 DocTypes, 1 DocTypes link to it" to
    "A: links to 2 DocTypes". *)
Lemma C7_summary_changes :
  same_but (first_call ReverseLinks "A") Sites.reverse_site Sites.reverse_site_failing /\
  raises_on (first_call ReverseLinks "A") Sites.reverse_site_failing /\
  exists r r',
    _map_doctype Sites.reverse_site "A" 1 false [] [] = (Ok (r, ["A"]), []) /\
    _map_doctype Sites.reverse_site_failing "A" 1 false [] [] = (Ok (r', ["A"]), []) /\
    dict_get "links_from" (result_of r') = None /\
    dict_get "summary" (result_of r) =
      Some (VStr "A: links to 2 DocTypes, 1 DocTypes link to it") /\
    dict_get "summary" (result_of r') = Some (VStr "A: links to 2 DocTypes") /\
    dict_get "summary" (result_of r') <> dict_get "summary" (result_of r).
Proof.
  split; [exact reverse_site_same_but |]. split; [exact reverse_site_raises |].
  eexists. eexists.
  split; [vm_compute; reflexivity |].
  split; [vm_compute; reflexivity |].
  repeat split; try reflexivity. discriminate.
Qed.

(** C7 (amended): let the host call that opens one of the guarded
    sections (reverse links, workflow, notifications, server scripts, print
    formats, record count) raise for the DocType being mapped, everything
    else being answered as before.  Then [_map_doctype] still returns, with
    the same visited set and the same nested details; the keys of that
    section are absent; every other key except [summary] has the value it
    has when the call succeeds; and [summary] is the same too for
    notifications, server scripts, print formats and the record count,
    while for reverse links and the workflow it is recomputed without what
    the section would have found. *)
Theorem C7_failed_lookup_is_local (h h' : Host) (k : Lookup) (doctype : string)
    (depth : Z) (incl : bool) (v : Visited) (w : World)
    (r : MapResult) (v' : Visited) (w' : World) :
  same_but (first_call k doctype) h h' ->
  raises_on (first_call k doctype) h' ->
  mem doctype v = false ->
  _map_doctype h doctype depth incl v w = (Ok (r, v'), w') ->
  exists r',
    _map_doctype h' doctype depth incl v w = (Ok (r', v'), w') /\
    detail_of r' = detail_of r /\
    (forall key, In key (lookup_keys k) -> dict_get key (result_of r') = None) /\
    (forall key, ~ In key (lookup_keys k) -> key <> "summary" ->
                 dict_get key (result_of r') = dict_get key (result_of r)) /\
    (k <> ReverseLinks -> k <> Workflow ->
     dict_get "summary" (result_of r') = dict_get "summary" (result_of r)) /\
    (exists meta l,
        r = assemble doctype incl meta l (detail_of r) /\
        r' = assemble doctype incl meta (cleared k l) (detail_of r)).
Proof.
  intros Hsame Hraise Hm H.
  destruct (map_doctype_lookup_fails h h' k doctype depth incl v w r v' w'
              Hsame Hraise Hm H) as (meta & l & Hr & Hr').
  exists (assemble doctype incl meta (cleared k l) (detail_of r)).
  split; [exact Hr' |]. split; [reflexivity |].
  clear Hr' H. set (d := detail_of r) in *. clearbody d. subst r.
  cbn [assemble result_of detail_of].
  repeat split.
  - intros key Hin. rewrite dict_get_set.
    destruct (String.eqb key "summary") eqn:E.
    + apply String.eqb_eq in E. subst key. destruct k; simpl in Hin; intuition discriminate.
    + now apply cleared_keys_absent.
  - intros key Hin Hs. rewrite !dict_get_set.
    apply String.eqb_neq in Hs. rewrite Hs. now apply cleared_other_keys.
  - intros H1 H2. rewrite !dict_get_set. cbn [String.eqb Ascii.eqb Bool.eqb].
    now rewrite cleared_summary.
  - exists meta, l. split; reflexivity.
Qed.

(** C7 (amended) at work: the reverse-link query for [A] raising. *)
Lemma C7_failed_lookup_is_local_witness :
  exists r r',
    _map_doctype Sites.reverse_site "A" 1 false [] [] = (Ok (r, ["A"]), []) /\
    _map_doctype Sites.reverse_site_failing "A" 1 false [] [] = (Ok (r', ["A"]), []) /\
    detail_of r' = detail_of r /\
    (forall key, In key (lookup_keys ReverseLinks) -> dict_get key (result_of r') = None) /\
    (forall key, ~ In key (lookup_keys ReverseLinks) -> key <> "summary" ->
                 dict_get key (result_of r') = dict_get key (result_of r)).
Proof.
  eexists.
  destruct (C7_failed_lookup_is_local Sites.reverse_site Sites.reverse_site_failing
              ReverseLinks "A" 1 false [] [] _ ["A"] []
              reverse_site_same_but reverse_site_raises eq_refl
              ltac:(vm_compute; reflexivity))
    as (r' & Hrun & Hdetail & Habsent & Hother & _).
  exists r'. repeat split; assumption.
Defined.

(** ** Global search *)

Import UniversalSearch.

Lemma NoDup_firstn {A} (n : nat) (l : list A) : NoDup l -> NoDup (firstn n l).
Proof.
  intros H. rewrite <- (firstn_skipn n l) in H. now apply NoDup_app_remove_r in H.
Qed.

Lemma NoDup_map_factor {A B C} (f : A -> B) (g : B -> C) (l : list A) :
  NoDup (map (fun x => g (f x)) l) -> NoDup (map f l).
Proof.
  induction l as [| x r IH]; simpl; intros H; [constructor |].
  inversion H as [| ? ? Hnin Hnd]; subst. constructor; [| now apply IH].
  intros Hin. apply Hnin. apply in_map_iff in Hin. destruct Hin as (y & Hy & Hin).
  apply in_map_iff. exists y. split; [now rewrite Hy | assumption].
Qed.

Lemma slice_to_sub {A} (n : Z) (l : list A) : exists m, slice_to n l = firstn m l.
Proof. unfold slice_to. destruct (0 <=? n); eexists; reflexivity. Qed.

Lemma slice_to_length {A} (n : Z) (l : list A) : 0 <= n -> len (slice_to n l) <= n.
Proof.
  intros Hn. unfold slice_to, len. apply Z.leb_le in Hn as Hb. rewrite Hb.
  rewrite length_firstn. lia.
Qed.

(** The loop over the collected results. *)
Lemma unique_loop (results : list dict) :
  forall seen unique,
    seen = map key_of unique -> NoDup seen ->
    let st := fold_left unique_step results (seen, unique) in
    fst st = map key_of (snd st) /\ NoDup (fst st) /\
    (forall k, In k seen -> In k (fst st)) /\
    (forall r, In r results -> In (key_of r) (fst st)) /\
    (forall r, In r (snd st) -> In r unique \/ In r results).
Proof.
  induction results as [| r rest IH]; intros seen unique Hs Hnd; simpl.
  - repeat split; auto. intros r [].
  - destruct (mem (key_of r) seen) eqn:Hm; simpl.
    + destruct (IH seen unique Hs Hnd) as (H1 & H2 & H3 & H4 & H5).
      repeat split; auto.
      * intros r' [<- | Hin]; [apply H3; now apply mem_In | now apply H4].
      * intros r' Hin. destruct (H5 r' Hin); auto.
    + assert (Hs' : seen ++ [key_of r] = map key_of (unique ++ [r]))
        by (rewrite map_app, Hs; reflexivity).
      assert (Hnd' : NoDup (seen ++ [key_of r])).
      { apply NoDup_app; [assumption | repeat constructor; auto |].
        intros a Ha [<- | []]. apply mem_false_In in Hm. contradiction. }
      destruct (IH _ _ Hs' Hnd') as (H1 & H2 & H3 & H4 & H5).
      repeat split; auto.
      * intros k Hk. apply H3. apply in_or_app. now left.
      * intros r' [<- | Hin]; [apply H3; apply in_or_app; right; now left | now apply H4].
      * intros r' Hin. destruct (H5 r' Hin) as [Hu | Hr]; [| auto].
        apply in_app_or in Hu. destruct Hu as [Hu | [<- | []]]; auto.
Qed.

Lemma unique_of_spec (results : list dict) :
  NoDup (map key_of (unique_of results)) /\
  (forall r, In r (unique_of results) -> In r results) /\
  (forall r, In r results -> In (key_of r) (map key_of (unique_of results))).
Proof.
  destruct (unique_loop results [] [] eq_refl (NoDup_nil _)) as (H1 & H2 & _ & H4 & H5).
  unfold unique_of. rewrite <- H1. repeat split; auto.
  intros r Hin. destruct (H5 r Hin) as [[] | Hr]. exact Hr.
Qed.

(** *** Keys and pairs *)

Lemma colon_first (s : string) : colon_free (String ":" s) = false.
Proof.
  unfold colon_free. cbn [PyStr.contains String.prefix].
  destruct (ascii_dec ":" ":") as [_ | n]; [| contradiction].
  destruct s; reflexivity.
Qed.

Lemma colon_split (d1 d2 n1 n2 : string) :
  colon_free d1 = true -> colon_free d2 = true ->
  (d1 ++ ":" ++ n1 = d2 ++ ":" ++ n2)%string -> d1 = d2 /\ n1 = n2.
Proof.
  revert d2. induction d1 as [| c d1 IH]; intros [| c' d2] H1 H2 E; simpl in E.
  - injection E as E. auto.
  - injection E as <- _. rewrite colon_first in H2. discriminate H2.
  - injection E as -> _. rewrite colon_first in H1. discriminate H1.
  - injection E as <- E.
    assert (Hc : forall s, colon_free (String c s) = true -> colon_free s = true).
    { intros s Hs. unfold colon_free in *. simpl in Hs.
      apply negb_true_iff in Hs. apply orb_false_elim in Hs.
      destruct Hs as [_ Hs]. now rewrite Hs. }
    destruct (IH d2 (Hc _ H1) (Hc _ H2) E) as [-> ->]. auto.
Qed.

Lemma key_faithful (r1 r2 : dict) :
  well_named r1 -> well_named r2 -> key_of r1 = key_of r2 -> pair_of r1 = pair_of r2.
Proof.
  intros (d1 & n1 & Hd1 & Hn1 & Hc1) (d2 & n2 & Hd2 & Hn2 & Hc2) E.
  unfold key_of, pair_of in *. rewrite Hd1, Hn1, Hd2, Hn2 in *. simpl in E.
  destruct (colon_split d1 d2 n1 n2 Hc1 Hc2 E) as [-> ->]. reflexivity.
Qed.

Lemma key_of_pair (r : dict) :
  key_of r = (py_str (fst (pair_of r)) ++ ":" ++ py_str (snd (pair_of r)))%string.
Proof. reflexivity. Qed.

Lemma NoDup_pairs_of_keys (l : list dict) :
  NoDup (map key_of l) -> NoDup (map pair_of l).
Proof.
  intros H.
  apply NoDup_map_factor
    with (g := fun p => (py_str (fst p) ++ ":" ++ py_str (snd p))%string).
  exact H.
Qed.

(** *** The search returns *)

Lemma search_dt_returns (h : Host) (dt q : string) (b : bool) (nv : value) (limit : Z) :
  returns (_search_dt h dt q b nv limit).
Proof. apply returns_try. intros e. apply returns_ret. Qed.

Lemma search_step_returns (h : Host) (q : string) (b : bool) (nv : value) (limit : Z)
    (st : list dict * list string) (dt : string) :
  returns (search_step h q b nv limit st dt).
Proof.
  destruct st as [results searched]. unfold search_step.
  apply returns_bind; [apply search_dt_returns |].
  intros rows. destruct (truthy (dicts rows)); apply returns_ret.
Qed.

Lemma search_remaining_returns (h : Host) (q : string) (b : bool) (nv : value)
    (limit : Z) (remaining : list string) :
  forall st, returns (search_remaining h q b nv limit remaining st).
Proof.
  induction remaining as [| dt rest IH]; intros st; simpl.
  - apply returns_ret.
  - destruct (len (fst st) >=? limit); [apply returns_ret |].
    apply returns_bind; [apply search_step_returns | apply IH].
Qed.

Lemma global_search_returns (h : Host) (float : string -> option Q)
    (q : string) (limit : Z) :
  (forall w, exists l, get_all h w "DocType" doctype_list_query = Ok l) ->
  returns (_global_search h float q limit).
Proof.
  intros Hlist. unfold _global_search. apply returns_bind.
  - unfold collect. destruct (_is_numeric float q) as [b nv].
    apply returns_bind.
    + apply returns_for_each. intros s a _. apply search_step_returns.
    + intros st. destruct (len (fst st) <? limit); [| apply returns_ret].
      apply returns_bind; [apply returns_query; exact Hlist |].
      intros all_dts. apply search_remaining_returns.
  - intros [results searched]. apply returns_ret.
Qed.

(** C8 (counterexample): with [limit = -1] and two matching customers
    the search returns one result, more than the limit, and reports
    [count = -1]; and on a site with a DocType named [A:B] two results with
    different (doctype, name) pairs share a key, so that [total_found] is 1
    for 2 distinct pairs. *)
Lemma C8_limit_and_key_collision :
  (exists out,
      _global_search Sites.customer_site Sites.no_float "cust" (-1) [] = (Ok out, []) /\
      dict_get "results" out =
        Some (dicts [[("name", VStr "CUST-1"); ("doctype", VStr "Customer")]]) /\
      dict_get "count" out = Some (VInt (-1)) /\
      ~ (len [[("name", VStr "CUST-1"); ("doctype", VStr "Customer")]] <= -1)) /\
  (exists out r1 r2 searched,
      collect Sites.colon_site Sites.no_float "c" 20 [] = (Ok ([r1; r2], searched), []) /\
      pair_of r1 <> pair_of r2 /\
      _global_search Sites.colon_site Sites.no_float "c" 20 [] = (Ok out, []) /\
      dict_get "total_found" out = Some (VInt 1)).
Proof.
  split.
  - eexists. split; [vm_compute; reflexivity |].
    repeat split; try reflexivity. unfold len. simpl. lia.
  - do 4 eexists. split; [vm_compute; reflexivity |].
    split; [discriminate |]. split; [vm_compute; reflexivity | reflexivity].
Qed.

(** C8 (amended): [_global_search] returns whenever the DocType list can
    be read.  In what it returns, [results] is [unique[:limit]] and holds no
    two entries with the same (doctype, name) pair; for a limit that is not
    negative its length is at most the limit; [total_found] is the number of
    distinct keys ["doctype:name"] among the collected results, which is the
    number of their distinct (doctype, name) pairs when every name is a
    string and no DocType name contains a colon; and [count] is
    [min(total_found, limit)]. *)
Theorem C8_global_search_deduplicates (h : Host) (float : string -> option Q)
    (q : string) (limit : Z) (w : World) :
  ((forall w0, exists l, get_all h w0 "DocType" doctype_list_query = Ok l) ->
   returns (_global_search h float q limit)) /\
  (forall out w',
      _global_search h float q limit w = (Ok out, w') ->
      exists collected searched,
        collect h float q limit w = (Ok (collected, searched), w') /\
        let unique := unique_of collected in
        dict_get "results" out = Some (dicts (slice_to limit unique)) /\
        dict_get "total_found" out = Some (VInt (len unique)) /\
        dict_get "count" out = Some (VInt (Z.min (len unique) limit)) /\
        NoDup (map pair_of (slice_to limit unique)) /\
        (0 <= limit -> len (slice_to limit unique) <= limit) /\
        NoDup (map key_of unique) /\
        (forall r, In r unique -> In r collected) /\
        (forall r, In r collected -> In (key_of r) (map key_of unique)) /\
        (Forall well_named collected ->
         forall r, In r collected -> In (pair_of r) (map pair_of unique))).
Proof.
  split; [apply global_search_returns |].
  intros out w' H. unfold _global_search in H.
  apply bind_inv in H. destruct H as ([collected searched] & w1 & Hc & H).
  unfold ret in H. injection H as <- <-.
  exists collected, searched. split; [exact Hc |].
  destruct (unique_of_spec collected) as (Hnd & Hsub & Hcov).
  cbv zeta. repeat split; auto.
  - destruct (slice_to_sub limit (unique_of collected)) as [m ->].
    rewrite <- firstn_map. apply NoDup_firstn. now apply NoDup_pairs_of_keys.
  - apply slice_to_length.
  - intros Hwell r Hin. rewrite Forall_forall in Hwell.
    specialize (Hcov r Hin). apply in_map_iff in Hcov.
    destruct Hcov as (r' & Hkey & Hin').
    apply in_map_iff. exists r'. split; [| assumption].
    apply key_faithful; auto.
Qed.

(** C8 (amended) at work: two customers, limit 20. *)
Lemma C8_global_search_deduplicates_witness :
  returns (_global_search Sites.customer_site Sites.no_float "cust" 20) /\
  exists out collected searched,
    _global_search Sites.customer_site Sites.no_float "cust" 20 [] = (Ok out, []) /\
    collect Sites.customer_site Sites.no_float "cust" 20 [] = (Ok (collected, searched), []) /\
    dict_get "total_found" out = Some (VInt (len (unique_of collected))) /\
    NoDup (map pair_of (slice_to 20 (unique_of collected))) /\
    (0 <= 20 -> len (slice_to 20 (unique_of collected)) <= 20).
Proof.
  pose proof (C8_global_search_deduplicates Sites.customer_site Sites.no_float
                "cust" 20 []) as [Hret Hres].
  split.
  - apply Hret. intros w0. eexists. reflexivity.
  - assert (Hrun : { out | _global_search Sites.customer_site Sites.no_float "cust" 20 [] =
                            (Ok out, []) })
      by (eexists; vm_compute; reflexivity).
    destruct Hrun as [out Hrun]. exists out.
    destruct (Hres out [] Hrun)
      as (collected & searched & Hc & _ & Htotal & _ & Hnd & Hlen & _).
    exists collected, searched. repeat split; assumption.
Defined.

(** ** Blueprints *)

Import BuildBlueprint.

Lemma validate_read_only (h : Host) (doctype : string) (data : dict) :
  read_only_run (_validate_step h doctype data).
Proof.
  unfold _validate_step.
  apply read_only_bind; [apply read_only_query | intros ex].
  destruct (negb ex); [apply read_only_ret |].
  apply read_only_bind; [destruct (_ && _); auto with ro | intros dup].
  destruct dup; [apply read_only_ret |].
  apply read_only_bind; [destruct (_ && _); auto with ro | intros existing].
  destruct existing; [apply read_only_ret |].
  apply read_only_bind; [destruct (_ && _); auto with ro | intros wf].
  destruct wf; apply read_only_ret.
Qed.

Lemma validate_returns (h : Host) (doctype : string) (data : dict) :
  (forall w d n, exists b, db_exists h w d n = Ok b) ->
  returns (_validate_step h doctype data).
Proof.
  intros Hex. unfold _validate_step.
  assert (Hask : forall d n, returns (ask (fun w => db_exists h w d n)))
    by (intros d n; apply returns_query; intros w; apply Hex).
  apply returns_bind; [apply Hask | intros ex].
  destruct (negb ex); [apply returns_ret |].
  apply returns_bind; [destruct (_ && _); [apply Hask | apply returns_ret] | intros dup].
  destruct dup; [apply returns_ret |].
  apply returns_bind; [destruct (_ && _); [apply Hask | apply returns_ret] | intros existing].
  destruct existing; [apply returns_ret |].
  apply returns_bind; [destruct (_ && _); [apply Hask | apply returns_ret] | intros wf].
  destruct wf; apply returns_ret.
Qed.

(** A dry round only appends one entry to the log. *)
Lemma run_step_dry (h : Host) (format_exc : exn -> string) (total : Z)
    (p : Progress) (numbered : Z * Step) (w : World) :
  snd (run_step h format_exc true total p numbered w) = w /\
  forall p', fst (run_step h format_exc true total p numbered w) = Ok p' ->
    exists entry, build_log p' = build_log p ++ [entry] /\ dry_status entry /\
                  created p' = created p /\ failed p' = failed p.
Proof.
  destruct numbered as [i step]. unfold run_step.
  destruct (negb (PyStr.nonempty (step_doctype step)) || negb (truthy (VDict (step_data step)))).
  - split; [reflexivity |]. intros p' H. simpl in H. injection H as <-.
    eexists. split; [reflexivity |]. split; [| split; reflexivity].
    right. right. reflexivity.
  - pose proof (validate_read_only h (step_doctype step) (step_data step) w) as Hro.
    unfold bind.
    destruct (_validate_step h (step_doctype step) (step_data step) w)
      as [[[valid msg] | e] w1]; simpl in Hro; subst w1.
    + split; [reflexivity |]. intros p' H. simpl in H. injection H as <-.
      eexists. split; [reflexivity |]. split; [| split; reflexivity].
      destruct valid; [left | right; left]; reflexivity.
    + split; [reflexivity |]. intros p' H. discriminate H.
Qed.

Lemma run_loop_dry (h : Host) (format_exc : exn -> string) (total : Z)
    (l : list (Z * Step)) :
  forall p w,
    snd (for_each l (run_step h format_exc true total) p w) = w /\
    forall p', fst (for_each l (run_step h format_exc true total) p w) = Ok p' ->
      exists entries,
        build_log p' = build_log p ++ entries /\ Forall dry_status entries /\
        List.length entries = List.length l /\
        created p' = created p /\ failed p' = failed p.
Proof.
  induction l as [| x r IH]; intros p w; cbn [for_each].
  - split; [reflexivity |]. intros p' H. simpl in H. injection H as <-.
    exists []. rewrite app_nil_r. repeat split; constructor.
  - destruct (run_step_dry h format_exc total p x w) as [Hw Hstep].
    unfold bind.
    destruct (run_step h format_exc true total p x w) as [[p1 | e] w1];
      simpl in Hw; subst w1.
    + destruct (Hstep p1 eq_refl) as (entry & Hlog & Hst & Hc & Hf).
      destruct (IH p1 w) as [Hw' Hrest]. split; [exact Hw' |].
      intros p' H. destruct (Hrest p' H) as (entries & Hlog' & Hall & Hlen & Hc' & Hf').
      exists (entry :: entries). repeat split.
      * rewrite Hlog', Hlog, <- app_assoc. reflexivity.
      * now constructor.
      * simpl. now rewrite Hlen.
      * congruence.
      * congruence.
    + split; [reflexivity |]. intros p' H. discriminate H.
Qed.

Lemma enumerate_length {A} (l : list A) : List.length (enumerate l) = List.length l.
Proof.
  unfold enumerate. rewrite length_combine, length_map, length_seq. lia.
Qed.

Lemma summary_of_dry (module_name : string) (total : Z) (p : Progress) :
  created p = [] ->
  dict_get "success" (summary_of module_name true total p) = Some (VInt 0) /\
  dict_get "created_items" (summary_of module_name true total p) = None.
Proof.
  intros Hc. unfold summary_of. rewrite Hc. cbn [dicts map truthy len List.length].
  split;
    repeat match goal with
    | |- context [if ?c then _ else _] =>
        match c with
        | String.eqb _ _ => fail 1
        | _ => destruct c
        end
    end;
    repeat rewrite dict_get_set; reflexivity.
Qed.

(** C9: [build_blueprint] keeps within its bounds.  With more than 50
    steps it returns the error dictionary and the world is untouched: no
    step is run.  With [dry_run] true the world is untouched whatever
    happens, so no document is created; when the call returns, it returns
    either an error dictionary or the summary of a loop that logged one entry
    per step, each with status VALID, INVALID or SKIPPED, created nothing,
    and so reports [success = 0] without [created_items]; and it does return
    as long as the host answers the existence checks. *)
Theorem C9_build_blueprint_bounds (h : Host) (format_exc : exn -> string)
    (arguments : Arguments) (w : World) :
  (len (arg_steps arguments) > 50 ->
   execute h format_exc arguments w =
     (Ok [("error", VStr "Too many steps (max 50). Break into smaller modules.")], w)) /\
  (arg_dry_run arguments = Some true ->
   snd (execute h format_exc arguments w) = w /\
   (forall out,
       fst (execute h format_exc arguments w) = Ok out ->
       (exists msg, out = [("error", VStr msg)]) \/
       (exists p,
           run_steps h format_exc true (arg_steps arguments) w = (Ok p, w) /\
           Forall dry_status (build_log p) /\
           List.length (build_log p) = List.length (arg_steps arguments) /\
           created p = [] /\
           dict_get "success" out = Some (VInt 0) /\
           dict_get "created_items" out = None)) /\
   ((forall w0 d n, exists b, db_exists h w0 d n = Ok b) ->
    exists out, fst (execute h format_exc arguments w) = Ok out)).
Proof.
  split.
  - intros Hlen. unfold execute.
    destruct (arg_steps arguments) as [| s r] eqn:Hs; [unfold len in Hlen; simpl in Hlen; lia |].
    cbn [is_empty]. apply Z.gtb_gt in Hlen. rewrite Hlen. reflexivity.
  - intros Hdry. unfold execute. rewrite Hdry.
    destruct (is_empty (arg_steps arguments)).
    { split; [reflexivity |]. split.
      - intros out H. simpl in H. injection H as <-. left. now eexists.
      - intros _. now eexists. }
    destruct (len (arg_steps arguments) >? 50).
    { split; [reflexivity |]. split.
      - intros out H. simpl in H. injection H as <-. left. now eexists.
      - intros _. now eexists. }
    unfold run_steps.
    destruct (run_loop_dry h format_exc (len (arg_steps arguments))
                (enumerate (arg_steps arguments)) (mkProgress [] [] []) w)
      as [Hw Hloop].
    unfold bind.
    destruct (for_each (enumerate (arg_steps arguments))
                (run_step h format_exc true (len (arg_steps arguments)))
                (mkProgress [] [] []) w) as [[p | e] w1] eqn:Hrun;
      simpl in Hw; subst w1.
    + split; [reflexivity |]. split; [| intros _; now eexists].
      intros out H. simpl in H. injection H as <-. right.
      destruct (Hloop p eq_refl) as (entries & Hlog & Hall & Hlen & Hc & Hf).
      simpl in Hlog, Hc, Hf. subst entries.
      destruct (summary_of_dry
                  match arg_module_name arguments with
                  | Some m => m
                  | None => "Unknown Module"
                  end (len (arg_steps arguments)) p Hc) as [Hs Hi].
      exists p. repeat split; try assumption.
      rewrite Hlen. apply enumerate_length.
    + split; [reflexivity |]. split; [intros out H; discriminate H |].
      intros Hex. exfalso.
      assert (Hret : returns (for_each (enumerate (arg_steps arguments))
                                (run_step h format_exc true (len (arg_steps arguments)))
                                (mkProgress [] [] []))).
      { apply returns_for_each. intros p [i step] _. unfold run_step.
        destruct (_ || _); [apply returns_ret |].
        apply returns_bind; [now apply validate_returns |].
        intros [valid msg]. apply returns_ret. }
      destruct (Hret w) as [p Hp]. rewrite Hrun in Hp. discriminate Hp.
Qed.

(** C9 at work: 51 steps are refused, and a dry run of two steps on the
    empty site logs INVALID and SKIPPED. *)
Lemma C9_build_blueprint_bounds_witness :
  execute Sites.empty_site Sites.no_traceback
    (mkArguments (repeat (mkStep "ToDo" [("description", VStr "x")] None) 51) None None) [] =
    (Ok [("error", VStr "Too many steps (max 50). Break into smaller modules.")], []) /\
  snd (execute Sites.empty_site Sites.no_traceback Sites.dry_arguments []) = [] /\
  exists out,
    fst (execute Sites.empty_site Sites.no_traceback Sites.dry_arguments []) = Ok out /\
    dict_get "success" out = Some (VInt 0).
Proof.
  split; [| split].
  - apply (C9_build_blueprint_bounds Sites.empty_site Sites.no_traceback
             (mkArguments (repeat (mkStep "ToDo" [("description", VStr "x")] None) 51)
                None None) []).
    vm_compute. reflexivity.
  - apply (C9_build_blueprint_bounds Sites.empty_site Sites.no_traceback
             Sites.dry_arguments []). reflexivity.
  - destruct (C9_build_blueprint_bounds Sites.empty_site Sites.no_traceback
                Sites.dry_arguments []) as [_ Hdry].
    destruct (Hdry eq_refl) as (_ & Hout & Hret).
    destruct Hret as [out Hrun]; [intros w0 d n; eexists; reflexivity |].
    exists out. split; [exact Hrun |].
    destruct (Hout out Hrun) as [[msg ->] | (p & _ & _ & _ & _ & Hs & _)];
      [vm_compute in Hrun; discriminate Hrun | exact Hs].
Defined.

(** ** Rollback refusals *)

Import RollbackChanges.

Lemma disable_property_setter (h : Host) (doc : Doc) (w : World) :
  doc_doctype doc = "Property Setter" ->
  _disable h doc w = (Ok property_setter_refusal, w).
Proof.
  intros Hdt. unfold _disable, try_except. rewrite Hdt. reflexivity.
Qed.

Lemma script_cases (dt : string) :
  mem dt scripts = true -> dt = "Client Script" \/ dt = "Server Script".
Proof.
  intros H. apply mem_In in H. simpl in H. intuition.
Qed.

Lemma delete_enabled_script (h : Host) (doc : Doc) (w : World) :
  mem (doc_doctype doc) scripts = true ->
  eq_one (getattr doc "disabled" (VInt 0)) = false ->
  _delete h doc w = (Ok enabled_script_refusal, w).
Proof.
  intros Hdt Hen. unfold _delete, _check_dependencies, try_except, bind.
  rewrite Hen. destruct (script_cases _ Hdt) as [-> | ->]; reflexivity.
Qed.

Lemma execute_disable_property_setter (h : Host) (name : string) (w : World) :
  (forall w0 doc, get_doc h w0 "Property Setter" name = Ok doc ->
                  doc_doctype doc = "Property Setter") ->
  exists msg,
    execute h (mkArguments (Some "Property Setter") (Some name) (Some "disable")) w =
      (Ok (failure msg), w).
Proof.
  intros Hdoc. unfold execute, execute_body, try_except, bind, ask, ret. cbn [arg_doctype arg_name arg_action].
  cbn [PyStr.nonempty negb orb].
  destruct (negb (PyStr.nonempty name)); [now eexists |].
  cbn [mem existsb allowed String.eqb Ascii.eqb Bool.eqb orb negb].
  destruct (has_permission h w "Property Setter" "write" true) as [p | e]; [| now eexists].
  cbn [negb].
  destruct (db_exists h w "Property Setter" name) as [[|] | e]; try now eexists.
  cbn [negb].
  destruct (get_doc h w "Property Setter" name) as [doc | e] eqn:Hget; [| now eexists].
  cbn [String.eqb Ascii.eqb Bool.eqb].
  rewrite (disable_property_setter h doc w (Hdoc w doc Hget)). now eexists.
Qed.

Lemma execute_delete_enabled_script (h : Host) (dt name : string) (w : World) :
  mem dt scripts = true ->
  (forall w0 doc, get_doc h w0 dt name = Ok doc ->
                  doc_doctype doc = dt /\ eq_one (getattr doc "disabled" (VInt 0)) = false) ->
  exists out,
    execute h (mkArguments (Some dt) (Some name) (Some "delete")) w = (Ok out, w) /\
    dict_get "success" out = Some (VBool false).
Proof.
  intros Hdt Hdoc. unfold execute, execute_body, try_except, bind, ask, ret.
  cbn [arg_doctype arg_name arg_action].
  destruct (negb (PyStr.nonempty dt) || negb (PyStr.nonempty name)); [now eexists |].
  destruct (negb (mem dt allowed)); [now eexists |].
  destruct (has_permission h w dt "write" true) as [p | e]; [| now eexists].
  cbn [negb].
  destruct (db_exists h w dt name) as [[|] | e]; try now eexists.
  cbn [negb].
  destruct (get_doc h w dt name) as [doc | e] eqn:Hget; [| now eexists].
  cbn [String.eqb Ascii.eqb Bool.eqb].
  destruct (Hdoc w doc Hget) as [Hd Hen]. subst dt.
  rewrite (delete_enabled_script h doc w Hdt Hen). now eexists.
Qed.

(** C10: [rollback_changes] refuses in two fixed cases and touches
    nothing.  [_disable] on a Property Setter returns [success = False]
    with the remark that Property Setters can only be deleted; [_delete] on
    a Client Script or Server Script whose [disabled] is not 1 returns
    [success = False] and tells the caller to disable first.  Through
    [execute], with the host handing out the document asked for, both
    requests end in [success = False] whatever else the host does, and the
    world is as before: nothing saved, nothing deleted. *)
Theorem C10_rollback_refusals (h : Host) (w : World) :
  (forall doc,
      doc_doctype doc = "Property Setter" ->
      _disable h doc w =
        (Ok [("success", VBool false);
             ("error",
              VStr "Property Setters cannot be disabled, only deleted. Use action=delete.")],
         w)) /\
  (forall doc,
      mem (doc_doctype doc) ["Client Script"; "Server Script"] = true ->
      eq_one (getattr doc "disabled" (VInt 0)) = false ->
      _delete h doc w =
        (Ok [("success", VBool false);
             ("error", VStr "Script is still enabled. Disable it first before deleting.");
             ("suggestion",
              VStr "Use action=disable first, verify nothing breaks, then delete.")],
         w)) /\
  (forall name,
      (forall w0 doc, get_doc h w0 "Property Setter" name = Ok doc ->
                      doc_doctype doc = "Property Setter") ->
      exists out,
        execute h (mkArguments (Some "Property Setter") (Some name) (Some "disable")) w =
          (Ok out, w) /\
        dict_get "success" out = Some (VBool false)) /\
  (forall dt name,
      mem dt ["Client Script"; "Server Script"] = true ->
      (forall w0 doc, get_doc h w0 dt name = Ok doc ->
                      doc_doctype doc = dt /\
                      eq_one (getattr doc "disabled" (VInt 0)) = false) ->
      exists out,
        execute h (mkArguments (Some dt) (Some name) (Some "delete")) w = (Ok out, w) /\
        dict_get "success" out = Some (VBool false)).
Proof.
  split; [intros doc; apply disable_property_setter |].
  split; [intros doc; apply delete_enabled_script |].
  split.
  - intros name Hdoc.
    destruct (execute_disable_property_setter h name w Hdoc) as [msg Hrun].
    exists (failure msg). split; [exact Hrun | reflexivity].
  - intros dt name. apply execute_delete_enabled_script.
Qed.

(** C10 at work: a Property Setter and an enabled Server Script on a site
    that holds them. *)
Lemma C10_rollback_refusals_witness :
  _disable Sites.script_site (mkDoc "Property Setter" "Item-main-search_fields" []) [] =
    (Ok [("success", VBool false);
         ("error",
          VStr "Property Setters cannot be disabled, only deleted. Use action=delete.")],
     []) /\
  _delete Sites.script_site (mkDoc "Server Script" "Notify" [("disabled", VInt 0)]) [] =
    (Ok [("success", VBool false);
         ("error", VStr "Script is still enabled. Disable it first before deleting.");
         ("suggestion",
          VStr "Use action=disable first, verify nothing breaks, then delete.")],
     []) /\
  (exists out,
      execute Sites.script_site
        (mkArguments (Some "Property Setter") (Some "Item-main-search_fields") (Some "disable"))
        [] = (Ok out, []) /\
      dict_get "success" out = Some (VBool false)) /\
  (exists out,
      execute Sites.script_site
        (mkArguments (Some "Server Script") (Some "Notify") (Some "delete")) [] =
        (Ok out, []) /\
      dict_get "success" out = Some (VBool false)).
Proof.
  destruct (C10_rollback_refusals Sites.script_site []) as (Hdis & Hdel & Hxdis & Hxdel).
  split; [apply Hdis; reflexivity |].
  split; [apply Hdel; reflexivity |].
  split.
  - apply Hxdis. intros w0 doc H. simpl in H. injection H as <-. reflexivity.
  - apply Hxdel; [reflexivity |]. intros w0 doc H. simpl in H. injection H as <-.
    split; reflexivity.
Defined.

(** ** [verify_build]: every test is held in a [try] *)

Import VerifyBuild.

Lemma always_ret {A} (P : A -> Prop) (a : A) : P a -> always P (ret a).
Proof. intros H w a' E. simpl in E. now injection E as <-. Qed.

Lemma always_raise {A} (P : A -> Prop) (e : exn) : always P (@raise A e).
Proof. intros w a E. discriminate E. Qed.

Lemma always_bind {A B} (P : B -> Prop) (m : M A) (k : A -> M B) :
  (forall a, always P (k a)) -> always P (bind m k).
Proof.
  intros Hk w b. unfold bind.
  destruct (m w) as [[a | e] w1]; [apply Hk | discriminate].
Qed.

Lemma always_try {A} (P : A -> Prop) (body : M A) (handler : exn -> M A) :
  always P body -> (forall e, always P (handler e)) -> always P (try_except body handler).
Proof.
  intros Hb Hh w a. unfold try_except.
  destruct (body w) as [[a' | e] w1] eqn:E.
  - intros Ha. apply (Hb w). now rewrite E.
  - apply Hh.
Qed.

Lemma verdict_complete (type name status message : string) (more : dict) :
  complete (verdict type name status message more).
Proof. now exists type, name, status, message, more. Qed.

Ltac complete_step :=
  first
    [ apply always_ret; apply verdict_complete
    | apply always_raise
    | apply always_try; [| intros ?]
    | apply always_bind; intros ?
    | match goal with
      | |- always _ (if ?c then _ else _) => destruct c
      | |- always _ (match ?x with _ => _ end) => destruct x
      end ].

Lemma test_doctype_complete (h : Host) (name : string) (auto_fix : bool) :
  always complete (_test_doctype h name auto_fix).
Proof. unfold _test_doctype. repeat complete_step. Qed.

Lemma test_custom_field_complete (h : Host) (name : string) (auto_fix : bool) :
  always complete (_test_custom_field h name auto_fix).
Proof. unfold _test_custom_field. repeat complete_step. Qed.

Lemma test_server_script_complete (h : Host) (compile : string -> Compiled)
    (name : string) (auto_fix : bool) :
  always complete (_test_server_script h compile name auto_fix).
Proof. unfold _test_server_script. repeat complete_step. Qed.

Lemma test_client_script_complete (h : Host) (name : string) (auto_fix : bool) :
  always complete (_test_client_script h name auto_fix).
Proof. unfold _test_client_script. repeat complete_step. Qed.

Lemma test_workflow_complete (h : Host) (name : string) (auto_fix : bool) :
  always complete (_test_workflow h name auto_fix).
Proof. unfold _test_workflow. repeat complete_step. Qed.

Lemma test_report_complete (h : Host) (name : string) (auto_fix : bool) :
  always complete (_test_report h name auto_fix).
Proof. unfold _test_report. repeat complete_step. Qed.

Lemma test_notification_complete (h : Host) (name : string) (auto_fix : bool) :
  always complete (_test_notification h name auto_fix).
Proof. unfold _test_notification. repeat complete_step. Qed.

Lemma test_print_format_complete (h : Host) (name : string) (auto_fix : bool) :
  always complete (_test_print_format h name auto_fix).
Proof. unfold _test_print_format. repeat complete_step. Qed.

Lemma test_property_setter_complete (h : Host) (name : string) (auto_fix : bool) :
  always complete (_test_property_setter h name auto_fix).
Proof. unfold _test_property_setter. repeat complete_step. Qed.

Lemma tester_complete (h : Host) (compile : string -> Compiled) (comp_type : string)
    (tester : string -> bool -> M dict) (name : string) (auto_fix : bool) :
  tester_of h compile comp_type = Some tester ->
  always complete (tester name auto_fix).
Proof.
  unfold tester_of. intros H.
  repeat match type of H with
         | (if ?c then _ else _) = _ => destruct c
         end;
    try discriminate H; injection H as <-.
  - apply test_doctype_complete.
  - apply test_custom_field_complete.
  - apply test_server_script_complete.
  - apply test_client_script_complete.
  - apply test_workflow_complete.
  - apply test_report_complete.
  - apply test_notification_complete.
  - apply test_print_format_complete.
  - apply test_property_setter_complete.
Qed.

(** [_test_component] returns whatever the host does, and what it returns
    carries [type], [name], [status] and [message]. *)
Lemma test_component_total (h : Host) (compile : string -> Compiled)
    (comp_type comp_name : string) (auto_fix : bool) (w : World) :
  exists r w', _test_component h compile comp_type comp_name auto_fix w = (Ok r, w') /\
               complete r.
Proof.
  unfold _test_component.
  destruct (tester_of h compile comp_type) as [tester |] eqn:Et.
  - unfold try_except.
    destruct (tester comp_name auto_fix w) as [[r | e] w1] eqn:E.
    + exists r, w1. split; [reflexivity |].
      apply (tester_complete h compile comp_type tester comp_name auto_fix Et w).
      now rewrite E.
    + do 2 eexists. split; [reflexivity | apply verdict_complete].
  - do 2 eexists. split; [reflexivity | apply verdict_complete].
Qed.

Lemma for_each_total {A S} (I : S -> Prop) (l : list A) (step : S -> A -> M S) :
  (forall s a w, I s -> exists s' w', step s a w = (Ok s', w') /\ I s') ->
  forall s w, I s -> exists s' w', for_each l step s w = (Ok s', w') /\ I s'.
Proof.
  intros Hstep. induction l as [| x r IH]; intros s w Hs; simpl.
  - now exists s, w.
  - destruct (Hstep s x w Hs) as (s1 & w1 & E & H1).
    unfold bind. rewrite E. now apply IH.
Qed.

Lemma tally_step_total (h : Host) (compile : string -> Compiled) (auto_fix : bool)
    (t : Tally) (comp : Component) (w : World) :
  Forall complete (results t) ->
  exists t' w', tally_step h compile auto_fix t comp w = (Ok t', w') /\
                Forall complete (results t').
Proof.
  intros Ht. unfold tally_step.
  destruct (negb (PyStr.nonempty (comp_type comp)) || negb (PyStr.nonempty (comp_name comp))).
  - do 2 eexists. split; [reflexivity |]. simpl.
    apply Forall_app. split; [exact Ht |].
    constructor; [apply verdict_complete | constructor].
  - destruct (test_component_total h compile (comp_type comp) (comp_name comp) auto_fix w)
      as (r & w1 & E & Hr).
    assert (Hall : Forall complete (results t ++ [r])).
    { apply Forall_app. split; [exact Ht |]. constructor; [exact Hr | constructor]. }
    unfold bind at 1. rewrite E.
    destruct Hr as (ty & nm & st & msg & more & ->).
    cbn [bind index verdict app dict_get String.eqb Ascii.eqb Bool.eqb ret].
    destruct (value_eqb (VStr st) (VStr "PASS"));
      [| destruct (value_eqb (VStr st) (VStr "FIXED"))];
      do 2 eexists; (split; [reflexivity | exact Hall]).
Qed.

Lemma log_line_total (r : dict) (w : World) :
  complete r -> exists line, log_line r w = (Ok line, w).
Proof.
  intros (ty & nm & st & msg & more & ->). unfold log_line.
  cbn [bind index verdict app dict_get String.eqb Ascii.eqb Bool.eqb ret].
  eexists. reflexivity.
Qed.

Lemma log_total (rs : list dict) :
  Forall complete rs ->
  forall lines w, exists out,
    for_each rs (fun lines r => line <- log_line r ;; ret (lines ++ [line])) lines w =
      (Ok out, w).
Proof.
  induction 1 as [| r rs Hr _ IH]; intros lines w; simpl.
  - now exists lines.
  - destruct (log_line_total r w Hr) as [line E].
    unfold bind. rewrite E. apply IH.
Qed.

Lemma verify_execute_returns (h : Host) (compile : string -> Compiled)
    (arguments : VerifyBuild.Arguments) :
  returns (VerifyBuild.execute h compile arguments).
Proof.
  intros w. unfold VerifyBuild.execute.
  destruct (is_empty (arg_components arguments)); [now eexists |].
  destruct (for_each_total (fun t => Forall complete (results t))
              (arg_components arguments)
              (tally_step h compile
                 match arg_auto_fix arguments with Some b => b | None => false end)
              (fun t a w => tally_step_total h compile _ t a w)
              (mkTally [] 0 0 0) w (Forall_nil _)) as (t & w1 & E & Ht).
  unfold bind at 1. rewrite E. cbn beta iota.
  destruct (log_total (results t) Ht [] w1) as [lines El].
  unfold bind at 1. rewrite El. now eexists.
Qed.

(** ** Exceptions and envelopes *)

Lemma try_envelope {A} (body : M A) (handler : exn -> A) (w : World) :
  (forall e w1, body w = (Raise e, w1) ->
                try_except body (fun e => ret (handler e)) w = (Ok (handler e), w1)) /\
  (forall a w1, body w = (Ok a, w1) ->
                try_except body (fun e => ret (handler e)) w = (Ok a, w1)).
Proof.
  unfold try_except, ret. split; intros x w1 H; rewrite H; reflexivity.
Qed.

Lemma map_execute_returns (h : Host) (arguments : MapRelationships.Arguments) :
  reads_answer h -> returns (MapRelationships.execute h arguments).
Proof.
  intros (Hex & Hsql & Hmeta & _ & _). unfold MapRelationships.execute.
  destruct (negb (PyStr.nonempty _)); [apply returns_ret |].
  apply returns_bind; [apply returns_query; intros w; apply Hex | intros ex].
  destruct (negb ex).
  - apply returns_bind; [apply returns_query; intros w; apply Hsql | intros found].
    destruct (truthy (dicts found)); apply returns_ret.
  - apply returns_bind; [apply map_doctype_returns; exact Hmeta |].
    intros [r v]. apply returns_ret.
Qed.

Lemma search_single_returns (h : Host) (float : string -> option Q)
    (doctype q : string) (limit : Z) :
  reads_answer h -> returns (_search_single_doctype_full h float doctype q limit).
Proof.
  intros (Hex & _ & Hmeta & Hall & Hperm). unfold _search_single_doctype_full.
  apply returns_bind; [apply returns_query; intros w; apply Hex | intros ex].
  destruct (negb ex); [apply returns_ret |].
  apply returns_bind; [apply returns_query; intros w; apply Hperm | intros allowed].
  destruct (negb allowed); [apply returns_ret |].
  destruct (_is_numeric float q) as [b nv].
  apply returns_bind; [apply returns_query; intros w; apply Hmeta | intros meta].
  destruct (_get_searchable_fields meta b) as [tf nf].
  apply returns_bind; [apply returns_query; intros w; apply Hall | intros rows].
  apply returns_ret.
Qed.

Lemma search_execute_returns (h : Host) (float : string -> option Q)
    (arguments : UniversalSearch.Arguments) :
  reads_answer h -> returns (UniversalSearch.execute h float arguments).
Proof.
  intros Hr. unfold UniversalSearch.execute.
  destruct (negb (PyStr.nonempty _)); [apply returns_ret |].
  assert (Hg : forall q limit, returns (_global_search h float q limit)).
  { intros q limit. apply global_search_returns. intros w.
    destruct Hr as (_ & _ & _ & Hall & _). apply Hall. }
  destruct (UniversalSearch.arg_doctype arguments) as [dt |]; [| apply Hg].
  destruct (PyStr.nonempty dt); [now apply search_single_returns | apply Hg].
Qed.

Lemma blueprint_execute_returns (h : Host) (format_exc : exn -> string)
    (arguments : BuildBlueprint.Arguments) :
  reads_answer h -> returns (BuildBlueprint.execute h format_exc arguments).
Proof.
  intros (Hex & _). unfold BuildBlueprint.execute.
  destruct (is_empty _); [apply returns_ret |].
  destruct (_ >? 50); [apply returns_ret |].
  apply returns_bind; [| intros p; apply returns_ret].
  unfold run_steps. apply returns_for_each. intros p [i step] _. unfold run_step.
  destruct (_ || _); [apply returns_ret |].
  destruct (match BuildBlueprint.arg_dry_run arguments with Some b => b | None => false end).
  - apply returns_bind; [now apply validate_returns |].
    intros [valid msg]. apply returns_ret.
  - apply returns_try. intros e. apply returns_ret.
Qed.

Lemma explore_single_field_returns (h : Host) (meta : Meta) (doctype field_name : string) :
  returns (FieldExplorer._explore_single_field h meta doctype field_name).
Proof.
  unfold FieldExplorer._explore_single_field.
  destruct (get_field meta field_name) as [field |].
  - apply returns_bind; [| intros info; apply returns_ret].
    destruct (_ && _); [| apply returns_ret].
    apply returns_try. intros e. apply returns_ret.
  - destruct (String.eqb field_name "name"); apply returns_ret.
Qed.

Lemma explorer_execute_returns (h : Host) (arguments : FieldExplorer.Arguments) :
  reads_answer h -> returns (FieldExplorer.execute h arguments).
Proof.
  intros (Hex & _ & Hmeta & _ & Hperm). unfold FieldExplorer.execute.
  apply returns_bind; [apply returns_query; intros w; apply Hex | intros ex].
  destruct (negb ex); [apply returns_ret |].
  apply returns_bind; [apply returns_query; intros w; apply Hperm | intros allowed].
  destruct (negb allowed); [apply returns_ret |].
  apply returns_bind; [apply returns_query; intros w; apply Hmeta | intros meta].
  destruct (FieldExplorer.arg_field arguments) as [field_name |]; [| apply returns_ret].
  destruct (PyStr.nonempty field_name);
    [apply explore_single_field_returns | apply returns_ret].
Qed.

Lemma guarded_execute {A} (body : M A) (handler : exn -> A) (w : World) :
  (exists out w', try_except body (fun e => ret (handler e)) w = (Ok out, w')) /\
  (forall e w1, body w = (Raise e, w1) ->
                try_except body (fun e => ret (handler e)) w = (Ok (handler e), w1)).
Proof.
  split.
  - apply try_except_total. intros e w'. do 2 eexists. reflexivity.
  - apply try_envelope.
Qed.

(** C1 (counterexample): on a site whose existence check raises,
    [MapRelationships.execute], [UniversalSearch.execute] (through
    [_search_single_doctype_full]), [FieldExplorer.execute] and a dry run of
    [BuildBlueprint.execute] raise that exception themselves instead of
    returning a dictionary. *)
Lemma C1_exceptions_propagate :
  MapRelationships.execute Sites.down_site
    (MapRelationships.mkArguments (Some "Customer") None None) [] =
    (Raise (Exn "OperationalError: connection lost"), []) /\
  UniversalSearch.execute Sites.down_site Sites.no_float
    (UniversalSearch.mkArguments (Some "acme") (Some "Customer") None) [] =
    (Raise (Exn "OperationalError: connection lost"), []) /\
  FieldExplorer.execute Sites.down_site
    (FieldExplorer.mkArguments "Customer" None None) [] =
    (Raise (Exn "OperationalError: connection lost"), []) /\
  BuildBlueprint.execute Sites.down_site Sites.no_traceback Sites.dry_arguments [] =
    (Raise (Exn "OperationalError: connection lost"), []) /\
  ~ (forall h arguments, returns (MapRelationships.execute h arguments)).
Proof.
  split; [reflexivity |]. split; [reflexivity |]. split; [reflexivity |].
  split; [reflexivity |].
  intros H.
  destruct (H Sites.down_site (MapRelationships.mkArguments (Some "Customer") None None) [])
    as [r Hr].
  discriminate Hr.
Qed.

(** C1 (amended): of the nine tool classes, [MonitorErrors.execute],
    [RollbackChanges.execute], [TestCreatedItem.execute] and
    [IntrospectSystem.execute] hold their whole body in a [try]: they always
    return a dictionary, and an exception [e] that leaves the body comes
    back as [{"success": False, "error": str(e)}].
    [VerifyBuild.execute] holds each component test in a [try]: it always
    returns a dictionary, and an exception [e] of a test comes back as a
    result of status [FAIL] with the message ["Test error: " + str(e)].
    [MapRelationships.execute], [UniversalSearch.execute],
    [FieldExplorer.execute] and [BuildBlueprint.execute] call [exists],
    [sql], [get_meta], [has_permission] and [get_all] outside any [try]:
    they return a dictionary whenever the host answers these calls (and let
    the exception through when it does not). *)
Theorem C1_envelopes :
  (forall h arguments w,
      (exists out w', MonitorErrors.execute h arguments w = (Ok out, w')) /\
      (forall e w1,
          MonitorErrors.execute_body h arguments w = (Raise e, w1) ->
          MonitorErrors.execute h arguments w =
            (Ok [("success", VBool false); ("error", VStr (str_exn e))], w1))) /\
  (forall h arguments w,
      (exists out w', RollbackChanges.execute h arguments w = (Ok out, w')) /\
      (forall e w1,
          RollbackChanges.execute_body h arguments w = (Raise e, w1) ->
          RollbackChanges.execute h arguments w =
            (Ok [("success", VBool false); ("error", VStr (str_exn e))], w1))) /\
  (forall h compile arguments w,
      (exists out w', TestCreatedItem.execute h compile arguments w = (Ok out, w')) /\
      (forall e w1,
          TestCreatedItem.execute_body h compile arguments w = (Raise e, w1) ->
          TestCreatedItem.execute h compile arguments w =
            (Ok [("success", VBool false); ("error", VStr (str_exn e))], w1))) /\
  (forall h arguments w,
      (exists out w', IntrospectSystem.execute h arguments w = (Ok out, w')) /\
      (forall e w1,
          IntrospectSystem.execute_body h arguments w = (Raise e, w1) ->
          IntrospectSystem.execute h arguments w =
            (Ok [("success", VBool false); ("error", VStr (str_exn e))], w1))) /\
  (forall h compile arguments,
      returns (VerifyBuild.execute h compile arguments)) /\
  (forall h compile comp_type tester comp_name auto_fix w e w1,
      tester_of h compile comp_type = Some tester ->
      tester comp_name auto_fix w = (Raise e, w1) ->
      _test_component h compile comp_type comp_name auto_fix w =
        (Ok [("type", VStr comp_type); ("name", VStr comp_name);
             ("status", VStr "FAIL");
             ("message", VStr ("Test error: " ++ str_exn e));
             ("fix_suggestion", VStr "Check if component exists and is accessible")],
         w1)) /\
  (forall h arguments,
      reads_answer h -> returns (MapRelationships.execute h arguments)) /\
  (forall h float arguments,
      reads_answer h -> returns (UniversalSearch.execute h float arguments)) /\
  (forall h arguments,
      reads_answer h -> returns (FieldExplorer.execute h arguments)) /\
  (forall h format_exc arguments,
      reads_answer h -> returns (BuildBlueprint.execute h format_exc arguments)).
Proof.
  split; [| split; [| split; [| split; [| split; [| split; [| split; [| split;
    [| split]]]]]]]].
  - intros h arguments w.
    apply (guarded_execute (MonitorErrors.execute_body h arguments)
             (fun e => MonitorErrors.failure (str_exn e)) w).
  - intros h arguments w.
    apply (guarded_execute (RollbackChanges.execute_body h arguments)
             (fun e => RollbackChanges.failure (str_exn e)) w).
  - intros h compile arguments w.
    apply (guarded_execute (TestCreatedItem.execute_body h compile arguments)
             (fun e => TestCreatedItem.failure (str_exn e)) w).
  - intros h arguments w.
    apply (guarded_execute (IntrospectSystem.execute_body h arguments)
             (fun e => IntrospectSystem.failure (str_exn e)) w).
  - exact verify_execute_returns.
  - intros h compile comp_type tester comp_name auto_fix w e w1 Ht E.
    unfold _test_component, try_except. rewrite Ht, E. reflexivity.
  - exact map_execute_returns.
  - exact search_execute_returns.
  - exact explorer_execute_returns.
  - exact blueprint_execute_returns.
Qed.

(** C1 (amended) at work: [get_all] raising inside [monitor_errors], the
    existence check raising inside a test of [verify_build], and two of the
    unguarded tools on a site that answers. *)
Lemma C1_envelopes_witness :
  MonitorErrors.execute Sites.broken_site (MonitorErrors.mkArguments None None None) [] =
    (Ok [("success", VBool false);
         ("error", VStr (str_exn (Exn "OperationalError: connection lost")))], []) /\
  _test_component Sites.down_site Sites.no_compile "Report" "Sales" false [] =
    (Ok [("type", VStr "Report"); ("name", VStr "Sales");
         ("status", VStr "FAIL");
         ("message", VStr "Test error: OperationalError: connection lost");
         ("fix_suggestion", VStr "Check if component exists and is accessible")], []) /\
  reads_answer Sites.empty_site /\
  returns (MapRelationships.execute Sites.empty_site
             (MapRelationships.mkArguments (Some "Customer") None None)) /\
  returns (FieldExplorer.execute Sites.empty_site
             (FieldExplorer.mkArguments "Customer" None None)).
Proof.
  destruct C1_envelopes as (Hmon & _ & _ & _ & _ & Hverify & Hmap & _ & Hexplore & _).
  assert (Hr : reads_answer Sites.empty_site)
    by (repeat split; intros; eexists; reflexivity).
  split.
  - apply (Hmon Sites.broken_site (MonitorErrors.mkArguments None None None) []).
    reflexivity.
  - split.
    + apply (Hverify Sites.down_site Sites.no_compile "Report"
               (_test_report Sites.down_site) "Sales" false []
               (Exn "OperationalError: connection lost") []); reflexivity.
    + split; [exact Hr |]. split; [now apply Hmap | now apply Hexplore].
Defined.

From Stdlib Require Import Sorting.Sorted Sorting.Permutation.

(** ** What a run adds to the world *)

Lemma writes_ret {A} (P : Event -> Prop) (a : A) : writes_only P (ret a).
Proof. intros w. exists []. now rewrite app_nil_r. Qed.

Lemma writes_raise {A} (P : Event -> Prop) (e : exn) : writes_only P (@raise A e).
Proof. intros w. exists []. now rewrite app_nil_r. Qed.

Lemma writes_ask {A} (P : Event -> Prop) (f : World -> res A) : writes_only P (ask f).
Proof. intros w. exists []. now rewrite app_nil_r. Qed.

Lemma writes_do_write {A} (P : Event -> Prop) (ev : Event) (f : World -> res A) :
  P ev -> writes_only P (do_write ev f).
Proof. intros H w. exists [ev]. split; [reflexivity | now constructor]. Qed.

Lemma writes_bind {A B} (P : Event -> Prop) (m : M A) (k : A -> M B) :
  writes_only P m -> (forall a, writes_only P (k a)) -> writes_only P (bind m k).
Proof.
  intros Hm Hk w. unfold bind. destruct (Hm w) as (a1 & E1 & H1).
  destruct (m w) as [[a | e] w1]; simpl in E1; subst w1.
  - destruct (Hk a (w ++ a1)) as (a2 & E2 & H2). exists (a1 ++ a2).
    split; [now rewrite E2, app_assoc | now apply Forall_app].
  - now exists a1.
Qed.

Lemma writes_try {A} (P : Event -> Prop) (body : M A) (handler : exn -> M A) :
  writes_only P body -> (forall e, writes_only P (handler e)) ->
  writes_only P (try_except body handler).
Proof.
  intros Hb Hh w. unfold try_except. destruct (Hb w) as (a1 & E1 & H1).
  destruct (body w) as [[a | e] w1]; simpl in E1; subst w1.
  - now exists a1.
  - destruct (Hh e (w ++ a1)) as (a2 & E2 & H2). exists (a1 ++ a2).
    split; [now rewrite E2, app_assoc | now apply Forall_app].
Qed.

Lemma writes_for_each {A S} (P : Event -> Prop) (l : list A) (step : S -> A -> M S) :
  (forall s a, writes_only P (step s a)) ->
  forall s, writes_only P (for_each l step s).
Proof.
  intros H. induction l as [| x r IH]; intros s; simpl.
  - apply writes_ret.
  - apply writes_bind; [apply H | apply IH].
Qed.

Lemma writes_weaken {A} (P Q : Event -> Prop) (m : M A) :
  (forall ev, P ev -> Q ev) -> writes_only P m -> writes_only Q m.
Proof.
  intros HPQ Hm w. destruct (Hm w) as (added & E & H). exists added.
  split; [exact E | eapply Forall_impl; eauto].
Qed.

Lemma writes_nothing {A} (m : M A) :
  read_only_run m <-> writes_only (fun _ => False) m.
Proof.
  split.
  - intros H w. exists []. rewrite app_nil_r. split; [apply H | constructor].
  - intros H w. destruct (H w) as (added & E & Hall).
    destruct added as [| ev r]; [now rewrite app_nil_r in E |].
    inversion Hall as [| ? ? F _]. destruct F.
Qed.

Lemma read_only_writes {A} (P : Event -> Prop) (m : M A) :
  read_only_run m -> writes_only P m.
Proof.
  intros H. apply (writes_weaken (fun _ => False)); [intros ev [] |].
  now apply writes_nothing.
Qed.

(** One step of a proof that a computation only reads. *)
Ltac ro_step :=
  first
    [ apply read_only_ret
    | apply read_only_raise
    | apply read_only_query
    | apply read_only_try; [| intros ?]
    | apply read_only_for_each; intros ? ?
    | apply read_only_bind; [| intros ?]
    | match goal with
      | |- read_only_run (if ?c then _ else _) => destruct c
      | |- read_only_run (match ?x with _ => _ end) => destruct x
      | |- read_only_run (let (_, _) := ?x in _) => destruct x
      end ].

(** One step of a proof about the writes of a computation; [tac] proves
    that an event is allowed. *)
Ltac wr_step tac :=
  first
    [ apply writes_ret
    | apply writes_raise
    | apply writes_ask
    | apply writes_do_write; tac
    | apply writes_try; [| intros ?]
    | apply writes_for_each; intros ? ?
    | apply writes_bind; [| intros ?]
    | match goal with
      | |- writes_only _ (if ?c then _ else _) => destruct c
      | |- writes_only _ (match ?x with _ => _ end) => destruct x
      | |- writes_only _ (let (_, _) := ?x in _) => destruct x
      end ].

(** ** The query tools only read *)

Lemma as_str_read_only (v : value) : read_only_run (as_str v).
Proof. destruct v; intros w; reflexivity. Qed.

Lemma len_value_read_only (v : value) : read_only_run (len_value v).
Proof. destruct v; intros w; reflexivity. Qed.

Lemma index_read_only (d : dict) (k : string) : read_only_run (index d k).
Proof. unfold index. destruct (dict_get k d); intros w; reflexivity. Qed.

Lemma rows_of_read_only (v : value) : read_only_run (rows_of v).
Proof.
  destruct v; try (intros w; reflexivity). simpl.
  apply read_only_for_each. intros rows x. destruct x; intros w; reflexivity.
Qed.

Lemma monitor_read_only (h : Host) (arguments : MonitorErrors.Arguments) :
  read_only_run (MonitorErrors.execute h arguments).
Proof.
  unfold MonitorErrors.execute, MonitorErrors.execute_body, group_step.
  repeat first [apply as_str_read_only | ro_step].
Qed.

Lemma map_execute_read_only (h : Host) (arguments : MapRelationships.Arguments) :
  read_only_run (MapRelationships.execute h arguments).
Proof.
  unfold MapRelationships.execute.
  repeat first [apply map_doctype_read_only | ro_step].
Qed.

Lemma search_dt_read_only (h : Host) (doctype query : string) (is_numeric : bool)
    (numeric_val : value) (limit : Z) :
  read_only_run (_search_dt h doctype query is_numeric numeric_val limit).
Proof. unfold _search_dt. repeat ro_step. Qed.

Lemma search_step_read_only (h : Host) (query : string) (is_numeric : bool)
    (numeric_val : value) (limit : Z) (st : list dict * list string) (dt : string) :
  read_only_run (search_step h query is_numeric numeric_val limit st dt).
Proof.
  unfold search_step. destruct st as [results searched].
  repeat first [apply search_dt_read_only | ro_step].
Qed.

Lemma search_remaining_read_only (h : Host) (query : string) (is_numeric : bool)
    (numeric_val : value) (limit : Z) (remaining : list string) :
  forall st, read_only_run (search_remaining h query is_numeric numeric_val limit remaining st).
Proof.
  induction remaining as [| dt rest IH]; intros st; cbn [search_remaining].
  - apply read_only_ret.
  - destruct (len (fst st) >=? limit); [apply read_only_ret |].
    apply read_only_bind; [apply search_step_read_only | intros st'; apply IH].
Qed.

Lemma search_execute_read_only (h : Host) (float : string -> option Q)
    (arguments : UniversalSearch.Arguments) :
  read_only_run (UniversalSearch.execute h float arguments).
Proof.
  assert (Hg : forall q limit, read_only_run (_global_search h float q limit)).
  { intros q limit. unfold _global_search, collect.
    repeat first [apply search_remaining_read_only | apply search_step_read_only | ro_step]. }
  unfold UniversalSearch.execute, _search_single_doctype_full.
  repeat first [apply Hg | ro_step].
Qed.

Lemma explorer_read_only (h : Host) (arguments : FieldExplorer.Arguments) :
  read_only_run (FieldExplorer.execute h arguments).
Proof.
  unfold FieldExplorer.execute, FieldExplorer._explore_single_field.
  repeat ro_step.
Qed.

Lemma get_links_read_only (h : Host) (doctype : string) :
  read_only_run (IntrospectSystem._get_links h doctype).
Proof.
  unfold IntrospectSystem._get_links.
  apply read_only_try; [| intros e; apply read_only_ret].
  apply read_only_bind; [apply read_only_query | intros ex].
  destruct (negb ex); [apply read_only_ret |].
  apply read_only_bind; [apply read_only_query | intros meta].
  apply read_only_bind.
  - intros w. destruct (get_all h w _ _); reflexivity.
  - intros linked_from. repeat ro_step.
Qed.

Lemma introspect_read_only (h : Host) (arguments : IntrospectSystem.Arguments) :
  read_only_run (IntrospectSystem.execute h arguments).
Proof.
  unfold IntrospectSystem.execute, IntrospectSystem.execute_body,
    IntrospectSystem._get_apps, IntrospectSystem._get_modules,
    IntrospectSystem._get_doctypes, IntrospectSystem._get_customizations,
    IntrospectSystem.customization.
  repeat first [apply get_links_read_only | ro_step].
Qed.

(** X1: four query tools never write.  Whatever the host answers and
    whether the call returns or raises, the world after
    [monitor_errors], [map_relationships], [universal_search] or
    [field_explorer] is the world before: nothing inserted, saved, deleted,
    committed or rolled back. *)
Theorem X1_query_tools_only_read (h : Host) (w : World) :
  (forall arguments, snd (MonitorErrors.execute h arguments w) = w) /\
  (forall arguments, snd (MapRelationships.execute h arguments w) = w) /\
  (forall float arguments, snd (UniversalSearch.execute h float arguments w) = w) /\
  (forall arguments, snd (FieldExplorer.execute h arguments w) = w).
Proof.
  split; [intros a; apply monitor_read_only |].
  split; [intros a; apply map_execute_read_only |].
  split; [intros f a; apply search_execute_read_only | intros a; apply explorer_read_only].
Qed.

(** ** [test_created_item]: what a test writes *)

Lemma post_ret {A} (Q : World -> res A -> World -> Prop) (a : A) :
  (forall w, Q w (Ok a) w) -> post Q (ret a).
Proof. intros H w. apply H. Qed.

Lemma post_read_bind {A B} (Q : World -> res B -> World -> Prop) (m : M A) (k : A -> M B) :
  read_only_run m -> (forall w e, Q w (Raise e) w) -> (forall a, post Q (k a)) ->
  post Q (bind m k).
Proof.
  intros Hm He Hk w. unfold bind. specialize (Hm w).
  destruct (m w) as [[a | e] w1]; simpl in Hm; subst w1; [apply Hk | apply He].
Qed.

Lemma post_try_ret {A} (Q' Q : World -> res A -> World -> Prop) (body : M A)
    (f : exn -> A) :
  post Q' body ->
  (forall w a w', Q' w (Ok a) w' -> Q w (Ok a) w') ->
  (forall w e w', Q' w (Raise e) w' -> Q w (Ok (f e)) w') ->
  post Q (try_except body (fun e => ret (f e))).
Proof.
  intros Hb Hok Hraise w. unfold try_except. specialize (Hb w).
  destruct (body w) as [[a | e] w1]; simpl in *; [now apply Hok | now apply Hraise].
Qed.

Lemma post_if {A} (Q : World -> res A -> World -> Prop) (c : bool) (m1 m2 : M A) :
  post Q m1 -> post Q m2 -> post Q (if c then m1 else m2).
Proof. now destruct c. Qed.

Lemma dummy_value_read_only (h : Host) (field : DocField) :
  read_only_run (_get_dummy_value h field).
Proof.
  unfold _get_dummy_value, first_linked_record. repeat ro_step.
Qed.

Lemma fill_step_read_only (h : Host) (st : Doc * list dict) (field : DocField) :
  read_only_run (fill_step h st field).
Proof.
  unfold fill_step. destruct st as [test_doc filled].
  repeat first [apply dummy_value_read_only | ro_step].
Qed.

Lemma test_exists_read_only (h : Host) (doctype name : string) :
  read_only_run (_test_exists h doctype name).
Proof.
  unfold _test_exists. repeat first [apply len_value_read_only | ro_step].
Qed.

Lemma test_render_read_only (h : Host) (compile : string -> Compiled)
    (doctype name : string) :
  read_only_run (_test_render h compile doctype name).
Proof.
  unfold _test_render. repeat first [apply as_str_read_only | ro_step].
Qed.

Lemma test_execute_read_only (h : Host) (compile : string -> Compiled)
    (doctype name : string) :
  read_only_run (_test_execute h compile doctype name).
Proof.
  unfold _test_execute. repeat first [apply as_str_read_only | ro_step].
Qed.

Lemma validate_unchanged (h : Host) (w : World) (r : res dict) :
  validate_outcome h w r w.
Proof. now left. Qed.

Lemma read_only_post (h : Host) (m : M dict) :
  read_only_run m -> post (validate_outcome h) m.
Proof. intros H w. rewrite H. apply validate_unchanged. Qed.

Lemma test_validate_outcome (h : Host) (doctype name : string) :
  post (validate_outcome h) (_test_validate h doctype name).
Proof.
  unfold _test_validate.
  set (target := if String.eqb doctype "DocType" then name else doctype).
  apply (post_try_ret (validate_outcome h)).
  2:{ auto. }
  2:{ intros w e w' [-> | [(d & n & t & _ & _ & out & Hr & _) | (added & -> & _)]].
      - now left.
      - discriminate Hr.
      - right. right. exists added. split; [reflexivity |].
        intros out H. injection H as <-. reflexivity. }
  apply post_read_bind; [apply read_only_query | intros; apply validate_unchanged |].
  intros ex. apply post_if; [apply read_only_post, read_only_ret |].
  apply post_read_bind; [repeat ro_step | intros; apply validate_unchanged |].
  intros permitted. apply post_if; [apply read_only_post, read_only_ret |].
  apply post_read_bind; [apply read_only_query | intros; apply validate_unchanged |].
  intros meta.
  apply post_read_bind; [apply read_only_query | intros; apply validate_unchanged |].
  intros test_doc.
  apply post_read_bind;
    [apply read_only_for_each; intros; apply fill_step_read_only
    | intros; apply validate_unchanged |].
  intros [doc filled] w.
  unfold try_except, bind, do_write, ret.
  set (d := setattr _ "flags.ignore_validate" _).
  destruct (insert h w d) as [n | e] eqn:Hin.
  - destruct (delete_doc h (w ++ [EInsert d]) target n) as [[] | e].
    + destruct (db_commit h ((w ++ [EInsert d]) ++ [EDeleteDoc target n])) as [[] | e].
      * cbn [fst snd]. right. left. exists d, n, target.
        split; [now rewrite <- !app_assoc | split; [exact Hin |]].
        eexists. split; reflexivity.
      * right. right. exists [EInsert d; EDeleteDoc target n; ECommit].
        destruct (db_rollback h _); cbn [fst snd];
          (split; [now rewrite <- !app_assoc |]);
          intros out H; [injection H as <-; reflexivity | discriminate H].
    + right. right. exists [EInsert d; EDeleteDoc target n].
      destruct (db_rollback h _); cbn [fst snd];
        (split; [now rewrite <- !app_assoc |]);
        intros out H; [injection H as <-; reflexivity | discriminate H].
  - right. right. exists [EInsert d].
    destruct (db_rollback h _); cbn [fst snd];
      (split; [now rewrite <- !app_assoc |]);
      intros out H; [injection H as <-; reflexivity | discriminate H].
Qed.

Lemma validate_outcome_caught (h : Host) (w : World) (e : exn) (w' : World) :
  validate_outcome h w (Raise e) w' ->
  validate_outcome h w (Ok (TestCreatedItem.failure (str_exn e))) w'.
Proof.
  intros [-> | [(d & n & t & _ & _ & out & Hr & _) | (added & -> & _)]].
  - now left.
  - discriminate Hr.
  - right. right. exists added. split; [reflexivity |].
    intros out H. injection H as <-. reflexivity.
Qed.

Lemma test_item_outcome (h : Host) (compile : string -> Compiled)
    (arguments : TestCreatedItem.Arguments) :
  post (validate_outcome h) (TestCreatedItem.execute h compile arguments).
Proof.
  unfold TestCreatedItem.execute, TestCreatedItem.execute_body.
  apply (post_try_ret (validate_outcome h)); [| auto | apply validate_outcome_caught].
  apply post_if; [apply read_only_post, read_only_ret |].
  apply post_read_bind; [repeat ro_step | intros; apply validate_unchanged |].
  intros permitted. apply post_if; [apply read_only_post, read_only_ret |].
  apply post_if; [apply read_only_post, test_exists_read_only |].
  apply post_if; [apply test_validate_outcome |].
  apply post_if; [apply read_only_post, test_render_read_only |].
  apply post_if; [apply read_only_post, test_execute_read_only |].
  apply read_only_post, read_only_ret.
Qed.

Lemma test_item_read_only (h : Host) (compile : string -> Compiled)
    (arguments : TestCreatedItem.Arguments) :
  TestCreatedItem.arg_test_type arguments <> Some "validate" ->
  read_only_run (TestCreatedItem.execute h compile arguments).
Proof.
  intros Hty. unfold TestCreatedItem.execute, TestCreatedItem.execute_body.
  destruct (TestCreatedItem.arg_test_type arguments) as [ty |].
  - destruct (String.eqb ty "validate") eqn:E.
    + apply String.eqb_eq in E. congruence.
    + apply read_only_try; [| intros; apply read_only_ret].
      destruct (_ || _); [apply read_only_ret |].
      apply read_only_bind; [repeat ro_step | intros permitted].
      destruct (negb permitted); [apply read_only_ret |].
      destruct (String.eqb ty "exists"); [apply test_exists_read_only |].
      destruct (String.eqb ty "render"); [apply test_render_read_only |].
      destruct (String.eqb ty "execute"); [apply test_execute_read_only |].
      apply read_only_ret.
  - apply read_only_try; [| intros; apply read_only_ret].
    destruct (_ || _); [apply read_only_ret |].
    apply read_only_bind; [repeat ro_step | intros permitted].
    destruct (negb permitted); [apply read_only_ret |].
    cbn [String.eqb Ascii.eqb Bool.eqb]. apply test_exists_read_only.
Qed.

(** X2: what [test_created_item] writes.  With a test type other than
    [validate] the world after the call is the world before.  In every
    case the call ends in one of three ways: nothing was written; the
    test record was inserted, the record of the name the insert returned
    was deleted, the transaction committed, and [success] is true; or the
    last write is a rollback and, if a dictionary is returned, its [success]
    is false. *)
Theorem X2_test_created_item_writes (h : Host) (compile : string -> Compiled)
    (arguments : TestCreatedItem.Arguments) (w : World) :
  (TestCreatedItem.arg_test_type arguments <> Some "validate" ->
   snd (TestCreatedItem.execute h compile arguments w) = w) /\
  (snd (TestCreatedItem.execute h compile arguments w) = w \/
   (exists d n t,
       snd (TestCreatedItem.execute h compile arguments w) =
         w ++ [EInsert d; EDeleteDoc t n; ECommit] /\
       insert h w d = Ok n /\
       exists out,
         fst (TestCreatedItem.execute h compile arguments w) = Ok out /\
         dict_get "success" out = Some (VBool true)) \/
   (exists added,
       snd (TestCreatedItem.execute h compile arguments w) = w ++ added ++ [ERollback] /\
       forall out,
         fst (TestCreatedItem.execute h compile arguments w) = Ok out ->
         dict_get "success" out = Some (VBool false))).
Proof.
  split.
  - intros Hty. now apply test_item_read_only.
  - apply (test_item_outcome h compile arguments w).
Qed.

(** X2 at work: a render test on a site that holds the script, and a
    validate test on a site where every write succeeds. *)
Lemma X2_test_created_item_writes_witness :
  snd (TestCreatedItem.execute Sites.script_site Sites.no_compile
         (TestCreatedItem.mkArguments (Some "Server Script") (Some "Notify") (Some "render"))
         []) = [] /\
  exists d n t,
    snd (TestCreatedItem.execute Sites.script_site Sites.no_compile
           (TestCreatedItem.mkArguments (Some "DocType") (Some "Note") (Some "validate"))
           []) = [EInsert d; EDeleteDoc t n; ECommit].
Proof.
  split.
  - apply (X2_test_created_item_writes Sites.script_site Sites.no_compile
             (TestCreatedItem.mkArguments (Some "Server Script") (Some "Notify")
                (Some "render")) []).
    discriminate.
  - destruct (X2_test_created_item_writes Sites.script_site Sites.no_compile
                (TestCreatedItem.mkArguments (Some "DocType") (Some "Note")
                   (Some "validate")) []) as [_ [H | [H | H]]].
    + vm_compute in H. discriminate H.
    + destruct H as (d & n & t & H & _). now exists d, n, t.
    + destruct H as (added & H & _). vm_compute in H. exfalso.
      destruct added as [| a [| b [| c [| x r]]]]; simpl in H; discriminate H.
Defined.

(** ** [rollback_changes] *)

Lemma rollback_save_writes (h : Host) (doc : Doc) :
  writes_only (fun ev => is_save ev \/ is_commit ev) (RollbackChanges.save_and_commit h doc).
Proof.
  unfold RollbackChanges.save_and_commit.
  repeat wr_step ltac:(simpl; tauto).
Qed.

Lemma disable_writes (h : Host) (doc : Doc) :
  writes_only (fun ev => is_save ev \/ is_commit ev) (_disable h doc).
Proof.
  unfold _disable.
  repeat first [apply rollback_save_writes | wr_step ltac:(simpl; tauto)].
Qed.

Lemma check_dependencies_read_only (h : Host) (doc : Doc) :
  read_only_run (_check_dependencies h doc).
Proof.
  unfold _check_dependencies, guarded_refs. repeat ro_step.
Qed.

Lemma delete_writes (h : Host) (doc : Doc) :
  writes_only (fun ev => is_delete ev \/ is_commit ev \/ is_rollback ev) (_delete h doc).
Proof.
  unfold _delete.
  repeat first [apply read_only_writes, check_dependencies_read_only
               | wr_step ltac:(simpl; tauto)].
Qed.

Lemma rollback_permission_read_only (h : Host) (doctype : string) :
  read_only_run
    (try_except (ask (fun w => has_permission h w doctype "write" true) ;;; ret true)
       (fun _ => ret false)).
Proof. repeat ro_step. Qed.

Lemma rollback_execute_writes (P : Event -> Prop) (h : Host)
    (arguments : RollbackChanges.Arguments) :
  (forall doc, String.eqb match RollbackChanges.arg_action arguments with
                          | Some s => s | None => "disable" end "disable" = true ->
               writes_only P (_disable h doc)) ->
  (forall doc, String.eqb match RollbackChanges.arg_action arguments with
                          | Some s => s | None => "disable" end "delete" = true ->
               writes_only P (_delete h doc)) ->
  writes_only P (RollbackChanges.execute h arguments).
Proof.
  intros Hdis Hdel. unfold RollbackChanges.execute, RollbackChanges.execute_body.
  apply writes_try; [| intros e; apply writes_ret].
  destruct (_ || _); [apply writes_ret |].
  destruct (negb _); [apply writes_ret |].
  apply writes_bind; [apply read_only_writes, rollback_permission_read_only |].
  intros permitted. destruct (negb permitted); [apply writes_ret |].
  apply writes_bind; [apply writes_ask | intros ex].
  destruct (negb ex); [apply writes_ret |].
  apply writes_bind; [apply writes_ask | intros doc].
  destruct (String.eqb _ "disable") eqn:E1; [now apply Hdis |].
  destruct (String.eqb _ "delete") eqn:E2; [now apply Hdel | apply writes_ret].
Qed.

(** X3: [rollback_changes] writes only what the action asks for.  The
    world after a call is the world before, followed by: saves and commits
    only when the action is [disable] (the default); deletions, commits and
    rollbacks only when it is [delete]; nothing for any other action, and
    nothing when the DocType is not one of the four customization types. *)
Theorem X3_rollback_writes_by_action (h : Host) (arguments : RollbackChanges.Arguments)
    (w : World) :
  let doctype := match RollbackChanges.arg_doctype arguments with Some s => s | None => "" end in
  let action :=
    match RollbackChanges.arg_action arguments with Some s => s | None => "disable" end in
  exists added,
    snd (RollbackChanges.execute h arguments w) = w ++ added /\
    (action = "disable" -> Forall (fun ev => is_save ev \/ is_commit ev) added) /\
    (action = "delete" ->
     Forall (fun ev => is_delete ev \/ is_commit ev \/ is_rollback ev) added) /\
    (action <> "disable" -> action <> "delete" -> added = []) /\
    (~ In doctype ["Custom Field"; "Property Setter"; "Client Script"; "Server Script"] ->
     added = []).
Proof.
  intros doctype action.
  assert (Hall : writes_only (fun _ => True) (RollbackChanges.execute h arguments)).
  { apply rollback_execute_writes; intros doc _.
    - eapply writes_weaken; [| apply disable_writes]. auto.
    - eapply writes_weaken; [| apply delete_writes]. auto. }
  destruct (Hall w) as (added & E & _). exists added. split; [exact E |].
  assert (Huniq : forall added', snd (RollbackChanges.execute h arguments w) = w ++ added' ->
                                 added' = added).
  { intros added' E'. rewrite E in E'. now apply app_inv_head in E'. }
  split; [| split; [| split]].
  - intros Ha.
    assert (H : writes_only (fun ev => is_save ev \/ is_commit ev)
                  (RollbackChanges.execute h arguments)).
    { apply rollback_execute_writes; intros doc Hb.
      - apply disable_writes.
      - fold action in Hb. rewrite Ha in Hb. discriminate Hb. }
    destruct (H w) as (added' & E' & Hf). now rewrite <- (Huniq _ E').
  - intros Ha.
    assert (H : writes_only (fun ev => is_delete ev \/ is_commit ev \/ is_rollback ev)
                  (RollbackChanges.execute h arguments)).
    { apply rollback_execute_writes; intros doc Hb.
      - fold action in Hb. rewrite Ha in Hb. discriminate Hb.
      - apply delete_writes. }
    destruct (H w) as (added' & E' & Hf). now rewrite <- (Huniq _ E').
  - intros Hn1 Hn2.
    assert (H : writes_only (fun _ => False) (RollbackChanges.execute h arguments)).
    { apply rollback_execute_writes; intros doc Hb; fold action in Hb;
        apply String.eqb_eq in Hb; contradiction. }
    destruct (H w) as (added' & E' & Hf). rewrite <- (Huniq _ E').
    destruct added' as [| ev r]; [reflexivity |]. inversion Hf as [| ? ? F _]. destruct F.
  - intros Hnot.
    assert (H : snd (RollbackChanges.execute h arguments w) = w).
    { unfold RollbackChanges.execute, RollbackChanges.execute_body, try_except.
      fold doctype.
      destruct (_ || _); [reflexivity |].
      assert (Hm : mem doctype allowed = false) by (apply mem_false_In; exact Hnot).
      rewrite Hm. reflexivity. }
    symmetry. apply Huniq. now rewrite app_nil_r.
Qed.

(** X3 at work: disabling an enabled Server Script saves it with
    [disabled = 1] and commits. *)
Lemma X3_rollback_writes_by_action_witness :
  exists added,
    snd (RollbackChanges.execute Sites.script_site
           (RollbackChanges.mkArguments (Some "Server Script") (Some "Notify")
              (Some "disable")) []) = added /\
    Forall (fun ev => is_save ev \/ is_commit ev) added /\
    added = [ESave (mkDoc "Server Script" "Notify" [("disabled", VInt 1)]); ECommit].
Proof.
  destruct (X3_rollback_writes_by_action Sites.script_site
              (RollbackChanges.mkArguments (Some "Server Script") (Some "Notify")
                 (Some "disable")) []) as (added & E & Hdis & _).
  exists added. split; [exact E |]. split; [apply Hdis; reflexivity |].
  cbn [app] in E. rewrite <- E. reflexivity.
Defined.

Lemma check_dependencies_total (h : Host) (doc : Doc) (w : World) :
  exists r, _check_dependencies h doc w = (Ok r, w).
Proof.
  pose proof (check_dependencies_read_only h doc w) as Hro.
  assert (Hret : returns (_check_dependencies h doc))
    by (apply returns_try; intros e; apply returns_ret).
  destruct (Hret w) as [r Hr].
  destruct (_check_dependencies h doc w) as [r' w1]; simpl in Hro, Hr; subst w1 r'.
  now exists r.
Qed.

Lemma delete_cases (h : Host) (doc : Doc) (w : World) (r : res dict) (w' : World) :
  _delete h doc w = (r, w') ->
  (w' = w /\ exists out, r = Ok out /\ dict_get "success" out = Some (VBool false)) \/
  (w' = w ++ [EDeleteDoc (doc_doctype doc) (doc_name doc); ECommit] /\
   delete_doc h w (doc_doctype doc) (doc_name doc) = Ok tt /\
   db_commit h (w ++ [EDeleteDoc (doc_doctype doc) (doc_name doc)]) = Ok tt /\
   exists out, r = Ok out /\ dict_get "success" out = Some (VBool true)) \/
  (exists mid,
      w' = w ++ EDeleteDoc (doc_doctype doc) (doc_name doc) :: mid ++ [ERollback] /\
      (mid = [] \/ mid = [ECommit]) /\
      forall out, r = Ok out -> dict_get "success" out = Some (VBool false)).
Proof.
  unfold _delete. set (dt := doc_doctype doc). set (n := doc_name doc).
  destruct (check_dependencies_total h doc w) as [[deps details] E].
  unfold try_except at 1. unfold bind at 1. rewrite E.
  destruct deps.
  { intros H. injection H as <- <-. left. split; [reflexivity |].
    eexists. split; reflexivity. }
  destruct (mem dt scripts && negb (eq_one (getattr doc "disabled" (VInt 0)))).
  { intros H. injection H as <- <-. left. split; [reflexivity |].
    eexists. split; reflexivity. }
  set (info := if String.eqb dt "Custom Field" then _ else _).
  unfold bind, do_write, ret.
  destruct (delete_doc h w dt n) as [[] | e].
  - destruct (db_commit h (w ++ [EDeleteDoc dt n])) as [[] | e].
    + intros H. injection H as <- <-. right. left.
      split; [now rewrite <- app_assoc |].
      split; [reflexivity |]. split; [reflexivity |].
      eexists. split; reflexivity.
    + intros H. right. right. exists [ECommit].
      destruct (db_rollback h _); injection H as <- <-;
        (split; [now rewrite <- !app_assoc |]); (split; [now right |]);
        intros out H; [injection H as <-; reflexivity | discriminate H].
  - intros H. right. right. exists [].
    destruct (db_rollback h _); injection H as <- <-;
      (split; [now rewrite <- !app_assoc |]); (split; [now left |]);
      intros out H; [injection H as <-; reflexivity | discriminate H].
Qed.

(** X4: how [_delete] ends.  Either nothing is written and the result
    has [success] false (a refusal); or the document handed in is deleted,
    the transaction committed, both calls answered, and the result has
    [success] true; or the deletion or the commit raised, the last write is
    a rollback and a returned result has [success] false.  Success is never
    reported for a deletion that was not committed. *)
Theorem X4_delete_outcome (h : Host) (doc : Doc) (w : World) :
  let dt := doc_doctype doc in
  let n := doc_name doc in
  (snd (_delete h doc w) = w /\
   exists out, fst (_delete h doc w) = Ok out /\ dict_get "success" out = Some (VBool false)) \/
  (snd (_delete h doc w) = w ++ [EDeleteDoc dt n; ECommit] /\
   delete_doc h w dt n = Ok tt /\ db_commit h (w ++ [EDeleteDoc dt n]) = Ok tt /\
   exists out, fst (_delete h doc w) = Ok out /\ dict_get "success" out = Some (VBool true)) \/
  (exists mid,
      snd (_delete h doc w) = w ++ EDeleteDoc dt n :: mid ++ [ERollback] /\
      (mid = [] \/ mid = [ECommit]) /\
      forall out, fst (_delete h doc w) = Ok out ->
                  dict_get "success" out = Some (VBool false)).
Proof.
  intros dt n. destruct (_delete h doc w) as [r w'] eqn:E.
  apply (delete_cases h doc w r w' E).
Qed.

(** X5: the dependency check of [rollback_changes] only protects Custom
    Fields, and a lookup that fails counts as no dependency.  For a
    document of any other DocType, and on a site where every [get_all]
    raises, [_check_dependencies] reports no dependencies.  For a Custom
    Field with a fieldname and a target DocType, a row found by the
    [fetch_from] lookup (that one query; the host is free on every other)
    makes [_delete] refuse and write nothing, the first dependency listed
    being the line made from that row. *)
Theorem X5_dependency_check (h : Host) (doc : Doc) (w : World) :
  (doc_doctype doc <> "Custom Field" ->
   _check_dependencies h doc w = (Ok (false, []), w)) /\
  ((forall dt q, exists e, get_all h w dt q = Raise e) ->
   _check_dependencies h doc w = (Ok (false, []), w)) /\
  (doc_doctype doc = "Custom Field" ->
   truthy (getattr doc "fieldname" (VStr "")) = true ->
   truthy (getattr doc "dt" (VStr "")) = true ->
   forall row rows,
     get_all h w "Custom Field"
       (mkQuery [("fetch_from", "like",
                  VStr ("%" ++ py_str (getattr doc "dt" (VStr "")) ++ "." ++
                        py_str (getattr doc "fieldname" (VStr "")) ++ "%"))]
          [] ["name"; "dt"; "fieldname"] "" (Some 5) "") = Ok (row :: rows) ->
     snd (_delete h doc w) = w /\
     exists out lines,
       fst (_delete h doc w) = Ok out /\
       dict_get "success" out = Some (VBool false) /\
       dict_get "error" out = Some (VStr "Cannot delete - has dependencies") /\
       dict_get "dependencies" out =
         Some (VList (VStr ("Custom Field '" ++ py_str (dict_get_or "dt" (VStr "") row) ++
                            "." ++ py_str (dict_get_or "fieldname" (VStr "") row) ++
                            "' has fetch_from referencing this field") :: lines))).
Proof.
  split; [| split].
  - intros Hdt. unfold _check_dependencies, try_except, bind.
    destruct (String.eqb (doc_doctype doc) "Custom Field") eqn:E;
      [apply String.eqb_eq in E; contradiction | reflexivity].
  - intros Hdown. unfold _check_dependencies, guarded_refs, try_except, bind, ask, ret.
    destruct (String.eqb (doc_doctype doc) "Custom Field"); [| reflexivity].
    destruct (_ && _); [| reflexivity].
    destruct (Hdown "Custom Field"
                (mkQuery [("fetch_from", "like",
                           VStr ("%" ++ py_str (getattr doc "dt" (VStr "")) ++ "." ++
                                 py_str (getattr doc "fieldname" (VStr "")) ++ "%"))]
                   [] ["name"; "dt"; "fieldname"] "" (Some 5) "")) as [e1 ->].
    cbv beta iota.
    destruct (Hdown "Server Script"
                (mkQuery [("script", "like",
                           VStr ("%" ++ py_str (getattr doc "fieldname" (VStr "")) ++ "%"));
                          ("disabled", "=", VInt 0)]
                   [] ["name"] "" (Some 5) "")) as [e2 ->].
    reflexivity.
  - intros Hdt Hfn Htd row rows Hrows.
    unfold _delete, _check_dependencies, guarded_refs, try_except, bind, ask, ret.
    rewrite Hdt, Hfn, Htd. cbn [String.eqb Ascii.eqb Bool.eqb andb].
    rewrite Hrows. cbv beta iota.
    destruct (get_all h w "Server Script" _) as [found | e];
      cbn [map app is_empty negb fst snd];
      (split; [reflexivity |]); do 2 eexists;
      (split; [reflexivity |]); (split; [reflexivity |]); split; reflexivity.
Qed.

(** X5 at work: a Server Script; a Custom Field on a site whose [get_all]
    raises; and a Custom Field another field fetches from, on a site where
    only the [fetch_from] query finds a row. *)
Lemma X5_dependency_check_witness :
  _check_dependencies Sites.empty_site (mkDoc "Server Script" "Notify" []) [] =
    (Ok (false, []), []) /\
  _check_dependencies Sites.broken_site
    (mkDoc "Custom Field" "Customer-tier"
       [("fieldname", VStr "tier"); ("dt", VStr "Customer")]) [] = (Ok (false, []), []) /\
  _delete fetching_site
    (mkDoc "Custom Field" "Customer-tier"
       [("fieldname", VStr "tier"); ("dt", VStr "Customer")]) [] =
    (Ok [("success", VBool false);
         ("error", VStr "Cannot delete - has dependencies");
         ("dependencies",
          VList [VStr "Custom Field 'Sales Order.tier_copy' has fetch_from referencing this field"]);
         ("suggestion", VStr "Use action=disable instead, or remove dependencies first.")],
     []) /\
  snd (_delete fetching_site
         (mkDoc "Custom Field" "Customer-tier"
            [("fieldname", VStr "tier"); ("dt", VStr "Customer")]) []) = [].
Proof.
  split; [| split; [| split; [reflexivity |]]].
  - apply (proj1 (X5_dependency_check Sites.empty_site
                      (mkDoc "Server Script" "Notify" []) [])).
    simpl. discriminate.
  - apply (proj1 (proj2 (X5_dependency_check Sites.broken_site
             (mkDoc "Custom Field" "Customer-tier"
                [("fieldname", VStr "tier"); ("dt", VStr "Customer")]) []))).
    intros dt q. eexists. reflexivity.
  - apply (proj2 (proj2 (X5_dependency_check fetching_site
             (mkDoc "Custom Field" "Customer-tier"
                [("fieldname", VStr "tier"); ("dt", VStr "Customer")]) [])))
      with (row := [("dt", VStr "Sales Order"); ("fieldname", VStr "tier_copy")])
           (rows := []);
      reflexivity.
Defined.

Lemma script_has_no_dependencies (h : Host) (doc : Doc) (w : World) :
  mem (doc_doctype doc) scripts = true ->
  _check_dependencies h doc w = (Ok (false, []), w).
Proof.
  intros Hdt. unfold _check_dependencies, try_except, bind.
  destruct (script_cases _ Hdt) as [-> | ->]; reflexivity.
Qed.

Lemma getattr_setattr (doc : Doc) (k : string) (v default : value) :
  getattr (setattr doc k v) k default = v.
Proof.
  unfold getattr, setattr, dict_get_or. cbn [doc_attrs].
  now rewrite dict_get_set, String.eqb_refl.
Qed.

Lemma getattr_setattr_other (doc : Doc) (k k' : string) (v default : value) :
  String.eqb k' k = false ->
  getattr (setattr doc k v) k' default = getattr doc k' default.
Proof.
  intros H. unfold getattr, setattr, dict_get_or. cbn [doc_attrs].
  now rewrite dict_get_set, H.
Qed.

(** X6: disabling and then deleting a script.  A script document that
    carries a [disabled] attribute is saved with [disabled = 1] by
    [_disable], and [_delete] on the document so saved goes on to delete it.
    A script document without [disabled] but with [enabled] is saved with
    [enabled = 0], and [_delete] on the document so saved still refuses with
    "Script is still enabled" and writes nothing: the test of [_delete] only
    reads [disabled]. *)
Theorem X6_disable_then_delete (h : Host) (doc : Doc) (w w' : World) :
  mem (doc_doctype doc) ["Client Script"; "Server Script"] = true ->
  (hasattr doc "disabled" = true ->
   (exists rest,
       snd (_disable h doc w) = w ++ ESave (setattr doc "disabled" (VInt 1)) :: rest) /\
   (exists rest,
       snd (_delete h (setattr doc "disabled" (VInt 1)) w') =
         w' ++ EDeleteDoc (doc_doctype doc) (doc_name doc) :: rest)) /\
  (hasattr doc "disabled" = false ->
   hasattr doc "enabled" = true ->
   (exists rest,
       snd (_disable h doc w) = w ++ ESave (setattr doc "enabled" (VInt 0)) :: rest) /\
   _delete h (setattr doc "enabled" (VInt 0)) w' =
     (Ok [("success", VBool false);
          ("error", VStr "Script is still enabled. Disable it first before deleting.");
          ("suggestion",
           VStr "Use action=disable first, verify nothing breaks, then delete.")],
      w')).
Proof.
  intros Hdt. change (mem (doc_doctype doc) scripts = true) in Hdt. split.
  - intros Hdis. split.
    + unfold _disable, try_except. rewrite Hdt, Hdis.
      unfold RollbackChanges.save_and_commit, bind, do_write, ret.
      destruct (save h w _) as [[] | e].
      * destruct (db_commit h _); cbn [snd]; eexists; rewrite <- app_assoc; reflexivity.
      * cbn [snd]. now exists [].
    + unfold _delete, try_except. unfold bind at 1.
      rewrite script_has_no_dependencies by exact Hdt.
      rewrite getattr_setattr. cbn [eq_one Z.eqb Pos.eqb negb].
      rewrite andb_false_r.
      unfold bind, do_write, ret. cbn [setattr doc_doctype doc_name].
      destruct (delete_doc h w' _ _) as [[] | e].
      * destruct (db_commit h _) as [[] | e].
        -- cbn [snd]. eexists. rewrite <- app_assoc. reflexivity.
        -- destruct (db_rollback h _); cbn [snd]; eexists; rewrite <- !app_assoc;
             reflexivity.
      * destruct (db_rollback h _); cbn [snd]; eexists; rewrite <- !app_assoc;
          reflexivity.
  - intros Hdis Hen. split.
    + unfold _disable, try_except. rewrite Hdt, Hdis, Hen.
      unfold RollbackChanges.save_and_commit, bind, do_write, ret.
      destruct (save h w _) as [[] | e].
      * destruct (db_commit h _); cbn [snd]; eexists; rewrite <- app_assoc; reflexivity.
      * cbn [snd]. now exists [].
    + unfold _delete, try_except. unfold bind at 1.
      rewrite script_has_no_dependencies by exact Hdt.
      rewrite getattr_setattr_other by reflexivity.
      assert (Hget : getattr doc "disabled" (VInt 0) = VInt 0).
      { unfold hasattr, dict_has in Hdis. unfold getattr, dict_get_or.
        destruct (dict_get "disabled" (doc_attrs doc)); [discriminate Hdis | reflexivity]. }
      rewrite Hget. cbn [setattr doc_doctype]. rewrite Hdt. reflexivity.
Qed.

(** X6 at work: a Server Script with [disabled = 0] and a Client Script
    with [enabled = 1]. *)
Lemma X6_disable_then_delete_witness :
  (exists rest,
      snd (_delete Sites.empty_site
             (setattr (mkDoc "Server Script" "Notify" [("disabled", VInt 0)])
                "disabled" (VInt 1)) []) =
        EDeleteDoc "Server Script" "Notify" :: rest) /\
  fst (_delete Sites.empty_site
         (setattr (mkDoc "Client Script" "Colour" [("enabled", VInt 1)])
            "enabled" (VInt 0)) []) =
    Ok [("success", VBool false);
        ("error", VStr "Script is still enabled. Disable it first before deleting.");
        ("suggestion",
         VStr "Use action=disable first, verify nothing breaks, then delete.")].
Proof.
  split.
  - destruct (X6_disable_then_delete Sites.empty_site
                (mkDoc "Server Script" "Notify" [("disabled", VInt 0)]) [] [] eq_refl)
      as [H _].
    destruct (H eq_refl) as [_ Hdel]. exact Hdel.
  - destruct (X6_disable_then_delete Sites.empty_site
                (mkDoc "Client Script" "Colour" [("enabled", VInt 1)]) [] [] eq_refl)
      as [_ H].
    destruct (H eq_refl eq_refl) as [_ Hdel]. now rewrite Hdel.
Defined.

(** ** Permission checks *)

Lemma nonempty_true (s : string) : s <> "" -> PyStr.nonempty s = true.
Proof. destruct s; [congruence | reflexivity]. Qed.

(** X7: an exception of the permission check, whatever it is, is
    reported as a missing permission.  When [has_permission] raises,
    [monitor_errors], [test_created_item] and [rollback_changes] return
    their "No ... permission" failure, make no further call and write
    nothing; the text of the exception is not reported. *)
Theorem X7_permission_failures (h : Host) (compile : string -> Compiled)
    (w : World) (e : exn) :
  (has_permission h w "Error Log" "read" true = Raise e ->
   forall arguments,
     MonitorErrors.execute h arguments w =
       (Ok [("success", VBool false); ("error", VStr "No read permission for Error Log")],
        w)) /\
  (forall doctype name test_type,
      doctype <> "" -> name <> "" ->
      has_permission h w doctype "read" true = Raise e ->
      TestCreatedItem.execute h compile
        (TestCreatedItem.mkArguments (Some doctype) (Some name) test_type) w =
        (Ok [("success", VBool false);
             ("error", VStr ("No read permission for " ++ doctype))], w)) /\
  (forall doctype name action,
      In doctype ["Custom Field"; "Property Setter"; "Client Script"; "Server Script"] ->
      name <> "" ->
      has_permission h w doctype "write" true = Raise e ->
      RollbackChanges.execute h
        (RollbackChanges.mkArguments (Some doctype) (Some name) action) w =
        (Ok [("success", VBool false);
             ("error", VStr ("No write permission for " ++ doctype))], w)).
Proof.
  split; [| split].
  - intros Hperm arguments.
    unfold MonitorErrors.execute, MonitorErrors.execute_body, try_except, bind, ask.
    rewrite Hperm. reflexivity.
  - intros doctype name test_type Hd Hn Hperm.
    unfold TestCreatedItem.execute, TestCreatedItem.execute_body, try_except, bind, ask.
    cbn [TestCreatedItem.arg_doctype TestCreatedItem.arg_name].
    rewrite (nonempty_true _ Hd), (nonempty_true _ Hn). cbn [negb orb].
    rewrite Hperm. reflexivity.
  - intros doctype name action Hd Hn Hperm.
    unfold RollbackChanges.execute, RollbackChanges.execute_body, try_except, bind, ask.
    cbn [RollbackChanges.arg_doctype RollbackChanges.arg_name].
    assert (Hne : doctype <> "").
    { intros ->. simpl in Hd. intuition discriminate. }
    apply mem_In in Hd. change (mem doctype allowed = true) in Hd.
    rewrite (nonempty_true _ Hne), (nonempty_true _ Hn), Hd. cbn [negb orb].
    rewrite Hperm. reflexivity.
Qed.

(** X7 at work: the three tools on a site whose permission check raises a
    database error. *)
Lemma X7_permission_failures_witness :
  MonitorErrors.execute unpermitted_site (MonitorErrors.mkArguments None None None) [] =
    (Ok [("success", VBool false); ("error", VStr "No read permission for Error Log")],
     []) /\
  TestCreatedItem.execute unpermitted_site Sites.no_compile
    (TestCreatedItem.mkArguments (Some "DocType") (Some "Note") (Some "validate")) [] =
    (Ok [("success", VBool false); ("error", VStr "No read permission for DocType")], []) /\
  RollbackChanges.execute unpermitted_site
    (RollbackChanges.mkArguments (Some "Custom Field") (Some "Note-colour") (Some "delete"))
    [] =
    (Ok [("success", VBool false); ("error", VStr "No write permission for Custom Field")],
     []).
Proof.
  destruct (X7_permission_failures unpermitted_site Sites.no_compile []
              (Exn "OperationalError: connection lost")) as (Hmon & Htest & Hroll).
  split; [apply Hmon; reflexivity |].
  split.
  - apply (Htest "DocType" "Note" (Some "validate")); [discriminate | discriminate |].
    reflexivity.
  - apply (Hroll "Custom Field" "Note-colour" (Some "delete"));
      [simpl; tauto | discriminate | reflexivity].
Defined.

(** ** [monitor_errors]: grouping and ordering *)

Lemma take_length (n : nat) (s : string) : (String.length (PyStr.take n s) <= n)%nat.
Proof.
  revert s. induction n as [| n IH]; intros s; simpl; [lia |].
  destruct s as [| c r]; simpl; [lia |]. specialize (IH r). lia.
Qed.

Lemma group_update_keys (k : string) (fresh : Group) (f : Group -> Group)
    (groups : list (string * Group)) :
  map fst (group_update k fresh f groups) =
  if mem k (map fst groups) then map fst groups else map fst groups ++ [k].
Proof.
  induction groups as [| [k' g] r IH]; simpl; [reflexivity |].
  destruct (String.eqb k k') eqn:E; simpl; [reflexivity |].
  rewrite IH. unfold mem. destruct (existsb (String.eqb k) (map fst r)); reflexivity.
Qed.

Lemma group_update_total (k : string) (fresh : Group) (f : Group -> Group)
    (groups : list (string * Group)) :
  g_count fresh = 0 -> (forall g, g_count (f g) = g_count g + 1) ->
  total_count (group_update k fresh f groups) = total_count groups + 1.
Proof.
  intros H0 Hf. induction groups as [| [k' g] r IH]; simpl.
  - rewrite Hf, H0. lia.
  - destruct (String.eqb k k'); simpl; [rewrite Hf; lia | rewrite IH; lia].
Qed.

Lemma group_update_positive (k : string) (fresh : Group) (f : Group -> Group)
    (groups : list (string * Group)) :
  g_count fresh = 0 -> (forall g, g_count (f g) = g_count g + 1) ->
  Forall (fun kg => 1 <= g_count (snd kg)) groups ->
  Forall (fun kg => 1 <= g_count (snd kg)) (group_update k fresh f groups).
Proof.
  intros H0 Hf. induction 1 as [| [k' g] r Hg Hr IH]; simpl.
  - constructor; [simpl; rewrite Hf, H0; lia | constructor].
  - simpl in Hg. destruct (String.eqb k k'); constructor; simpl; auto.
    rewrite Hf. lia.
Qed.

Lemma NoDup_snoc {A} (x : A) (l : list A) : NoDup l -> ~ In x l -> NoDup (l ++ [x]).
Proof.
  intros Hl Hx. apply NoDup_app; [exact Hl | repeat constructor; intros [] | ].
  intros y Hy [<- | []]. contradiction.
Qed.

Lemma group_step_grouped (seen : Z) (st st' : list (string * Group) * list dict)
    (err : dict) (w w' : World) :
  grouped seen st -> group_step st err w = (Ok st', w') -> grouped (seen + 1) st'.
Proof.
  intros (Htot & Hlen & Hnd & Hall). destruct st as [groups sums]. unfold group_step.
  intros H. apply bind_inv in H. destruct H as (stripped & w1 & _ & H).
  set (key := PyStr.take 200 _) in H.
  destruct (_ && _); [discriminate H |]. injection H as <- _.
  unfold grouped. cbn [fst snd] in *. repeat split.
  - rewrite group_update_total; [lia | reflexivity | reflexivity].
  - unfold len in *. rewrite length_app. simpl. lia.
  - rewrite group_update_keys. destruct (mem key (map fst groups)) eqn:E; [exact Hnd |].
    apply NoDup_snoc; [exact Hnd |]. now apply mem_false_In.
  - apply Forall_forall. intros kg Hin.
    assert (Hpos : Forall (fun kg => 1 <= g_count (snd kg))
                     (group_update key
                        (mkGroup 0 []
                           (py_str (dict_get_or "creation" (VStr "") err))
                           (py_str (dict_get_or "creation" (VStr "") err)))
                        (fun g =>
                           mkGroup (g_count g + 1)
                             (if truthy (or_value (dict_get_or "method" (VStr "") err) (VStr ""))
                              then set_add (or_value (dict_get_or "method" (VStr "") err)
                                              (VStr "")) (g_methods g)
                              else g_methods g)
                             (g_first_seen g) (g_last_seen g))
                        groups)).
    { apply group_update_positive; [reflexivity | reflexivity |].
      eapply Forall_impl; [| exact Hall]. intros a [Ha _]. exact Ha. }
    split; [exact (proj1 (Forall_forall _ _) Hpos kg Hin) |].
    apply (in_map fst) in Hin. rewrite group_update_keys in Hin.
    assert (Hold : forall k, In k (map fst groups) -> (String.length k <= 200)%nat).
    { intros k Hk. apply in_map_iff in Hk. destruct Hk as (kg' & <- & Hk).
      exact (proj2 (proj1 (Forall_forall _ _) Hall kg' Hk)). }
    destruct (mem key (map fst groups)); [now apply Hold |].
    apply in_app_or in Hin. destruct Hin as [Hin | [<- | []]]; [now apply Hold |].
    apply take_length.
Qed.

Lemma group_loop_grouped (errors : list dict) :
  forall seen st st' w w',
    grouped seen st -> for_each errors group_step st w = (Ok st', w') ->
    grouped (seen + len errors) st'.
Proof.
  induction errors as [| err r IH]; intros seen st st' w w' Hst H.
  - simpl in H. injection H as <- _. unfold len. simpl. now rewrite Z.add_0_r.
  - cbn [for_each] in H. apply bind_inv in H. destruct H as (st1 & w1 & H1 & H2).
    replace (seen + len (err :: r)) with (seen + 1 + len r)
      by (unfold len; cbn [List.length]; lia).
    eapply IH; [| exact H2]. eapply group_step_grouped; eauto.
Qed.

(** X8: the grouping loop of [monitor_errors] loses no error.  When the
    loop over the errors fetched comes to its end, the counts of the groups
    add up to the number of errors, there is one summary per error, no two
    groups share their error line, every group counts at least one error,
    and every error line is at most 200 characters long. *)
Theorem X8_groups_count_every_error (errors : list dict)
    (groups : list (string * Group)) (error_summaries : list dict) (w w' : World) :
  for_each errors group_step ([], []) w = (Ok (groups, error_summaries), w') ->
  total_count groups = len errors /\
  len error_summaries = len errors /\
  NoDup (map fst groups) /\
  Forall (fun kg => 1 <= g_count (snd kg) /\ (String.length (fst kg) <= 200)%nat) groups.
Proof.
  intros H.
  assert (H0 : grouped 0 (@nil (string * Group), @nil dict)).
  { repeat split; constructor. }
  exact (group_loop_grouped errors 0 _ _ w w' H0 H).
Qed.

(** X8 at work: three errors in two groups. *)
Lemma X8_groups_count_every_error_witness :
  exists groups error_summaries,
    for_each three_errors group_step ([], []) [] = (Ok (groups, error_summaries), []) /\
    total_count groups = 3 /\ map fst groups = ["ValueError: bad date";
                                                 "PermissionError: not permitted"].
Proof.
  assert (Hrun : { out | for_each three_errors group_step ([], []) [] = (Ok out, []) }).
  { eexists. vm_compute. reflexivity. }
  destruct Hrun as [[groups sums] Hrun]. exists groups, sums.
  split; [exact Hrun |].
  split; [exact (proj1 (X8_groups_count_every_error three_errors groups sums [] [] Hrun)) |].
  vm_compute in Hrun. injection Hrun as <- _. reflexivity.
Defined.

Lemma insert_sorted_perm (p : Z * dict) (l : list (Z * dict)) :
  Permutation (insert_sorted p l) (p :: l).
Proof.
  induction l as [| q r IH]; simpl; [reflexivity |].
  destruct (fst q <=? fst p); [reflexivity |].
  rewrite IH. apply perm_swap.
Qed.

Lemma sort_patterns_perm (l : list (Z * dict)) : Permutation (sort_patterns l) l.
Proof.
  induction l as [| p r IH]; simpl; [reflexivity |].
  rewrite insert_sorted_perm. now constructor.
Qed.

Lemma insert_sorted_sorted (p : Z * dict) (l : list (Z * dict)) :
  StronglySorted (fun a b => fst b <= fst a) l ->
  StronglySorted (fun a b => fst b <= fst a) (insert_sorted p l).
Proof.
  induction 1 as [| q r Hr IH Hq]; simpl.
  - repeat constructor.
  - destruct (fst q <=? fst p) eqn:E.
    + apply Z.leb_le in E. constructor; [now constructor |].
      constructor; [exact E |].
      eapply Forall_impl; [| exact Hq]. intros a Ha. simpl in *. lia.
    + apply Z.leb_gt in E. constructor; [exact IH |].
      rewrite insert_sorted_perm. constructor; [lia | exact Hq].
Qed.

Lemma sort_patterns_sorted (l : list (Z * dict)) :
  StronglySorted (fun a b => fst b <= fst a) (sort_patterns l).
Proof.
  induction l as [| p r IH]; simpl; [constructor | now apply insert_sorted_sorted].
Qed.

Lemma pattern_of_count (kg : string * Group) :
  pattern_count (snd (pattern_of kg)) = fst (pattern_of kg).
Proof.
  destruct kg as [line info]. unfold pattern_of, pattern_count. cbn [fst snd].
  destruct (g_count info >=? 3); repeat rewrite dict_get_set; reflexivity.
Qed.

Lemma pattern_of_severity (kg : string * Group) :
  dict_get "severity" (snd (pattern_of kg)) =
    Some (VStr (if 3 <=? g_count (snd kg) then "high" else "low")) /\
  (dict_get "note" (snd (pattern_of kg)) <> None <-> 3 <= g_count (snd kg)).
Proof.
  destruct kg as [line info]. unfold pattern_of. cbn [fst snd].
  rewrite Z.geb_leb. destruct (3 <=? g_count info) eqn:E.
  - apply Z.leb_le in E. repeat rewrite dict_get_set. cbn. split; [reflexivity |].
    split; [intros _; exact E | intros _; discriminate].
  - apply Z.leb_gt in E. repeat rewrite dict_get_set. cbn. split; [reflexivity |].
    split; [intros H; now contradiction H | lia].
Qed.

(** X9: the patterns of [monitor_errors] come most frequent first.  The
    list built from the groups holds one pattern per group (it is a
    permutation of the patterns of the groups), its counts never increase
    from one entry to the next, at most ten are reported, and a pattern is
    of severity [high], with a note, exactly when it counts three errors or
    more. *)
Theorem X9_patterns_most_frequent_first (groups : list (string * Group)) :
  let patterns := map snd (sort_patterns (map pattern_of groups)) in
  Permutation patterns (map (fun kg => snd (pattern_of kg)) groups) /\
  StronglySorted (fun a b => pattern_count b <= pattern_count a) patterns /\
  StronglySorted (fun a b => pattern_count b <= pattern_count a) (take 10 patterns) /\
  (List.length (take 10 patterns) <= 10)%nat /\
  forall kg, In kg groups ->
    pattern_count (snd (pattern_of kg)) = g_count (snd kg) /\
    dict_get "severity" (snd (pattern_of kg)) =
      Some (VStr (if 3 <=? g_count (snd kg) then "high" else "low")) /\
    (dict_get "note" (snd (pattern_of kg)) <> None <-> 3 <= g_count (snd kg)).
Proof.
  intros patterns.
  assert (Hsorted : StronglySorted (fun a b => pattern_count b <= pattern_count a) patterns).
  { unfold patterns.
    assert (Hkeys : Forall (fun p => pattern_count (snd p) = fst p)
                      (sort_patterns (map pattern_of groups))).
    { eapply Permutation_Forall; [symmetry; apply sort_patterns_perm |].
      apply Forall_forall. intros p Hp. apply in_map_iff in Hp.
      destruct Hp as (kg & <- & _). apply pattern_of_count. }
    pose proof (sort_patterns_sorted (map pattern_of groups)) as Hs.
    induction Hs as [| p r Hr IH Hp]; simpl; [constructor |].
    inversion Hkeys as [| ? ? Hk Hks]; subst.
    constructor; [now apply IH |].
    apply Forall_forall. intros d Hd. apply in_map_iff in Hd.
    destruct Hd as (q & <- & Hq).
    rewrite Hk, (proj1 (Forall_forall _ _) Hks q Hq).
    exact (proj1 (Forall_forall _ _) Hp q Hq). }
  split; [| split; [exact Hsorted | split; [| split]]].
  - unfold patterns. rewrite sort_patterns_perm, map_map. reflexivity.
  - unfold take. clear -Hsorted. revert Hsorted. generalize 10%nat.
    induction patterns as [| p r IH]; intros n Hs; destruct n; simpl; try constructor.
    + inversion Hs; subst. now apply IH.
    + inversion Hs as [| ? ? _ Hp]; subst.
      apply Forall_forall. intros d Hd. apply (proj1 (Forall_forall _ _) Hp).
      eapply (In_nth_error) in Hd. destruct Hd as [i Hi].
      revert Hi. clear. revert i. induction r as [| x r IH] in n |- *; intros i Hi.
      * destruct n; destruct i; discriminate Hi.
      * destruct n; [destruct i; discriminate Hi |]. destruct i; simpl in Hi.
        -- injection Hi as <-. now left.
        -- right. eapply IH; eauto.
  - unfold take. rewrite length_firstn. lia.
  - intros kg Hin. split; [| apply pattern_of_severity].
    rewrite pattern_of_count. destruct kg. reflexivity.
Qed.

(** X9 at work: the group of four errors comes first and is of high
    severity. *)
Lemma X9_patterns_most_frequent_first_witness :
  map pattern_count (map snd (sort_patterns (map pattern_of two_groups))) = [4; 1] /\
  dict_get "severity"
    (snd (pattern_of ("ValueError: bad date",
                      MonitorErrors.mkGroup 4 [VStr "submit"] "2025-01-01 10:00:00"
                        "2025-01-01 10:00:00"))) = Some (VStr "high").
Proof.
  destruct (X9_patterns_most_frequent_first two_groups) as (_ & _ & _ & _ & Hsev).
  split; [reflexivity |].
  apply (Hsev ("ValueError: bad date",
               MonitorErrors.mkGroup 4 [VStr "submit"] "2025-01-01 10:00:00"
                 "2025-01-01 10:00:00")).
  right. left. reflexivity.
Defined.

(** ** [universal_search]: what is searched and what is shown *)

Lemma in_take {A} (n : nat) (l : list A) (x : A) : In x (take n l) -> In x l.
Proof.
  unfold take. intros H. rewrite <- (firstn_skipn n l). apply in_or_app. now left.
Qed.

Lemma in_insert_at {A} (i : nat) (x y : A) (l : list A) :
  In y (insert_at i x l) -> y = x \/ In y l.
Proof.
  revert l. induction i as [| i IH]; intros l; simpl.
  - intros [<- | H]; auto.
  - destruct l as [| z r]; simpl.
    + intros [<- | []]. now left.
    + intros [<- | H]; [right; now left |]. destruct (IH r H); auto.
Qed.

Lemma filter_nil_false_map (l : list DocField) :
  take 5 (map fieldname
            (filter (fun f => false && mem (fieldtype f) ["Currency"; "Float"; "Int"; "Percent"])
               l)) = [].
Proof. induction l as [| f r IH]; [reflexivity | exact IH]. Qed.

Lemma insert_at_nonempty {A} (i : nat) (x : A) (l : list A) : insert_at i x l <> [].
Proof. destruct i, l; discriminate. Qed.

Lemma take_nonempty {A} (n : nat) (l : list A) : l <> [] -> take (S n) l <> [].
Proof. destruct l; [congruence | discriminate]. Qed.

(** X10: the fields [universal_search] searches.  The text fields are
    never empty and at most 8, the numeric fields at most 5 and none unless
    the query reads as a number; a text field is [name], the title field, or
    a field of the DocType that is not hidden and of a text type; a numeric
    field is a field that is not hidden and of a numeric type.  So the
    [or_filters] of a search are never empty. *)
Theorem X10_searchable_fields (meta : Meta) (include_numeric : bool)
    (query : string) (numeric_val : value) :
  let text_fields := fst (_get_searchable_fields meta include_numeric) in
  let numeric_fields := snd (_get_searchable_fields meta include_numeric) in
  text_fields <> [] /\
  (List.length text_fields <= 8)%nat /\
  (List.length numeric_fields <= 5)%nat /\
  (include_numeric = false -> numeric_fields = []) /\
  (forall name, In name text_fields ->
     name = "name" \/ name = title_field meta \/
     exists f, In f (fields meta) /\ fieldname f = name /\ flag (hidden f) = false /\
               In (fieldtype f)
                 ["Data"; "Text"; "Small Text"; "Text Editor"; "Long Text"; "Select"; "Link"]) /\
  (forall name, In name numeric_fields ->
     exists f, In f (fields meta) /\ fieldname f = name /\ flag (hidden f) = false /\
               In (fieldtype f) ["Currency"; "Float"; "Int"; "Percent"]) /\
  is_empty (or_filters_of query include_numeric numeric_val text_fields numeric_fields) = false.
Proof.
  unfold _get_searchable_fields. cbn [fst snd].
  set (visible := filter (fun f => negb (flag (hidden f))) (fields meta)).
  set (t0 := map fieldname (filter _ visible)).
  set (t1 := if negb (mem "name" t0) then insert_at 0 "name" t0 else t0).
  set (t2 := if PyStr.nonempty (title_field meta) && negb (mem (title_field meta) t1)
             then insert_at 1 (title_field meta) t1 else t1).
  assert (Hvis : forall f, In f visible -> In f (fields meta) /\ flag (hidden f) = false).
  { intros f Hf. apply filter_In in Hf. destruct Hf as [Hf Hh]. split; [exact Hf |].
    now apply negb_true_iff in Hh. }
  assert (Ht0 : forall name, In name t0 ->
            exists f, In f (fields meta) /\ fieldname f = name /\ flag (hidden f) = false /\
               In (fieldtype f)
                 ["Data"; "Text"; "Small Text"; "Text Editor"; "Long Text"; "Select"; "Link"]).
  { intros name Hin. apply in_map_iff in Hin. destruct Hin as (f & <- & Hf).
    apply filter_In in Hf. destruct Hf as [Hf Hty]. destruct (Hvis f Hf) as [Hm Hh].
    exists f. repeat split; auto. now apply mem_In. }
  assert (Ht1 : t1 <> []).
  { unfold t1. destruct (negb (mem "name" t0)) eqn:E; [discriminate |].
    apply negb_false_iff, mem_In in E. intros H. rewrite H in E. destruct E. }
  assert (Ht2 : t2 <> []).
  { unfold t2. destruct (_ && _); [apply insert_at_nonempty | exact Ht1]. }
  assert (Htext : take 8 t2 <> []) by now apply take_nonempty.
  split; [exact Htext |].
  split; [unfold take; rewrite length_firstn; lia |].
  split; [unfold take; rewrite length_firstn; lia |].
  split; [intros ->; apply filter_nil_false_map | split; [| split]].
  - intros name Hin. apply in_take in Hin. unfold t2 in Hin.
    assert (H1 : In name t1 -> name = "name" \/ name = title_field meta \/
              exists f, In f (fields meta) /\ fieldname f = name /\ flag (hidden f) = false /\
               In (fieldtype f)
                 ["Data"; "Text"; "Small Text"; "Text Editor"; "Long Text"; "Select"; "Link"]).
    { unfold t1. destruct (negb (mem "name" t0)).
      - intros [<- | H]; [now left | right; right; now apply Ht0].
      - intros H. right; right; now apply Ht0. }
    destruct (_ && _); [| now apply H1].
    apply in_insert_at in Hin. destruct Hin as [-> | Hin]; [right; now left | now apply H1].
  - intros name Hin. apply in_take in Hin. apply in_map_iff in Hin.
    destruct Hin as (f & <- & Hf). apply filter_In in Hf. destruct Hf as [Hf Hty].
    destruct (Hvis f Hf) as [Hm Hh]. apply andb_true_iff in Hty. destruct Hty as [_ Hty].
    exists f. repeat split; auto. now apply mem_In.
  - unfold or_filters_of. destruct (take 8 t2) as [| x r] eqn:E; [contradiction |].
    reflexivity.
Qed.

(** X10 at work: the hidden field is not searched, and no numeric field
    is when the query is not a number. *)
Lemma X10_searchable_fields_witness :
  _get_searchable_fields customer_meta false = (["name"; "customer_name"], []) /\
  snd (_get_searchable_fields customer_meta false) = [] /\
  exists f, In f (fields customer_meta) /\ fieldname f = "customer_name" /\
            flag (hidden f) = false /\
            In (fieldtype f)
              ["Data"; "Text"; "Small Text"; "Text Editor"; "Long Text"; "Select"; "Link"].
Proof.
  destruct (X10_searchable_fields customer_meta false "acme" VNone)
    as (_ & _ & _ & Hnum & Htext & _).
  split; [reflexivity |]. split; [apply Hnum; reflexivity |].
  destruct (Htext "customer_name") as [H | [H | H]].
  - right. left. reflexivity.
  - discriminate H.
  - discriminate H.
  - exact H.
Defined.

Lemma display_loop_inv (fs : list DocField) :
  forall display,
    NoDup display ->
    NoDup (fold_left
             (fun display f =>
                if flag (hidden f) || MapRelationships.is_break (fieldtype f) then display
                else if mem (fieldname f) shown_fieldnames && negb (mem (fieldname f) display)
                     then display ++ [fieldname f]
                     else display) fs display) /\
    (forall name,
        In name (fold_left
                   (fun display f =>
                      if flag (hidden f) || MapRelationships.is_break (fieldtype f) then display
                      else if mem (fieldname f) shown_fieldnames &&
                              negb (mem (fieldname f) display)
                           then display ++ [fieldname f]
                           else display) fs display) ->
        In name display \/
        (In name shown_fieldnames /\
         exists f, In f fs /\ fieldname f = name /\ flag (hidden f) = false /\
                   MapRelationships.is_break (fieldtype f) = false)) /\
    (forall x, hd_error display = Some x ->
        hd_error (fold_left
                   (fun display f =>
                      if flag (hidden f) || MapRelationships.is_break (fieldtype f) then display
                      else if mem (fieldname f) shown_fieldnames &&
                              negb (mem (fieldname f) display)
                           then display ++ [fieldname f]
                           else display) fs display) = Some x).
Proof.
  induction fs as [| f r IH]; intros display Hnd; cbn [fold_left].
  - repeat split; auto.
  - destruct (flag (hidden f) || MapRelationships.is_break (fieldtype f)) eqn:Ehb.
    { destruct (IH display Hnd) as (H1 & H2 & H3). repeat split; auto.
      intros name Hin. destruct (H2 name Hin) as [H | (Hs & f' & Hf' & Hrest)]; auto.
      right. split; [exact Hs |]. exists f'. split; [now right | exact Hrest]. }
    apply orb_false_iff in Ehb. destruct Ehb as [Eh Eb].
    destruct (mem (fieldname f) shown_fieldnames && negb (mem (fieldname f) display)) eqn:E.
    + apply andb_true_iff in E. destruct E as [Es En].
      apply negb_true_iff, mem_false_In in En. apply mem_In in Es.
      destruct (IH (display ++ [fieldname f]) (NoDup_snoc _ _ Hnd En)) as (H1 & H2 & H3).
      repeat split; auto.
      * intros name Hin. destruct (H2 name Hin) as [H | (Hs & f' & Hf' & Hrest)].
        -- apply in_app_or in H. destruct H as [H | [<- | []]]; auto.
           right. split; [exact Es |]. exists f. repeat split; auto. now left.
        -- right. split; [exact Hs |]. exists f'. split; [now right | exact Hrest].
      * intros x Hx. apply H3. destruct display; [discriminate Hx | exact Hx].
    + destruct (IH display Hnd) as (H1 & H2 & H3). repeat split; auto.
      intros name Hin. destruct (H2 name Hin) as [H | (Hs & f' & Hf' & Hrest)]; auto.
      right. split; [exact Hs |]. exists f'. split; [now right | exact Hrest].
Qed.

(** X11: the fields [universal_search] asks the host to return.  The
    list starts with [name], holds no field twice and at most 8 entries;
    an entry is [name], the title field, [modified], or one of the twelve
    listed field names carried by a field of the DocType that is neither
    hidden nor a break. *)
Theorem X11_display_fields (meta : Meta) :
  hd_error (_get_display_fields meta) = Some "name" /\
  NoDup (_get_display_fields meta) /\
  (List.length (_get_display_fields meta) <= 8)%nat /\
  forall name, In name (_get_display_fields meta) ->
    name = "name" \/ name = title_field meta \/ name = "modified" \/
    (In name shown_fieldnames /\
     exists f, In f (fields meta) /\ fieldname f = name /\ flag (hidden f) = false /\
               MapRelationships.is_break (fieldtype f) = false).
Proof.
  unfold _get_display_fields.
  set (d0 := if PyStr.nonempty (title_field meta) && negb (String.eqb (title_field meta) "name")
             then ["name"] ++ [title_field meta] else ["name"]).
  assert (Hnd0 : NoDup d0).
  { unfold d0. destruct (_ && _) eqn:E; [| repeat constructor; intros []].
    apply andb_true_iff in E. destruct E as [_ E]. apply negb_true_iff in E.
    apply String.eqb_neq in E. repeat constructor; simpl; intuition congruence. }
  assert (Hhd0 : hd_error d0 = Some "name") by (unfold d0; destruct (_ && _); reflexivity).
  assert (Hin0 : forall name, In name d0 -> name = "name" \/ name = title_field meta).
  { unfold d0. destruct (_ && _); simpl; intuition. }
  destruct (display_loop_inv (fields meta) d0 Hnd0) as (H1 & H2 & H3).
  set (d1 := fold_left _ (fields meta) d0) in *.
  set (d2 := if negb (mem "modified" d1) then d1 ++ ["modified"] else d1).
  assert (Hnd2 : NoDup d2).
  { unfold d2. destruct (negb (mem "modified" d1)) eqn:E; [| exact H1].
    apply negb_true_iff, mem_false_In in E. now apply NoDup_snoc. }
  assert (Hhd2 : hd_error d2 = Some "name").
  { unfold d2. specialize (H3 _ Hhd0). destruct (negb (mem "modified" d1)); [| exact H3].
    destruct d1; [discriminate H3 | exact H3]. }
  split; [| split; [| split]].
  - unfold take. destruct d2; [discriminate Hhd2 | exact Hhd2].
  - unfold take. now apply NoDup_firstn.
  - unfold take. rewrite length_firstn. lia.
  - intros name Hin. apply in_take in Hin.
    assert (Hd1 : In name d1 -> name = "name" \/ name = title_field meta \/ name = "modified" \/
              (In name shown_fieldnames /\
               exists f, In f (fields meta) /\ fieldname f = name /\ flag (hidden f) = false /\
                         MapRelationships.is_break (fieldtype f) = false)).
    { intros H. destruct (H2 name H) as [H0 | H0]; [| now repeat right].
      destruct (Hin0 name H0); auto. }
    unfold d2 in Hin. destruct (negb (mem "modified" d1)); [| now apply Hd1].
    apply in_app_or in Hin. destruct Hin as [Hin | [<- | []]]; [now apply Hd1 | auto].
Qed.

(** X11 at work: the fields shown for a DocType with a visible
    [customer_name]. *)
Lemma X11_display_fields_witness :
  _get_display_fields customer_meta = ["name"; "customer_name"; "modified"] /\
  ("customer_name" = "name" \/ "customer_name" = title_field customer_meta \/
   "customer_name" = "modified" \/
   (In "customer_name" shown_fieldnames /\
    exists f, In f (fields customer_meta) /\ fieldname f = "customer_name" /\
              flag (hidden f) = false /\
              MapRelationships.is_break (fieldtype f) = false)).
Proof.
  split; [reflexivity |].
  apply (X11_display_fields customer_meta). right. left. reflexivity.
Defined.

Lemma search_dt_tagged (h : Host) (doctype query : string) (is_numeric : bool)
    (numeric_val : value) (limit : Z) (w : World) :
  exists rows,
    _search_dt h doctype query is_numeric numeric_val limit w = (Ok rows, w) /\
    Forall (fun r => dict_get "doctype" r = Some (VStr doctype)) rows.
Proof.
  unfold _search_dt, try_except, bind, ask, ret.
  destruct (db_exists h w "DocType" doctype) as [[|] | e]; cbn [negb];
    try (exists []; split; [reflexivity | constructor]).
  destruct (has_permission h w doctype "read" false) as [[|] | e]; cbn [negb];
    try (exists []; split; [reflexivity | constructor]).
  destruct (get_meta h w doctype) as [meta | e];
    try (exists []; split; [reflexivity | constructor]).
  destruct (_get_searchable_fields meta is_numeric) as [tf nf].
  destruct (is_empty _); try (exists []; split; [reflexivity | constructor]).
  destruct (get_all h w doctype _) as [rows | e];
    try (exists []; split; [reflexivity | constructor]).
  eexists. split; [reflexivity |].
  apply Forall_forall. intros r Hr. apply in_map_iff in Hr. destruct Hr as (r0 & <- & _).
  now rewrite dict_get_set, String.eqb_refl.
Qed.

Lemma search_step_tagged (h : Host) (query : string) (is_numeric : bool)
    (numeric_val : value) (limit : Z) (st st' : list dict * list string) (dt : string)
    (w w' : World) :
  tagged (fst st) (snd st) ->
  search_step h query is_numeric numeric_val limit st dt w = (Ok st', w') ->
  tagged (fst st') (snd st').
Proof.
  destruct st as [results searched]. intros Hst. unfold search_step, bind.
  destruct (search_dt_tagged h dt query is_numeric numeric_val limit w) as (rows & -> & Hrows).
  destruct (truthy (dicts rows)); intros H; injection H as <- _; [| exact Hst].
  cbn [fst snd] in *. intros r Hr. apply in_app_or in Hr. destruct Hr as [Hr | Hr].
  - destruct (Hst r Hr) as (d & Hd & Hk). exists d. split; [apply in_or_app; now left | exact Hk].
  - exists dt. split; [apply in_or_app; right; now left |].
    exact (proj1 (Forall_forall _ _) Hrows r Hr).
Qed.

Lemma priority_loop_tagged (h : Host) (query : string) (is_numeric : bool)
    (numeric_val : value) (limit : Z) (dts : list string) :
  forall st st' w w',
    tagged (fst st) (snd st) ->
    for_each dts (search_step h query is_numeric numeric_val limit) st w = (Ok st', w') ->
    tagged (fst st') (snd st').
Proof.
  induction dts as [| dt r IH]; intros st st' w w' Hst H.
  - simpl in H. injection H as <- _. exact Hst.
  - cbn [for_each] in H. apply bind_inv in H. destruct H as (st1 & w1 & H1 & H2).
    eapply IH; [| exact H2]. eapply search_step_tagged; eauto.
Qed.

Lemma remaining_loop_tagged (h : Host) (query : string) (is_numeric : bool)
    (numeric_val : value) (limit : Z) (dts : list string) :
  forall st st' w w',
    tagged (fst st) (snd st) ->
    search_remaining h query is_numeric numeric_val limit dts st w = (Ok st', w') ->
    tagged (fst st') (snd st').
Proof.
  induction dts as [| dt r IH]; intros st st' w w' Hst H.
  - simpl in H. injection H as <- _. exact Hst.
  - cbn [search_remaining] in H.
    destruct (len (fst st) >=? limit); [injection H as <- _; exact Hst |].
    apply bind_inv in H. destruct H as (st1 & w1 & H1 & H2).
    eapply IH; [| exact H2]. eapply search_step_tagged; eauto.
Qed.

Lemma collect_tagged (h : Host) (float : string -> option Q) (query : string)
    (limit : Z) (st : list dict * list string) (w w' : World) :
  collect h float query limit w = (Ok st, w') -> tagged (fst st) (snd st).
Proof.
  unfold collect. destruct (_is_numeric float query) as [is_numeric numeric_val].
  intros H. apply bind_inv in H. destruct H as (st1 & w1 & H1 & H2).
  assert (Hst1 : tagged (fst st1) (snd st1)).
  { eapply priority_loop_tagged; [| exact H1]. intros r []. }
  destruct (len (fst st1) <? limit); [| injection H2 as <- _; exact Hst1].
  apply bind_inv in H2. destruct H2 as (all_dts & w2 & _ & H2).
  eapply remaining_loop_tagged; eauto.
Qed.

(** X12: every result of a global search says where it was found.  A
    search of one DocType never raises (any failure gives no results) and
    stamps each row with that DocType.  When [_global_search] returns, each
    entry of [results] carries a [doctype] that is listed in
    [searched_doctypes]. *)
Theorem X12_results_are_tagged (h : Host) (float : string -> option Q)
    (query : string) (limit : Z) (w : World) :
  (forall doctype is_numeric numeric_val n,
      exists rows,
        _search_dt h doctype query is_numeric numeric_val n w = (Ok rows, w) /\
        Forall (fun r => dict_get "doctype" r = Some (VStr doctype)) rows) /\
  (forall out w',
      _global_search h float query limit w = (Ok out, w') ->
      exists results searched,
        dict_get "results" out = Some (dicts results) /\
        dict_get "searched_doctypes" out = Some (VList (map VStr searched)) /\
        forall r, In r results ->
          exists dt, In dt searched /\ dict_get "doctype" r = Some (VStr dt)).
Proof.
  split; [intros; apply search_dt_tagged |].
  intros out w' H. unfold _global_search in H.
  apply bind_inv in H. destruct H as ([results searched] & w1 & Hc & H).
  injection H as <- _.
  exists (slice_to limit (unique_of results)), searched.
  split; [reflexivity |]. split; [reflexivity |].
  intros r Hr. apply (collect_tagged h float query limit _ w w1 Hc).
  cbn [fst]. destruct (slice_to_sub limit (unique_of results)) as [m Hm].
  rewrite Hm in Hr. apply (in_take m) in Hr.
  now apply (proj1 (proj2 (unique_of_spec results))).
Qed.

(** X12 at work: the two customers found on a site with one searchable
    DocType. *)
Lemma X12_results_are_tagged_witness :
  exists out results,
    _global_search Sites.customer_site Sites.no_float "CUST" 20 [] = (Ok out, []) /\
    dict_get "results" out = Some (dicts results) /\
    map (dict_get "doctype") results = [Some (VStr "Customer"); Some (VStr "Customer")].
Proof.
  assert (Hrun : { out | _global_search Sites.customer_site Sites.no_float "CUST" 20 [] =
                           (Ok out, []) }).
  { eexists. vm_compute. reflexivity. }
  destruct Hrun as [out Hrun].
  destruct (proj2 (X12_results_are_tagged Sites.customer_site Sites.no_float "CUST" 20 [])
              out [] Hrun) as (results & searched & Hres & _ & _).
  exists out, results. split; [exact Hrun |]. split; [exact Hres |].
  vm_compute in Hrun. injection Hrun as <-. vm_compute in Hres.
  injection Hres as Hres.
  assert (Hinj : forall a b : list dict, map VDict a = map VDict b -> a = b).
  { induction a as [| x a IH]; intros [| y b] E; try discriminate E; [reflexivity |].
    injection E as -> E. f_equal. now apply IH. }
  apply (Hinj [_; _]) in Hres. subst results. reflexivity.
Defined.

(** ** [map_relationships]: the outgoing links *)

Lemma link_entries_standard (f : DocField) :
  incl (link_entries false f) (link_entries true f).
Proof.
  unfold link_entries. destruct (_ && _).
  - cbn [negb andb]. destruct (mem (fieldname f) standard_link_fields); cbn.
    + intros x [].
    + apply incl_refl.
  - apply incl_refl.
Qed.

Lemma dict_get_links_to (c : bool) (v : value) (fieldname_ label_ target mandatory : value) :
  dict_get "links_to"
    (set_if c "fetch_from" v
       [("fieldname", fieldname_); ("label", label_); ("links_to", target);
        ("mandatory", mandatory)]) = Some target /\
  dict_get "fieldname"
    (set_if c "fetch_from" v
       [("fieldname", fieldname_); ("label", label_); ("links_to", target);
        ("mandatory", mandatory)]) = Some fieldname_.
Proof. rewrite !dict_get_set_if, !andb_false_r. split; reflexivity. Qed.

(** X13: the outgoing links [map_relationships] reports.  Every entry of
    [links_to] comes from a Link or Dynamic Link field whose options are not
    empty, and names that field and its target.  Without
    [include_standard], no entry comes from a Link field named [owner],
    [modified_by], [company], [amended_from], [parent], [parenttype] or
    [parentfield]; with it, the list holds every entry of the list without
    it. *)
Theorem X13_links_to (meta : Meta) (include_standard : bool) :
  (forall link, In link (links_to_of include_standard meta) ->
     exists f, In f (fields meta) /\ options f <> "" /\
               dict_get "fieldname" link = Some (VStr (fieldname f)) /\
               ((fieldtype f = "Link" /\ dict_get "links_to" link = Some (VStr (options f)) /\
                 (include_standard = false -> ~ In (fieldname f) standard_link_fields)) \/
                (fieldtype f = "Dynamic Link" /\
                 dict_get "links_to" link =
                   Some (VStr ("DYNAMIC (via " ++ options f ++ ")"))))) /\
  incl (links_to_of false meta) (links_to_of true meta).
Proof.
  split.
  - intros link Hin. unfold links_to_of in Hin. apply in_flat_map in Hin.
    destruct Hin as (f & Hf & Hin). exists f. split; [exact Hf |].
    unfold link_entries in Hin.
    destruct (String.eqb (fieldtype f) "Link" && PyStr.nonempty (options f)) eqn:E.
    + apply andb_true_iff in E. destruct E as [Ety Eopt]. apply String.eqb_eq in Ety.
      destruct (negb include_standard && mem (fieldname f) standard_link_fields) eqn:Es;
        [destruct Hin |].
      destruct Hin as [<- | []].
      split; [intros Ho; rewrite Ho in Eopt; discriminate Eopt |].
      split; [apply dict_get_links_to |]. left.
      split; [exact Ety |]. split; [apply dict_get_links_to |].
      intros ->. cbn [negb andb] in Es. now apply mem_false_In.
    + destruct (String.eqb (fieldtype f) "Dynamic Link" && PyStr.nonempty (options f)) eqn:Ed;
        [| destruct Hin].
      apply andb_true_iff in Ed. destruct Ed as [Ety Eopt]. apply String.eqb_eq in Ety.
      destruct Hin as [<- | []].
      split; [intros Ho; rewrite Ho in Eopt; discriminate Eopt |].
      split; [reflexivity |]. right. split; [exact Ety | reflexivity].
  - unfold links_to_of. intros link Hin. apply in_flat_map in Hin.
    destruct Hin as (f & Hf & Hin). apply in_flat_map. exists f.
    split; [exact Hf | now apply link_entries_standard].
Qed.

(** X13 at work: [owner] is left out unless [include_standard] is set. *)
Lemma X13_links_to_witness :
  map MapRelationships.target_of (links_to_of false order_meta) = ["Customer"] /\
  map MapRelationships.target_of (links_to_of true order_meta) = ["Customer"; "User"] /\
  exists f, In f (fields order_meta) /\ options f <> "" /\ fieldname f = "customer".
Proof.
  split; [reflexivity |]. split; [reflexivity |].
  destruct (proj1 (X13_links_to order_meta false)
              [("fieldname", VStr "customer"); ("label", VStr "customer");
               ("links_to", VStr "Customer"); ("mandatory", VBool false)])
    as (f & Hf & Ho & Hn & _).
  - left. reflexivity.
  - exists f. split; [exact Hf |]. split; [exact Ho |].
    simpl in Hf. destruct Hf as [<- | [<- | []]]; [reflexivity | discriminate Hn].
Defined.

(** ** [field_explorer]: the sections *)

Lemma section_step_inv (sections : list FieldExplorer.Section_)
    (current : FieldExplorer.Section_) (f : DocField) :
  Forall (fun s : FieldExplorer.Section_ => snd s <> []) sections ->
  let st := FieldExplorer.section_step (sections, current) f in
  Forall (fun s : FieldExplorer.Section_ => snd s <> []) (fst st) /\
  flat_map snd (fst st) ++ snd (snd st) =
    (flat_map snd sections ++ snd current) ++
    map FieldExplorer.field_entry (if listed f then [f] else []).
Proof.
  intros Hne. unfold FieldExplorer.section_step, listed, FieldExplorer.is_break.
  destruct current as [lbl flds].
  destruct (mem (fieldtype f) ["Tab Break"; "Section Break"]) eqn:Eb.
  - assert (Hbr : mem (fieldtype f) ["Section Break"; "Column Break"; "Tab Break"] = true).
    { apply mem_In. apply mem_In in Eb. simpl in *. intuition. }
    rewrite Hbr. cbn [negb andb map fst snd].
    destruct flds as [| x flds]; cbn [is_empty].
    + split; [exact Hne |]. now rewrite !app_nil_r.
    + split.
      * apply Forall_app. split; [exact Hne |]. constructor; [discriminate | constructor].
      * rewrite flat_map_app. cbn [flat_map snd]. now rewrite !app_nil_r.
  - destruct (String.eqb (fieldtype f) "Column Break") eqn:Ec.
    + apply String.eqb_eq in Ec.
      assert (Hbr : mem (fieldtype f) ["Section Break"; "Column Break"; "Tab Break"] = true)
        by (rewrite Ec; reflexivity).
      rewrite Hbr. cbn [orb negb andb map fst snd]. split; [exact Hne |].
      now rewrite app_nil_r.
    + assert (Hbr : mem (fieldtype f) ["Section Break"; "Column Break"; "Tab Break"] = false).
      { apply mem_false_In. apply mem_false_In in Eb. apply String.eqb_neq in Ec.
        simpl in *. intuition. }
      rewrite Hbr. cbn [orb negb andb].
      destruct (flag (hidden f)); cbn [negb map fst snd].
      * split; [exact Hne |]. now rewrite app_nil_r.
      * split; [exact Hne |]. now rewrite <- !app_assoc.
Qed.

Lemma section_loop (fs : list DocField) :
  forall sections current,
    Forall (fun s : FieldExplorer.Section_ => snd s <> []) sections ->
    let st := fold_left FieldExplorer.section_step fs (sections, current) in
    Forall (fun s : FieldExplorer.Section_ => snd s <> []) (fst st) /\
    flat_map snd (fst st) ++ snd (snd st) =
      (flat_map snd sections ++ snd current) ++
      map FieldExplorer.field_entry (filter listed fs).
Proof.
  induction fs as [| f r IH]; intros sections current Hne; cbn [fold_left].
  - split; [exact Hne |]. cbn. now rewrite app_nil_r.
  - destruct (section_step_inv sections current f Hne) as [H1 H2].
    destruct (FieldExplorer.section_step (sections, current) f) as [s1 c1].
    cbn [fst snd] in H1, H2.
    destruct (IH s1 c1 H1) as [H3 H4]. split; [exact H3 |].
    rewrite H4, H2, <- app_assoc, <- map_app. cbn [filter].
    destruct (listed f); reflexivity.
Qed.

(** X14: without a section filter, [field_explorer] lists every visible
    field exactly once.  The fields of the sections, read in order, are the
    entries of the fields of the DocType that are neither breaks nor hidden,
    in the order of the DocType; no section is reported empty; and
    [total_fields] is their number. *)
Theorem X14_sections_partition (meta : Meta) (doctype : string) :
  exists sections : list FieldExplorer.Section_,
    dict_get "sections" (FieldExplorer._explore_all_fields meta doctype None) =
      Some (dicts (map (fun s => [("label", VStr (fst s)); ("fields", dicts (snd s))])
                     sections)) /\
    flat_map snd sections = map FieldExplorer.field_entry (filter listed (fields meta)) /\
    Forall (fun s => snd s <> []) sections /\
    exists summary,
      dict_get "summary" (FieldExplorer._explore_all_fields meta doctype None) =
        Some (VDict summary) /\
      dict_get "total_fields" summary = Some (VInt (len (filter listed (fields meta)))) /\
      dict_get "sections" summary = Some (VInt (len sections)).
Proof.
  unfold FieldExplorer._explore_all_fields.
  pose proof (section_loop (fields meta) [] ("Default", []) (Forall_nil _)) as Hloop.
  cbv zeta in Hloop.
  match goal with
  | |- context [fold_left FieldExplorer.section_step (fields meta) ?s0] =>
      change (fold_left FieldExplorer.section_step (fields meta) ([], ("Default", [])))
        with (fold_left FieldExplorer.section_step (fields meta) s0) in Hloop;
      destruct (fold_left FieldExplorer.section_step (fields meta) s0)
        as [sections [lbl flds]]
  end.
  destruct Hloop as [Hne Hflat].
  cbn [fst snd flat_map app] in Hne, Hflat.
  set (final := if is_empty (snd (lbl, flds)) then sections else sections ++ [(lbl, flds)]).
  assert (Hfinal : flat_map snd final = map FieldExplorer.field_entry (filter listed (fields meta)) /\
                   Forall (fun s : FieldExplorer.Section_ => snd s <> []) final).
  { unfold final. cbn [snd]. destruct flds as [| x flds]; cbn [is_empty].
    - rewrite app_nil_r in Hflat. now split.
    - split.
      + rewrite flat_map_app. cbn [flat_map snd]. now rewrite app_nil_r.
      + apply Forall_app. split; [exact Hne |]. constructor; [discriminate | constructor]. }
  destruct Hfinal as [Hf1 Hf2].
  exists final. split; [reflexivity |]. split; [exact Hf1 |]. split; [exact Hf2 |].
  eexists. split; [reflexivity |]. cbn [dict_get String.eqb Ascii.eqb Bool.eqb].
  split; [| reflexivity].
  change (Some (VInt (len (flat_map snd final))) =
          Some (VInt (len (filter listed (fields meta))))).
  rewrite Hf1. unfold len. now rewrite length_map.
Qed.

(** ** [introspect_system]: failures stay in their section *)

Lemma total_of {A} (m : M A) (w : World) :
  returns m -> read_only_run m -> exists a, m w = (Ok a, w).
Proof.
  intros Hret Hro. destruct (Hret w) as [a Ha]. specialize (Hro w).
  destruct (m w) as [r w1]. simpl in Ha, Hro. subst. now exists a.
Qed.

Lemma get_apps_total (h : Host) (w : World) :
  exists v, IntrospectSystem._get_apps h w = (Ok v, w).
Proof.
  apply total_of.
  - apply returns_try. intros e. apply returns_ret.
  - unfold IntrospectSystem._get_apps. repeat ro_step.
Qed.

Lemma get_modules_total (h : Host) (module : string) (w : World) :
  exists v, IntrospectSystem._get_modules h module w = (Ok v, w).
Proof.
  apply total_of.
  - apply returns_try. intros e. apply returns_ret.
  - unfold IntrospectSystem._get_modules. repeat ro_step.
Qed.

Lemma get_doctypes_total (h : Host) (doctype module : string) (w : World) :
  exists v, IntrospectSystem._get_doctypes h doctype module w = (Ok v, w).
Proof.
  apply total_of.
  - apply returns_try. intros e. apply returns_ret.
  - unfold IntrospectSystem._get_doctypes. repeat ro_step.
Qed.

Lemma get_customizations_total (h : Host) (doctype : string) (w : World) :
  exists v, IntrospectSystem._get_customizations h doctype w = (Ok v, w).
Proof.
  apply total_of.
  - apply returns_try. intros e. apply returns_ret.
  - unfold IntrospectSystem._get_customizations, IntrospectSystem.customization.
    repeat ro_step.
Qed.

Lemma get_links_total (h : Host) (doctype : string) (w : World) :
  exists v, IntrospectSystem._get_links h doctype w = (Ok v, w).
Proof.
  apply total_of.
  - apply returns_try. intros e. apply returns_ret.
  - apply get_links_read_only.
Qed.

Lemma introspect_body_sections (h : Host) (arguments : IntrospectSystem.Arguments)
    (w : World) :
  let scope :=
    match IntrospectSystem.arg_scope arguments with Some s => s | None => "all" end in
  let doctype :=
    match IntrospectSystem.arg_doctype arguments with Some s => s | None => "" end in
  exists out,
    IntrospectSystem.execute_body h arguments w = (Ok out, w) /\
    ((scope = "links" /\ doctype = "" /\
      out = [("success", VBool false);
             ("error", VStr "doctype is required for links scope")]) \/
     (dict_get "success" out = Some (VBool true) /\
      (forall k, In k ["apps"; "modules"; "doctypes"; "customizations"] ->
                 dict_has k out = (String.eqb scope k || String.eqb scope "all")) /\
      dict_has "links" out =
        ((String.eqb scope "links" || String.eqb scope "all") && PyStr.nonempty doctype))).
Proof.
  intros scope doctype. unfold IntrospectSystem.execute_body. fold scope doctype.
  set (module := match IntrospectSystem.arg_module arguments with
                 | Some s => s | None => "" end).
  destruct (get_apps_total h w) as [apps Happs].
  destruct (get_modules_total h module w) as [modules Hmodules].
  destruct (get_doctypes_total h doctype module w) as [doctypes Hdoctypes].
  destruct (get_customizations_total h doctype w) as [customizations Hcustom].
  destruct (get_links_total h doctype w) as [links Hlinks].
  unfold bind. 
  destruct (String.eqb scope "all") eqn:Eall;
  destruct (String.eqb scope "apps") eqn:E1;
  destruct (String.eqb scope "modules") eqn:E2;
  destruct (String.eqb scope "doctypes") eqn:E3;
  destruct (String.eqb scope "customizations") eqn:E4;
  cbn [orb]; unfold ret;
  repeat first [rewrite Happs | rewrite Hmodules | rewrite Hdoctypes | rewrite Hcustom];
  (destruct (String.eqb scope "links") eqn:E5; cbn [orb];
   [ destruct (PyStr.nonempty doctype) eqn:Ed;
     [ rewrite Hlinks; eexists; split; [reflexivity |]; right;
       split; [reflexivity |]; split; [| reflexivity];
       intros k Hk; simpl in Hk;
       repeat (destruct Hk as [<- | Hk]; [rewrite ?Eall, ?E1, ?E2, ?E3, ?E4; reflexivity |]);
       destruct Hk
     | eexists; split; [reflexivity |]; left;
       split; [now apply String.eqb_eq |];
       split; [destruct doctype; [reflexivity | discriminate Ed] | reflexivity] ]
   | try (destruct (PyStr.nonempty doctype) eqn:Ed; [rewrite Hlinks |]);
     eexists; (split; [reflexivity |]); right;
     (split; [reflexivity |]); (split; [| reflexivity]);
     intros k Hk; simpl in Hk;
     repeat (destruct Hk as [<- | Hk]; [rewrite ?Eall, ?E1, ?E2, ?E3, ?E4; reflexivity |]);
     destruct Hk ]).
Qed.

(** X15: [introspect_system] reports every host failure inside the
    section it occurred in.  [execute] never raises, never takes its outer
    [except] branch and writes nothing: its result is the result of its
    body.  Either the scope is [links] without a DocType and the result
    is the failure "doctype is required for links scope"; or [success] is
    true and the result has the key [apps], [modules], [doctypes] or
    [customizations] exactly when the scope is that key or [all], and the
    key [links] exactly when the scope is [links] or [all] and a DocType is
    given. *)
Theorem X15_introspect_sections (h : Host) (arguments : IntrospectSystem.Arguments)
    (w : World) :
  let scope :=
    match IntrospectSystem.arg_scope arguments with Some s => s | None => "all" end in
  let doctype :=
    match IntrospectSystem.arg_doctype arguments with Some s => s | None => "" end in
  exists out,
    IntrospectSystem.execute_body h arguments w = (Ok out, w) /\
    IntrospectSystem.execute h arguments w = (Ok out, w) /\
    ((scope = "links" /\ doctype = "" /\
      out = [("success", VBool false);
             ("error", VStr "doctype is required for links scope")]) \/
     (dict_get "success" out = Some (VBool true) /\
      (forall k, In k ["apps"; "modules"; "doctypes"; "customizations"] ->
                 dict_has k out = (String.eqb scope k || String.eqb scope "all")) /\
      dict_has "links" out =
        ((String.eqb scope "links" || String.eqb scope "all") && PyStr.nonempty doctype))).
Proof.
  intros scope doctype.
  destruct (introspect_body_sections h arguments w) as (out & Hrun & Hout).
  exists out. split; [exact Hrun |]. split; [| exact Hout].
  unfold IntrospectSystem.execute, try_except. rewrite Hrun. reflexivity.
Qed.

(** X15 at work: on a site whose [get_all] raises, the scope [modules]
    gives a successful result whose [modules] section holds the error. *)
Lemma X15_introspect_sections_witness :
  IntrospectSystem.execute_body Sites.broken_site
    (IntrospectSystem.mkArguments (Some "modules") None None) [] =
    (Ok [("success", VBool true);
         ("modules", VDict [("error", VStr "OperationalError: connection lost")])], []) /\
  exists out,
    IntrospectSystem.execute_body Sites.broken_site
      (IntrospectSystem.mkArguments (Some "modules") None None) [] = (Ok out, []) /\
    dict_has "modules" out = true /\ dict_has "apps" out = false.
Proof.
  split; [reflexivity |].
  destruct (X15_introspect_sections Sites.broken_site
              (IntrospectSystem.mkArguments (Some "modules") None None) [])
    as (out & Hrun & _ & [(Hs & _) | (_ & Hkeys & _)]).
  - discriminate Hs.
  - exists out. split; [exact Hrun |]. split.
    + apply (Hkeys "modules"). right. left. reflexivity.
    + apply (Hkeys "apps"). left. reflexivity.
Defined.

Lemma seen_string (s : string) (seen : list value) :
  existsb (value_eqb (VStr s)) seen = true <-> In (VStr s) seen.
Proof.
  rewrite existsb_exists. split.
  - intros (x & Hx & E). destruct x; try discriminate E. simpl in E.
    apply String.eqb_eq in E. now subst.
  - intros H. exists (VStr s). split; [exact H |]. simpl. apply String.eqb_refl.
Qed.

Ltac split5 := split; [| split; [| split; [| split]]].

Lemma incoming_loop (doctype : string) (incoming : list dict) :
  forall seen linked,
    Forall (fun link => exists s, parent_of link = VStr s) incoming ->
    seen = map linking_doctype linked ->
    NoDup seen ->
    let out := IntrospectSystem.incoming_links doctype incoming seen linked in
    snd out = true /\
    NoDup (map linking_doctype (fst out)) /\
    (forall r, In r (fst out) ->
       In r linked \/
       exists link s, In link incoming /\ parent_of link = VStr s /\ s <> "" /\
                      s <> doctype /\
                      r = [("doctype", VStr s);
                           ("fieldname", dict_get_or "fieldname" (VStr "") link)]) /\
    (forall r, In r linked -> In r (fst out)) /\
    (forall link s, In link incoming -> parent_of link = VStr s -> s <> "" ->
                    s <> doctype -> In (VStr s) (map linking_doctype (fst out))).
Proof.
  induction incoming as [| link rest IH]; intros seen linked Hstr Hseen Hnd;
    cbn [IntrospectSystem.incoming_links].
  - cbn [fst snd]. rewrite <- Hseen. split5; auto. intros link s [].
  - inversion Hstr as [| ? ? (s & Hs) Hrest]; subst.
    fold (parent_of link). rewrite Hs. cbn [truthy hashable negb].
    change (value_eqb (VStr s) (VStr doctype)) with (String.eqb s doctype).
    destruct (PyStr.nonempty s && negb (String.eqb s doctype)) eqn:Eq.
    + apply andb_true_iff in Eq. destruct Eq as [Ene Edt].
      apply negb_true_iff, String.eqb_neq in Edt.
      assert (Hne : s <> "") by (intros ->; discriminate Ene).
      destruct (existsb (value_eqb (VStr s)) (map linking_doctype linked)) eqn:Ex.
      * destruct (IH _ linked Hrest eq_refl Hnd) as (H1 & H2 & H3 & H4 & H5).
        split5; auto.
        -- intros r Hr. destruct (H3 r Hr) as [H | (l & s' & Hl & Hrest')]; [now left |].
           right. exists l, s'. split; [now right | exact Hrest'].
        -- intros l s' [<- | Hl] Hp Hn Hd; [| now apply (H5 l s')].
           rewrite Hs in Hp. injection Hp as <-.
           apply seen_string in Ex. apply in_map_iff in Ex. destruct Ex as (r & Hk & Hr).
           apply in_map_iff. exists r. split; [exact Hk | now apply H4].
      * assert (Hnin : ~ In (VStr s) (map linking_doctype linked)).
        { intros H. apply seen_string in H. rewrite H in Ex. discriminate Ex. }
        set (entry := [("doctype", VStr s);
                       ("fieldname", dict_get_or "fieldname" (VStr "") link)]).
        assert (Hseen' : map linking_doctype linked ++ [VStr s] =
                         map linking_doctype (linked ++ [entry]))
          by (rewrite map_app; reflexivity).
        destruct (IH _ (linked ++ [entry]) Hrest Hseen' (NoDup_snoc _ _ Hnd Hnin))
          as (H1 & H2 & H3 & H4 & H5).
        split5; auto.
        -- intros r Hr. destruct (H3 r Hr) as [H | (l & s' & Hl & Hrest')].
           ++ apply in_app_or in H. destruct H as [H | [<- | []]]; [now left |].
              right. exists link, s. split; [now left |]. repeat split; auto.
           ++ right. exists l, s'. split; [now right | exact Hrest'].
        -- intros r Hr. apply H4. apply in_or_app. now left.
        -- intros l s' [<- | Hl] Hp Hn Hd; [| now apply (H5 l s')].
           rewrite Hs in Hp. injection Hp as <-.
           apply in_map_iff. exists entry. split; [reflexivity |].
           apply H4. apply in_or_app. right. now left.
    + destruct (IH _ linked Hrest eq_refl Hnd) as (H1 & H2 & H3 & H4 & H5).
      split5; auto.
      * intros r Hr. destruct (H3 r Hr) as [H | (l & s' & Hl & Hrest')]; [now left |].
        right. exists l, s'. split; [now right | exact Hrest'].
      * intros l s' [<- | Hl] Hp Hn Hd; [| now apply (H5 l s')].
        rewrite Hs in Hp. injection Hp as <-. exfalso.
        apply andb_false_iff in Eq. destruct Eq as [Eq | Eq].
        -- destruct s; [now apply Hn | discriminate Eq].
        -- apply negb_false_iff, String.eqb_eq in Eq. contradiction.
Qed.

(** X16: the incoming links of [introspect_system] name each DocType
    once.  When every row of the incoming-links query carries a string as
    its parent, the loop runs to its end, and its entries name pairwise
    different DocTypes, none of them empty or the DocType asked about; every
    entry comes from a row, and every parent of a row that is neither empty
    nor the DocType asked about is named by an entry. *)
Theorem X16_incoming_links_once (doctype : string) (incoming : list dict) :
  Forall (fun link => exists s, parent_of link = VStr s) incoming ->
  let out := IntrospectSystem.incoming_links doctype incoming [] [] in
  snd out = true /\
  NoDup (map linking_doctype (fst out)) /\
  (forall r, In r (fst out) ->
     exists link s, In link incoming /\ parent_of link = VStr s /\ s <> "" /\
                    s <> doctype /\
                    r = [("doctype", VStr s);
                         ("fieldname", dict_get_or "fieldname" (VStr "") link)]) /\
  (forall link s, In link incoming -> parent_of link = VStr s -> s <> "" ->
                  s <> doctype -> In (VStr s) (map linking_doctype (fst out))).
Proof.
  intros Hstr.
  destruct (incoming_loop doctype incoming [] [] Hstr eq_refl (NoDup_nil _))
    as (H1 & H2 & H3 & _ & H5).
  split; [exact H1 |]. split; [exact H2 |]. split; [| exact H5].
  intros r Hr. destruct (H3 r Hr) as [[] | H]. exact H.
Qed.

(** X16 at work: [Sales Order] is named once, [Customer] not at all. *)
Lemma X16_incoming_links_once_witness :
  fst (IntrospectSystem.incoming_links "Customer" customer_links [] []) =
    [[("doctype", VStr "Sales Order"); ("fieldname", VStr "customer")]] /\
  NoDup (map linking_doctype
           (fst (IntrospectSystem.incoming_links "Customer" customer_links [] []))).
Proof.
  split; [reflexivity |].
  apply (X16_incoming_links_once "Customer" customer_links).
  repeat constructor; eexists; reflexivity.
Defined.

(** ** [build_blueprint]: a real run *)

Lemma count_status_app (s : string) (l1 l2 : list dict) :
  count_status s (l1 ++ l2) = (count_status s l1 + count_status s l2)%nat.
Proof. unfold count_status. now rewrite filter_app, length_app. Qed.

Lemma count_status_one (s : string) (e : dict) (status : string) :
  BuildBlueprint.status_of e = VStr status ->
  count_status s [e] = if String.eqb status s then 1%nat else 0%nat.
Proof.
  intros H. unfold count_status. cbn [filter]. rewrite H. cbn [value_eqb].
  destruct (String.eqb status s); reflexivity.
Qed.

Lemma execute_step_writes (h : Host) (doctype : string) (data : dict) :
  writes_only build_event (_execute_step h doctype data).
Proof.
  unfold _execute_step, _create_doctype.
  repeat first [apply read_only_writes, len_value_read_only
               | wr_step ltac:(unfold build_event; simpl; tauto)].
Qed.

Lemma run_step_real (h : Host) (format_exc : exn -> string) (total : Z)
    (p : Progress) (numbered : Z * Step) (w : World) (n : nat) :
  built n p ->
  exists p' added,
    run_step h format_exc false total p numbered w = (Ok p', w ++ added) /\
    Forall build_event added /\ built (S n) p'.
Proof.
  intros (Hlen & Hst & Hc & Hf). destruct numbered as [i step]. unfold run_step.
  destruct (negb (PyStr.nonempty (step_doctype step)) || negb (truthy (VDict (step_data step)))).
  - exists (mkProgress
              (build_log p ++
               [dict_set "message" (VStr "Missing doctype or data")
                  (dict_set "status" (VStr "SKIPPED")
                     [("step", VInt (i + 1)); ("total", VInt total);
                      ("description",
                       VStr match step_description step with
                            | Some d => d
                            | None => ("Step " ++ PyStr.of_Z (i + 1))%string
                            end);
                      ("doctype", VStr (step_doctype step))])])
              (created p) (BuildBlueprint.failed p)), [].
    rewrite app_nil_r. split; [reflexivity |]. split; [constructor |].
    unfold built. cbn [build_log created BuildBlueprint.failed].
    rewrite length_app, !count_status_app. cbn [List.length].
    split; [lia |]. split; [| split].
    + apply Forall_app. split; [exact Hst |]. constructor; [| constructor].
      right. right. reflexivity.
    + rewrite Hc, (count_status_one _ _ "SKIPPED"); [cbn; lia | reflexivity].
    + rewrite Hf, (count_status_one _ _ "SKIPPED"); [cbn; lia | reflexivity].
  - cbn [negb]. unfold try_except.
    destruct (execute_step_writes h (step_doctype step) (step_data step) w)
      as (added & Hw & Hadded).
    unfold bind.
    destruct (_execute_step h (step_doctype step) (step_data step) w) as [[result | e] w1];
      simpl in Hw; subst w1.
    + eexists. exists added. split; [reflexivity |]. split; [exact Hadded |].
      unfold built. cbn [build_log created BuildBlueprint.failed].
      rewrite !length_app, !count_status_app. cbn [List.length].
      split; [lia |]. split; [| split].
      * apply Forall_app. split; [exact Hst |]. constructor; [| constructor].
        left. unfold status_of, dict_get_or. rewrite !dict_get_set. reflexivity.
      * rewrite Hc, (count_status_one _ _ "SUCCESS");
          [cbn; lia | unfold status_of, dict_get_or; rewrite !dict_get_set; reflexivity].
      * rewrite Hf, (count_status_one _ _ "SUCCESS");
          [cbn; lia | unfold status_of, dict_get_or; rewrite !dict_get_set; reflexivity].
    + eexists. exists added. split; [reflexivity |]. split; [exact Hadded |].
      unfold built. cbn [build_log created BuildBlueprint.failed].
      rewrite !length_app, !count_status_app. cbn [List.length].
      split; [lia |]. split; [| split].
      * apply Forall_app. split; [exact Hst |]. constructor; [| constructor].
        right. left. unfold status_of, dict_get_or. rewrite !dict_get_set. reflexivity.
      * rewrite Hc, (count_status_one _ _ "FAILED");
          [cbn; lia | unfold status_of, dict_get_or; rewrite !dict_get_set; reflexivity].
      * rewrite Hf, (count_status_one _ _ "FAILED");
          [cbn; lia | unfold status_of, dict_get_or; rewrite !dict_get_set; reflexivity].
Qed.

Lemma run_loop_real (h : Host) (format_exc : exn -> string) (total : Z)
    (l : list (Z * Step)) :
  forall p w n,
    built n p ->
    exists p' added,
      for_each l (run_step h format_exc false total) p w = (Ok p', w ++ added) /\
      Forall build_event added /\ built (n + List.length l) p'.
Proof.
  induction l as [| x r IH]; intros p w n Hp; cbn [for_each List.length].
  - exists p, []. rewrite app_nil_r, Nat.add_0_r. split; [reflexivity |].
    split; [constructor | exact Hp].
  - destruct (run_step_real h format_exc total p x w n Hp) as (p1 & a1 & E1 & Ha1 & Hp1).
    destruct (IH p1 (w ++ a1) (S n) Hp1) as (p2 & a2 & E2 & Ha2 & Hp2).
    exists p2, (a1 ++ a2). unfold bind. rewrite E1, E2, app_assoc.
    split; [reflexivity |]. split; [now apply Forall_app |].
    now rewrite <- Nat.add_succ_comm.
Qed.

Lemma count_status_total (log : list dict) :
  Forall run_status log ->
  (count_status "SUCCESS" log + count_status "FAILED" log + count_status "SKIPPED" log =
   List.length log)%nat.
Proof.
  induction 1 as [| e r He _ IH]; [reflexivity |].
  unfold count_status in *. cbn [filter List.length].
  destruct He as [-> | [-> | ->]]; cbn; lia.
Qed.

Lemma summary_of_counts (module_name : string) (dry_run : bool) (total : Z) (p : Progress) :
  dict_get "success" (summary_of module_name dry_run total p) =
    Some (VInt (len (created p))) /\
  dict_get "failed" (summary_of module_name dry_run total p) =
    Some (VInt (len (BuildBlueprint.failed p))) /\
  dict_get "skipped" (summary_of module_name dry_run total p) =
    Some (VInt (total - len (created p) - len (BuildBlueprint.failed p))) /\
  dict_get "total_steps" (summary_of module_name dry_run total p) = Some (VInt total).
Proof.
  unfold summary_of.
  repeat split;
    repeat match goal with
    | |- context [if ?c then _ else _] =>
        match c with
        | String.eqb _ _ => fail 1
        | _ => destruct c
        end
    end;
    repeat rewrite dict_get_set; reflexivity.
Qed.

(** X17: a real run of [build_blueprint] goes through every step.  With
    [dry_run] off and between 1 and 50 steps, [execute] returns whatever the
    host does: a step that raises is logged and the loop goes on.  The log
    has one entry per step, each SUCCESS, FAILED or SKIPPED; [success],
    [failed] and [skipped] of the summary are the numbers of these entries
    and add up to the number of steps; and the run only inserts, commits and
    clears the cache: it never saves, deletes or rolls back. *)
Theorem X17_real_run (h : Host) (format_exc : exn -> string)
    (arguments : BuildBlueprint.Arguments) (w : World) :
  BuildBlueprint.arg_dry_run arguments <> Some true ->
  BuildBlueprint.arg_steps arguments <> [] ->
  len (BuildBlueprint.arg_steps arguments) <= 50 ->
  exists p added out,
    run_steps h format_exc false (BuildBlueprint.arg_steps arguments) w =
      (Ok p, w ++ added) /\
    BuildBlueprint.execute h format_exc arguments w = (Ok out, w ++ added) /\
    Forall (fun ev => is_insert ev \/ is_commit ev \/ is_clear_cache ev) added /\
    List.length (build_log p) = List.length (BuildBlueprint.arg_steps arguments) /\
    Forall (fun e => status_of e = VStr "SUCCESS" \/ status_of e = VStr "FAILED" \/
                     status_of e = VStr "SKIPPED") (build_log p) /\
    dict_get "success" out = Some (VInt (Z.of_nat (count_status "SUCCESS" (build_log p)))) /\
    dict_get "failed" out = Some (VInt (Z.of_nat (count_status "FAILED" (build_log p)))) /\
    dict_get "skipped" out = Some (VInt (Z.of_nat (count_status "SKIPPED" (build_log p)))) /\
    (count_status "SUCCESS" (build_log p) + count_status "FAILED" (build_log p) +
     count_status "SKIPPED" (build_log p) =
     List.length (BuildBlueprint.arg_steps arguments))%nat.
Proof.
  intros Hdry Hne Hmax.
  assert (Hd : match BuildBlueprint.arg_dry_run arguments with
               | Some b => b | None => false end = false).
  { destruct (BuildBlueprint.arg_dry_run arguments) as [[|] |]; congruence. }
  assert (H0 : built 0 (mkProgress [] [] [])).
  { repeat split; constructor. }
  destruct (run_loop_real h format_exc (len (BuildBlueprint.arg_steps arguments))
              (enumerate (BuildBlueprint.arg_steps arguments)) _ w 0%nat H0)
    as (p & added & Hrun & Hadded & Hlen & Hst & Hc & Hf).
  rewrite enumerate_length in Hlen. cbn [Nat.add] in Hlen.
  pose proof (count_status_total _ Hst) as Htot. rewrite Hlen in Htot.
  destruct (summary_of_counts
              match BuildBlueprint.arg_module_name arguments with
              | Some m => m | None => "Unknown Module" end
              false (len (BuildBlueprint.arg_steps arguments)) p)
    as (Hs1 & Hs2 & Hs3 & _).
  exists p, added,
    (summary_of match BuildBlueprint.arg_module_name arguments with
                | Some m => m | None => "Unknown Module" end
       false (len (BuildBlueprint.arg_steps arguments)) p).
  split; [exact Hrun |]. split.
  { unfold BuildBlueprint.execute. rewrite Hd.
    destruct (BuildBlueprint.arg_steps arguments) as [| s r] eqn:Es; [congruence |].
    cbn [is_empty]. apply Z.leb_le in Hmax. rewrite Z.gtb_ltb, Z.ltb_antisym, Hmax.
    cbn [negb]. unfold bind, run_steps. rewrite Hrun. reflexivity. }
  split; [exact Hadded |]. split; [exact Hlen |]. split; [exact Hst |].
  split; [rewrite Hs1; unfold len; now rewrite Hc |].
  split; [rewrite Hs2; unfold len; now rewrite Hf |].
  split; [| exact Htot].
  rewrite Hs3. unfold len. rewrite Hc, Hf, <- Htot. do 2 f_equal. lia.
Qed.

(** X17 at work: one step succeeds, one is skipped, one fails, and the
    run goes on after the failure. *)
Lemma X17_real_run_witness :
  exists out,
    fst (BuildBlueprint.execute picky_site Sites.no_traceback three_steps []) = Ok out /\
    dict_get "success" out = Some (VInt 1) /\
    dict_get "failed" out = Some (VInt 1) /\
    dict_get "skipped" out = Some (VInt 1) /\
    dict_get "status" out = Some (VStr "PARTIAL").
Proof.
  destruct (X17_real_run picky_site Sites.no_traceback three_steps [])
    as (p & added & out & Hrun & Hexec & _).
  - discriminate.
  - discriminate.
  - vm_compute. discriminate.
  - exists out. rewrite Hexec. split; [reflexivity |].
    vm_compute in Hexec. injection Hexec as <- _. repeat split; reflexivity.
Defined.

(** X18: a DocType step that creates nothing is still logged as a
    success.  In a real run, a step for a DocType whose data carries no
    name (or an empty one), and a step for a DocType that already exists,
    write nothing; yet the step is logged with status SUCCESS and added to
    [created], so that it counts in [success]: the first with the name [""]
    and the message "Created successfully", the second with the message
    "DocType already exists — skipped". *)
Theorem X18_doctype_step_creates_nothing (h : Host) (format_exc : exn -> string)
    (total : Z) (p : Progress) (i : Z) (step : Step) (w : World) :
  step_doctype step = "DocType" ->
  step_data step <> [] ->
  let name := dict_get_or "name" (VStr "") (step_data step) in
  (truthy name = false \/ (truthy name = true /\ db_exists h w "DocType" (py_str name) = Ok true)) ->
  exists p' entry,
    run_step h format_exc false total p (i, step) w = (Ok p', w) /\
    build_log p' = build_log p ++ [entry] /\
    status_of entry = VStr "SUCCESS" /\
    dict_get "message" entry =
      Some (VStr (if truthy name then "DocType already exists — skipped"
                  else "Created successfully")) /\
    dict_get "name" entry = Some (if truthy name then name else VStr "") /\
    List.length (created p') = S (List.length (created p)) /\
    BuildBlueprint.failed p' = BuildBlueprint.failed p.
Proof.
  intros Hdt Hdata name Hcase. unfold run_step. rewrite Hdt.
  assert (Htruthy : truthy (VDict (step_data step)) = true)
    by (destruct (step_data step); [congruence | reflexivity]).
  rewrite Htruthy. cbn [PyStr.nonempty negb orb].
  unfold try_except, bind, _execute_step, _create_doctype.
  cbn [String.eqb Ascii.eqb Bool.eqb]. fold name.
  destruct Hcase as [Hn | [Hn Hex]]; rewrite Hn; cbn [negb].
  - unfold ret. do 2 eexists. split; [reflexivity |]. cbn [build_log created BuildBlueprint.failed].
    split; [reflexivity |]. unfold status_of, dict_get_or.
    rewrite !dict_get_set. cbn. rewrite length_app. cbn.
    repeat split; try reflexivity. lia.
  - unfold bind, ask, ret. rewrite Hex.
    do 2 eexists. split; [reflexivity |]. cbn [build_log created BuildBlueprint.failed].
    split; [reflexivity |]. unfold status_of, dict_get_or.
    rewrite !dict_get_set. cbn. rewrite length_app. cbn.
    repeat split; try reflexivity. lia.
Qed.

(** X18 at work: a DocType step whose data has fields but no name, on
    the empty site. *)
Lemma X18_doctype_step_creates_nothing_witness :
  exists p' entry,
    run_step Sites.empty_site Sites.no_traceback false 1 (mkProgress [] [] [])
      (0, mkStep "DocType" [("fields", VList [])] None) [] = (Ok p', []) /\
    build_log p' = [entry] /\
    status_of entry = VStr "SUCCESS" /\
    List.length (created p') = 1%nat.
Proof.
  destruct (X18_doctype_step_creates_nothing Sites.empty_site Sites.no_traceback 1
              (mkProgress [] [] []) 0 (mkStep "DocType" [("fields", VList [])] None) [])
    as (p' & entry & Hrun & Hlog & Hst & _ & _ & Hc & _).
  - reflexivity.
  - discriminate.
  - left. reflexivity.
  - exists p', entry. repeat split; assumption.
Defined.

(** X19: a dry run counts every step as skipped and reports COMPLETE.
    With [dry_run] on and between 1 and 50 steps, a summary that is returned
    has [success] 0, [failed] 0, [skipped] equal to the number of steps and
    the status COMPLETE, whatever the validation of the steps found. *)
Theorem X19_dry_run_summary (h : Host) (format_exc : exn -> string)
    (arguments : BuildBlueprint.Arguments) (w : World) (out : dict) :
  BuildBlueprint.arg_dry_run arguments = Some true ->
  BuildBlueprint.arg_steps arguments <> [] ->
  len (BuildBlueprint.arg_steps arguments) <= 50 ->
  fst (BuildBlueprint.execute h format_exc arguments w) = Ok out ->
  dict_get "success" out = Some (VInt 0) /\
  dict_get "failed" out = Some (VInt 0) /\
  dict_get "skipped" out = Some (VInt (len (BuildBlueprint.arg_steps arguments))) /\
  dict_get "status" out = Some (VStr "COMPLETE").
Proof.
  intros Hdry Hne Hmax. unfold BuildBlueprint.execute. rewrite Hdry.
  destruct (BuildBlueprint.arg_steps arguments) as [| s r] eqn:Es; [congruence |].
  cbn [is_empty]. apply Z.leb_le in Hmax. rewrite Z.gtb_ltb, Z.ltb_antisym, Hmax.
  cbn [negb]. unfold bind, run_steps.
  destruct (run_loop_dry h format_exc (len (s :: r)) (enumerate (s :: r))
              (mkProgress [] [] []) w) as [_ Hloop].
  destruct (for_each (enumerate (s :: r)) (run_step h format_exc true (len (s :: r)))
              (mkProgress [] [] []) w) as [[p | e] w1]; [| discriminate].
  destruct (Hloop p eq_refl) as (entries & _ & _ & _ & Hc & Hf).
  cbn [created BuildBlueprint.failed] in Hc, Hf.
  intros H. injection H as <-.
  destruct (summary_of_counts
              match BuildBlueprint.arg_module_name arguments with
              | Some m => m | None => "Unknown Module" end
              true (len (s :: r)) p) as (Hs1 & Hs2 & Hs3 & _).
  rewrite Hs1, Hs2, Hs3, Hc, Hf. unfold len at 1 2 3 4. cbn [List.length Z.of_nat].
  split; [reflexivity |]. split; [reflexivity |].
  split; [do 2 f_equal; lia |].
  unfold summary_of. rewrite Hc, Hf. cbn [len List.length Z.of_nat Z.eqb dicts map truthy].
  repeat match goal with
    | |- context [if ?c then _ else _] =>
        match c with
        | String.eqb _ _ => fail 1
        | _ => destruct c
        end
    end;
    repeat rewrite dict_get_set; reflexivity.
Qed.

(** X19 at work: the dry run of two steps on the empty site, where the
    first step is INVALID. *)
Lemma X19_dry_run_summary_witness :
  exists out,
    fst (BuildBlueprint.execute Sites.empty_site Sites.no_traceback Sites.dry_arguments [])
      = Ok out /\
    dict_get "skipped" out = Some (VInt 2) /\
    dict_get "status" out = Some (VStr "COMPLETE").
Proof.
  assert (Hrun : { out | fst (BuildBlueprint.execute Sites.empty_site Sites.no_traceback
                                Sites.dry_arguments []) = Ok out }).
  { eexists. vm_compute. reflexivity. }
  destruct Hrun as [out Hrun]. exists out. split; [exact Hrun |].
  destruct (X19_dry_run_summary Sites.empty_site Sites.no_traceback Sites.dry_arguments []
              out eq_refl) as (_ & _ & Hsk & Hst); try exact Hrun.
  - discriminate.
  - vm_compute. discriminate.
  - split; [exact Hsk | exact Hst].
Defined.

(** X20: a Custom Field without a name is created under the name the
    dry run checks.  For a step of DocType "Custom Field" whose data has no
    name but a target DocType [dt] and a fieldname [fn], the document
    [_execute_step] inserts is named ["dt-fn"]; and [_validate_step], on a
    site that knows the DocType "Custom Field", is invalid with
    "Custom Field 'dt-fn' already exists" exactly when a Custom Field of
    that name exists. *)
Theorem X20_custom_field_name (h : Host) (data : dict) (w : World) :
  let dt := dict_get_or "dt" (VStr "") data in
  let fn := dict_get_or "fieldname" (VStr "") data in
  truthy (dict_get_or "name" VNone data) = false ->
  truthy dt = true -> truthy fn = true ->
  (forall doc,
      new_doc h w (dict_merge [("doctype", VStr "Custom Field")] data) = Ok doc ->
      exists inserted rest,
        snd (_execute_step h "Custom Field" data w) = w ++ EInsert inserted :: rest /\
        doc_name inserted = (py_str dt ++ "-" ++ py_str fn)%string) /\
  (forall b,
      db_exists h w "DocType" "Custom Field" = Ok true ->
      db_exists h w "Custom Field" (py_str dt ++ "-" ++ py_str fn) = Ok b ->
      _validate_step h "Custom Field" data w =
        (Ok (negb b,
             if b then ("Custom Field '" ++ (py_str dt ++ "-" ++ py_str fn) ++
                        "' already exists")%string
             else "Validation passed"), w)).
Proof.
  intros dt fn Hname Hdt Hfn. split.
  - intros doc Hnew. unfold _execute_step. cbn [String.eqb Ascii.eqb Bool.eqb].
    fold dt fn. rewrite Hname, Hdt, Hfn. cbn [negb andb].
    unfold bind, ask, do_write, ret. rewrite Hnew.
    destruct (insert h w _) as [n | e].
    + destruct (db_commit h _); cbn [snd]; do 2 eexists;
        (split; [rewrite <- app_assoc; reflexivity | reflexivity]).
    + cbn [snd]. do 2 eexists. split; reflexivity.
  - intros b Hex Hcf. unfold _validate_step, bind, ask, ret. rewrite Hex.
    cbn [negb String.eqb Ascii.eqb Bool.eqb andb]. fold dt fn.
    rewrite Hdt, Hfn. cbn [andb]. unfold dash. rewrite Hcf.
    destruct b; reflexivity.
Qed.

(** X20 at work: the field [colour] of [Note] on the empty site. *)
Lemma X20_custom_field_name_witness :
  exists inserted rest,
    snd (_execute_step Sites.empty_site "Custom Field"
           [("dt", VStr "Note"); ("fieldname", VStr "colour")] []) =
      EInsert inserted :: rest /\
    doc_name inserted = "Note-colour".
Proof.
  destruct (X20_custom_field_name Sites.empty_site
              [("dt", VStr "Note"); ("fieldname", VStr "colour")] []
              eq_refl eq_refl eq_refl) as [Hexec _].
  destruct (Hexec _ eq_refl) as (inserted & rest & Hw & Hn).
  exists inserted, rest. split; [exact Hw | exact Hn].
Defined.

(** ** [verify_build]: counters and writes *)

Lemma tally_step_tallied (h : Host) (compile : string -> Compiled) (auto_fix : bool)
    (seen : list Component) (t : Tally) (comp : Component) (w : World) :
  tallied seen t ->
  exists t' w', tally_step h compile auto_fix t comp w = (Ok t', w') /\
                tallied (seen ++ [comp]) t'.
Proof.
  intros (Hlen & Hall & Hsum & Hfix & Hfail). unfold tally_step, tallied.
  rewrite filter_app, !length_app. unfold len in *. rewrite length_app.
  cbn [filter].
  assert (Ht : testable comp =
               PyStr.nonempty (comp_type comp) && PyStr.nonempty (comp_name comp))
    by reflexivity.
  rewrite Ht. clear Ht.
  destruct (PyStr.nonempty (comp_type comp)), (PyStr.nonempty (comp_name comp));
    cbn [negb orb andb List.length].
  - destruct (test_component_total h compile (comp_type comp) (comp_name comp) auto_fix w)
      as (r & w1 & E & Hr).
    assert (Hall' : Forall complete (results t ++ [r])).
    { apply Forall_app. split; [exact Hall |]. constructor; [exact Hr | constructor]. }
    unfold bind at 1. rewrite E.
    destruct Hr as (ty & nm & st & msg & more & ->).
    cbn [bind index verdict app dict_get String.eqb Ascii.eqb Bool.eqb ret].
    destruct (value_eqb (VStr st) (VStr "PASS"));
      [| destruct (value_eqb (VStr st) (VStr "FIXED"))];
      do 2 eexists; (split; [reflexivity |]);
      cbn [results passed VerifyBuild.failed fixed]; rewrite length_app;
      cbn [List.length]; repeat split; try exact Hall'; lia.
  - do 2 eexists. split; [reflexivity |].
    cbn [results passed VerifyBuild.failed fixed]. rewrite length_app. cbn [List.length].
    repeat split; try lia.
    apply Forall_app. split; [exact Hall |]. constructor; [apply verdict_complete | constructor].
  - do 2 eexists. split; [reflexivity |].
    cbn [results passed VerifyBuild.failed fixed]. rewrite length_app. cbn [List.length].
    repeat split; try lia.
    apply Forall_app. split; [exact Hall |]. constructor; [apply verdict_complete | constructor].
  - do 2 eexists. split; [reflexivity |].
    cbn [results passed VerifyBuild.failed fixed]. rewrite length_app. cbn [List.length].
    repeat split; try lia.
    apply Forall_app. split; [exact Hall |]. constructor; [apply verdict_complete | constructor].
Qed.

Lemma tally_loop_tallied (h : Host) (compile : string -> Compiled) (auto_fix : bool)
    (l : list Component) :
  forall seen t w,
    tallied seen t ->
    exists t' w', for_each l (tally_step h compile auto_fix) t w = (Ok t', w') /\
                  tallied (seen ++ l) t'.
Proof.
  induction l as [| c r IH]; intros seen t w Ht; cbn [for_each].
  - exists t, w. rewrite app_nil_r. now split.
  - destruct (tally_step_tallied h compile auto_fix seen t c w Ht) as (t1 & w1 & E1 & H1).
    destruct (IH (seen ++ [c]) t1 w1 H1) as (t2 & w2 & E2 & H2).
    exists t2, w2. unfold bind. rewrite E1, E2. rewrite <- app_assoc in H2.
    now split.
Qed.

(** X21: the counters of [verify_build].  For a list of components that
    is not empty, [execute] returns one result per component, whatever the
    host does.  [passed] and [failed] add up to [total], which is the number
    of components that have both a type and a name (the others are reported
    but not counted); [fixed] is at most [passed]; and the status is
    "ALL PASS" exactly when [failed] is 0. *)
Theorem X21_verify_counts (h : Host) (compile : string -> Compiled)
    (arguments : VerifyBuild.Arguments) (w : World) :
  arg_components arguments <> [] ->
  exists out w' results passed failed fixed,
    VerifyBuild.execute h compile arguments w = (Ok out, w') /\
    dict_get "results" out = Some (dicts results) /\
    List.length results = List.length (arg_components arguments) /\
    dict_get "passed" out = Some (VInt passed) /\
    dict_get "failed" out = Some (VInt failed) /\
    dict_get "fixed" out = Some (VInt fixed) /\
    dict_get "total" out = Some (VInt (passed + failed)) /\
    passed + failed = len (filter testable (arg_components arguments)) /\
    0 <= fixed <= passed /\ 0 <= failed /\
    dict_get "status" out =
      Some (VStr (if failed =? 0 then "ALL PASS" else "SOME FAILED")).
Proof.
  intros Hne. unfold VerifyBuild.execute.
  destruct (arg_components arguments) as [| c r] eqn:Ec; [congruence |].
  cbn [is_empty].
  assert (H0 : tallied [] (mkTally [] 0 0 0)).
  { unfold tallied. cbn. repeat split; try lia. constructor. }
  destruct (tally_loop_tallied h compile
              match arg_auto_fix arguments with Some b => b | None => false end
              (c :: r) [] (mkTally [] 0 0 0) w H0)
    as (t & w1 & E & Hlen & Hall & Hsum & Hfix & Hfail).
  cbn [app] in Hlen, Hsum.
  unfold bind at 1. rewrite E.
  destruct (log_total (results t) Hall [] w1) as [lines El].
  unfold bind at 1. rewrite El. unfold ret.
  exists (dict_set "verification_log" (VStr (PyStr.join PyStr.nl lines))
            [("total", VInt (passed t + VerifyBuild.failed t));
             ("passed", VInt (passed t));
             ("failed", VInt (VerifyBuild.failed t));
             ("fixed", VInt (fixed t));
             ("status", VStr (if VerifyBuild.failed t =? 0 then "ALL PASS" else "SOME FAILED"));
             ("results", dicts (results t))]),
         w1, (results t), (passed t), (VerifyBuild.failed t), (fixed t).
  split; [reflexivity |].
  repeat (split; [first [reflexivity | exact Hlen | exact Hsum | exact Hfix | exact Hfail] |]).
  reflexivity.
Qed.

(** X22: a component of unknown type is reported as skipped but counted
    as failed.  For a component with a name whose type is none of the nine
    that [verify_build] tests, one round of the loop appends a result of
    status SKIP, writes nothing, and adds one to [failed]. *)
Theorem X22_unknown_type_counts_as_failed (h : Host) (compile : string -> Compiled)
    (auto_fix : bool) (t : Tally) (comp : Component) (w : World) :
  comp_type comp <> "" -> comp_name comp <> "" ->
  ~ In (comp_type comp)
      ["DocType"; "Custom Field"; "Server Script"; "Client Script"; "Workflow"; "Report";
       "Notification"; "Print Format"; "Property Setter"] ->
  tally_step h compile auto_fix t comp w =
    (Ok (mkTally
           (results t ++
            [[("type", VStr (comp_type comp)); ("name", VStr (comp_name comp));
              ("status", VStr "SKIP");
              ("message", VStr ("Unknown component type: " ++ comp_type comp))]])
           (passed t) (VerifyBuild.failed t + 1) (fixed t)), w).
Proof.
  intros Hty Hnm Hnot. unfold tally_step.
  rewrite (nonempty_true _ Hty), (nonempty_true _ Hnm). cbn [negb orb].
  assert (Hnone : tester_of h compile (comp_type comp) = None).
  { unfold tester_of.
    repeat match goal with
    | |- (if String.eqb ?a ?b then _ else _) = None =>
        let E := fresh "E" in
        destruct (String.eqb a b) eqn:E;
          [apply String.eqb_eq in E; exfalso; apply Hnot; rewrite E; simpl; tauto |]
    end.
    reflexivity. }
  unfold _test_component. rewrite Hnone. reflexivity.
Qed.

(** X21 at work: of three components, the report passes, the one
    without a name is not counted, and the unknown type counts as failed. *)
Lemma X21_verify_counts_witness :
  exists out,
    fst (VerifyBuild.execute Sites.script_site Sites.no_compile mixed_components []) = Ok out /\
    dict_get "total" out = Some (VInt 2) /\
    dict_get "passed" out = Some (VInt 1) /\
    dict_get "failed" out = Some (VInt 1) /\
    dict_get "status" out = Some (VStr "SOME FAILED").
Proof.
  destruct (X21_verify_counts Sites.script_site Sites.no_compile mixed_components [])
    as (out & w' & results & passed & failed & fixed & Hrun & _).
  - discriminate.
  - exists out. rewrite Hrun. split; [reflexivity |].
    vm_compute in Hrun. injection Hrun as <- _. repeat split; reflexivity.
Defined.

(** X22 at work: a [Dashboard] component. *)
Lemma X22_unknown_type_counts_as_failed_witness :
  tally_step Sites.script_site Sites.no_compile false (mkTally [] 0 0 0)
    (mkComponent "Dashboard" "Main") [] =
    (Ok (mkTally
           [[("type", VStr "Dashboard"); ("name", VStr "Main"); ("status", VStr "SKIP");
             ("message", VStr "Unknown component type: Dashboard")]]
           0 1 0), []).
Proof.
  apply (X22_unknown_type_counts_as_failed Sites.script_site Sites.no_compile false
           (mkTally [] 0 0 0) (mkComponent "Dashboard" "Main") []).
  - discriminate.
  - discriminate.
  - simpl. intuition discriminate.
Defined.

Lemma writes_for_each_in {A S} (P : Event -> Prop) (l : list A) (step : S -> A -> M S) :
  (forall s a, In a l -> writes_only P (step s a)) ->
  forall s, writes_only P (for_each l step s).
Proof.
  induction l as [| x r IH]; intros H s; simpl.
  - apply writes_ret.
  - apply writes_bind; [apply H; now left |].
    intros s'. apply IH. intros s0 a Ha. apply H. now right.
Qed.

Ltac verify_allowed := unfold verify_event; simpl; intuition.

Ltac verify_writes :=
  repeat first
    [ apply read_only_writes, as_str_read_only
    | apply read_only_writes, rows_of_read_only
    | wr_step verify_allowed ].

Lemma verify_save_writes (h : Host) (doc : Doc) (b : bool) :
  writes_only (verify_event true b) (VerifyBuild.save_and_commit h doc).
Proof. unfold VerifyBuild.save_and_commit. verify_writes. Qed.

Lemma test_doctype_writes (h : Host) (name : string) (auto_fix : bool) :
  writes_only (verify_event auto_fix true) (_test_doctype h name auto_fix).
Proof.
  unfold _test_doctype, test_data_step.
  repeat first [apply verify_save_writes | wr_step verify_allowed].
Qed.

Lemma test_custom_field_writes (h : Host) (name : string) (auto_fix : bool) :
  writes_only (verify_event auto_fix false) (_test_custom_field h name auto_fix).
Proof. unfold _test_custom_field. verify_writes. Qed.

Lemma test_server_script_writes (h : Host) (compile : string -> Compiled)
    (name : string) (auto_fix : bool) :
  writes_only (verify_event auto_fix false) (_test_server_script h compile name auto_fix).
Proof.
  unfold _test_server_script.
  repeat first [apply verify_save_writes | apply read_only_writes, as_str_read_only
               | wr_step verify_allowed].
Qed.

Lemma test_client_script_writes (h : Host) (name : string) (auto_fix : bool) :
  writes_only (verify_event auto_fix false) (_test_client_script h name auto_fix).
Proof.
  unfold _test_client_script.
  repeat first [apply verify_save_writes | apply read_only_writes, as_str_read_only
               | wr_step verify_allowed].
Qed.

Lemma test_workflow_writes (h : Host) (name : string) (auto_fix : bool) :
  writes_only (verify_event auto_fix false) (_test_workflow h name auto_fix).
Proof.
  unfold _test_workflow.
  repeat first [apply verify_save_writes | apply read_only_writes, rows_of_read_only
               | wr_step verify_allowed].
Qed.

Lemma test_report_writes (h : Host) (name : string) (auto_fix : bool) :
  writes_only (verify_event auto_fix false) (_test_report h name auto_fix).
Proof. unfold _test_report. verify_writes. Qed.

Lemma test_notification_writes (h : Host) (name : string) (auto_fix : bool) :
  writes_only (verify_event auto_fix false) (_test_notification h name auto_fix).
Proof.
  unfold _test_notification.
  repeat first [apply verify_save_writes | wr_step verify_allowed].
Qed.

Lemma test_print_format_writes (h : Host) (name : string) (auto_fix : bool) :
  writes_only (verify_event auto_fix false) (_test_print_format h name auto_fix).
Proof. unfold _test_print_format. verify_writes. Qed.

Lemma test_property_setter_writes (h : Host) (name : string) (auto_fix : bool) :
  writes_only (verify_event auto_fix false) (_test_property_setter h name auto_fix).
Proof. unfold _test_property_setter. verify_writes. Qed.

Lemma test_component_writes (h : Host) (compile : string -> Compiled)
    (comp_type comp_name : string) (auto_fix : bool) :
  writes_only (verify_event auto_fix (String.eqb comp_type "DocType"))
    (_test_component h compile comp_type comp_name auto_fix).
Proof.
  unfold _test_component, tester_of.
  destruct (String.eqb comp_type "DocType").
  { apply writes_try; [apply test_doctype_writes | intros e; apply writes_ret]. }
  repeat match goal with
  | |- writes_only _ (match (if ?c then _ else _) with _ => _ end) =>
      destruct c; [apply writes_try; [| intros e; apply writes_ret] |]
  end;
  first [ apply test_custom_field_writes | apply test_server_script_writes
        | apply test_client_script_writes | apply test_workflow_writes
        | apply test_report_writes | apply test_notification_writes
        | apply test_print_format_writes | apply test_property_setter_writes
        | apply writes_ret ].
Qed.

Lemma log_line_read_only (r : dict) : read_only_run (log_line r).
Proof. unfold log_line. repeat first [apply index_read_only | ro_step]. Qed.

Lemma verify_execute_writes (h : Host) (compile : string -> Compiled)
    (arguments : VerifyBuild.Arguments) :
  writes_only
    (verify_event match arg_auto_fix arguments with Some b => b | None => false end
       (existsb (fun c => String.eqb (comp_type c) "DocType") (arg_components arguments)))
    (VerifyBuild.execute h compile arguments).
Proof.
  unfold VerifyBuild.execute.
  destruct (is_empty (arg_components arguments)); [apply writes_ret |].
  apply writes_bind.
  - apply writes_for_each_in. intros t c Hc. unfold tally_step.
    destruct (_ || _); [apply writes_ret |].
    apply writes_bind.
    + eapply writes_weaken; [| apply test_component_writes].
      intros ev [H | [Hdt H]]; [now left | right]. split; [| exact H].
      apply existsb_exists. exists c. now split.
    + intros r. apply writes_bind; [apply read_only_writes, index_read_only |].
      intros status. destruct (value_eqb status (VStr "PASS")); [apply writes_ret |].
      destruct (value_eqb status (VStr "FIXED")); apply writes_ret.
  - intros t. apply writes_bind; [| intros lines; apply writes_ret].
    apply read_only_writes. apply read_only_for_each. intros lines r.
    apply read_only_bind; [apply log_line_read_only | intros; apply read_only_ret].
Qed.

(** X23: what [verify_build] writes.  Every write of a run is an insert,
    a delete, a commit or a save: it never rolls back.  With [auto_fix] off
    it never saves, and then only the CRUD test of a DocType writes (insert,
    delete, commit): a run without a component of type DocType leaves the
    world as it found it. *)
Theorem X23_verify_writes (h : Host) (compile : string -> Compiled)
    (arguments : VerifyBuild.Arguments) (w : World) :
  exists added,
    snd (VerifyBuild.execute h compile arguments w) = w ++ added /\
    Forall (fun ev => is_insert ev \/ is_delete ev \/ is_commit ev \/ is_save ev) added /\
    (arg_auto_fix arguments <> Some true ->
     Forall (fun ev => is_insert ev \/ is_delete ev \/ is_commit ev) added /\
     (Forall (fun c => comp_type c <> "DocType") (arg_components arguments) ->
      added = [])).
Proof.
  destruct (verify_execute_writes h compile arguments w) as (added & E & Hall).
  exists added. split; [exact E |]. split.
  - eapply Forall_impl; [| exact Hall]. unfold verify_event. intros ev. tauto.
  - intros Haf.
    assert (Hoff : match arg_auto_fix arguments with Some b => b | None => false end = false)
      by (destruct (arg_auto_fix arguments) as [[|] |]; congruence).
    rewrite Hoff in Hall. split.
    + eapply Forall_impl; [| exact Hall]. unfold verify_event.
      intros ev [[H _] | [_ H]]; [discriminate H | exact H].
    + intros Hno.
      assert (Hex : existsb (fun c => String.eqb (comp_type c) "DocType")
                      (arg_components arguments) = false).
      { destruct (existsb _ _) eqn:Ex; [| reflexivity]. apply existsb_exists in Ex.
        destruct Ex as (c & Hc & Hdt). apply String.eqb_eq in Hdt.
        exfalso. exact (proj1 (Forall_forall _ _) Hno c Hc Hdt). }
      rewrite Hex in Hall. destruct added as [| ev r]; [reflexivity |].
      inversion Hall as [| ? ? [[H _] | [H _]] _]; discriminate H.
Qed.

(** X23 at work: without [auto_fix] and without a DocType component
    nothing is written. *)
Lemma X23_verify_writes_witness :
  snd (VerifyBuild.execute Sites.script_site Sites.no_compile script_components []) = [].
Proof.
  destruct (X23_verify_writes Sites.script_site Sites.no_compile script_components [])
    as (added & E & _ & Hoff).
  destruct Hoff as [_ Hnone]; [discriminate |].
  rewrite E, Hnone; [reflexivity |].
  repeat constructor; discriminate.
Defined.

Lemma test_data_step_read_only (h : Host) (test_data : dict) (f : DocField) :
  read_only_run (test_data_step h test_data f).
Proof. unfold test_data_step. repeat ro_step. Qed.

Lemma post_intro {A} (Q : World -> res A -> World -> Prop) (m : M A) :
  (forall w r w', m w = (r, w') -> Q w r w') -> post Q m.
Proof. intros H w. apply H. now destruct (m w). Qed.

Lemma crud_unchanged (h : Host) (name : string) (w : World) (r : res dict) :
  crud_outcome h name w r w.
Proof. now left. Qed.

Lemma test_doctype_outcome (h : Host) (name : string) :
  post (crud_outcome h name) (_test_doctype h name false).
Proof.
  unfold _test_doctype.
  apply post_read_bind; [apply read_only_query | intros; apply crud_unchanged |].
  intros ex. apply post_if; [intros w; apply crud_unchanged |].
  apply post_read_bind; [apply read_only_query | intros; apply crud_unchanged |].
  intros meta. apply post_if; [intros w; apply crud_unchanged |].
  apply post_if; [intros w; apply crud_unchanged |].
  apply post_if; [| intros w; apply crud_unchanged].
  apply post_intro. intros w r w' H.
  unfold try_except in H. unfold bind at 1 in H.
  pose proof (read_only_for_each (fields meta) (test_data_step h)
                (test_data_step_read_only h) [("doctype", VStr name)] w) as Hro.
  destruct (for_each (fields meta) (test_data_step h) [("doctype", VStr name)] w)
    as [[test_data | e] w1]; simpl in Hro; subst w1;
    [| injection H as <- <-; apply crud_unchanged].
  unfold bind, ask, do_write, ret in H.
  destruct (new_doc h w test_data) as [doc | e];
    [| injection H as <- <-; apply crud_unchanged].
  set (d := setattr (setattr doc _ _) _ _) in H.
  destruct (insert h w d) as [n | e] eqn:Hin.
  2:{ injection H as <- <-. right. left. exists d. split; [reflexivity |].
      eexists. split; reflexivity. }
  destruct (get_doc h (w ++ [EInsert d]) name n) as [read_doc | e].
  2:{ injection H as <- <-. right. left. exists d. split; [reflexivity |].
      eexists. split; reflexivity. }
  destruct (delete_doc h (w ++ [EInsert d]) name n) as [[] | e] eqn:Hdel.
  2:{ injection H as <- <-. right. right. left. exists d, n. split; [exact Hin |].
      split; [now rewrite <- app_assoc |]. eexists. split; reflexivity. }
  right. right. right. exists d, n. split; [exact Hin |].
  destruct (db_commit h ((w ++ [EInsert d]) ++ [EDeleteDoc name n])) as [[] | e] eqn:Hc;
    injection H as <- <-;
    (split; [now rewrite <- !app_assoc |]); eexists; (split; [reflexivity |]).
  - right. split; [reflexivity |]. split; [exact Hdel |].
    rewrite <- app_assoc in Hc. exact Hc.
  - left. reflexivity.
Qed.

(** X24: the CRUD test of [verify_build] does not clean up after a
    failure.  The test of a DocType without [auto_fix] ends in one of four
    ways: nothing written; the insert of the test record attempted and
    nothing more, with FAIL (so a record whose read-back raised stays);
    the record inserted and its deletion attempted, with FAIL; or the record
    inserted, deleted and the commit attempted, where PASS means that the
    deletion and the commit both answered.  No outcome holds a rollback. *)
Theorem X24_crud_test_outcome (h : Host) (name : string) (w : World) :
  let r := fst (_test_doctype h name false w) in
  let w' := snd (_test_doctype h name false w) in
  w' = w \/
  (exists d, w' = w ++ [EInsert d] /\
             exists out, r = Ok out /\ dict_get "status" out = Some (VStr "FAIL")) \/
  (exists d n, insert h w d = Ok n /\ w' = w ++ [EInsert d; EDeleteDoc name n] /\
               exists out, r = Ok out /\ dict_get "status" out = Some (VStr "FAIL")) \/
  (exists d n, insert h w d = Ok n /\
               w' = w ++ [EInsert d; EDeleteDoc name n; ECommit] /\
               exists out, r = Ok out /\
                 (dict_get "status" out = Some (VStr "FAIL") \/
                  (dict_get "status" out = Some (VStr "PASS") /\
                   delete_doc h (w ++ [EInsert d]) name n = Ok tt /\
                   db_commit h (w ++ [EInsert d; EDeleteDoc name n]) = Ok tt))).
Proof. exact (test_doctype_outcome h name w). Qed.

(** ** [compat] and [after_install] *)

(** X25: the version helpers of [compat].  [is_v14] and [is_v15_plus]
    are never both true; they are both false exactly when the major version
    read is below 14; a version whose first component does not read as an
    integer counts as 14.  [has_doctype] never raises and writes nothing:
    it answers what the existence check answers, and [False] when the check
    raises. *)
Theorem X25_compat_helpers (h : Host) (int : string -> option Z) (w : World) :
  Compat.is_v14 h int && Compat.is_v15_plus h int = false /\
  (Compat.is_v14 h int || Compat.is_v15_plus h int = false <->
   Compat.get_frappe_major h int < 14) /\
  (int (hd "" (Compat.split_char "." (version h))) = None -> Compat.is_v14 h int = true) /\
  (forall doctype b,
      db_exists h w "DocType" doctype = Ok b ->
      Compat.has_doctype h doctype w = (Ok b, w)) /\
  (forall doctype e,
      db_exists h w "DocType" doctype = Raise e ->
      Compat.has_doctype h doctype w = (Ok false, w)).
Proof.
  unfold Compat.is_v14, Compat.is_v15_plus. split; [| split; [| split; [| split]]].
  - destruct (Z.eqb_spec (Compat.get_frappe_major h int) 14) as [-> | Hne];
      [reflexivity | reflexivity].
  - rewrite Z.geb_leb.
    destruct (Z.eqb_spec (Compat.get_frappe_major h int) 14) as [E | E];
      destruct (Z.leb_spec 15 (Compat.get_frappe_major h int)) as [L | L];
      cbn [orb]; split; intros H; try discriminate H; try reflexivity; lia.
  - intros Hint. unfold Compat.get_frappe_major. now rewrite Hint.
  - intros doctype b H. unfold Compat.has_doctype, try_except, bind, ask. now rewrite H.
  - intros doctype e H. unfold Compat.has_doctype, try_except, bind, ask. now rewrite H.
Qed.

(** X25 at work: an unreadable version counts as 14, and the existence
    check of a site that is down reads as [False]. *)
Lemma X25_compat_helpers_witness :
  Compat.is_v14 Sites.down_site no_int = true /\
  Compat.has_doctype Sites.down_site "Customer" [] = (Ok false, []).
Proof.
  destruct (X25_compat_helpers Sites.down_site no_int []) as (_ & _ & H14 & _ & Hdown).
  split; [apply H14; reflexivity |].
  apply (Hdown "Customer" (Exn "OperationalError: connection lost")). reflexivity.
Defined.

Lemma rsplit_once_spec (c : ascii) (s : string) :
  match AfterInstall.rsplit_once c s with
  | Some (a, b) => s = (a ++ String c b)%string /\ PyStr.count_char c b = 0
  | None => PyStr.count_char c s = 0
  end.
Proof.
  induction s as [| x r IH]; cbn [AfterInstall.rsplit_once PyStr.count_char]; [reflexivity |].
  destruct (AfterInstall.rsplit_once c r) as [[a b] |].
  - destruct IH as [-> Hb]. split; [reflexivity | exact Hb].
  - destruct (Ascii.eqb_spec x c) as [-> | Hne].
    + split; [reflexivity | exact IH].
    + rewrite IH. reflexivity.
Qed.

Lemma count_char_nonneg (c : ascii) (s : string) : 0 <= PyStr.count_char c s.
Proof.
  induction s as [| x r IH]; cbn [PyStr.count_char]; [lia |].
  destruct (Ascii.eqb x c); lia.
Qed.

Lemma count_char_sep (c : ascii) (a b : string) :
  PyStr.count_char c (a ++ String c b) = PyStr.count_char c a + 1 + PyStr.count_char c b.
Proof.
  induction a as [| x a IH]; cbn [append PyStr.count_char].
  - rewrite Ascii.eqb_refl. lia.
  - rewrite IH. lia.
Qed.

(** X26: [_import_string] splits a path at its last dot.  When the path
    holds a dot, the module asked of the importer and the class name read
    from it, put together with a dot, give the path back, and the class name
    holds no dot; the result is the attribute of that name, or the exception
    of the import.  A path without a dot raises before anything is
    imported. *)
Theorem X26_import_string (import_module : string -> res (string -> option value))
    (path : string) :
  (PyStr.count_char "." path = 0 ->
   AfterInstall._import_string import_module path =
     Raise (Exn "not enough values to unpack (expected 2, got 1)")) /\
  (PyStr.count_char "." path <> 0 ->
   exists module_path class_name,
     path = (module_path ++ "." ++ class_name)%string /\
     PyStr.count_char "." class_name = 0 /\
     AfterInstall._import_string import_module path =
       match import_module module_path with
       | Raise e => Raise e
       | Ok module =>
           match module class_name with
           | Some cls => Ok cls
           | None =>
               Raise (Exn ("module '" ++ module_path ++ "' has no attribute '" ++
                           class_name ++ "'"))
           end
       end).
Proof.
  pose proof (rsplit_once_spec "." path) as Hspec.
  unfold AfterInstall._import_string.
  destruct (AfterInstall.rsplit_once "." path) as [[a b] |].
  - destruct Hspec as [Hpath Hb]. split.
    + intros H0. exfalso. rewrite Hpath, count_char_sep in H0.
      pose proof (count_char_nonneg "." a). pose proof (count_char_nonneg "." b). lia.
    + intros _. exists a, b. split; [exact Hpath |]. split; [exact Hb | reflexivity].
  - split; [reflexivity | intros H; contradiction].
Qed.

(** X26 at work: the last of the tool paths. *)
Lemma X26_import_string_witness :
  (exists module_path class_name,
      "niv_tools.tools.verify_build.VerifyBuild" = (module_path ++ "." ++ class_name)%string /\
      PyStr.count_char "." class_name = 0) /\
  AfterInstall._import_string one_module "niv_tools.tools.verify_build.VerifyBuild" =
    Ok (VStr "class") /\
  AfterInstall._import_string one_module "VerifyBuild" =
    Raise (Exn "not enough values to unpack (expected 2, got 1)").
Proof.
  split; [| split].
  - destruct (proj2 (X26_import_string one_module
                       "niv_tools.tools.verify_build.VerifyBuild"))
      as (m & c & Hp & Hc & _); [vm_compute; discriminate |].
    now exists m, c.
  - reflexivity.
  - apply (proj1 (X26_import_string one_module "VerifyBuild")). reflexivity.
Defined.

Lemma bad_tools_none (import_module : string -> res (string -> option value))
    (paths : list string) :
  AfterInstall.bad_tools_of import_module paths = [] <->
  Forall (fun p => exists cls, AfterInstall._import_string import_module p = Ok cls) paths.
Proof.
  unfold AfterInstall.bad_tools_of. induction paths as [| p r IH]; cbn [flat_map].
  - split; [constructor | reflexivity].
  - destruct (AfterInstall._import_string import_module p) as [cls | e] eqn:E; cbn [app].
    + rewrite IH. split; [intros H; constructor; [now exists cls | exact H] |].
      intros H. now inversion H.
    + split; [discriminate |]. intros H. inversion H as [| ? ? (cls & Hc) _].
      rewrite E in Hc. discriminate Hc.
Qed.

(** X27: [after_install] logs and does not block.  When the existence
    check answers, an import that fails never makes [after_install] raise:
    it raises only if a call to the log raises.  If the assistant core is
    installed and every tool class imports, the only call to the log is the
    closing info line; otherwise the first call is one [log_error] under the
    title "niv_tools install validation", followed by the info line when
    [log_error] answers.  The list of bad tools is empty exactly when every
    path of [TOOL_PATHS] imports. *)
Theorem X27_after_install (h : Host)
    (import_module : string -> res (string -> option value))
    (log_error : string -> string -> res unit) (logger_info : string -> res unit)
    (w : World) (ex : bool) :
  db_exists h w "Installed Application" "frappe_assistant_core" = Ok ex ->
  let bad := AfterInstall.bad_tools_of import_module Install.TOOL_PATHS in
  let run := AfterInstall.after_install h import_module log_error logger_info w in
  (ex = true -> bad = [] ->
   run = (logger_info AfterInstall.COMPLETE,
          [AfterInstall.LoggerInfo AfterInstall.COMPLETE])) /\
  (ex = false \/ bad <> [] ->
   exists message,
     hd_error (snd run) = Some (AfterInstall.LogError message AfterInstall.TITLE) /\
     (log_error message AfterInstall.TITLE = Ok tt ->
      run = (logger_info AfterInstall.COMPLETE,
             [AfterInstall.LogError message AfterInstall.TITLE;
              AfterInstall.LoggerInfo AfterInstall.COMPLETE])) /\
     (forall e, log_error message AfterInstall.TITLE = Raise e ->
                run = (Raise e, [AfterInstall.LogError message AfterInstall.TITLE]))) /\
  ((forall message title, log_error message title = Ok tt) ->
   logger_info AfterInstall.COMPLETE = Ok tt -> fst run = Ok tt) /\
  (bad = [] <->
   Forall (fun p => exists cls, AfterInstall._import_string import_module p = Ok cls)
     Install.TOOL_PATHS).
Proof.
  intros Hex bad run. subst run. unfold AfterInstall.after_install. rewrite Hex. fold bad.
  split; [| split; [| split]].
  - intros -> ->. reflexivity.
  - intros Hbad.
    assert (Hcond : negb (is_empty (if negb ex then ["frappe_assistant_core"] else [])) ||
                    negb (is_empty bad) = true).
    { destruct Hbad as [-> | Hb]; [reflexivity |].
      destruct bad; [congruence |]. apply orb_true_r. }
    rewrite Hcond.
    exists (AfterInstall.message_of (if negb ex then ["frappe_assistant_core"] else []) bad).
    split; [| split].
    + destruct (log_error _ _) as [[] | e]; reflexivity.
    + intros ->. reflexivity.
    + intros e ->. reflexivity.
  - intros Hlog Hinfo.
    destruct (negb (is_empty (if negb ex then ["frappe_assistant_core"] else [])) ||
              negb (is_empty bad)).
    + rewrite Hlog. exact Hinfo.
    + exact Hinfo.
  - apply bad_tools_none.
Qed.

(** X27 at work: nine failing imports on a site without the assistant
    core are logged once, and [after_install] returns. *)
Lemma X27_after_install_witness :
  fst (AfterInstall.after_install Sites.empty_site no_module quiet_log_error
         quiet_logger_info []) = Ok tt /\
  exists message,
    snd (AfterInstall.after_install Sites.empty_site no_module quiet_log_error
           quiet_logger_info []) =
      [AfterInstall.LogError message AfterInstall.TITLE;
       AfterInstall.LoggerInfo AfterInstall.COMPLETE].
Proof.
  destruct (X27_after_install Sites.empty_site no_module quiet_log_error quiet_logger_info
              [] false eq_refl) as (_ & Hbad & Hret & _).
  split; [apply Hret; reflexivity |].
  destruct Hbad as (message & _ & Hok & _); [now left |].
  exists message. rewrite Hok; reflexivity.
Defined.

(** ** [test_created_item]: the loop that fills the required fields *)

Lemma dummy_value_total (h : Host) (field : DocField) (w : World) :
  exists v, _get_dummy_value h field w = (Ok v, w).
Proof.
  unfold _get_dummy_value.
  repeat match goal with
  | |- context [if ?c then _ else _] => destruct c; [now eexists |]
  end.
  destruct (String.eqb (fieldtype field) "Select").
  - destruct (select_options field); now eexists.
  - destruct (String.eqb (fieldtype field) "Link"); [| now eexists].
    apply first_linked_record_total.
Qed.

Lemma fill_loop (h : Host) (fs : list DocField) :
  forall doc filled w,
    exists doc' added,
      for_each fs (fill_step h) (doc, filled) w = (Ok (doc', filled ++ added), w) /\
      Forall (fun entry =>
                exists f, In f fs /\ flag (reqd f) = true /\
                          dict_get "fieldname" entry = Some (VStr (fieldname f)) /\
                          dict_get "fieldtype" entry = Some (VStr (fieldtype f)))
        added /\
      (List.length added <= List.length (filter (fun f => flag (reqd f)) fs))%nat.
Proof.
  induction fs as [| f r IH]; intros doc filled w; cbn [for_each].
  - exists doc, []. rewrite app_nil_r. split; [reflexivity |]. split; [constructor | cbn; lia].
  - assert (Hweak : forall added,
               Forall (fun entry =>
                exists f, In f r /\ flag (reqd f) = true /\
                          dict_get "fieldname" entry = Some (VStr (fieldname f)) /\
                          dict_get "fieldtype" entry = Some (VStr (fieldtype f))) added ->
               Forall (fun entry =>
                exists f0, In f0 (f :: r) /\ flag (reqd f0) = true /\
                          dict_get "fieldname" entry = Some (VStr (fieldname f0)) /\
                          dict_get "fieldtype" entry = Some (VStr (fieldtype f0))) added).
    { intros added Hall. eapply Forall_impl; [| exact Hall]. intros e (f' & Hf' & He).
      exists f'. split; [now right | exact He]. }
    unfold bind. unfold fill_step at 1. cbn [filter].
    destruct (flag (reqd f)) eqn:Ereq; cbn [negb].
    + destruct (dummy_value_total h f w) as [val Hval]. unfold bind. rewrite Hval.
      destruct (negb (value_eqb val VNone)); unfold ret.
      * destruct (IH (setattr doc (fieldname f) val)
                    (filled ++ [[("fieldname", VStr (fieldname f));
                                 ("fieldtype", VStr (fieldtype f));
                                 ("value", VStr (py_str val))]]) w)
          as (doc' & added & E & Hall & Hlen).
        exists doc'. eexists (_ :: added). rewrite E, <- app_assoc.
        split; [reflexivity |]. split.
        -- constructor; [| now apply Hweak].
           exists f. split; [now left |]. repeat split; auto.
        -- cbn [List.length]. lia.
      * destruct (IH doc filled w) as (doc' & added & E & Hall & Hlen).
        exists doc', added. rewrite E. split; [reflexivity |]. split.
        -- now apply Hweak.
        -- cbn [List.length]. lia.
    + unfold ret. destruct (IH doc filled w) as (doc' & added & E & Hall & Hlen).
      exists doc', added. rewrite E. split; [reflexivity |]. split.
      * now apply Hweak.
      * exact Hlen.
Qed.

(** X28: the validate test fills required fields only.  The loop of
    [_test_validate] over the fields of the DocType never raises and writes
    nothing, whatever the host does (a failing lookup of a linked record
    leaves the field out); every entry of [filled_fields] names a required
    field of the DocType with its type, and there are at most as many entries
    as the DocType has required fields. *)
Theorem X28_filled_fields_are_required (h : Host) (meta : Meta) (test_doc : Doc)
    (w : World) :
  exists doc' filled_fields,
    for_each (fields meta) (fill_step h) (test_doc, []) w
      = (Ok (doc', filled_fields), w) /\
    Forall (fun entry =>
              exists f, In f (fields meta) /\ flag (reqd f) = true /\
                        dict_get "fieldname" entry = Some (VStr (fieldname f)) /\
                        dict_get "fieldtype" entry = Some (VStr (fieldtype f)))
      filled_fields /\
    (List.length filled_fields <=
     List.length (filter (fun f => flag (reqd f)) (fields meta)))%nat.
Proof.
  destruct (fill_loop h (fields meta) test_doc [] w) as (doc' & added & E & Hall & Hlen).
  exists doc', added. split; [exact E |]. split; [exact Hall | exact Hlen].
Qed.

(** ** [verify_build]: what FIXED stands for *)

Lemma never_fixed_bind {A B} (status : B -> option value) (m : M A) (k : A -> M B) :
  (forall a, never_fixed status (k a)) -> never_fixed status (bind m k).
Proof.
  intros Hk w b. unfold bind. destruct (m w) as [[a | e] w1]; [apply Hk | discriminate].
Qed.

Lemma never_fixed_try {A} (status : A -> option value) (body : M A) (handler : exn -> M A) :
  never_fixed status body -> (forall e, never_fixed status (handler e)) ->
  never_fixed status (try_except body handler).
Proof.
  intros Hb Hh w a. unfold try_except. specialize (Hb w).
  destruct (body w) as [[a' | e] w1]; [exact (Hb a) | apply Hh].
Qed.

Lemma never_fixed_verdict (type name status message : string) (more : dict) :
  status <> "FIXED" ->
  never_fixed (dict_get "status") (ret (verdict type name status message more)).
Proof.
  intros Hs w out H Hst. cbn in H. injection H as <-.
  unfold verdict in Hst. cbn in Hst. injection Hst as Hst. contradiction.
Qed.

Lemma never_fixed_post (h : Host) (auto_fix : bool) (m : M dict) :
  never_fixed (dict_get "status") m -> post (fix_outcome h auto_fix) m.
Proof. intros H w out Hr Hst. now apply (H w out) in Hr. Qed.

Lemma fix_raise (h : Host) (auto_fix : bool) (w : World) (e : exn) (w' : World) :
  fix_outcome h auto_fix w (Raise e) w'.
Proof. intros out H. discriminate H. Qed.

Lemma fix_applied (h : Host) (doc : Doc) (out : dict) :
  post (fix_outcome h true) (VerifyBuild.save_and_commit h doc ;;; ret out).
Proof.
  apply post_intro. intros w r w' H out' -> _. split; [reflexivity |].
  unfold VerifyBuild.save_and_commit, bind, do_write, ret in H.
  set (d := setattr doc _ _) in H. exists d.
  destruct (save h w d) as [[] | e] eqn:Hs; [| discriminate H].
  destruct (db_commit h (w ++ [ESave d])) as [[] | e] eqn:Hc; [| discriminate H].
  injection H as _ <-. rewrite <- app_assoc. repeat split; auto.
Qed.

Ltac fix_step :=
  first
    [ apply never_fixed_post; repeat (apply never_fixed_bind; intros ?);
      apply never_fixed_verdict; discriminate
    | apply fix_applied
    | match goal with |- post _ (raise _) => intros ?; apply fix_raise end
    | apply post_read_bind;
      [first [apply read_only_query | apply rows_of_read_only | apply as_str_read_only]
      | intros; apply fix_raise | intros ? ]
    | apply post_if
    | progress cbv zeta
    | match goal with
      | |- post _ (match ?x with _ => _ end) => destruct x
      end ].

Lemma test_doctype_fix (h : Host) (name : string) (auto_fix : bool) :
  post (fix_outcome h auto_fix) (_test_doctype h name auto_fix).
Proof.
  unfold _test_doctype.
  do 5 fix_step.
  - destruct auto_fix; [| fix_step].
    apply post_intro. intros w r w' H out -> Hst. split; [reflexivity |].
    unfold try_except in H. unfold bind at 1 in H. unfold ask at 1 in H.
    destruct (get_doc h w "DocType" name) as [doc | e].
    2:{ cbn in H. injection H as <- _. unfold verdict in Hst. cbn in Hst. discriminate Hst. }
    unfold VerifyBuild.save_and_commit, bind, do_write, ret in H.
    set (d := setattr (append_row doc _ _) _ _) in H. exists d.
    destruct (save h w d) as [[] | e] eqn:Hs.
    2:{ injection H as <- _. unfold verdict in Hst. cbn in Hst. discriminate Hst. }
    destruct (db_commit h (w ++ [ESave d])) as [[] | e] eqn:Hc.
    2:{ injection H as <- _. unfold verdict in Hst. cbn in Hst. discriminate Hst. }
    injection H as _ <-. rewrite <- app_assoc. repeat split; auto.
  - fix_step.
    + apply never_fixed_post. apply never_fixed_try.
      * repeat (apply never_fixed_bind; intros ?).
        apply never_fixed_verdict. discriminate.
      * intros e. apply never_fixed_verdict. discriminate.
    + fix_step.
Qed.

Lemma tester_fix (h : Host) (compile : string -> Compiled) (comp_type name : string)
    (auto_fix : bool) (tester : string -> bool -> M dict) :
  tester_of h compile comp_type = Some tester ->
  post (fix_outcome h auto_fix) (tester name auto_fix).
Proof.
  unfold tester_of. intros H.
  repeat match type of H with
  | (if ?c then _ else _) = _ => destruct c
  end; try discriminate H; injection H as <-.
  - apply test_doctype_fix.
  - unfold _test_custom_field. repeat fix_step.
  - unfold _test_server_script. destruct auto_fix; repeat fix_step.
  - unfold _test_client_script. destruct auto_fix; repeat fix_step.
  - unfold _test_workflow. destruct auto_fix; repeat fix_step.
  - unfold _test_report. repeat fix_step.
  - unfold _test_notification. destruct auto_fix; repeat fix_step.
  - unfold _test_print_format. repeat fix_step.
  - unfold _test_property_setter. repeat fix_step.
Qed.

Lemma test_component_fix (h : Host) (compile : string -> Compiled)
    (comp_type comp_name : string) (auto_fix : bool) :
  post (fix_outcome h auto_fix) (_test_component h compile comp_type comp_name auto_fix).
Proof.
  unfold _test_component.
  destruct (tester_of h compile comp_type) as [tester |] eqn:Ht.
  - apply (post_try_ret (fix_outcome h auto_fix)).
    + now apply (tester_fix h compile comp_type).
    + auto.
    + intros w e w' _ out H Hst. injection H as <-.
      unfold verdict in Hst. cbn in Hst. discriminate Hst.
  - apply never_fixed_post. apply never_fixed_verdict. discriminate.
Qed.

(** X29: what FIXED stands for in [verify_build].  A component is
    reported FIXED only when [auto_fix] is on, and only after the repaired
    document was saved and the transaction committed, both calls having
    answered; that save and that commit are all the test wrote.  So a save
    or a commit that raises is never reported as a fix. *)
Theorem X29_fixed_means_saved (h : Host) (compile : string -> Compiled)
    (comp_type comp_name : string) (auto_fix : bool) (w w' : World) (out : dict) :
  _test_component h compile comp_type comp_name auto_fix w = (Ok out, w') ->
  dict_get "status" out = Some (VStr "FIXED") ->
  auto_fix = true /\
  exists doc,
    w' = w ++ [ESave doc; ECommit] /\
    save h w doc = Ok tt /\
    db_commit h (w ++ [ESave doc]) = Ok tt.
Proof.
  intros Hrun Hst.
  pose proof (test_component_fix h compile comp_type comp_name auto_fix w) as H.
  rewrite Hrun in H. exact (H out eq_refl Hst).
Qed.

(** X29 at work: a notification that is not enabled, tested with
    [auto_fix]. *)
Lemma X29_fixed_means_saved_witness :
  exists doc,
    snd (_test_component Sites.script_site Sites.no_compile "Notification" "Alert" true [])
      = [ESave doc; ECommit].
Proof.
  destruct (X29_fixed_means_saved Sites.script_site Sites.no_compile
              "Notification" "Alert" true [] _ _ eq_refl eq_refl) as (_ & doc & E & _).
  exists doc. exact E.
Defined.
